(** * calendar.md: the date parser and the calendar view's rescheduling logic

    A shallow embedding of [parsers/dateParser.ts] (extraction, primary
    date, stripping, formatting) and of the pure core of the calendar
    view (event projection, line reconstruction, drop and resize), with
    the properties the specification states about them; then the colour
    service and the view's sections, task creation and task completion,
    with further properties of the code.

    Conventions used throughout:
    - a JavaScript string is the list of its UTF-16 code units ([list Z]);
      offsets into a line are [nat];
    - a [moment] (and a JavaScript [Date]) is its time value, the number
      of milliseconds since the epoch ([Z]); local time is taken to be UTC
      without daylight saving, so that calendar fields are a function of
      the time value alone;
    - an optional boolean property ([hasTime?: boolean]) is an
      [option bool], read through JavaScript truthiness. *)

From Stdlib Require Import ZArith List Bool Lia String Ascii Permutation Sorted.
From stdpp Require Import base option list sorting gmap.
Import ListNotations.

Local Open Scope Z_scope.

(** ** Strings as UTF-16 code units *)

Definition code_of_ascii (a : ascii) : Z := Z.of_N (N_of_ascii a).

Fixpoint str (s : string) : list Z :=
  match s with
  | EmptyString => []
  | String a r => code_of_ascii a :: str r
  end.

(** [\d] of a JavaScript regular expression: the ASCII digits only. *)
Definition is_digit (c : Z) : bool := (48 <=? c) && (c <=? 57).

(** [\s] of a JavaScript regular expression, which is also the set that
    [String.prototype.trim] removes: WhiteSpace and LineTerminator. *)
Definition is_space (c : Z) : bool :=
  ((9 <=? c) && (c <=? 13)) || (c =? 32) || (c =? 160) || (c =? 5760)
  || ((8192 <=? c) && (c <=? 8202)) || (c =? 8232) || (c =? 8233)
  || (c =? 8239) || (c =? 8287) || (c =? 12288) || (c =? 65279).

Definition string_eqb (a b : list Z) : bool := bool_decide (a = b).

Fixpoint starts_with (pat s : list Z) : bool :=
  match pat, s with
  | [], _ => true
  | p :: pat', c :: s' => (p =? c) && starts_with pat' s'
  | _ :: _, [] => false
  end.

Fixpoint drop_while (p : Z -> bool) (s : list Z) : list Z :=
  match s with
  | [] => []
  | c :: r => if p c then drop_while p r else s
  end.

(** [s.trim()] *)
Definition trim (s : list Z) : list Z :=
  rev (drop_while is_space (rev (drop_while is_space s))).

(** [s.trimEnd()] *)
Definition trimEnd (s : list Z) : list Z :=
  rev (drop_while is_space (rev s)).

(** [s.toLowerCase()], on the ASCII letters. The result is only ever
    looked up in the alias table, whose keys are ASCII and contain no
    letter that a non-ASCII character lower-cases to. *)
Definition lower (c : Z) : Z :=
  if (65 <=? c) && (c <=? 90) then c + 32 else c.

Definition toLowerCase (s : list Z) : list Z := map lower s.

(** [s.substring(a, b)]: the arguments are swapped when [a > b]. *)
Definition substring (a b : nat) (s : list Z) : list Z :=
  take (Nat.max a b - Nat.min a b) (drop (Nat.min a b) s).

(** [s.slice(a)] and [s.slice(0, b)] for offsets within range. *)
Definition slice_from (a : nat) (s : list Z) : list Z := drop a s.
Definition slice_to (b : nat) (s : list Z) : list Z := take b s.

Fixpoint index_from (pat s : list Z) (i : nat) : option nat :=
  if starts_with pat s then Some i
  else match s with
       | [] => None
       | _ :: r => index_from pat r (S i)
       end.

(** [s.indexOf(pat, from)], with [None] for [-1]. *)
Definition indexOf (pat s : list Z) (from : nat) : option nat :=
  index_from pat (drop from s) from.

(** [s.includes(pat)] *)
Definition includes (pat s : list Z) : bool :=
  match indexOf pat s 0 with Some _ => true | None => false end.

(** [s.replace(/\s+/g, " ")]: every maximal run of white space becomes
    one space. [in_run] tells that the previous unit was white space. *)
Fixpoint collapse_from (in_run : bool) (s : list Z) : list Z :=
  match s with
  | [] => []
  | c :: r =>
      if is_space c
      then (if in_run then collapse_from true r else 32 :: collapse_from true r)
      else c :: collapse_from false r
  end.

Definition collapse_spaces (s : list Z) : list Z := collapse_from false s.

(** ** Moments

    [moment] wraps a JavaScript [Date], whose state is a time value in
    milliseconds. Calendar fields follow the proleptic Gregorian
    calendar; years are split in eras of 400 years (146097 days) that
    start on 1 March, so that the leap day is the last day of a year of
    the era. *)

Definition msPerMinute : Z := 60000.
Definition msPerHour : Z := 3600000.
Definition msPerDay : Z := 86400000.

Definition isLeapYear (y : Z) : bool :=
  ((y mod 4 =? 0) && negb (y mod 100 =? 0)) || (y mod 400 =? 0).

Definition daysInMonth (y m : Z) : Z :=
  if m =? 2 then (if isLeapYear y then 29 else 28)
  else if (m =? 4) || (m =? 6) || (m =? 9) || (m =? 11) then 30 else 31.

(** Day of the era of the [d]th of month [m] in year [yoe] of the era
    (the era's years start in March). *)
Definition doe_of_civil (yoe m d : Z) : Z :=
  let mp := if 2 <? m then m - 3 else m + 9 in
  let doy := (153 * mp + 2) / 5 + d - 1 in
  yoe * 365 + yoe / 4 - yoe / 100 + doy.

Definition civil_of_doe (doe : Z) : Z * Z * Z :=
  let yoe := (doe - doe / 1460 + doe / 36524 - doe / 146096) / 365 in
  let doy := doe - (365 * yoe + yoe / 4 - yoe / 100) in
  let mp := (5 * doy + 2) / 153 in
  let d := doy - (153 * mp + 2) / 5 + 1 in
  let m := if mp <? 10 then mp + 3 else mp - 9 in
  (yoe, m, d).

(** Days since the epoch of a calendar date. *)
Definition days_from_civil (y m d : Z) : Z :=
  let y' := if m <=? 2 then y - 1 else y in
  (y' / 400) * 146097 + doe_of_civil (y' mod 400) m d - 719468.

(** Calendar date (year, month, day of month) of a day number. *)
Definition civil_from_days (z : Z) : Z * Z * Z :=
  let z' := z + 719468 in
  let '(yoe, m, d) := civil_of_doe (z' mod 146097) in
  (yoe + (z' / 146097) * 400 + (if m <=? 2 then 1 else 0), m, d).

Definition day_of (t : Z) : Z := t / msPerDay.

Definition year (t : Z) : Z := fst (fst (civil_from_days (day_of t))).
Definition month (t : Z) : Z := snd (fst (civil_from_days (day_of t))).
Definition day_of_month (t : Z) : Z := snd (civil_from_days (day_of t)).

(** [m.hour()], [m.minute()] and [Date.getHours], [Date.getMinutes] *)
Definition hour (t : Z) : Z := (t mod msPerDay) / msPerHour.
Definition minute (t : Z) : Z := (t mod msPerHour) / msPerMinute.

(** [m.hour(h)], [m.minute(mi)], [m.second(s)]: the setters of [Date],
    where a value out of range carries into the next unit. *)
Definition set_hour (h : Z) (t : Z) : Z :=
  day_of t * msPerDay + h * msPerHour + t mod msPerHour.
Definition set_minute (mi : Z) (t : Z) : Z :=
  t - t mod msPerHour + mi * msPerMinute + t mod msPerMinute.
Definition set_second (s : Z) (t : Z) : Z :=
  t - t mod msPerMinute + s * 1000 + t mod 1000.

(** [m.add(n, "minutes")], [m.add(n, "milliseconds")],
    [m.subtract(n, "day")], [a.diff(b)] *)
Definition add_minutes (n : Z) (t : Z) : Z := t + n * msPerMinute.
Definition add_milliseconds (n : Z) (t : Z) : Z := t + n.
Definition subtract_days (n : Z) (t : Z) : Z := t - n * msPerDay.
Definition diff (a b : Z) : Z := a - b.

(** [a.isSame(b, "day")], [a.isAfter(b, "day")], [a.isSameOrBefore(b)] *)
Definition isSame_day (a b : Z) : bool := day_of a =? day_of b.
Definition isAfter_day (a b : Z) : bool := b <? day_of a * msPerDay.
Definition isSameOrBefore (a b : Z) : bool := a <=? b.

(** Decimal digits of a natural number, most significant first. *)
Fixpoint decimal_fuel (fuel : nat) (n : Z) (acc : list Z) : list Z :=
  match fuel with
  | O => acc
  | S f =>
      let acc' := (48 + n mod 10) :: acc in
      if n <? 10 then acc' else decimal_fuel f (n / 10) acc'
  end.

Definition decimal (n : Z) : list Z :=
  decimal_fuel (S (Z.to_nat (Z.log2 n))) n [].

(** moment's [zeroFill]: at least [width] digits, and a minus sign for a
    negative number. *)
Definition zeroFill (width : nat) (n : Z) : list Z :=
  let ds := decimal (Z.abs n) in
  (if n <? 0 then [45] else []) ++ repeat 48 (width - length ds) ++ ds.

(** [m.format("YYYY-MM-DD")], [m.format("HH:mm")],
    [m.format("YYYY-MM-DD HH:mm")] *)
Definition format_date (t : Z) : list Z :=
  zeroFill 4 (year t) ++ [45] ++ zeroFill 2 (month t) ++ [45]
  ++ zeroFill 2 (day_of_month t).
Definition format_time (t : Z) : list Z :=
  zeroFill 2 (hour t) ++ [58] ++ zeroFill 2 (minute t).
Definition format_date_time (t : Z) : list Z :=
  format_date t ++ [32] ++ format_time t.

(** Value of a string of digits ([Number(s)], moment's [toInt]). *)
Definition number_of_digits (s : list Z) : Z :=
  fold_left (fun acc c => acc * 10 + (c - 48)) s 0.

(** [moment(s)] for a string [s] of the shape [\d{4}-\d{2}-\d{2}]: the
    ISO 8601 parse, which is invalid ([None]) when the month or the day
    of the month is out of range. *)
Definition moment_of_iso (s : list Z) : option Z :=
  let y := number_of_digits (take 4 s) in
  let m := number_of_digits (take 2 (drop 5 s)) in
  let d := number_of_digits (take 2 (drop 8 s)) in
  if (1 <=? m) && (m <=? 12) && (1 <=? d) && (d <=? daysInMonth y m)
  then Some (days_from_civil y m d * msPerDay)
  else None.

(** ** The date parser: data model *)

(** [enum DateFieldType] *)
Inductive DateFieldType : Type :=
  | Due | Start | Scheduled | Created | Done | Cancelled.

(** The enum's string values, which [formatDate] writes as Dataview keys. *)
Definition type_value (t : DateFieldType) : list Z :=
  match t with
  | Due => str "due"
  | Start => str "start"
  | Scheduled => str "scheduled"
  | Created => str "created"
  | Done => str "completed"
  | Cancelled => str "cancelled"
  end.

(** [type DateFormatType = "tasks" | "dataview" | "simple" | "kanban"] *)
Inductive DateFormatType : Type :=
  | TasksFormat | DataviewFormat | SimpleFormat | KanbanFormat.

(** The [format] of a parsed field. *)
Inductive FieldFormat : Type :=
  | FmtTasks | FmtDataviewBracket | FmtDataviewParen | FmtSimple | FmtKanban.

(** [interface ParsedDateField] *)
Record ParsedDateField : Type := mkField {
  type : DateFieldType;
  date : Z;
  raw : list Z;
  start : nat;
  end_ : nat;
  format : FieldFormat;
  hasTime : option bool
}.

(** JavaScript truthiness of an optional boolean. *)
Definition truthy (b : option bool) : bool :=
  match b with Some true => true | _ => false end.

#[global] Instance DateFieldType_eq_dec : EqDecision DateFieldType.
Proof. solve_decision. Defined.

#[global] Instance FieldFormat_eq_dec : EqDecision FieldFormat.
Proof. solve_decision. Defined.

#[global] Instance DateFormatType_eq_dec : EqDecision DateFormatType.
Proof. solve_decision. Defined.

Definition type_index (t : DateFieldType) : nat :=
  match t with
  | Due => 0 | Start => 1 | Scheduled => 2
  | Created => 3 | Done => 4 | Cancelled => 5
  end%nat.

Definition type_of_index (n : nat) : option DateFieldType :=
  match n with
  | 0 => Some Due | 1 => Some Start | 2 => Some Scheduled
  | 3 => Some Created | 4 => Some Done | 5 => Some Cancelled
  | _ => None
  end%nat.

#[global] Program Instance DateFieldType_countable : Countable DateFieldType :=
  inj_countable type_index type_of_index _.
Next Obligation. intros []; reflexivity. Qed.

(** [DATE_SYMBOLS]: the symbols of each type, as code units. The first
    one is the symbol that [formatDate] writes. *)
Definition DATE_SYMBOLS (t : DateFieldType) : list (list Z) :=
  match t with
  | Due => [[55357; 56517]; [55357; 56518]; [55357; 56787]]
  | Start => [[55357; 57067]]
  | Scheduled => [[9203]; [8987]]
  | Created => [[10133]]
  | Done => [[9989]]
  | Cancelled => [[10060]]
  end.

(** [DATAVIEW_WRAPPERS], in key order, with the format each one gives. *)
Definition DATAVIEW_WRAPPERS : list (Z * Z * FieldFormat) :=
  [(91, 93, FmtDataviewBracket); (40, 41, FmtDataviewParen)].

(** [DATAVIEW_KEY_ALIASES] *)
Definition DATAVIEW_KEY_ALIASES : list (list Z * DateFieldType) :=
  [ (str "due", Due); (str "due date", Due); (str "duedate", Due);
    (str "start", Start); (str "start date", Start); (str "startdate", Start);
    (str "scheduled", Scheduled); (str "scheduled date", Scheduled);
    (str "scheduleddate", Scheduled);
    (str "created", Created); (str "created date", Created);
    (str "createddate", Created);
    (str "done", Done); (str "done date", Done); (str "donedate", Done);
    (str "completed", Done); (str "completion date", Done);
    (str "completion", Done);
    (str "cancelled", Cancelled); (str "canceled", Cancelled);
    (str "cancelled date", Cancelled); (str "canceled date", Cancelled) ].

(** [DATAVIEW_KEY_ALIASES[key]], read as a lookup among the entries of
    the table, which is what its type [Record<string, DateFieldType>]
    says. The look-up of the code also finds the properties that every
    object inherits: for the keys [constructor] and [__proto__], the two
    in lower case, it returns an object, and the code makes a field
    whose type is that object and no date field type. Such a field is
    outside this model: a statement on the fields of a line speaks of
    the fields of the six types. *)
Fixpoint alias_lookup (table : list (list Z * DateFieldType)) (key : list Z)
  : option DateFieldType :=
  match table with
  | [] => None
  | (k, t) :: rest => if string_eqb k key then Some t else alias_lookup rest key
  end.

(** ** Regular expressions

    Each pattern of the module is a matcher that, given the line from
    some offset on, returns the match anchored at that offset. None of
    the patterns needs backtracking beyond what is written out: white
    space and digits are disjoint, so a greedy [\s*] or [\s+] never gives
    units back. *)

(** [match[0]], the date group and the optional time group. *)
Record RegExpMatch : Type := mkMatch {
  m_raw : list Z;
  m_date : list Z;
  m_time : option (list Z)
}.

(** [(\d{4}-\d{2}-\d{2})] *)
Definition match_iso_date (s : list Z) : option (list Z * list Z) :=
  match s with
  | a :: b :: c :: d :: e :: f :: g :: h :: i :: j :: rest =>
      if is_digit a && is_digit b && is_digit c && is_digit d && (e =? 45)
         && is_digit f && is_digit g && (h =? 45) && is_digit i && is_digit j
      then Some ([a; b; c; d; e; f; g; h; i; j], rest)
      else None
  | _ => None
  end.

(** [(\d{1,2}:\d{2})]: two digits of hours are tried first. *)
Definition match_time2 (s : list Z) : option (list Z * list Z) :=
  match s with
  | a :: b :: c :: d :: e :: rest =>
      if is_digit a && is_digit b && (c =? 58) && is_digit d && is_digit e
      then Some ([a; b; c; d; e], rest) else None
  | _ => None
  end.

Definition match_time1 (s : list Z) : option (list Z * list Z) :=
  match s with
  | a :: c :: d :: e :: rest =>
      if is_digit a && (c =? 58) && is_digit d && is_digit e
      then Some ([a; c; d; e], rest) else None
  | _ => None
  end.

Definition match_time (s : list Z) : option (list Z * list Z) :=
  match match_time2 s with
  | Some r => Some r
  | None => match_time1 s
  end.

(** [(?:\s+(\d{1,2}:\d{2}))?] *)
Definition match_opt_time (s : list Z) : option (list Z) * list Z :=
  match s with
  | c :: r =>
      if is_space c then
        match match_time (drop_while is_space r) with
        | Some (t, rest) => (Some t, rest)
        | None => (None, s)
        end
      else (None, s)
  | [] => (None, s)
  end.

(** One of the symbols of a character class. *)
Fixpoint match_symbol (syms : list (list Z)) (s : list Z) : option (list Z) :=
  match syms with
  | [] => None
  | sym :: more =>
      if starts_with sym s then Some (drop (length sym) s)
      else match_symbol more s
  end.

(** The part of [s] consumed when [rest] is what remains of it. *)
Definition consumed (s rest : list Z) : list Z :=
  take (length s - length rest) s.

(** [/[symbols]️?\s*(\d{4}-\d{2}-\d{2})(?:\s+(\d{1,2}:\d{2}))?/gu] *)
Definition match_emoji (syms : list (list Z)) (s : list Z) : option RegExpMatch :=
  match match_symbol syms s with
  | None => None
  | Some r0 =>
      let r1 := match r0 with
                | c :: r => if c =? 65039 then r else r0
                | [] => r0
                end in
      match match_iso_date (drop_while is_space r1) with
      | None => None
      | Some (d, r2) =>
          let '(t, r3) := match_opt_time r2 in
          Some (mkMatch (consumed s r3) d t)
      end
  end.

(** [EMOJI_DATE_PATTERNS] *)
Definition EMOJI_DATE_PATTERNS : list (DateFieldType * list (list Z)) :=
  [ (Due, [[55357; 56517]; [55357; 56518]; [55357; 56787]]);
    (Start, [[55357; 57067]]);
    (Scheduled, [[9203]; [8987]]);
    (Created, [[10133]]);
    (Done, [[9989]]);
    (Cancelled, [[10060]]) ].

(** [SIMPLE_DATE_REGEX = /@\s*(\d{4}-\d{2}-\d{2})/g] *)
Definition match_simple (s : list Z) : option RegExpMatch :=
  match s with
  | c :: r =>
      if c =? 64 then
        match match_iso_date (drop_while is_space r) with
        | Some (d, rest) => Some (mkMatch (consumed s rest) d None)
        | None => None
        end
      else None
  | [] => None
  end.

(** [KANBAN_DATE_REGEX = /@\{(\d{4}-\d{2}-\d{2})\}/g] *)
Definition match_kanban_date (s : list Z) : option RegExpMatch :=
  match s with
  | c1 :: c2 :: r =>
      if (c1 =? 64) && (c2 =? 123) then
        match match_iso_date r with
        | Some (d, c3 :: rest) =>
            if c3 =? 125 then Some (mkMatch (consumed s rest) d None) else None
        | _ => None
        end
      else None
  | _ => None
  end.

(** [KANBAN_TIME_REGEX = /@@\{(\d{1,2}:\d{2})\}/g]; the group is the time. *)
Definition match_kanban_time (s : list Z) : option (list Z) :=
  match s with
  | c1 :: c2 :: c3 :: r =>
      if (c1 =? 64) && (c2 =? 64) && (c3 =? 123) then
        match match_time r with
        | Some (t, c4 :: _) => if c4 =? 125 then Some t else None
        | _ => None
        end
      else None
  | _ => None
  end.

(** [while ((match = re.exec(line)) !== null)] for a global pattern:
    all matches from left to right, each one searched from the end of
    the one before. [idx] is the offset of [s] in the line and [skip]
    the number of units of [s] that the previous match still covers. *)
Fixpoint exec_all {M : Type} (re : list Z -> option M) (len : M -> nat)
    (s : list Z) (idx skip : nat) : list (nat * M) :=
  match s with
  | [] => []
  | _ :: r =>
      match skip with
      | S k => exec_all re len r (S idx) k
      | O =>
          match re s with
          | Some m => (idx, m) :: exec_all re len r (S idx) (len m - 1)
          | None => exec_all re len r (S idx) 0
          end
      end
  end.

(** [re.exec(line)] once, from the start of the line. *)
Fixpoint exec_first {M : Type} (re : list Z -> option M) (s : list Z) : option M :=
  match s with
  | [] => None
  | _ :: r =>
      match re s with
      | Some m => Some m
      | None => exec_first re r
      end
  end.

Definition match_length (m : RegExpMatch) : nat := length (m_raw m).

(** [timeStr.split(":").map(Number)] *)
Fixpoint take_until (c : Z) (s : list Z) : list Z :=
  match s with
  | [] => []
  | x :: r => if x =? c then [] else x :: take_until c r
  end.

Fixpoint drop_until (c : Z) (s : list Z) : list Z :=
  match s with
  | [] => []
  | x :: r => if x =? c then r else drop_until c r
  end.

Definition split_time (timeStr : list Z) : Z * Z :=
  (number_of_digits (take_until 58 timeStr),
   number_of_digits (drop_until 58 timeStr)).

(** [date.hour(hours).minute(minutes).second(0)] *)
Definition apply_time (hours minutes : Z) (date : Z) : Z :=
  set_second 0 (set_minute minutes (set_hour hours date)).

(** ** The four grammars *)

(** The body of the [while] loop of [extractEmojiDates] for one match. *)
Definition emoji_field (ty : DateFieldType) (hit : nat * RegExpMatch)
  : option ParsedDateField :=
  let '(index, m) := hit in
  match moment_of_iso (m_date m) with
  | None => None
  | Some date0 =>
      let '(date1, hasTime1) :=
        match m_time m with
        | Some timeStr =>
            let '(hours, minutes) := split_time timeStr in
            (apply_time hours minutes date0, true)
        | None => (date0, false)
        end in
      Some (mkField ty date1 (m_raw m) index (index + length (m_raw m))
              FmtTasks (Some hasTime1))
  end.

Definition extractEmojiDates (line : list Z) : list ParsedDateField :=
  flat_map
    (fun '(ty, syms) =>
       omap (emoji_field ty) (exec_all (match_emoji syms) match_length line 0 0))
    EMOJI_DATE_PATTERNS.

(** [findDataviewSeparator]: the key and the offset of the value. *)
Definition findDataviewSeparator (line : list Z) (start : nat)
  : option (list Z * nat) :=
  match indexOf (str "::") line start with
  | None => None
  | Some sep => Some (toLowerCase (trim (substring start sep line)), (sep + 2)%nat)
  end.

(** The [for] loop of [findClosingBracket]: the offset of the closing
    bracket that makes [nesting] negative. *)
Fixpoint closing_loop (open close : Z) (s : list Z) (i : nat)
    (nesting : Z) (escaped : bool) : option nat :=
  match s with
  | [] => None
  | char :: r =>
      if char =? 92 then closing_loop open close r (S i) nesting (negb escaped)
      else if escaped then closing_loop open close r (S i) nesting false
      else
        let nesting' :=
          if char =? open then nesting + 1
          else if char =? close then nesting - 1
          else nesting in
        if nesting' <? 0 then Some i
        else closing_loop open close r (S i) nesting' false
  end.

(** [findClosingBracket]: the trimmed value and the offset past the
    bracket. *)
Definition findClosingBracket (line : list Z) (start : nat) (open close : Z)
  : option (list Z * nat) :=
  match closing_loop open close (drop start line) start 0 false with
  | None => None
  | Some i => Some (trim (substring start i line), S i)
  end.

(** The brackets that a key must not contain. *)
Definition wrapper_chars : list (list Z) :=
  map (fun w => [fst (fst w)]) DATAVIEW_WRAPPERS
  ++ map (fun w => [snd (fst w)]) DATAVIEW_WRAPPERS.

(** One round of the [while (searchIndex < line.length)] loop of
    [extractDataviewDates] for one wrapper: [None] when the loop breaks,
    otherwise the field pushed, if any, and the next [searchIndex]. *)
Definition dataview_round (line : list Z) (open close : Z) (fmt : FieldFormat)
    (searchIndex : nat) : option (option ParsedDateField * nat) :=
  match indexOf [open] line searchIndex with
  | None => None
  | Some foundIndex =>
      match findDataviewSeparator line (foundIndex + 1) with
      | None => Some (None, (foundIndex + 1)%nat)
      | Some (key, valueIndex) =>
          let keyPart := substring (foundIndex + 1) (valueIndex - 2) line in
          if existsb (fun sep => includes sep keyPart) wrapper_chars
          then Some (None, (foundIndex + 1)%nat)
          else
            match findClosingBracket line valueIndex open close with
            | None => Some (None, (foundIndex + 1)%nat)
            | Some (value, endIndex) =>
                match alias_lookup DATAVIEW_KEY_ALIASES key with
                | None => Some (None, endIndex)
                | Some dateType =>
                    match match_iso_date (trim value) with
                    | None => Some (None, endIndex)
                    | Some (dateMatch, _) =>
                        match moment_of_iso dateMatch with
                        | None => Some (None, endIndex)
                        | Some date0 =>
                            Some (Some (mkField dateType date0
                                          (substring foundIndex endIndex line)
                                          foundIndex endIndex fmt None),
                                  endIndex)
                        end
                    end
                end
            end
      end
  end.

(** The loop itself. Every round moves [searchIndex] forward, so
    [length line] rounds are enough ([dataview_loop_fuel] below). *)
Fixpoint dataview_loop (fuel : nat) (line : list Z) (open close : Z)
    (fmt : FieldFormat) (searchIndex : nat) : list ParsedDateField :=
  match fuel with
  | O => []
  | S fuel' =>
      if negb (searchIndex <? length line)%nat then []
      else
        match dataview_round line open close fmt searchIndex with
        | None => []
        | Some (None, next) => dataview_loop fuel' line open close fmt next
        | Some (Some d, next) => d :: dataview_loop fuel' line open close fmt next
        end
  end.

Definition extractDataviewDates (line : list Z) : list ParsedDateField :=
  flat_map
    (fun '(open, close, fmt) => dataview_loop (length line) line open close fmt 0)
    DATAVIEW_WRAPPERS.

Definition simple_field (hit : nat * RegExpMatch) : option ParsedDateField :=
  let '(index, m) := hit in
  match moment_of_iso (m_date m) with
  | None => None
  | Some date0 =>
      Some (mkField Due date0 (m_raw m) index (index + length (m_raw m))
              FmtSimple None)
  end.

Definition extractSimpleDates (line : list Z) : list ParsedDateField :=
  omap simple_field (exec_all match_simple match_length line 0 0).

(** The time token of a line: [hasTime], [hours], [minutes]. *)
Definition kanban_time (line : list Z) : bool * Z * Z :=
  match exec_first match_kanban_time line with
  | Some timeStr =>
      let '(h, m) := split_time timeStr in (true, h, m)
  | None => (false, 0, 0)
  end.

Definition kanban_field (tm : bool * Z * Z) (hit : nat * RegExpMatch)
  : option ParsedDateField :=
  let '(hasTime0, hours, minutes) := tm in
  let '(index, m) := hit in
  match moment_of_iso (m_date m) with
  | None => None
  | Some date0 =>
      let date1 := if hasTime0 then apply_time hours minutes date0 else date0 in
      Some (mkField Due date1 (m_raw m) index (index + length (m_raw m))
              FmtKanban (Some hasTime0))
  end.

Definition extractKanbanDates (line : list Z) : list ParsedDateField :=
  omap (kanban_field (kanban_time line))
    (exec_all match_kanban_date match_length line 0 0).

(** ** Extraction, primary date, stripping, formatting *)

(** [allDates.sort((a, b) => a.start - b.start)]: the sort of an array is
    stable, so a field goes in front of the first one that does not
    start before it. *)
Fixpoint insert_by_start (x : ParsedDateField) (l : list ParsedDateField)
  : list ParsedDateField :=
  match l with
  | [] => [x]
  | y :: r =>
      if (start x <=? start y)%nat then x :: l else y :: insert_by_start x r
  end.

Definition sort_by_start (l : list ParsedDateField) : list ParsedDateField :=
  foldr insert_by_start [] l.

(** One round of the loop that removes overlapping entries. *)
Definition keep_if_free (filtered : list ParsedDateField) (d : ParsedDateField)
  : list ParsedDateField :=
  match last filtered with
  | None => filtered ++ [d]
  | Some lastDate =>
      if (end_ lastDate <=? start d)%nat then filtered ++ [d] else filtered
  end.

Definition remove_overlaps (allDates : list ParsedDateField)
  : list ParsedDateField :=
  fold_left keep_if_free allDates [].

Definition selected (formatFilter : option DateFormatType) (f : DateFormatType)
  : bool :=
  match formatFilter with
  | None => true
  | Some g => bool_decide (g = f)
  end.

Definition collect_dates (line : list Z) (formatFilter : option DateFormatType)
  : list ParsedDateField :=
  (if selected formatFilter TasksFormat then extractEmojiDates line else [])
  ++ (if selected formatFilter DataviewFormat then extractDataviewDates line else [])
  ++ (if selected formatFilter SimpleFormat then extractSimpleDates line else [])
  ++ (if selected formatFilter KanbanFormat then extractKanbanDates line else []).

Definition extractAllDates (line : list Z) (formatFilter : option DateFormatType)
  : list ParsedDateField :=
  remove_overlaps (sort_by_start (collect_dates line formatFilter)).

(** [allDates.find((d) => d.type === type)] *)
Definition find_type (ty : DateFieldType) (allDates : list ParsedDateField)
  : option ParsedDateField :=
  find (fun d => bool_decide (type d = ty)) allDates.

Definition default_priority : list DateFieldType :=
  [Due; Scheduled; Start; Created; Done; Cancelled].

(** The [for (const type of priorityOrder)] loop of [getPrimaryDate]. *)
Fixpoint first_by_priority (priorityOrder : list DateFieldType)
    (allDates : list ParsedDateField) : option ParsedDateField :=
  match priorityOrder with
  | [] => None
  | ty :: rest =>
      match find_type ty allDates with
      | Some found => Some found
      | None => first_by_priority rest allDates
      end
  end.

Definition getPrimaryDate (line : list Z) (priorityOrder : list DateFieldType)
    (formatFilter : option DateFormatType) : option ParsedDateField :=
  let allDates := extractAllDates line formatFilter in
  match allDates with
  | [] => None
  | first :: _ =>
      match first_by_priority priorityOrder allDates with
      | Some found => Some found
      | None => Some first
      end
  end.

Definition getDateByType (line : list Z) (ty : DateFieldType)
  : option ParsedDateField :=
  find_type ty (extractAllDates line None).

(** [result.slice(0, date.start) + result.slice(date.end)] *)
Definition cut (result : list Z) (d : ParsedDateField) : list Z :=
  slice_to (start d) result ++ slice_from (end_ d) result.

(** The [for (let i = dates.length - 1; i >= 0; i--)] loop of
    [stripDates]. *)
Definition cut_all (line : list Z) (dates : list ParsedDateField) : list Z :=
  fold_left cut (rev dates) line.

Definition stripDates (line : list Z) : list Z :=
  let dates := extractAllDates line None in
  match dates with
  | [] => line
  | _ :: _ => trim (collapse_spaces (cut_all line dates))
  end.

(** [formatDate(type, date, format, includeTime)] *)
Definition formatDate (ty : DateFieldType) (date0 : Z) (fmt : FieldFormat)
    (includeTime : bool) : list Z :=
  let dateStr := format_date date0 in
  let timeStr := format_time date0 in
  let hasValidTime :=
    includeTime && (negb (hour date0 =? 0) || negb (minute date0 =? 0)) in
  match fmt with
  | FmtTasks =>
      let symbol := hd [] (DATE_SYMBOLS ty) in
      if hasValidTime then symbol ++ [32] ++ dateStr ++ [32] ++ timeStr
      else symbol ++ [32] ++ dateStr
  | FmtDataviewBracket =>
      if hasValidTime
      then [91] ++ type_value ty ++ str ":: " ++ dateStr ++ [84] ++ timeStr ++ [93]
      else [91] ++ type_value ty ++ str ":: " ++ dateStr ++ [93]
  | FmtDataviewParen =>
      if hasValidTime
      then [40] ++ type_value ty ++ str ":: " ++ dateStr ++ [84] ++ timeStr ++ [41]
      else [40] ++ type_value ty ++ str ":: " ++ dateStr ++ [41]
  | FmtSimple => str "@ " ++ dateStr
  | FmtKanban =>
      if hasValidTime
      then str "@{" ++ dateStr ++ str "} @@{" ++ timeStr ++ str "}"
      else str "@{" ++ dateStr ++ str "}"
  end.

(** [formatDate(d.type, d.date, d.format, d.hasTime)]: a missing
    [hasTime] takes the parameter's default, [false]. *)
Definition format_field (d : ParsedDateField) : list Z :=
  formatDate (type d) (date d) (format d) (truthy (hasTime d)).

(** [hasTimeComponent] *)
Definition hasTimeComponent (d : Z) : bool :=
  negb (hour d =? 0) || negb (minute d =? 0).

(** ** The calendar view: tasks and their events *)

(** [interface TaskLine], without the fields that only locate the task in
    the file ([id], [lineIndex], [sectionId]). *)
Record TaskLine : Type := mkTask {
  markdown : list Z;
  title : list Z;
  task_date : Z;
  dateType : DateFieldType;
  allDates : list ParsedDateField;
  task_hasTime : option bool;
  isKanban : bool;
  completed : bool
}.

(** [TASK_PREFIX_REGEX = /^(\s*-\s*\[(.)\])\s*/]: the check mark and the
    content after the check box. *)
Definition is_line_terminator (c : Z) : bool :=
  (c =? 10) || (c =? 13) || (c =? 8232) || (c =? 8233).

Definition match_task_prefix (line : list Z) : option (Z * list Z) :=
  match drop_while is_space line with
  | dash :: r1 =>
      if dash =? 45 then
        match drop_while is_space r1 with
        | lb :: mark :: rb :: r2 =>
            if (lb =? 91) && negb (is_line_terminator mark) && (rb =? 93)
            then Some (mark, drop_while is_space r2)
            else None
        | _ => None
        end
      else None
  | [] => None
  end.

(** The task that [parseMarkdown] builds from one line, for the
    configured priority order and format filter; [None] for a line that
    is not a task or has no date. *)
Definition parse_task_line (line : list Z) (datePriority : list DateFieldType)
    (formatFilter : option DateFormatType) : option TaskLine :=
  match match_task_prefix line with
  | None => None
  | Some (checkMark, contentAfterCheckbox) =>
      match getPrimaryDate contentAfterCheckbox datePriority formatFilter with
      | None => None
      | Some primaryDate =>
          let stripped := trim (stripDates contentAfterCheckbox) in
          Some (mkTask line
                  (match stripped with
                   | [] => str "Untitled Task"
                   | _ :: _ => stripped
                   end)
                  (date primaryDate) (type primaryDate)
                  (extractAllDates contentAfterCheckbox formatFilter)
                  (hasTime primaryDate)
                  (bool_decide (format primaryDate = FmtKanban))
                  (negb (checkMark =? 32)))
      end
  end.

(** [date.clone().hour(23).minute(59)] *)
Definition end_of_day (t : Z) : Z := set_minute 59 (set_hour 23 t).

(** The [start] and [end] of the event that [updateCalendarEvents] makes
    of a task. *)
Definition event_times (task : TaskLine) : list Z * list Z :=
  if isKanban task && truthy (task_hasTime task) then
    (format_date_time (task_date task),
     format_date_time (add_minutes 30 (task_date task)))
  else
    match find_type Start (allDates task), find_type Due (allDates task) with
    | Some startField, Some dueField =>
        if truthy (hasTime startField) || truthy (hasTime dueField) then
          (format_date_time (date startField),
           if truthy (hasTime dueField) then format_date_time (date dueField)
           else format_date_time (end_of_day (date dueField)))
        else (format_date (date startField), format_date (date dueField))
    | Some startField, None =>
        if truthy (hasTime startField) then
          (format_date_time (date startField),
           format_date_time (add_minutes 30 (date startField)))
        else (format_date (date startField), format_date (date startField))
    | None, Some dueField =>
        if truthy (hasTime dueField) then
          (format_date_time (date dueField),
           format_date_time (add_minutes 30 (date dueField)))
        else (format_date (date dueField), format_date (date dueField))
    | None, None =>
        if truthy (task_hasTime task) then
          (format_date_time (task_date task),
           format_date_time (add_minutes 30 (task_date task)))
        else (format_date (task_date task), format_date (task_date task))
    end.

(** ** The calendar view: rescheduling *)

(** [isDefaultDropTime] *)
Definition isDefaultDropTime (d : Z) : bool :=
  ((hour d =? 0) && (minute d =? 0)) || ((hour d =? 12) && (minute d =? 0)).

(** [field?.hasTime] as a condition. *)
Definition field_hasTime (f : option ParsedDateField) : bool :=
  match f with
  | Some d => truthy (hasTime d)
  | None => false
  end.

(** [normalizeAllDayEnd] *)
Definition normalizeAllDayEnd (newStart newEnd : Z) (task : TaskLine)
    (startField dueField : option ParsedDateField) : Z :=
  let hasExplicitTime :=
    truthy (task_hasTime task) || field_hasTime startField
    || field_hasTime dueField in
  if isDefaultDropTime newEnd then
    if isAfter_day newEnd newStart then
      let endMoment := subtract_days 1 newEnd in
      if hasExplicitTime then end_of_day endMoment else endMoment
    else newEnd
  else newEnd.

Definition canonical_order : list DateFieldType :=
  [Start; Scheduled; Due; Created; Done; Cancelled].

(** One round of the loop of [reconstructLine]; an empty string is
    falsy. *)
Definition append_update (dateUpdates : gmap DateFieldType (list Z))
    (result : list Z) (ty : DateFieldType) : list Z :=
  match dateUpdates !! ty with
  | Some (c :: formatted) => result ++ [32] ++ c :: formatted
  | _ => result
  end.

(** [reconstructLine] *)
Definition reconstructLine (baseLine : list Z)
    (dateUpdates : gmap DateFieldType (list Z)) : list Z :=
  fold_left (append_update dateUpdates) canonical_order (trimEnd baseLine).

(** The loop that both handlers run first:
    [dateUpdates.set(date.type, formatDate(...))] for every date of the
    task. *)
Definition preserve_dates (dates : list ParsedDateField)
  : gmap DateFieldType (list Z) :=
  fold_left (fun m d => <[type d := format_field d]> m) dates ∅.

(** [newStart.getHours() !== 0 || newStart.getMinutes() !== 0] *)
Definition date_has_time (d : Z) : bool :=
  negb (hour d =? 0) || negb (minute d =? 0).

(** [m.hour(f.date.hour()).minute(f.date.minute())] *)
Definition copy_time (from t : Z) : Z :=
  set_minute (minute from) (set_hour (hour from) t).

(** [newEndMoment] of [handleEventDrop]. *)
Definition drop_newEndMoment (task : TaskLine) (newStart newEnd : Z) : Z :=
  let newStartMoment := newStart in
  let startField := find_type Start (allDates task) in
  let dueField := find_type Due (allDates task) in
  match startField, dueField with
  | Some sf, Some df =>
      let deltaMs := diff newStartMoment (date sf) in
      add_milliseconds deltaMs (date df)
  | _, _ => normalizeAllDayEnd newStart newEnd task startField dueField
  end.

(** [dateUpdates] of [handleEventDrop] when the line is reconstructed. *)
Definition drop_dateUpdates (task : TaskLine) (newStart newEnd : Z)
  : gmap DateFieldType (list Z) :=
  let newStartMoment := newStart in
  let startHasTime := date_has_time newStart in
  let endHasTime := date_has_time newEnd in
  let dateUpdates := preserve_dates (allDates task) in
  let newEndMoment := drop_newEndMoment task newStart newEnd in
  match find_type Start (allDates task), find_type Due (allDates task) with
  | Some startField, Some dueField =>
      let finalStartMoment :=
        if truthy (hasTime startField) && isDefaultDropTime newStart
        then copy_time (date startField) newStartMoment else newStartMoment in
      let finalEndMoment :=
        if truthy (hasTime dueField) && isDefaultDropTime newEnd
        then copy_time (date dueField) newEndMoment else newEndMoment in
      let wasMultiDay := negb (isSame_day (date startField) (date dueField)) in
      let isNowSingleDay := isSame_day finalStartMoment finalEndMoment in
      let finalEndMoment' :=
        if wasMultiDay && isNowSingleDay
           && isSameOrBefore finalEndMoment finalStartMoment
        then end_of_day finalEndMoment else finalEndMoment in
      let startIncludeTime :=
        truthy (hasTime startField)
        || (startHasTime && negb (isDefaultDropTime newStart)) in
      let endIncludeTime :=
        truthy (hasTime dueField)
        || (endHasTime && negb (isDefaultDropTime newEnd)) in
      <[Due := formatDate Due finalEndMoment' (format dueField) endIncludeTime]>
        (<[Start := formatDate Start finalStartMoment (format startField)
                      startIncludeTime]> dateUpdates)
  | _, _ =>
      match find_type (dateType task) (allDates task) with
      | Some primaryDateField =>
          let includeTime := startHasTime || truthy (hasTime primaryDateField) in
          <[type primaryDateField :=
              formatDate (type primaryDateField) newStartMoment
                (format primaryDateField) includeTime]> dateUpdates
      | None =>
          let typeToAdd := dateType task in
          <[typeToAdd := formatDate typeToAdd newStartMoment FmtTasks startHasTime]>
            dateUpdates
      end
  end.

(** The line that [handleEventDrop] writes in place of [line], the
    task's line in the file. *)
Definition handleEventDrop (task : TaskLine) (line : list Z)
    (newStart newEnd : Z) : list Z :=
  reconstructLine (stripDates line) (drop_dateUpdates task newStart newEnd).

(** [isMultiDay || (startHasTime && endHasTime)] of [handleEventResize]:
    the resize makes a range of several days or a range of times. *)
Definition resize_grows (task : TaskLine) (newStart newEnd : Z) : bool :=
  let startField := find_type Start (allDates task) in
  let dueField := find_type Due (allDates task) in
  let newEndMoment := normalizeAllDayEnd newStart newEnd task startField dueField in
  let newStartDateStr := format_date newStart in
  let newEndDateStr := format_date newEndMoment in
  let isMultiDay := negb (string_eqb newStartDateStr newEndDateStr) in
  isMultiDay || (date_has_time newStart && date_has_time newEnd).

(** [dateUpdates] of [handleEventResize] when the line is
    reconstructed. *)
Definition resize_dateUpdates (task : TaskLine) (newStart newEnd : Z)
  : gmap DateFieldType (list Z) :=
  let dateUpdates := preserve_dates (allDates task) in
  let newStartMoment := newStart in
  let startHasTime := date_has_time newStart in
  let endHasTime := date_has_time newEnd in
  let startField := find_type Start (allDates task) in
  let dueField := find_type Due (allDates task) in
  let primaryField := find_type (dateType task) (allDates task) in
  let newEndMoment := normalizeAllDayEnd newStart newEnd task startField dueField in
  let newStartDateStr := format_date newStartMoment in
  let newEndDateStr := format_date newEndMoment in
  let isNowSingleDay := string_eqb newStartDateStr newEndDateStr in
  let '(finalStartMoment, finalEndMoment) :=
    match startField, dueField with
    | Some sf, Some df =>
        if negb (isSame_day (date sf) (date df)) && isNowSingleDay then
          let fs := if truthy (hasTime sf) && isDefaultDropTime newStart
                    then copy_time (date sf) newStartMoment else newStartMoment in
          let fe := if truthy (hasTime df) && isDefaultDropTime newEnd
                    then copy_time (date df) newEndMoment else newEndMoment in
          (fs, if isSameOrBefore fe fs then end_of_day fe else fe)
        else (newStartMoment, newEndMoment)
    | _, _ => (newStartMoment, newEndMoment)
    end in
  let updates1 :=
    match startField with
    | Some sf =>
        let includeTime :=
          truthy (hasTime sf)
          || (startHasTime && negb (isDefaultDropTime newStart)) in
        <[Start := formatDate Start finalStartMoment (format sf) includeTime]>
          dateUpdates
    | None => dateUpdates
    end in
  let updates2 :=
    match dueField with
    | Some df =>
        let includeTime :=
          truthy (hasTime df) || (endHasTime && negb (isDefaultDropTime newEnd)) in
        <[Due := formatDate Due finalEndMoment (format df) includeTime]> updates1
    | None => updates1
    end in
  if resize_grows task newStart newEnd then
    let updates3 :=
      match startField with
      | None =>
          <[Start := formatDate Start finalStartMoment FmtTasks startHasTime]>
            updates2
      | Some _ => updates2
      end in
    match dueField with
    | None =>
        <[Due := formatDate Due finalEndMoment FmtTasks endHasTime]> updates3
    | Some _ => updates3
    end
  else
    match startField, dueField, primaryField with
    | None, None, Some pf =>
        let includeTime := startHasTime || truthy (hasTime pf) in
        <[type pf := formatDate (type pf) finalStartMoment (format pf) includeTime]>
          updates2
    | _, _, _ => updates2
    end.

(** The line that [handleEventResize] writes in place of [line]; a
    Kanban task is not resized. *)
Definition handleEventResize (task : TaskLine) (line : list Z)
    (newStart newEnd : Z) : option (list Z) :=
  if isKanban task then None
  else Some (reconstructLine (stripDates line)
               (resize_dateUpdates task newStart newEnd)).

(** ** Notions used to state the properties *)

(** [a] occurs in [b] as a substring. *)
Definition is_infix (a b : list Z) : Prop := exists pre post, b = pre ++ a ++ post.

(** The last of the fields of a type. *)
Definition last_of_type (ty : DateFieldType) (dates : list ParsedDateField)
  : option ParsedDateField :=
  find_type ty (rev dates).

(** The types whose entry [handleEventDrop] sets after it has carried
    the task's dates over: [Start] and [Due] for a task with both fields,
    the type of the primary date otherwise. *)
Definition drop_rescheduled (task : TaskLine) : list DateFieldType :=
  match find_type Start (allDates task), find_type Due (allDates task) with
  | Some _, Some _ => [Start; Due]
  | _, _ => [dateType task]
  end.

(** The same for [handleEventResize]: [Start] and [Due] when the task has
    one of them or the resize makes a range, the type of the primary
    date otherwise. *)
Definition resize_rescheduled (task : TaskLine) (newStart newEnd : Z)
  : list DateFieldType :=
  match find_type Start (allDates task), find_type Due (allDates task) with
  | None, None =>
      if resize_grows task newStart newEnd then [Start; Due] else [dateType task]
  | _, _ => [Start; Due]
  end.

(** A field ends where it starts or later. *)
Definition span_ok (d : ParsedDateField) : Prop := (start d <= end_ d)%nat.

(** [a] ends before [b] starts. *)
Definition before (a b : ParsedDateField) : Prop := (end_ a <= start b)%nat.

(** [a] does not start after [b]. *)
Definition start_le (a b : ParsedDateField) : Prop := (start a <= start b)%nat.

(** What [reconstructLine] appends for one type: nothing when the map
    has no entry for it (or an empty one), else a space and the entry. *)
Definition appended (dateUpdates : gmap DateFieldType (list Z))
    (ty : DateFieldType) : list Z :=
  match dateUpdates !! ty with
  | Some (c :: formatted) => 32 :: c :: formatted
  | _ => []
  end.




(** [p] holds of the [n] integers from [z] on. *)
Fixpoint all_below (n : nat) (z : Z) (p : Z -> bool) : bool :=
  match n with
  | O => true
  | S k => p z && all_below k (z + 1) p
  end.

(** The date of day [doe] of an era is a valid date of which [doe] is
    the day, and it falls in the last January or February of the era
    exactly from day 146037 on. *)
Definition check_doe (doe : Z) : bool :=
  let '(yoe, m, d) := civil_of_doe doe in
  let c := if m <=? 2 then 1 else 0 in
  (0 <=? yoe) && (yoe <=? 399) && (1 <=? m) && (m <=? 12) && (1 <=? d)
  && (d <=? daysInMonth (yoe + c) m)
  && (doe_of_civil yoe m d =? doe)
  && (Bool.eqb (doe <? 146037) (yoe + c <=? 399)).

(** [zeroFill] writes [n] in four digits, and in two when [n < 100],
    that read back as [n]. *)
Definition check_fill (n : Z) : bool :=
  let s := zeroFill 4 n in
  (length s =? 4)%nat && forallb is_digit s && (number_of_digits s =? n)
  && (if n <? 100 then
        let s2 := zeroFill 2 n in
        (length s2 =? 2)%nat && forallb is_digit s2 && (number_of_digits s2 =? n)
      else true).

(** The day number of 0000-01-01. *)
Definition first_day : Z := -719528.

(** The units at which a match of an emoji pattern can start. *)
Definition emoji_lead (c : Z) : bool :=
  (c =? 55357) || (c =? 9203) || (c =? 8987) || (c =? 10133) || (c =? 9989)
  || (c =? 10060).

(** The date of a field is a day from 0000-01-01 on plus hours and
    minutes, which are zero unless the field has a time; and the format
    bounds the type and the time flag. *)
Definition well_formed (f : ParsedDateField) : Prop :=
  (exists days hours minutes,
     date f = days * msPerDay + hours * msPerHour + minutes * msPerMinute
     /\ first_day <= days /\ 0 <= hours /\ 0 <= minutes
     /\ (truthy (hasTime f) = false -> hours = 0 /\ minutes = 0))
  /\ match format f with
     | FmtTasks => True
     | FmtDataviewBracket | FmtDataviewParen => hasTime f = None
     | FmtSimple => type f = Due /\ hasTime f = None
     | FmtKanban => type f = Due
     end.

(** ** Lines used as examples *)

(** Midnight at the start of a day given as [YYYY-MM-DD]. *)
Definition midnight (s : string) : Z := default 0 (moment_of_iso (str s)).

Definition calendar_symbol : list Z := [55357; 56517].
Definition plus_symbol : list Z := [10133].
Definition departure_symbol : list Z := [55357; 57067].

(** A task with two [Created] dates and a [Due] date. *)
Definition line_two_created : list Z :=
  str "- [ ] Ship " ++ plus_symbol ++ str " 2025-01-01 "
  ++ plus_symbol ++ str " 2025-01-02 " ++ calendar_symbol ++ str " 2025-03-01".

(** A Dataview field with a time in its value. *)
Definition line_dataview_time : list Z := str "[start:: 2025-01-15T14:30]".

(** A due date whose time carries it into the year 10000. *)
Definition line_year_overflow : list Z :=
  calendar_symbol ++ str " 9999-12-31 24:00".

(** The release scenario: a due date before a start date. *)
Definition line_ship : list Z :=
  str "Ship release " ++ calendar_symbol ++ str " 2025-11-29 "
  ++ departure_symbol ++ str " 2025-11-20".

(** A Kanban date with the line's time token. *)
Definition line_kanban_time : list Z := str "@{2025-03-01} @@{09:00}".


(** A task from a start with a time to a due date without one. *)
Definition line_trip : list Z :=
  str "- [ ] Trip " ++ departure_symbol ++ str " 2025-01-10 14:30 "
  ++ calendar_symbol ++ str " 2025-01-12".

Definition empty_task : TaskLine := mkTask [] [] 0 Due [] None false false.

(** The task of a line under the default settings. *)
Definition task_of (line : list Z) : TaskLine :=
  default empty_task (parse_task_line line default_priority None).

(** The fields of [line_kanban_time], [line_ship] and [line_trip]. *)
Definition field_kanban_time : ParsedDateField :=
  mkField Due (midnight "2025-03-01" + 9 * msPerHour) (str "@{2025-03-01}")
    0 13 FmtKanban (Some true).

Definition field_ship_due : ParsedDateField :=
  mkField Due (midnight "2025-11-29") (calendar_symbol ++ str " 2025-11-29")
    13 26 FmtTasks (Some false).

Definition field_ship_start : ParsedDateField :=
  mkField Start (midnight "2025-11-20") (departure_symbol ++ str " 2025-11-20")
    27 40 FmtTasks (Some false).

Definition field_trip_start : ParsedDateField :=
  mkField Start (midnight "2025-01-10" + 14 * msPerHour + 30 * msPerMinute)
    (departure_symbol ++ str " 2025-01-10 14:30") 5 24 FmtTasks (Some true).

Definition field_trip_due : ParsedDateField :=
  mkField Due (midnight "2025-01-12") (calendar_symbol ++ str " 2025-01-12")
    25 38 FmtTasks (Some false).

Definition field_second_created : ParsedDateField :=
  mkField Created (midnight "2025-01-02") (plus_symbol ++ str " 2025-01-02")
    18 30 FmtTasks (Some false).

(** A Kanban date with a time token of more than a day. *)
Definition line_kanban_overflow : list Z := str "@{2025-03-01} @@{25:61}".

(** Two Kanban dates and two time tokens. *)
Definition line_kanban_two : list Z :=
  str "@{2025-03-01} and @{2025-03-05} @@{09:00} @@{10:30}".

Definition field_kanban_first : ParsedDateField :=
  mkField Due (midnight "2025-03-01" + 9 * msPerHour) (str "@{2025-03-01}")
    0 13 FmtKanban (Some true).

Definition field_kanban_second : ParsedDateField :=
  mkField Due (midnight "2025-03-05" + 9 * msPerHour) (str "@{2025-03-05}")
    18 31 FmtKanban (Some true).

(** A task with a due date in the tasks format and a scheduled date in
    the Dataview format. *)
Definition line_mixed_formats : list Z :=
  str "- [ ] Ship " ++ calendar_symbol
  ++ str " 2025-03-01 [scheduled:: 2025-02-01]".

(** [hasDate] *)
Definition hasDate (line : list Z) : bool :=
  (0 <? length (extractAllDates line None))%nat.

(** [getDateTypeEmoji] *)
Definition getDateTypeEmoji (ty : DateFieldType) : list Z :=
  hd [] (DATE_SYMBOLS ty).

(** The grammar that a field format belongs to. *)
Definition format_type (fmt : FieldFormat) : DateFormatType :=
  match fmt with
  | FmtTasks => TasksFormat
  | FmtDataviewBracket | FmtDataviewParen => DataviewFormat
  | FmtSimple => SimpleFormat
  | FmtKanban => KanbanFormat
  end.

(** What a pattern consumed is a non-empty prefix of what it was matched
    against. *)
Definition proper_prefix (raw0 s : list Z) : Prop :=
  raw0 = take (length raw0) s /\ (0 < length raw0 <= length s)%nat.

(** The span of a field is in the line, is not empty, and [raw] is the
    text of the line in it. *)
Definition spans_raw (line : list Z) (f : ParsedDateField) : Prop :=
  (start f < end_ f)%nat /\ (end_ f <= length line)%nat
  /\ raw f = substring (start f) (end_ f) line.

(** ** The colour service *)

(** [interface ColorTheme] *)
Record ColorTheme : Type := mkTheme {
  light : list Z;
  dark : list Z
}.

(** [enum ColorConditionType] *)
Inductive ColorConditionType : Type :=
  | IsOverdue | IsCompleted | HasTag | TitleContains | SectionIs | HasDue
  | Always.

(** [conditionRequiresValue] *)
Definition conditionRequiresValue (ty : ColorConditionType) : bool :=
  match ty with
  | HasTag | TitleContains | SectionIs => true
  | _ => false
  end.

(** [interface ColorRule], without [id] and [name], which the service
    does not read. *)
Record ColorRule : Type := mkRule {
  enabled : bool;
  conditionType : ColorConditionType;
  conditionValue : option (list Z);
  color : ColorTheme;
  applyToFiles : option (list (list Z))
}.

(** [interface CalendarSourceConfig] *)
Record CalendarSourceConfig : Type := mkSource {
  source_color : option ColorTheme;
  sectionColors : option (gmap (list Z) ColorTheme)
}.

(** [interface ColorSettings]. The two records keyed by strings are read
    as maps of their entries; the properties that every JavaScript
    object inherits are left out. *)
Record ColorSettings : Type := mkColors {
  defaultEventColor : ColorTheme;
  colorRules : list ColorRule;
  calendarSources : gmap (list Z) CalendarSourceConfig
}.

(** [interface TaskColorData], without [dateType], which the service
    does not read; [date] is optional because the service tests it. *)
Record TaskColorData : Type := mkColorData {
  color_title : list Z;
  color_markdown : list Z;
  color_date : option Z;
  color_allDates : list ParsedDateField;
  color_completed : bool;
  color_sectionId : list Z
}.

(** [interface SectionColorData] *)
Record SectionColorData : Type := mkSectionData {
  section_id : list Z;
  section_name : list Z
}.

(** A string as a condition: [undefined] and the empty string are
    falsy. *)
Definition given (s : option (list Z)) : option (list Z) :=
  match s with
  | Some (c :: r) => Some (c :: r)
  | _ => None
  end.

(** [a.isBefore(b, "day")]: the end of the day of [a] is before [b]. *)
Definition isBefore_day (a b : Z) : bool :=
  day_of a * msPerDay + msPerDay - 1 <? b.

Section ColorService.
(** [String.prototype.toLowerCase], which the service applies to titles,
    section names and condition values, that is to any text. *)
Variable lowerCase : list Z -> list Z.

(** The time value of [moment()], the time of the call. *)
Variable now : Z.

(** [ColorService.checkCondition] *)
Definition checkCondition (task : TaskColorData) (rule : ColorRule)
    (sections : gmap (list Z) SectionColorData) : bool :=
  match conditionType rule with
  | IsOverdue =>
      if color_completed task then false
      else match color_date task with
           | None => false
           | Some d => isBefore_day d now
           end
  | IsCompleted => color_completed task
  | HasTag =>
      match given (conditionValue rule) with
      | None => false
      | Some value =>
          let tagPattern :=
            if starts_with [35] value then value else [35] ++ value in
          includes tagPattern (color_title task)
          || includes tagPattern (color_markdown task)
      end
  | TitleContains =>
      match given (conditionValue rule) with
      | None => false
      | Some value => includes (lowerCase value) (lowerCase (color_title task))
      end
  | SectionIs =>
      match given (conditionValue rule) with
      | None => false
      | Some value =>
          match sections !! color_sectionId task with
          | None => false
          | Some section =>
              string_eqb (lowerCase (section_name section)) (lowerCase value)
          end
      end
  | HasDue =>
      existsb (fun d => bool_decide (type d = Due)) (color_allDates task)
  | Always => true
  end.

(** [ColorService.resolveColor] *)
Definition resolveColor (theme : ColorTheme) (isDarkMode : bool) : list Z :=
  if isDarkMode then dark theme else light theme.

(** The [for (const rule of colorRules)] loop of [getEventColor]: the
    theme of the first rule in force whose condition holds. *)
Fixpoint first_rule_theme (task : TaskColorData) (filePath : list Z)
    (sections : gmap (list Z) SectionColorData) (rules : list ColorRule)
  : option ColorTheme :=
  match rules with
  | [] => None
  | rule :: rest =>
      if negb (enabled rule) then first_rule_theme task filePath sections rest
      else
        if match applyToFiles rule with
           | Some (file :: files) => negb (bool_decide (filePath ∈ file :: files))
           | _ => false
           end
        then first_rule_theme task filePath sections rest
        else
          if checkCondition task rule sections then Some (color rule)
          else first_rule_theme task filePath sections rest
  end.

(** The names of the properties that every object inherits from
    [Object.prototype]. *)
Definition object_prototype_keys : list (list Z) :=
  [str "constructor"; str "__proto__"; str "hasOwnProperty";
   str "isPrototypeOf"; str "propertyIsEnumerable"; str "toLocaleString";
   str "toString"; str "valueOf"; str "__defineGetter__";
   str "__defineSetter__"; str "__lookupGetter__"; str "__lookupSetter__"].

(** [sourceConfig?.sectionColors?.[sectionId]] and [sourceConfig?.color],
    read as look-ups among the entries of the records. For a section id
    in [object_prototype_keys] without an entry of its own the look-up
    of the code finds the inherited property, which is no theme and has
    no [light] or [dark]; what is stated below on the colour of a
    section leaves these ids out. A file path of such a name finds an
    inherited property too, which has no [color] and no [sectionColors]
    and so counts like a missing entry. *)
Definition section_theme (sourceConfig : option CalendarSourceConfig)
    (sectionId : list Z) : option ColorTheme :=
  match sourceConfig with
  | Some config =>
      match sectionColors config with
      | Some colors => colors !! sectionId
      | None => None
      end
  | None => None
  end.

Definition source_theme (sourceConfig : option CalendarSourceConfig)
  : option ColorTheme :=
  match sourceConfig with
  | Some config => source_color config
  | None => None
  end.

(** [ColorService.getEventColor] *)
Definition getEventColor (task : TaskColorData) (filePath : list Z)
    (sections : gmap (list Z) SectionColorData) (settings : ColorSettings)
    (isDarkMode isAllSectionsView : bool) : list Z :=
  let sourceConfig := calendarSources settings !! filePath in
  match first_rule_theme task filePath sections (colorRules settings) with
  | Some theme => resolveColor theme isDarkMode
  | None =>
      match (if isAllSectionsView
             then section_theme sourceConfig (color_sectionId task)
             else None) with
      | Some theme => resolveColor theme isDarkMode
      | None =>
          match source_theme sourceConfig with
          | Some theme => resolveColor theme isDarkMode
          | None => resolveColor (defaultEventColor settings) isDarkMode
          end
      end
  end.
End ColorService.

(** [ToInt32]: the signed 32-bit integer that a bit operator makes of a
    number. *)
Definition to_int32 (z : Z) : Z := (z + 2147483648) mod 4294967296 - 2147483648.

(** One round of the loop of [hashStringToColor]:
    [hash = c + ((hash << 5) - hash); hash = hash & hash]. *)
Definition hash_step (hash c : Z) : Z :=
  let hash1 := c + (to_int32 (Z.shiftl (to_int32 hash) 5) - hash) in
  Z.land (to_int32 hash1) (to_int32 hash1).

Definition hash_of_string (s : list Z) : Z := fold_left hash_step s 0.

(** [Math.abs(hash % 360)]: the remainder has the sign of [hash]. *)
Definition hue_of_hash (hash : Z) : Z := Z.abs (Z.rem hash 360).

(** [ColorService.hashStringToColor] *)
Definition hashStringToColor (s : list Z) (isDarkMode : bool) : list Z :=
  let h := hue_of_hash (hash_of_string s) in
  let sat := if isDarkMode then 55 else 65 in
  let l := if isDarkMode then 55 else 45 in
  str "hsl(" ++ decimal h ++ str ", " ++ decimal sat ++ str "%, "
  ++ decimal l ++ str "%)".

(** The hash without wrap-around: the value of the units as digits in
    base 31. *)
Definition base31 (s : list Z) : Z := fold_left (fun h c => 31 * h + c) s 0.

(** The rule is enabled and is not limited to other files. *)
Definition rule_in_force (filePath : list Z) (rule : ColorRule) : bool :=
  enabled rule
  && match applyToFiles rule with
     | Some (file :: files) => bool_decide (filePath ∈ file :: files)
     | _ => true
     end.


(** The settings with other rules. *)
Definition with_rules (settings : ColorSettings) (rules : list ColorRule)
  : ColorSettings :=
  mkColors (defaultEventColor settings) rules (calendarSources settings).

(** The rule with another condition value. *)
Definition with_value (rule : ColorRule) (value : option (list Z)) : ColorRule :=
  mkRule (enabled rule) (conditionType rule) value (color rule)
    (applyToFiles rule).

(** The field [n] units further to the right. *)
Definition shift (n : nat) (f : ParsedDateField) : ParsedDateField :=
  mkField (type f) (date f) (raw f) (n + start f) (n + end_ f) (format f)
    (hasTime f).

(** A unit at which no date of any grammar can start: no emoji symbol,
    no [@], no opening bracket. *)
Definition plain_unit (c : Z) : bool :=
  negb (emoji_lead c) && negb (c =? 64) && negb (c =? 91) && negb (c =? 40).

(** ** The calendar view: new tasks *)

(** [handleDateSelect]: the arguments that it passes to [createTask]
    after the task name: start date, end date, start time, end time. *)
Definition handleDateSelect (dateFormat : DateFormatType) (selStart selEnd : Z)
  : list Z * option (list Z) * option (list Z) * option (list Z) :=
  let startDateStr := format_date selStart in
  let endDateStr := format_date selEnd in
  let isMultiDay := negb (string_eqb startDateStr endDateStr) in
  let startHasTime := hasTimeComponent selStart in
  let endHasTime := hasTimeComponent selEnd in
  let startTimeStr :=
    match dateFormat with
    | KanbanFormat | DataviewFormat | TasksFormat =>
        if startHasTime then Some (format_time selStart) else None
    | SimpleFormat => None
    end in
  let endTimeStr :=
    match dateFormat with
    | DataviewFormat | TasksFormat =>
        if endHasTime then Some (format_time selEnd) else None
    | KanbanFormat | SimpleFormat => None
    end in
  (startDateStr, if isMultiDay then Some endDateStr else None,
   startTimeStr, endTimeStr).

(** The symbols in the string literals of [buildDatePart], in the file
    of the view as it is: the UTF-8 bytes of the calendar and of the
    departure symbol read as Windows-1252 text, four units each, and not
    the units of [DATE_SYMBOLS]. *)
Definition view_calendar_symbol : list Z := [240; 376; 8220; 8230].
Definition view_departure_symbol : list Z := [240; 376; 8250; 171].

(** [buildDatePart] *)
Definition buildDatePart (format0 : DateFormatType) (startDate : list Z)
    (endDate startTime endTime : option (list Z)) : list Z :=
  match format0 with
  | KanbanFormat =>
      let timePart :=
        match given startTime with
        | Some time => str " @@{" ++ time ++ str "}"
        | None => []
        end in
      str "@{" ++ startDate ++ str "}" ++ timePart
  | DataviewFormat =>
      match given endDate with
      | Some endDate0 =>
          let startPart :=
            match given startTime with
            | Some time => str "[start:: " ++ startDate ++ [84] ++ time ++ [93]
            | None => str "[start:: " ++ startDate ++ [93]
            end in
          let endPart :=
            match given endTime with
            | Some time => str "[due:: " ++ endDate0 ++ [84] ++ time ++ [93]
            | None => str "[due:: " ++ endDate0 ++ [93]
            end in
          startPart ++ [32] ++ endPart
      | None =>
          match given startTime, given endTime with
          | Some time1, Some time2 =>
              str "[start:: " ++ startDate ++ [84] ++ time1 ++ str "] [due:: "
              ++ startDate ++ [84] ++ time2 ++ [93]
          | Some time1, None => str "[due:: " ++ startDate ++ [84] ++ time1 ++ [93]
          | None, _ => str "[due:: " ++ startDate ++ [93]
          end
      end
  | SimpleFormat => str "@ " ++ startDate
  | TasksFormat =>
      match given endDate with
      | Some endDate0 =>
          let startPart :=
            match given startTime with
            | Some time =>
                view_departure_symbol ++ [32] ++ startDate ++ [32] ++ time
            | None => view_departure_symbol ++ [32] ++ startDate
            end in
          let endPart :=
            match given endTime with
            | Some time =>
                view_calendar_symbol ++ [32] ++ endDate0 ++ [32] ++ time
            | None => view_calendar_symbol ++ [32] ++ endDate0
            end in
          startPart ++ [32] ++ endPart
      | None =>
          match given startTime, given endTime with
          | Some time1, Some time2 =>
              view_departure_symbol ++ [32] ++ startDate ++ [32] ++ time1
              ++ [32] ++ view_calendar_symbol ++ [32] ++ startDate ++ [32]
              ++ time2
          | Some time1, None =>
              view_calendar_symbol ++ [32] ++ startDate ++ [32] ++ time1
          | None, _ => view_calendar_symbol ++ [32] ++ startDate
          end
      end
  end.

(** The line that [createTask] inserts; [None] when the trimmed name is
    empty and nothing is created. *)
Definition newTaskLine (dateFormat : DateFormatType) (taskName : list Z)
    (args : list Z * option (list Z) * option (list Z) * option (list Z))
  : option (list Z) :=
  let '(startDate, endDate, startTime, endTime) := args in
  match trim taskName with
  | [] => None
  | c :: name =>
      Some (str "- [ ] " ++ (c :: name) ++ [32]
            ++ buildDatePart dateFormat startDate endDate startTime endTime)
  end.

(** ** The calendar view: completing a task *)

(** [line.replace(/^(\s*-\s*\[).\]/, "$1" + mark + "]")]: the check mark
    of a task line is replaced, any other line stays as it is. *)
Definition set_check_mark (mark : Z) (line : list Z) : list Z :=
  match drop_while is_space line with
  | dash :: r1 =>
      if dash =? 45 then
        match drop_while is_space r1 with
        | lb :: old :: rb :: r2 =>
            if (lb =? 91) && negb (is_line_terminator old) && (rb =? 93)
            then consumed line (old :: rb :: r2) ++ mark :: 93 :: r2
            else line
        | _ => line
        end
      else line
  | [] => line
  end.

(** [s.replace(re, "")] for a global pattern that matches no empty
    string: the units of [s] outside the matches, each match searched
    from the end of the one before. The pattern returns what follows the
    match; [skip] is the number of units of [s] that the previous match
    still covers. *)
Fixpoint remove_all (re : list Z -> option (list Z)) (s : list Z) (skip : nat)
  : list Z :=
  match s with
  | [] => []
  | c :: r =>
      match skip with
      | S k => remove_all re r k
      | O =>
          match re s with
          | Some rest => remove_all re r (length r - length rest)
          | None => c :: remove_all re r 0
          end
      end
  end.

(** The check-mark symbol in the pattern of [toggleTaskCompletion], in
    the file of the view as it is: the UTF-8 bytes of the symbol read as
    Windows-1252 text, three units, and not the unit 9989 of
    [DATE_SYMBOLS]. *)
Definition view_check_mark_symbol : list Z := [226; 339; 8230].

(** The pattern of the completion date that is removed: white space, the
    symbol of the view, an optional variation selector, white space, a
    date and an optional time. *)
Definition match_done_emoji (s : list Z) : option (list Z) :=
  let s0 := drop_while is_space s in
  if starts_with view_check_mark_symbol s0 then
    let r0 := drop (length view_check_mark_symbol) s0 in
    let r1 := match r0 with
              | x :: r => if x =? 65039 then r else r0
              | [] => r0
              end in
    match match_iso_date (drop_while is_space r1) with
    | Some (_, r2) => Some (snd (match_opt_time r2))
    | None => None
    end
  else None.

(** A pattern of ASCII letters under the [i] flag: a unit outside ASCII
    matches no ASCII letter. *)
Fixpoint starts_with_ci (pat s : list Z) : bool :=
  match pat, s with
  | [], _ => true
  | p :: pat', c :: s' => (lower p =? lower c) && starts_with_ci pat' s'
  | _ :: _, [] => false
  end.

(** [(?:done|completed|completion|done date|completion date)::] *)
Definition done_keys : list (list Z) :=
  [str "done"; str "completed"; str "completion"; str "done date";
   str "completion date"].

Fixpoint match_key (keys : list (list Z)) (s : list Z) : option (list Z) :=
  match keys with
  | [] => None
  | key :: more =>
      if starts_with_ci (key ++ str "::") s
      then Some (drop (length key + 2) s)
      else match_key more s
  end.

(** [/\s*[\[(](?:done|...)::\s*\d{4}-\d{2}-\d{2}(?:T\d{1,2}:\d{2})?[\])]/gi] *)
Definition match_done_dataview (s : list Z) : option (list Z) :=
  match drop_while is_space s with
  | open :: r0 =>
      if (open =? 91) || (open =? 40) then
        match match_key done_keys r0 with
        | Some r1 =>
            match match_iso_date (drop_while is_space r1) with
            | Some (_, r2) =>
                let closing r :=
                  match r with
                  | close :: rest =>
                      if (close =? 93) || (close =? 41) then Some rest else None
                  | [] => None
                  end in
                match r2 with
                | x :: r =>
                    if (x =? 84) || (x =? 116) then
                      match match_time r with
                      | Some (_, r3) => closing r3
                      | None => None
                      end
                    else closing r2
                | [] => None
                end
            | None => None
            end
        | None => None
        end
      else None
  | [] => None
  end.

(** [toggleTaskCompletion]: the line that it writes in place of [line],
    the task's line in the file; [today] is the time of the call. *)
Definition toggleTaskCompletion (dateFormat : DateFormatType) (task : TaskLine)
    (today : Z) (line : list Z) : list Z :=
  let isCompleting := negb (completed task) in
  let newMark := if isCompleting then 120 else 32 in
  let updatedLine := set_check_mark newMark line in
  match dateFormat with
  | TasksFormat =>
      if isCompleting
      then trimEnd updatedLine ++ [32] ++ formatDate Done today FmtTasks false
      else remove_all match_done_emoji updatedLine 0
  | DataviewFormat =>
      if isCompleting
      then trimEnd updatedLine ++ [32]
           ++ formatDate Done today FmtDataviewBracket false
      else remove_all match_done_dataview updatedLine 0
  | SimpleFormat | KanbanFormat => updatedLine
  end.

(** ** The calendar view: sections *)

(** A task as [parseMarkdown] stores it: [interface TaskLine] with the
    fields that locate the task in the file; [id] is [lineIndex] written
    as a string. *)
Record TaskEntry : Type := mkEntry {
  lineIndex : nat;
  sectionId : list Z;
  entry_task : TaskLine
}.

(** [interface CalendarSection] *)
Record CalendarSection : Type := mkSection {
  sec_id : list Z;
  sec_name : list Z;
  sec_level : nat;
  sec_parentId : option (list Z);
  startLine : nat;
  endLine : nat;
  sec_tasks : list TaskEntry
}.

Definition DEFAULT_SECTION_ID : list Z := str "Default".

(** [content.split("\n")] *)
Fixpoint split_lines (content : list Z) : list (list Z) :=
  match content with
  | [] => [[]]
  | c :: r =>
      if c =? 10 then [] :: split_lines r
      else match split_lines r with
           | line :: more => (c :: line) :: more
           | [] => [[c]]
           end
  end.

(** The units of [s] before the first line terminator: what the group
    of any characters at the end of a pattern matches. *)
Fixpoint up_to_terminator (s : list Z) : list Z :=
  match s with
  | [] => []
  | c :: r => if is_line_terminator c then [] else c :: up_to_terminator r
  end.

(** [SECTION_REGEX]: one or two hash marks at the start of the line,
    white space, and the rest of the line; the number of hash marks and
    the text. Two hash marks are tried first; with one, the white space
    cannot start at a second one. *)
Definition match_heading (line : list Z) : option (nat * list Z) :=
  match line with
  | h1 :: r1 =>
      if h1 =? 35 then
        match r1 with
        | h2 :: r2 =>
            if h2 =? 35 then
              match r2 with
              | c :: _ =>
                  if is_space c
                  then Some (2%nat, up_to_terminator (drop_while is_space r2))
                  else None
              | [] => None
              end
            else if is_space h2
                 then Some (1%nat, up_to_terminator (drop_while is_space r1))
                 else None
        | [] => None
        end
      else None
  | [] => None
  end.

(** The state of [parseMarkdown]: the two maps of the view, and the two
    variables of the loop. *)
Record ParseState : Type := mkState {
  sections : gmap (list Z) CalendarSection;
  currentEvents : gmap nat TaskEntry;
  currentSectionId : list Z;
  currentLevel1Id : option (list Z)
}.

Definition set_endLine (index : nat) (sec : CalendarSection) : CalendarSection :=
  mkSection (sec_id sec) (sec_name sec) (sec_level sec) (sec_parentId sec)
    (startLine sec) index (sec_tasks sec).

Definition push_task (entry : TaskEntry) (sec : CalendarSection)
  : CalendarSection :=
  mkSection (sec_id sec) (sec_name sec) (sec_level sec) (sec_parentId sec)
    (startLine sec) (endLine sec) (sec_tasks sec ++ [entry]).

(** The body of [lines.forEach((line, index) => ...)] in [parseMarkdown],
    for the configured priority order and format filter. *)
Definition parse_line (datePriority : list DateFieldType)
    (formatFilter : option DateFormatType) (nlines : nat) (st : ParseState)
    (index : nat) (line : list Z) : ParseState :=
  match match_heading line with
  | Some (headingLevel, text) =>
      let sections1 :=
        match sections st !! currentSectionId st with
        | Some prevSection =>
            <[currentSectionId st := set_endLine index prevSection]> (sections st)
        | None => sections st
        end in
      let headingText := trim text in
      let uniqueId :=
        match sections1 !! headingText with
        | Some _ => headingText ++ [95] ++ decimal (Z.of_nat index)
        | None => headingText
        end in
      let level1 :=
        if (headingLevel =? 1)%nat then Some uniqueId else currentLevel1Id st in
      let parentId :=
        if (headingLevel =? 1)%nat then None
        else if (headingLevel =? 2)%nat then currentLevel1Id st else None in
      mkState
        (<[uniqueId := mkSection uniqueId headingText headingLevel parentId
                         (index + 1) nlines []]> sections1)
        (currentEvents st) uniqueId level1
  | None =>
      match parse_task_line line datePriority formatFilter with
      | None => st
      | Some task =>
          let entry := mkEntry index (currentSectionId st) task in
          mkState
            (match sections st !! currentSectionId st with
             | Some section =>
                 <[currentSectionId st := push_task entry section]> (sections st)
             | None => sections st
             end)
            (<[index := entry]> (currentEvents st))
            (currentSectionId st) (currentLevel1Id st)
      end
  end.

Fixpoint parse_from (datePriority : list DateFieldType)
    (formatFilter : option DateFormatType) (nlines : nat) (st : ParseState)
    (index : nat) (lines : list (list Z)) : ParseState :=
  match lines with
  | [] => st
  | line :: more =>
      parse_from datePriority formatFilter nlines
        (parse_line datePriority formatFilter nlines st index line)
        (S index) more
  end.

(** [parseMarkdown], from the lines of the content. *)
Definition parseMarkdown (lines : list (list Z))
    (datePriority : list DateFieldType) (formatFilter : option DateFormatType)
  : ParseState :=
  parse_from datePriority formatFilter (length lines)
    (mkState
       {[ DEFAULT_SECTION_ID :=
            mkSection DEFAULT_SECTION_ID (str "Default") 0 None 0 (length lines) [] ]}
       ∅ DEFAULT_SECTION_ID None)
    0 lines.

(** [insertIndex] of [createTask]: after the last task of the active
    section; without tasks, at the start of the section, or at the end
    of the one without a heading; at the end of the file without a
    section. *)
Definition insertIndex (section : option CalendarSection) (nlines : nat) : nat :=
  Nat.min
    match section with
    | Some sec =>
        match last (sec_tasks sec) with
        | Some lastTask => (lineIndex lastTask + 1)%nat
        | None =>
            if negb (string_eqb (sec_id sec) DEFAULT_SECTION_ID)
            then startLine sec else endLine sec
        end
    | None => nlines
    end
    nlines.

(** [lines.splice(index, 0, line)] for an index within the array. *)
Definition splice_in (index : nat) (line : list Z) (lines : list (list Z))
  : list (list Z) :=
  take index lines ++ line :: drop index lines.

(** The lines that [createTask] writes; [None] when it returns before
    writing. *)
Definition createTask (lines : list (list Z)) (section : option CalendarSection)
    (dateFormat : DateFormatType) (taskName : list Z)
    (args : list Z * option (list Z) * option (list Z) * option (list Z))
  : option (list (list Z)) :=
  match newTaskLine dateFormat taskName args with
  | None => None
  | Some newLine =>
      Some (splice_in (insertIndex section (length lines)) newLine lines)
  end.

(** The tasks of a section are in the order of their lines. *)
Definition by_line (a b : TaskEntry) : Prop := (lineIndex a < lineIndex b)%nat.

(** What holds of the state when the first [k] lines are done. *)
Definition parsed_up_to (lines : list (list Z)) (k : nat) (st : ParseState)
  : Prop :=
  (forall i e, currentEvents st !! i = Some e ->
     (i < k)%nat /\ lineIndex e = i
     /\ lines !! i = Some (markdown (entry_task e))
     /\ is_Some (sections st !! sectionId e))
  /\ (exists cur, sections st !! currentSectionId st = Some cur
                  /\ endLine cur = length lines)
  /\ (forall id sec, sections st !! id = Some sec ->
        sec_id sec = id
        /\ (startLine sec <= k)%nat
        /\ (startLine sec <= endLine sec <= length lines)%nat
        /\ (id <> currentSectionId st -> (endLine sec <= k)%nat)
        /\ StronglySorted by_line (sec_tasks sec)
        /\ forall e, e ∈ sec_tasks sec ->
             (startLine sec <= lineIndex e)%nat /\ (lineIndex e < k)%nat
             /\ (lineIndex e < endLine sec)%nat
             /\ lines !! lineIndex e = Some (markdown (entry_task e))
             /\ sectionId e = id
             /\ currentEvents st !! lineIndex e = Some e).

(** The field format that goes with a format setting; for the Dataview
    setting the view writes the bracket form. *)
Definition written_format (dateFormat : DateFormatType) : FieldFormat :=
  match dateFormat with
  | TasksFormat => FmtTasks
  | DataviewFormat => FmtDataviewBracket
  | SimpleFormat => FmtSimple
  | KanbanFormat => FmtKanban
  end.

(** The line of an open task with a name and one due date without a
    time, the date as [formatDate] writes it. *)
Definition day_task_line (fmt : FieldFormat) (name : list Z) (t : Z)
  : list Z :=
  str "- [ ] " ++ name ++ [32] ++ formatDate Due t fmt false.

(** A name as [createTask] trims it: not empty, no white space at
    either end, and no unit at which a date can start. *)
Definition plain_name (name : list Z) : Prop :=
  name <> []
  /\ (forall c r, name = c :: r -> is_space c = false)
  /\ (forall c, last name = Some c -> is_space c = false)
  /\ Forall (fun c => plain_unit c = true) name.

(** [lines.join("\n")] *)
Fixpoint join_lines (lines : list (list Z)) : list Z :=
  match lines with
  | [] => []
  | [line] => line
  | line :: more => line ++ 10 :: join_lines more
  end.

(** The line of an open task in the Kanban format with a name, a date
    and a time token, as [createTask] writes it for a selection that
    starts at a time of day. *)
Definition timed_kanban_line (name : list Z) (t : Z) : list Z :=
  str "- [ ] " ++ name ++ [32]
  ++ buildDatePart KanbanFormat (format_date t) None (Some (format_time t)) None.

(** ** Further examples *)

(** An open task with a due date. *)
Definition line_open : list Z :=
  str "- [ ] Ship " ++ calendar_symbol ++ str " 2025-03-01".

(** A file with a task before the first heading and one below it. *)
Definition lines_two_sections : list (list Z) :=
  [line_open; str "# Later"; line_trip; str "notes"].

Definition empty_section : CalendarSection := mkSection [] [] 0 None 0 0 [].

(** The section without a heading of [lines_two_sections]. *)
Definition section_default : CalendarSection :=
  default empty_section
    (sections (parseMarkdown lines_two_sections default_priority None)
       !! DEFAULT_SECTION_ID).

(** A rule that colours overdue tasks, and the colour data of a task
    dated 2025-11-29. *)
Definition rule_overdue : ColorRule :=
  mkRule true IsOverdue None (mkTheme (str "#d00") (str "#f66")) None.

Definition colour_data_ship : TaskColorData :=
  mkColorData (str "Ship release") line_ship (Some (midnight "2025-11-29"))
    [field_ship_due; field_ship_start] false DEFAULT_SECTION_ID.

(** A task named with two spaces in a row, with a due date in the
    Dataview format on 2025-03-01. *)
Definition line_created : list Z :=
  day_task_line FmtDataviewBracket (str "Ship  it") (midnight "2025-03-01").

Definition task_created : TaskLine :=
  default empty_task
    (parse_task_line line_created default_priority (Some DataviewFormat)).

(** A Kanban task at 09:00 on 2025-03-01. *)
Definition line_call : list Z :=
  timed_kanban_line (str "Call") (midnight "2025-03-01" + 9 * msPerHour).

Definition task_call : TaskLine :=
  default empty_task
    (parse_task_line line_call default_priority (Some KanbanFormat)).

(** The line of a new task in the simple format, due on 2025-03-02. *)
Definition line_pack : list Z := str "- [ ] Pack @ 2025-03-02".

(** * Properties *)

(** ** Spans of the extracted fields *)

Lemma index_from_ge pat s i k : index_from pat s i = Some k -> (i <= k)%nat.
Proof.
  revert i. induction s as [|c r IH]; intros i; simpl.
  - destruct (starts_with pat []); [intros [= <-]; lia | discriminate].
  - destruct (starts_with pat (c :: r)); [intros [= <-]; lia |].
    intros H. apply IH in H. lia.
Qed.

Lemma indexOf_ge pat s from k : indexOf pat s from = Some k -> (from <= k)%nat.
Proof. apply index_from_ge. Qed.

Lemma closing_loop_ge open close s i nesting escaped k :
  closing_loop open close s i nesting escaped = Some k -> (i <= k)%nat.
Proof.
  revert i nesting escaped.
  induction s as [|c r IH]; intros i nesting escaped; simpl; [discriminate |].
  destruct (c =? 92); [intros H; apply IH in H; lia |].
  destruct escaped; [intros H; apply IH in H; lia |].
  match goal with |- context [if ?b then Some i else _] => destruct b end.
  - intros [= <-]. lia.
  - intros H. apply IH in H. lia.
Qed.

Lemma findDataviewSeparator_ge line from key valueIndex :
  findDataviewSeparator line from = Some (key, valueIndex) ->
  (from + 2 <= valueIndex)%nat.
Proof.
  unfold findDataviewSeparator.
  destruct (indexOf _ line from) as [sep|] eqn:E; [|discriminate].
  intros [= _ <-]. apply indexOf_ge in E. lia.
Qed.

Lemma findClosingBracket_ge line from open close value endIndex :
  findClosingBracket line from open close = Some (value, endIndex) ->
  (from < endIndex)%nat.
Proof.
  unfold findClosingBracket.
  destruct (closing_loop _ _ _ _ _ _) as [i|] eqn:E; [|discriminate].
  intros [= _ <-]. apply closing_loop_ge in E. lia.
Qed.

Lemma match_iso_date_self s d rest :
  match_iso_date s = Some (d, rest) -> s = d ++ rest /\ match_iso_date d = Some (d, []).
Proof.
  unfold match_iso_date.
  destruct s as [|a [|b [|c [|d0 [|e [|f [|g [|h [|i [|j r]]]]]]]]]]; try discriminate.
  destruct (_ && _) eqn:E; [|discriminate].
  intros [= <- <-]. split; [reflexivity |]. rewrite E. reflexivity.
Qed.

(** A round that goes on goes on from a later offset; a field that it
    pushes starts at or after [searchIndex], is not empty, ends where
    the search goes on, and carries the midnight of its date literal. *)
Lemma dataview_round_spec line open close fmt searchIndex r next :
  dataview_round line open close fmt searchIndex = Some (r, next) ->
  (searchIndex < next)%nat /\
  forall d, r = Some d ->
    (searchIndex <= start d)%nat /\ (start d < end_ d)%nat /\ end_ d = next
    /\ format d = fmt /\ hasTime d = None
    /\ exists dateMatch,
         match_iso_date dateMatch = Some (dateMatch, [])
         /\ moment_of_iso dateMatch = Some (date d).
Proof.
  unfold dataview_round.
  destruct (indexOf [open] line searchIndex) as [foundIndex|] eqn:Ef; [|discriminate].
  apply indexOf_ge in Ef.
  destruct (findDataviewSeparator line (foundIndex + 1)) as [[key valueIndex]|] eqn:Es;
    [|intros [= <- <-]; split; [lia | discriminate]].
  apply findDataviewSeparator_ge in Es.
  destruct (existsb _ wrapper_chars);
    [intros [= <- <-]; split; [lia | discriminate] |].
  destruct (findClosingBracket line valueIndex open close) as [[value endIndex]|] eqn:Ec;
    [|intros [= <- <-]; split; [lia | discriminate]].
  apply findClosingBracket_ge in Ec.
  destruct (alias_lookup _ key) as [dateType0|];
    [|intros [= <- <-]; split; [lia | discriminate]].
  destruct (match_iso_date (trim value)) as [[dateMatch rest]|] eqn:Em;
    [|intros [= <- <-]; split; [lia | discriminate]].
  destruct (moment_of_iso dateMatch) as [date0|] eqn:Ed;
    [|intros [= <- <-]; split; [lia | discriminate]].
  intros [= <- <-]. split; [lia |]. intros d [= <-]. cbn.
  apply match_iso_date_self in Em as [_ Em].
  repeat split; try lia. exists dateMatch. auto.
Qed.

(** The loop of [extractDataviewDates] ends because [searchIndex]
    reaches the end of the line, not because the rounds run out: any
    number of rounds from [length line - searchIndex] on gives the same
    fields. *)
Lemma dataview_loop_fuel line open close fmt fuel1 fuel2 searchIndex :
  (length line - searchIndex <= fuel1)%nat ->
  (length line - searchIndex <= fuel2)%nat ->
  dataview_loop fuel1 line open close fmt searchIndex =
  dataview_loop fuel2 line open close fmt searchIndex.
Proof.
  revert fuel2 searchIndex.
  induction fuel1 as [|fuel1 IH]; intros fuel2 searchIndex H1 H2.
  - destruct fuel2; [reflexivity |]. cbn [dataview_loop].
    replace (searchIndex <? length line)%nat with false; [reflexivity |].
    symmetry. apply Nat.ltb_ge. lia.
  - destruct fuel2 as [|fuel2]; cbn [dataview_loop].
    + replace (searchIndex <? length line)%nat with false; [reflexivity |].
      symmetry. apply Nat.ltb_ge. lia.
    + destruct (Nat.ltb_spec searchIndex (length line)) as [Hlt|Hge];
        [|reflexivity]. cbn [negb].
      destruct (dataview_round line open close fmt searchIndex)
        as [[r next]|] eqn:Er; [|reflexivity].
      apply dataview_round_spec in Er as [Hnext _].
      rewrite (IH fuel2 next) by lia. reflexivity.
Qed.

Lemma dataview_loop_fields fuel line open close fmt searchIndex d :
  d ∈ dataview_loop fuel line open close fmt searchIndex ->
  (searchIndex <= start d)%nat /\ (start d < end_ d)%nat
  /\ format d = fmt /\ hasTime d = None
  /\ exists dateMatch,
       match_iso_date dateMatch = Some (dateMatch, [])
       /\ moment_of_iso dateMatch = Some (date d).
Proof.
  revert searchIndex. induction fuel as [|fuel IH]; intros searchIndex; cbn [dataview_loop].
  - intros H. inversion H.
  - destruct (negb _); [intros H; inversion H |].
    destruct (dataview_round line open close fmt searchIndex)
      as [[r next]|] eqn:Er; [|intros H; inversion H].
    apply dataview_round_spec in Er as [Hnext Hr].
    assert (Hrec : d ∈ dataview_loop fuel line open close fmt next ->
      (searchIndex <= start d)%nat /\ (start d < end_ d)%nat
      /\ format d = fmt /\ hasTime d = None
      /\ exists dateMatch,
           match_iso_date dateMatch = Some (dateMatch, [])
           /\ moment_of_iso dateMatch = Some (date d)).
    { intros H. apply IH in H as (? & ? & ?). split; [lia | auto]. }
    destruct r as [d'|]; [|exact Hrec].
    rewrite elem_of_cons. intros [->|H]; [|auto].
    destruct (Hr d' eq_refl) as (? & ? & ? & ? & ? & ?). auto.
Qed.

(** Every match of a global pattern is a match of the pattern at the
    offset it is reported at. *)
Lemma exec_all_elem {M : Type} (re : list Z -> option M) (len : M -> nat)
    (s : list Z) (idx skip i : nat) (m : M) :
  (i, m) ∈ exec_all re len s idx skip ->
  exists k, i = (idx + k)%nat /\ (k < length s)%nat /\ re (drop k s) = Some m.
Proof.
  revert idx skip. induction s as [|c r IH]; intros idx skip; cbn [exec_all].
  - intros H. inversion H.
  - assert (Hrec : forall skip', (i, m) ∈ exec_all re len r (S idx) skip' ->
      exists k, i = (idx + k)%nat /\ (k < length (c :: r))%nat
                /\ re (drop k (c :: r)) = Some m).
    { intros skip' H. apply IH in H as (k & -> & Hk & Hre).
      exists (S k). cbn [length drop]. repeat split; [lia | lia | exact Hre]. }
    destruct skip as [|skip]; [|apply Hrec].
    destruct (re (c :: r)) as [m'|] eqn:E; [|apply Hrec].
    rewrite elem_of_cons. intros [[= -> ->]|H]; [|eapply Hrec, H].
    exists 0%nat. cbn [length drop]. repeat split; [lia | lia | exact E].
Qed.

Lemma emoji_field_span ty hit d : emoji_field ty hit = Some d -> span_ok d.
Proof.
  destruct hit as [index m]. unfold emoji_field, span_ok.
  destruct (moment_of_iso _); [|discriminate].
  destruct (m_time m) as [t|]; [destruct (split_time t) |];
    intros [= <-]; cbn; lia.
Qed.

Lemma simple_field_span hit d : simple_field hit = Some d -> span_ok d.
Proof.
  destruct hit as [index m]. unfold simple_field, span_ok.
  destruct (moment_of_iso _); [|discriminate]. intros [= <-]; cbn; lia.
Qed.

Lemma kanban_field_span tm hit d : kanban_field tm hit = Some d -> span_ok d.
Proof.
  destruct hit as [index m], tm as [[b h] mi]. unfold kanban_field, span_ok.
  destruct (moment_of_iso _); [|discriminate]. intros [= <-]; cbn; lia.
Qed.

Lemma extractEmojiDates_elem line d :
  d ∈ extractEmojiDates line ->
  exists ty syms hit,
    (ty, syms) ∈ EMOJI_DATE_PATTERNS
    /\ hit ∈ exec_all (match_emoji syms) match_length line 0 0
    /\ emoji_field ty hit = Some d.
Proof.
  unfold extractEmojiDates. rewrite list_elem_of_In, in_flat_map.
  intros ([ty syms] & Hin & Hd). apply list_elem_of_In in Hin, Hd.
  apply list_elem_of_omap in Hd as (hit & Hhit & Hf). eauto 6.
Qed.

Lemma extractDataviewDates_elem line d :
  d ∈ extractDataviewDates line ->
  exists open close fmt,
    (open, close, fmt) ∈ DATAVIEW_WRAPPERS
    /\ d ∈ dataview_loop (length line) line open close fmt 0.
Proof.
  unfold extractDataviewDates. rewrite list_elem_of_In, in_flat_map.
  intros ([[open close] fmt] & Hin & Hd). apply list_elem_of_In in Hin, Hd.
  eauto 6.
Qed.

Lemma collect_dates_elem line formatFilter d :
  d ∈ collect_dates line formatFilter ->
  d ∈ extractEmojiDates line \/ d ∈ extractDataviewDates line
  \/ d ∈ extractSimpleDates line \/ d ∈ extractKanbanDates line.
Proof.
  unfold collect_dates. rewrite !elem_of_app.
  repeat match goal with |- context [if ?b then _ else _] => destruct b end;
    rewrite ?elem_of_nil; tauto.
Qed.

Lemma collect_dates_span line formatFilter d :
  d ∈ collect_dates line formatFilter -> span_ok d.
Proof.
  intros H. apply collect_dates_elem in H as [H|[H|[H|H]]].
  - apply extractEmojiDates_elem in H as (ty & syms & hit & _ & _ & H).
    eapply emoji_field_span, H.
  - apply extractDataviewDates_elem in H as (open & close & fmt & _ & H).
    apply dataview_loop_fields in H as (_ & H & _). unfold span_ok. lia.
  - apply list_elem_of_omap in H as (hit & _ & H). eapply simple_field_span, H.
  - apply list_elem_of_omap in H as (hit & _ & H). eapply kanban_field_span, H.
Qed.

(** ** The stable sort by start *)

Lemma insert_by_start_perm x l : insert_by_start x l ≡ₚ x :: l.
Proof.
  induction l as [|y r IH]; cbn; [reflexivity |].
  destruct (start x <=? start y)%nat; [reflexivity |].
  rewrite IH. apply Permutation_swap.
Qed.

Lemma sort_by_start_perm l : sort_by_start l ≡ₚ l.
Proof.
  induction l as [|x r IH]; cbn; [reflexivity |].
  rewrite insert_by_start_perm. by f_equiv.
Qed.

Lemma insert_by_start_sorted x l :
  StronglySorted start_le l -> StronglySorted start_le (insert_by_start x l).
Proof.
  induction 1 as [|y r Hr IH Hy]; cbn; [repeat constructor |].
  destruct (Nat.leb_spec (start x) (start y)) as [Hle|Hgt].
  - constructor; [by constructor |]. constructor; [exact Hle |].
    eapply Forall_impl; [exact Hy |]. unfold start_le. intros; cbn in *; lia.
  - constructor; [exact IH |].
    rewrite insert_by_start_perm. constructor; [unfold start_le; lia | exact Hy].
Qed.

Lemma sort_by_start_sorted l : StronglySorted start_le (sort_by_start l).
Proof.
  induction l as [|x r IH]; cbn; [constructor |].
  by apply insert_by_start_sorted.
Qed.

(** Stability: fields with the same start keep their order. *)
Lemma insert_by_start_stable k x l :
  filter (fun d => start d = k) (insert_by_start x l)
  = filter (fun d => start d = k) (x :: l).
Proof.
  induction l as [|y r IH]; cbn [insert_by_start]; [reflexivity |].
  destruct (Nat.leb_spec (start x) (start y)) as [Hle|Hgt]; [reflexivity |].
  rewrite filter_cons, IH, !filter_cons.
  repeat case_decide; try reflexivity; lia.
Qed.

Lemma sort_by_start_stable k l :
  filter (fun d => start d = k) (sort_by_start l)
  = filter (fun d => start d = k) l.
Proof.
  induction l as [|x r IH]; cbn [sort_by_start foldr]; [reflexivity |].
  fold (sort_by_start r).
  rewrite insert_by_start_stable, !filter_cons, IH. reflexivity.
Qed.

(** ** The walk that removes overlaps *)

Lemma remove_overlaps_snoc pre d :
  remove_overlaps (pre ++ [d]) = keep_if_free (remove_overlaps pre) d.
Proof. unfold remove_overlaps. by rewrite fold_left_app. Qed.

Lemma fold_keep_sublist l acc :
  exists kept, fold_left keep_if_free l acc = acc ++ kept /\ kept `sublist_of` l.
Proof.
  revert acc. induction l as [|d r IH]; intros acc; cbn [fold_left].
  - exists []. by rewrite app_nil_r.
  - destruct (IH (keep_if_free acc d)) as (kept & -> & Hsub).
    unfold keep_if_free.
    destruct (last acc) as [ld|]; [destruct (end_ ld <=? start d)%nat |].
    + exists (d :: kept). rewrite <- app_assoc. split; [done | by constructor].
    + exists kept. split; [done | by constructor].
    + exists (d :: kept). rewrite <- app_assoc. split; [done | by constructor].
Qed.

Lemma remove_overlaps_sublist l : remove_overlaps l `sublist_of` l.
Proof.
  destruct (fold_keep_sublist l []) as (kept & E & Hsub).
  unfold remove_overlaps. by rewrite E.
Qed.

Lemma keep_if_free_before acc d :
  Forall span_ok acc -> span_ok d ->
  StronglySorted before acc ->
  Forall span_ok (keep_if_free acc d)
  /\ StronglySorted before (keep_if_free acc d).
Proof.
  intros Hspan Hd Hsorted. unfold keep_if_free.
  destruct (last acc) as [ld|] eqn:El.
  - destruct (Nat.leb_spec (end_ ld) (start d)) as [Hle|Hgt]; [|done].
    split; [apply Forall_app; auto |].
    apply last_Some in El as [acc' ->].
    apply StronglySorted_app. repeat split; [|done|repeat constructor].
    intros a b Ha Hb. apply list_elem_of_singleton in Hb as ->.
    apply elem_of_app in Ha as [Ha|Ha].
    + apply StronglySorted_app in Hsorted as (Hab & _ & _).
      specialize (Hab a ld Ha ltac:(by apply list_elem_of_singleton)).
      apply Forall_app in Hspan as [_ Hld]. rewrite Forall_singleton in Hld.
      unfold before, span_ok in *. lia.
    + apply list_elem_of_singleton in Ha as ->. exact Hle.
  - apply last_None in El as ->. cbn. split; repeat constructor; done.
Qed.

Lemma remove_overlaps_before l :
  Forall span_ok l ->
  Forall span_ok (remove_overlaps l) /\ StronglySorted before (remove_overlaps l).
Proof.
  induction l as [|d r IH] using rev_ind; intros Hspan.
  - cbn. split; constructor.
  - apply Forall_app in Hspan as [Hr Hd]. rewrite Forall_singleton in Hd.
    rewrite remove_overlaps_snoc.
    destruct (IH Hr) as [? ?]. by apply keep_if_free_before.
Qed.

Lemma before_start_le l :
  Forall span_ok l -> StronglySorted before l -> StronglySorted start_le l.
Proof.
  intros Hspan. induction 1 as [|x r Hr IH Hx]; [constructor |].
  apply Forall_cons in Hspan as [Hsx Hsr].
  constructor; [auto |].
  eapply Forall_impl; [exact Hx |].
  unfold before, start_le, span_ok in *. intros; cbn in *; lia.
Qed.

(** ** C1: the extracted list is sorted and free of overlaps *)

(** The fields of a line have proper spans, none overlaps a later one,
    and they are ascending in [start]. *)
Lemma extractAllDates_disjoint (line : list Z)
    (formatFilter : option DateFormatType) :
  Forall span_ok (extractAllDates line formatFilter)
  /\ StronglySorted before (extractAllDates line formatFilter)
  /\ StronglySorted start_le (extractAllDates line formatFilter).
Proof.
  assert (Hspan : Forall span_ok (sort_by_start (collect_dates line formatFilter))).
  { apply Forall_forall. intros d Hd.
    rewrite sort_by_start_perm in Hd. eapply collect_dates_span, Hd. }
  destruct (remove_overlaps_before _ Hspan) as [Hs Hb].
  split; [exact Hs |]. split; [exact Hb | by apply before_start_le].
Qed.

(** C1. For every line and every format filter, [extractAllDates]
    returns what the left-to-right walk keeps of the stable sort by
    [start] of the collected fields: the sort is a permutation of the
    collected fields, ascending in [start], that keeps the order of
    fields with equal [start]; the walk keeps a field exactly when there
    is no kept field yet or the field starts at or after the [end] of the
    last kept one, and otherwise leaves the kept fields as they are; the
    result is a sublist of the sorted fields, ascending in [start], and
    every field of it ends before any later one starts. *)
Theorem extractAllDates_sorted_disjoint (line : list Z)
    (formatFilter : option DateFormatType) :
  let collected := collect_dates line formatFilter in
  let sorted := sort_by_start collected in
  let result := extractAllDates line formatFilter in
  (sorted ≡ₚ collected
   /\ StronglySorted start_le sorted
   /\ forall k, filter (fun d => start d = k) sorted
                = filter (fun d => start d = k) collected)
  /\ result = remove_overlaps sorted
  /\ (forall pre d post, sorted = pre ++ d :: post ->
        remove_overlaps (pre ++ [d]) =
        match last (remove_overlaps pre) with
        | None => remove_overlaps pre ++ [d]
        | Some lastDate =>
            if decide (end_ lastDate <= start d)%nat
            then remove_overlaps pre ++ [d]
            else remove_overlaps pre
        end)
  /\ result `sublist_of` sorted
  /\ StronglySorted start_le result
  /\ StronglySorted before result.
Proof.
  intros collected sorted result.
  destruct (extractAllDates_disjoint line formatFilter) as (_ & Hb & Hs).
  split; [|split; [|split; [|split; [|split]]]].
  - split; [apply sort_by_start_perm |].
    split; [apply sort_by_start_sorted | intros k; apply sort_by_start_stable].
  - reflexivity.
  - intros pre d post _. rewrite remove_overlaps_snoc. unfold keep_if_free.
    destruct (last (remove_overlaps pre)) as [ld|]; [|reflexivity].
    destruct (Nat.leb_spec (end_ ld) (start d)); case_decide; try reflexivity; lia.
  - apply remove_overlaps_sublist.
  - exact Hs.
  - exact Hb.
Qed.

(** ** C6: the primary date *)

Lemma find_type_first ty allDates found :
  find_type ty allDates = Some found ->
  exists l1 l2, allDates = l1 ++ found :: l2 /\ type found = ty
                /\ Forall (fun d => type d <> ty) l1.
Proof.
  unfold find_type. induction allDates as [|d r IH]; cbn; [discriminate |].
  case_bool_decide as Hd.
  - intros [= <-]. exists [], r. repeat split; [exact Hd | constructor].
  - intros H. destruct (IH H) as (l1 & l2 & -> & Hty & Hl1).
    exists (d :: l1), l2. repeat split; [exact Hty | by constructor].
Qed.

Lemma first_by_priority_app before_ ty after allDates found :
  Forall (fun ty' => find_type ty' allDates = None) before_ ->
  find_type ty allDates = Some found ->
  first_by_priority (before_ ++ ty :: after) allDates = Some found.
Proof.
  induction 1 as [|ty' before_ Hty' _ IH]; intros Hfound; cbn.
  - by rewrite Hfound.
  - rewrite Hty'. by apply IH.
Qed.

Lemma first_by_priority_none priorityOrder allDates :
  Forall (fun ty => find_type ty allDates = None) priorityOrder ->
  first_by_priority priorityOrder allDates = None.
Proof. induction 1 as [|ty r Hty _ IH]; cbn; [done | by rewrite Hty]. Qed.

(** C6. [getPrimaryDate] returns [null] exactly when [extractAllDates]
    returns no field. Otherwise, when [ty] is the earliest entry of the
    priority order of which the line has a field, it returns the first
    extracted field of type [ty]; when the line has a field of no entry
    of the priority order, and so for the empty order, it returns the
    first extracted field. *)
Theorem getPrimaryDate_spec (line : list Z) (priorityOrder : list DateFieldType)
    (formatFilter : option DateFormatType) :
  let allDates := extractAllDates line formatFilter in
  (getPrimaryDate line priorityOrder formatFilter = None <-> allDates = [])
  /\ (forall before_ ty after found,
        priorityOrder = before_ ++ ty :: after ->
        Forall (fun ty' => find_type ty' allDates = None) before_ ->
        find_type ty allDates = Some found ->
        getPrimaryDate line priorityOrder formatFilter = Some found
        /\ exists l1 l2, allDates = l1 ++ found :: l2 /\ type found = ty
                         /\ Forall (fun d => type d <> ty) l1)
  /\ (Forall (fun ty => find_type ty allDates = None) priorityOrder ->
      getPrimaryDate line priorityOrder formatFilter = head allDates)
  /\ getPrimaryDate line [] formatFilter = head allDates.
Proof.
  intros allDates. unfold getPrimaryDate. fold allDates.
  split; [|split; [|split]].
  - destruct allDates as [|first rest]; [done |].
    destruct (first_by_priority _ _); split; discriminate.
  - intros before_ ty after found -> Hnone Hfound.
    split; [|by apply find_type_first].
    rewrite (first_by_priority_app _ _ _ _ _ Hnone Hfound).
    destruct allDates; [discriminate | reflexivity].
  - intros Hnone. rewrite (first_by_priority_none _ _ Hnone).
    by destruct allDates.
  - by destruct allDates.
Qed.

(** ** C5: reconstruction in canonical order *)

Lemma fold_append_update dateUpdates order result :
  fold_left (append_update dateUpdates) order result
  = result ++ flat_map (appended dateUpdates) order.
Proof.
  revert result. induction order as [|ty r IH]; intros result; cbn.
  - by rewrite app_nil_r.
  - rewrite IH. unfold append_update, appended.
    destruct (dateUpdates !! ty) as [[|c f]|]; cbn;
      rewrite <- ?app_assoc; reflexivity.
Qed.

Lemma reconstructLine_eq (baseLine : list Z)
    (dateUpdates : gmap DateFieldType (list Z)) :
  reconstructLine baseLine dateUpdates
  = trimEnd baseLine
    ++ appended dateUpdates Start ++ appended dateUpdates Scheduled
    ++ appended dateUpdates Due ++ appended dateUpdates Created
    ++ appended dateUpdates Done ++ appended dateUpdates Cancelled.
Proof.
  unfold reconstructLine. rewrite fold_append_update. cbn.
  by rewrite app_nil_r.
Qed.

(** ** C3 and C9: clock arithmetic, event times, the moved due date *)

Lemma end_of_day_clock t :
  day_of (end_of_day t) = day_of t
  /\ hour (end_of_day t) = 23 /\ minute (end_of_day t) = 59.
Proof.
  unfold end_of_day, set_minute, set_hour, day_of, hour, minute,
    msPerDay, msPerHour, msPerMinute.
  Z.div_mod_to_equations. lia.
Qed.

(** C3. The [start] and [end] of a task's event follow the case
    analysis: a Kanban task with a time starts at its date and time and
    ends 30 minutes later; otherwise, with both a [Start] and a [Due]
    field, the event runs from the one to the other, as dates when
    neither has a time, and else as dates and times, the end being the
    due date at 23:59 of the same day when [Due] has no time and the due
    date and time as parsed when it has one; with only one of the two
    fields, the event starts and ends on that date, or, when the field has
    a time, starts at it and ends 30 minutes later; with neither, it
    starts at the primary date and time and ends 30 minutes later when
    the primary field has a time, and else starts and ends on the primary
    date. *)
Theorem event_times_cases (task : TaskLine) :
  let kanbanTimed := isKanban task && truthy (task_hasTime task) in
  let startField := find_type Start (allDates task) in
  let dueField := find_type Due (allDates task) in
  (kanbanTimed = true ->
     event_times task
     = (format_date_time (task_date task),
        format_date_time (task_date task + 30 * msPerMinute)))
  /\ (kanbanTimed = false ->
      forall sf df, startField = Some sf -> dueField = Some df ->
        (truthy (hasTime sf) = false -> truthy (hasTime df) = false ->
           event_times task = (format_date (date sf), format_date (date df)))
        /\ (truthy (hasTime df) = true ->
              event_times task
              = (format_date_time (date sf), format_date_time (date df)))
        /\ (truthy (hasTime sf) = true -> truthy (hasTime df) = false ->
              exists e,
                event_times task
                = (format_date_time (date sf), format_date_time e)
                /\ day_of e = day_of (date df)
                /\ hour e = 23 /\ minute e = 59))
  /\ (kanbanTimed = false ->
      forall f, (startField = Some f /\ dueField = None)
                \/ (startField = None /\ dueField = Some f) ->
        (truthy (hasTime f) = false ->
           event_times task = (format_date (date f), format_date (date f)))
        /\ (truthy (hasTime f) = true ->
              event_times task
              = (format_date_time (date f),
                 format_date_time (date f + 30 * msPerMinute))))
  /\ (kanbanTimed = false -> startField = None -> dueField = None ->
        (truthy (task_hasTime task) = true ->
           event_times task
           = (format_date_time (task_date task),
              format_date_time (task_date task + 30 * msPerMinute)))
        /\ (truthy (task_hasTime task) = false ->
              event_times task
              = (format_date (task_date task), format_date (task_date task)))).
Proof.
  intros kanbanTimed startField dueField.
  unfold event_times. fold kanbanTimed startField dueField.
  unfold add_minutes.
  split; [|split; [|split]].
  - intros ->. reflexivity.
  - intros -> sf df -> ->. split; [|split].
    + intros -> ->. reflexivity.
    + intros ->. by rewrite orb_true_r.
    + intros -> ->. cbn. exists (end_of_day (date df)).
      split; [reflexivity | apply end_of_day_clock].
  - intros -> f [[-> ->]|[-> ->]]; split; intros ->; reflexivity.
  - intros -> -> ->. split; intros ->; reflexivity.
Qed.

(** The moment that a drop computes first. When the task has both a
    [Start] and a [Due] field, [newEndMoment] is the old due moment plus
    the milliseconds from the old start to the new start: it does not
    depend on the end that the calendar reports, and it is as far from
    the new start as the old due moment is from the old start. What the
    drop writes is made of this moment in further steps. *)
Theorem drop_preserves_duration (task : TaskLine) (newStart newEnd : Z)
    (startField dueField : ParsedDateField) :
  find_type Start (allDates task) = Some startField ->
  find_type Due (allDates task) = Some dueField ->
  drop_newEndMoment task newStart newEnd
  = date dueField + (newStart - date startField)
  /\ (forall otherEnd,
        drop_newEndMoment task newStart otherEnd
        = drop_newEndMoment task newStart newEnd)
  /\ drop_newEndMoment task newStart newEnd - newStart
     = date dueField - date startField.
Proof.
  intros Hs Hd. unfold drop_newEndMoment. rewrite Hs, Hd.
  unfold add_milliseconds, diff. repeat split; lia.
Qed.

(** C9. The handler computes the new due moment as the claim says, but
    what it writes does not keep the time from start to due. The trip
    from 2025-01-10 14:30 to 2025-01-12 is dropped on the midnight of
    2025-01-20: the start keeps its time of day, the due date is moved
    by the milliseconds from 2025-01-10 14:30 to that midnight and
    written without its time, so the line holds 2025-01-20 14:30 to
    2025-01-21 and the event is a day shorter than before. With an end
    reported at 15:00 the same drop writes the due date with a time:
    what is written depends on the end that the calendar reports. *)
Theorem drop_shortens_timed_range :
  find_type Start (allDates (task_of line_trip)) = Some field_trip_start
  /\ find_type Due (allDates (task_of line_trip)) = Some field_trip_due
  /\ event_times (task_of line_trip)
     = (str "2025-01-10 14:30", str "2025-01-12 23:59")
  /\ handleEventDrop (task_of line_trip) line_trip (midnight "2025-01-20")
       (midnight "2025-01-23")
     = str "- [ ] Trip " ++ departure_symbol ++ str " 2025-01-20 14:30 "
       ++ calendar_symbol ++ str " 2025-01-21"
  /\ event_times
       (task_of (handleEventDrop (task_of line_trip) line_trip
                   (midnight "2025-01-20") (midnight "2025-01-23")))
     = (str "2025-01-20 14:30", str "2025-01-21 23:59")
  /\ handleEventDrop (task_of line_trip) line_trip (midnight "2025-01-20")
       (midnight "2025-01-21" + 15 * msPerHour)
     = str "- [ ] Trip " ++ departure_symbol ++ str " 2025-01-20 14:30 "
       ++ calendar_symbol ++ str " 2025-01-21 09:30".
Proof. repeat split; vm_compute; reflexivity. Qed.

(** ** C7: the Kanban time token *)

Lemma moment_of_iso_midnight s t :
  moment_of_iso s = Some t -> exists days, t = days * msPerDay.
Proof.
  unfold moment_of_iso. destruct (_ && _); [|discriminate].
  intros [= <-]. eauto.
Qed.

(** On a midnight, applying a time adds its hours and minutes. *)
Lemma apply_time_midnight hours minutes days :
  apply_time hours minutes (days * msPerDay)
  = days * msPerDay + hours * msPerHour + minutes * msPerMinute.
Proof.
  unfold apply_time, set_second, set_minute, set_hour, day_of,
    msPerDay, msPerHour, msPerMinute.
  Z.div_mod_to_equations. lia.
Qed.

Lemma clock_of_time hours minutes days :
  0 <= hours < 24 -> 0 <= minutes < 60 ->
  let t := days * msPerDay + hours * msPerHour + minutes * msPerMinute in
  day_of t = days /\ hour t = hours /\ minute t = minutes.
Proof.
  intros Hh Hm. unfold day_of, hour, minute, msPerDay, msPerHour, msPerMinute.
  Z.div_mod_to_equations. lia.
Qed.

(** The first match of a pattern is at the least offset where it
    matches. *)
Lemma exec_first_spec {M : Type} (re : list Z -> option M) (s : list Z) :
  match exec_first re s with
  | Some m =>
      exists k, (k < length s)%nat /\ re (drop k s) = Some m
                /\ forall j, (j < k)%nat -> re (drop j s) = None
  | None => forall j, (j < length s)%nat -> re (drop j s) = None
  end.
Proof.
  induction s as [|c r IH]; cbn [exec_first].
  - cbn. intros; lia.
  - destruct (re (c :: r)) as [m|] eqn:E.
    + exists 0%nat. cbn. repeat split; [lia | exact E | intros; lia].
    + destruct (exec_first re r) as [m|].
      * destruct IH as (k & Hk & Hre & Hmin). exists (S k). cbn.
        repeat split; [lia | exact Hre |].
        intros [|j] Hj; [exact E | apply Hmin; lia].
      * intros [|j] Hj; [exact E | apply IH; cbn in Hj; lia].
Qed.

(** C7, as stated, fails: the pattern of the time token takes any two
    digits of hours and of minutes, and the setters carry what is too
    much into the hour and the day. With the token [@@{25:61}] the field
    of 2025-03-01 has [hasTime] true and is at 02:01 on 2025-03-02, not
    at that clock time. *)
Lemma kanban_time_out_of_range_carries :
  exists f,
    extractKanbanDates line_kanban_overflow = [f]
    /\ kanban_time line_kanban_overflow = (true, 25, 61)
    /\ type f = Due /\ hasTime f = Some true
    /\ format_date_time (date f) = str "2025-03-02 02:01"
    /\ hour (date f) <> 25 /\ minute (date f) <> 61.
Proof.
  eexists. split; [vm_compute; reflexivity |].
  repeat split; try (vm_compute; reflexivity); vm_compute; discriminate.
Qed.

(** C7 (amended). The Kanban grammar looks for one time token per line,
    the first match of [@@{H:mm}] from the left. Its fields are the
    [@{YYYY-MM-DD}] tokens with a valid date, in order, and each has type
    [Due]. When the line has a time token, every field has [hasTime] true
    and the date of its token with the hours and minutes of that one
    token applied, that is the midnight of its date plus that many hours
    and minutes: for a time below 24:00 with minutes below 60 these are
    the field's hour and minute, on the same day, and a larger time is
    carried into the hour and the day. When the line has no time token,
    every field has [hasTime] false and the midnight of its date. *)
Theorem kanban_time_is_line_scoped (line : list Z) :
  let tokens := exec_all match_kanban_date match_length line 0 0 in
  (match exec_first match_kanban_time line with
   | Some timeStr =>
       exists k, (k < length line)%nat
         /\ match_kanban_time (drop k line) = Some timeStr
         /\ (forall j, (j < k)%nat -> match_kanban_time (drop j line) = None)
         /\ kanban_time line
            = (true, fst (split_time timeStr), snd (split_time timeStr))
   | None =>
       (forall j, (j < length line)%nat -> match_kanban_time (drop j line) = None)
       /\ kanban_time line = (false, 0, 0)
   end)
  /\ extractKanbanDates line = omap (kanban_field (kanban_time line)) tokens
  /\ forall d, d ∈ extractKanbanDates line ->
       type d = Due /\ format d = FmtKanban
       /\ exists index m days,
            (index, m) ∈ tokens /\ start d = index /\ raw d = m_raw m
            /\ moment_of_iso (m_date m) = Some (days * msPerDay)
            /\ match kanban_time line with
               | (true, hours, minutes) =>
                   hasTime d = Some true
                   /\ date d = apply_time hours minutes (days * msPerDay)
                   /\ date d = days * msPerDay + hours * msPerHour
                               + minutes * msPerMinute
                   /\ (0 <= hours < 24 -> 0 <= minutes < 60 ->
                       day_of (date d) = days
                       /\ hour (date d) = hours /\ minute (date d) = minutes)
               | (false, _, _) =>
                   hasTime d = Some false /\ date d = days * msPerDay
               end.
Proof.
  intros tokens. split; [|split; [reflexivity |]].
  - pose proof (exec_first_spec match_kanban_time line) as H.
    unfold kanban_time.
    destruct (exec_first match_kanban_time line) as [timeStr|].
    + destruct H as (k & Hk & Hre & Hmin). exists k.
      repeat split; auto; by destruct (split_time timeStr).
    + split; [exact H | reflexivity].
  - intros d Hd. unfold extractKanbanDates in Hd. fold tokens in Hd.
    apply list_elem_of_omap in Hd as ([index m] & Hin & Hf).
    unfold kanban_field in Hf.
    destruct (kanban_time line) as [[hasTime0 hours] minutes].
    destruct (moment_of_iso (m_date m)) as [date0|] eqn:Ed; [|discriminate].
    destruct (moment_of_iso_midnight _ _ Ed) as [days ->].
    injection Hf as <-. cbn. split; [reflexivity |]. split; [reflexivity |].
    exists index, m, days. repeat split; auto.
    destruct hasTime0; [|by split].
    split; [reflexivity |]. split; [reflexivity |].
    split; [apply apply_time_midnight |].
    intros Hh Hm. rewrite apply_time_midnight. by apply clock_of_time.
Qed.

(** ** C4: stripping *)











(** White space at both ends is all that [trim] removes. *)
Lemma drop_while_split p s :
  exists ws, s = ws ++ drop_while p s /\ Forall (fun c => p c = true) ws
             /\ match drop_while p s with
                | c :: _ => p c = false
                | [] => True
                end.
Proof.
  induction s as [|c r IH]; cbn.
  - exists []. repeat split. constructor.
  - destruct (p c) eqn:E.
    + destruct IH as (ws & Hs & Hws & Hhd). exists (c :: ws).
      split; [cbn; by f_equal | split; [by constructor | exact Hhd]].
    + exists []. repeat split; [constructor | exact E].
Qed.

Lemma trim_spec s :
  exists lead trail,
    s = lead ++ trim s ++ trail
    /\ Forall (fun c => is_space c = true) lead
    /\ Forall (fun c => is_space c = true) trail
    /\ (forall c r, trim s = c :: r -> is_space c = false)
    /\ (forall c, last (trim s) = Some c -> is_space c = false).
Proof.
  unfold trim.
  destruct (drop_while_split is_space s) as (lead & Hs & Hlead & Hhd).
  destruct (drop_while_split is_space (rev (drop_while is_space s)))
    as (trail & Hr & Htrail & Hlast).
  set (body := drop_while is_space (rev (drop_while is_space s))) in *.
  assert (Hmid : drop_while is_space s = rev body ++ rev trail).
  { rewrite <- rev_app_distr, <- Hr. by rewrite rev_involutive. }
  exists lead, (rev trail). split; [|split; [|split; [|split]]].
  - by rewrite <- Hmid.
  - exact Hlead.
  - by apply Forall_rev.
  - intros c r Hc. rewrite Hmid in Hhd.
    destruct (rev body) as [|c' r'] eqn:Eb; [discriminate |].
    injection Hc as <- <-. exact Hhd.
  - intros c Hc. destruct body as [|c' r']; [discriminate |].
    cbn [rev] in Hc. rewrite last_snoc in Hc. injection Hc as <-. exact Hlast.
Qed.




(** ** C10 and C5: what the handlers carry over *)

Lemma preserve_dates_snoc dates d :
  preserve_dates (dates ++ [d])
  = <[type d := format_field d]> (preserve_dates dates).
Proof. unfold preserve_dates. by rewrite fold_left_app. Qed.

(** The entry that the seeding loop leaves for a type is the formatted
    last field of the type. *)
Lemma preserve_dates_lookup dates ty :
  preserve_dates dates !! ty = format_field <$> last_of_type ty dates.
Proof.
  unfold last_of_type, find_type.
  induction dates as [|d pre IH] using rev_ind; [reflexivity |].
  rewrite preserve_dates_snoc, rev_app_distr. cbn [rev app find].
  case_bool_decide as Hty.
  - rewrite Hty. by rewrite lookup_insert_eq.
  - by rewrite lookup_insert_ne.
Qed.

Lemma find_type_elem ty dates d :
  find_type ty dates = Some d -> d ∈ dates /\ type d = ty.
Proof.
  intros H. apply find_type_first in H as (l1 & l2 & -> & Hty & _).
  split; [|exact Hty]. apply elem_of_app. right. by left.
Qed.

Lemma find_type_is_Some ty dates d :
  d ∈ dates -> type d = ty -> is_Some (find_type ty dates).
Proof.
  unfold find_type. intros Hd Hty.
  induction Hd as [d r|d d' r _ IH]; cbn.
  - by rewrite bool_decide_eq_true_2.
  - case_bool_decide; [by eexists | exact (IH Hty)].
Qed.

Lemma last_of_type_elem ty dates d :
  last_of_type ty dates = Some d -> d ∈ dates /\ type d = ty.
Proof.
  unfold last_of_type. intros H. apply find_type_elem in H as [Hd Hty].
  split; [|exact Hty]. by apply list_elem_of_In, in_rev, list_elem_of_In.
Qed.

Lemma last_of_type_is_Some ty dates :
  is_Some (find_type ty dates) -> is_Some (last_of_type ty dates).
Proof.
  intros [d Hd]. apply find_type_elem in Hd as [Hd Hty].
  eapply find_type_is_Some; [|exact Hty].
  by apply list_elem_of_In, in_rev; rewrite rev_involutive; apply list_elem_of_In.
Qed.

(** No formatted date is the empty string. *)
Lemma formatDate_nonempty ty date0 fmt includeTime :
  formatDate ty date0 fmt includeTime <> [].
Proof.
  unfold formatDate.
  destruct fmt, ty;
    repeat match goal with |- context [if ?b then _ else _] => destruct b end;
    cbn; discriminate.
Qed.

(** A non-empty entry of the map is in the reconstructed line, after a
    space. *)
Lemma reconstructLine_contains baseLine (dateUpdates : gmap DateFieldType (list Z))
    ty formatted :
  dateUpdates !! ty = Some formatted -> formatted <> [] ->
  is_infix ([32] ++ formatted) (reconstructLine baseLine dateUpdates).
Proof.
  intros Hty Hne. rewrite reconstructLine_eq.
  assert (Happ : appended dateUpdates ty = [32] ++ formatted).
  { unfold appended. rewrite Hty. by destruct formatted. }
  unfold is_infix. rewrite <- Happ. clear Hty Hne Happ.
  set (a := appended dateUpdates).
  destruct ty.
  - exists (trimEnd baseLine ++ a Start ++ a Scheduled),
      (a Created ++ a Done ++ a Cancelled). by rewrite <- ?app_assoc.
  - exists (trimEnd baseLine),
      (a Scheduled ++ a Due ++ a Created ++ a Done ++ a Cancelled).
    by rewrite <- ?app_assoc.
  - exists (trimEnd baseLine ++ a Start),
      (a Due ++ a Created ++ a Done ++ a Cancelled). by rewrite <- ?app_assoc.
  - exists (trimEnd baseLine ++ a Start ++ a Scheduled ++ a Due),
      (a Done ++ a Cancelled). by rewrite <- ?app_assoc.
  - exists (trimEnd baseLine ++ a Start ++ a Scheduled ++ a Due ++ a Created),
      (a Cancelled). by rewrite <- ?app_assoc.
  - exists (trimEnd baseLine ++ a Start ++ a Scheduled ++ a Due ++ a Created
            ++ a Done), []. by rewrite <- ?app_assoc, ?app_nil_r.
Qed.

(** Outside the types that it reschedules, a drop leaves the seeded
    entries as they are. *)
Lemma drop_dateUpdates_frame task newStart newEnd ty :
  ty ∉ drop_rescheduled task ->
  drop_dateUpdates task newStart newEnd !! ty
  = preserve_dates (allDates task) !! ty.
Proof.
  unfold drop_rescheduled, drop_dateUpdates.
  destruct (find_type Start (allDates task)) as [sf|] eqn:Es;
    destruct (find_type Due (allDates task)) as [df|] eqn:Ed;
    rewrite ?not_elem_of_cons; intros H;
    try (destruct H as (? & ? & _); by rewrite !lookup_insert_ne);
    destruct (find_type (dateType task) (allDates task)) as [pf|] eqn:Ep;
    try (apply find_type_elem in Ep as [_ Ep]; rewrite Ep);
    destruct H as (? & _); by rewrite lookup_insert_ne.
Qed.

(** And so does a resize. *)
Lemma resize_dateUpdates_frame task newStart newEnd ty :
  ty ∉ resize_rescheduled task newStart newEnd ->
  resize_dateUpdates task newStart newEnd !! ty
  = preserve_dates (allDates task) !! ty.
Proof.
  unfold resize_rescheduled, resize_dateUpdates.
  destruct (find_type Start (allDates task)) as [sf|] eqn:Es;
    destruct (find_type Due (allDates task)) as [df|] eqn:Ed;
    destruct (resize_grows task newStart newEnd);
    rewrite ?not_elem_of_cons; intros H;
    try (destruct H as (? & ? & _);
         repeat match goal with
                | |- context [let '(_, _) := ?p in _] => destruct p
                end;
         by rewrite ?lookup_insert_ne by done).
  destruct (find_type (dateType task) (allDates task)) as [pf|] eqn:Ep;
    [|reflexivity].
  apply find_type_elem in Ep as [_ Ep]. rewrite Ep.
  destruct H as (? & _). by rewrite lookup_insert_ne.
Qed.

Lemma find_type_unique ty dates d :
  NoDup (type <$> dates) -> d ∈ dates -> type d = ty ->
  find_type ty dates = Some d.
Proof.
  unfold find_type. intros Hnd Hd Hty.
  induction dates as [|x r IH]; [by apply elem_of_nil in Hd |].
  cbn in Hnd. apply NoDup_cons in Hnd as [Hx Hr]. cbn.
  apply elem_of_cons in Hd as [->|Hd].
  - by rewrite bool_decide_eq_true_2.
  - case_bool_decide as Hxt; [|by apply IH].
    exfalso. apply Hx. rewrite Hxt, <- Hty. by apply list_elem_of_fmap_2.
Qed.

Lemma find_type_perm ty dates1 dates2 :
  dates1 ≡ₚ dates2 -> NoDup (type <$> dates1) ->
  find_type ty dates1 = find_type ty dates2.
Proof.
  intros Hperm Hnd.
  assert (Hnd2 : NoDup (type <$> dates2)) by by rewrite <- Hperm.
  destruct (find_type ty dates1) as [d|] eqn:E1.
  - apply find_type_elem in E1 as [Hd Hty]. symmetry.
    apply find_type_unique; [done | by rewrite <- Hperm | done].
  - destruct (find_type ty dates2) as [d|] eqn:E2; [|reflexivity].
    apply find_type_elem in E2 as [Hd Hty]. rewrite <- Hperm in Hd.
    destruct (find_type_is_Some ty dates1 d Hd Hty) as [d' Hd'].
    unfold find_type in *. congruence.
Qed.

(** When no two fields have the same type, the seeded map does not
    depend on the order of the fields. *)
Lemma preserve_dates_perm dates1 dates2 :
  dates1 ≡ₚ dates2 -> NoDup (type <$> dates1) ->
  preserve_dates dates1 = preserve_dates dates2.
Proof.
  intros Hperm Hnd. apply map_eq. intros ty.
  rewrite !preserve_dates_lookup. unfold last_of_type. f_equal.
  apply find_type_perm.
  - by rewrite <- !(Permutation_rev _), Hperm.
  - by rewrite <- (Permutation_rev _).
Qed.

(** C5. For every base line and every map from types to formatted
    strings, [reconstructLine] returns the base line without its trailing
    white space followed, for the types [Start], [Scheduled], [Due],
    [Created], [Done], [Cancelled] in this order, by a space and the
    string that the map gives for the type; a type that the map does not
    contain adds nothing (nor does an empty string, which no formatted
    date is). The order of the fields that the map was made of plays no
    role: two orders of fields of distinct types give the same line. *)
Theorem reconstructLine_canonical (baseLine : list Z)
    (dateUpdates : gmap DateFieldType (list Z)) :
  reconstructLine baseLine dateUpdates
  = trimEnd baseLine
    ++ appended dateUpdates Start ++ appended dateUpdates Scheduled
    ++ appended dateUpdates Due ++ appended dateUpdates Created
    ++ appended dateUpdates Done ++ appended dateUpdates Cancelled
  /\ (forall ty, dateUpdates !! ty = None -> appended dateUpdates ty = [])
  /\ (forall ty date0 fmt includeTime,
        dateUpdates !! ty = Some (formatDate ty date0 fmt includeTime) ->
        appended dateUpdates ty = [32] ++ formatDate ty date0 fmt includeTime)
  /\ (forall dates1 dates2,
        dates1 ≡ₚ dates2 -> NoDup (type <$> dates1) ->
        reconstructLine baseLine (preserve_dates dates1)
        = reconstructLine baseLine (preserve_dates dates2)).
Proof.
  split; [apply reconstructLine_eq |]. split; [|split].
  - intros ty H. unfold appended. by rewrite H.
  - intros ty date0 fmt includeTime H. unfold appended. rewrite H.
    pose proof (formatDate_nonempty ty date0 fmt includeTime).
    by destruct (formatDate ty date0 fmt includeTime).
  - intros dates1 dates2 Hperm Hnd. by rewrite (preserve_dates_perm _ _ Hperm Hnd).
Qed.

Lemma starts_with_app pat rest : starts_with pat (pat ++ rest) = true.
Proof. induction pat as [|p r IH]; cbn; [done |]. by rewrite Z.eqb_refl. Qed.

Lemma index_from_infix pat pre post i :
  is_Some (index_from pat (pre ++ pat ++ post) i).
Proof.
  revert i. induction pre as [|c r IH]; intros i.
  - cbn [app]. destruct (pat ++ post) eqn:E; cbn [index_from];
      rewrite <- E, starts_with_app; by eexists.
  - cbn [app index_from]. destruct (starts_with pat _); [by eexists | apply IH].
Qed.

Lemma is_infix_includes a b : is_infix a b -> includes a b = true.
Proof.
  intros (pre & post & ->). unfold includes, indexOf. rewrite drop_0.
  by destruct (index_from_infix a pre post 0) as [k ->].
Qed.

(** Of two [Created] dates on a line, a drop keeps only the second. *)
Lemma drop_loses_earlier_field_of_type :
  exists task d,
    parse_task_line line_two_created default_priority None = Some task
    /\ d ∈ allDates task
    /\ (type d ∉ drop_rescheduled task)
    /\ ~ is_infix (format_field d)
           (handleEventDrop task line_two_created
              (midnight "2025-03-05") (midnight "2025-03-06")).
Proof.
  eexists _, (mkField Created (midnight "2025-01-01")
                (plus_symbol ++ str " 2025-01-01") 5 17 FmtTasks (Some false)).
  split; [vm_compute; reflexivity |].
  split; [cbn; left |].
  split.
  - intros H. apply list_elem_of_In in H. vm_compute in H.
    destruct H as [H|[]]. discriminate H.
  - intros H. apply is_infix_includes in H. vm_compute in H. discriminate.
Qed.

(** C10. The handlers put the task's dates into the update map first,
    to keep all of them, but dates are lost all the same. Of the two
    [Created] dates of a line a drop writes back only the second: the
    map has one entry per type. And a date in another format than the
    one that [parseMarkdown] is set to read is no date of the task, but
    [stripDates] removes the dates of all formats from the line: the
    scheduled Dataview date of a task read in the tasks format is gone
    after a drop. *)
Theorem reschedule_loses_dates :
  parse_task_line line_two_created default_priority None
  = Some (task_of line_two_created)
  /\ handleEventDrop (task_of line_two_created) line_two_created
       (midnight "2025-03-05") (midnight "2025-03-06")
     = str "- [ ] Ship " ++ calendar_symbol ++ str " 2025-03-05 "
       ++ plus_symbol ++ str " 2025-01-02"
  /\ exists task,
       parse_task_line line_mixed_formats default_priority (Some TasksFormat)
       = Some task
       /\ map type (allDates task) = [Due]
       /\ map type (extractAllDates line_mixed_formats None) = [Due; Scheduled]
       /\ handleEventDrop task line_mixed_formats (midnight "2025-03-05")
            (midnight "2025-03-06")
          = str "- [ ] Ship " ++ calendar_symbol ++ str " 2025-03-05".
Proof.
  split; [vm_compute; reflexivity |]. split; [vm_compute; reflexivity |].
  eexists. split; [vm_compute; reflexivity |].
  repeat split; vm_compute; reflexivity.
Qed.

(** What the handlers do carry over. Both first put into the update
    map, for every date of the task, its formatted string under its
    type, a later date of a type replacing an earlier one. So for every
    type of which the task has a date, the map of a drop or of a resize
    still has, when the handler does not reschedule that type, the
    formatted last date of the type, and the reconstructed line contains
    it after a space. *)
Theorem reschedule_carries_last_of_type (task : TaskLine) (line : list Z)
    (newStart newEnd : Z) (ty : DateFieldType) :
  is_Some (find_type ty (allDates task)) ->
  exists d,
    last_of_type ty (allDates task) = Some d
    /\ d ∈ allDates task /\ type d = ty
    /\ preserve_dates (allDates task) !! ty = Some (format_field d)
    /\ (ty ∉ drop_rescheduled task ->
        drop_dateUpdates task newStart newEnd !! ty = Some (format_field d)
        /\ is_infix ([32] ++ format_field d)
             (handleEventDrop task line newStart newEnd))
    /\ (ty ∉ resize_rescheduled task newStart newEnd ->
        resize_dateUpdates task newStart newEnd !! ty = Some (format_field d)
        /\ (isKanban task = false ->
            exists updated,
              handleEventResize task line newStart newEnd = Some updated
              /\ is_infix ([32] ++ format_field d) updated)).
Proof.
  intros Hty. apply last_of_type_is_Some in Hty as [d Hd].
  exists d. split; [exact Hd |].
  destruct (last_of_type_elem _ _ _ Hd) as [Hin Htyd].
  split; [exact Hin |]. split; [exact Htyd |].
  assert (Hseed : preserve_dates (allDates task) !! ty = Some (format_field d))
    by by rewrite preserve_dates_lookup, Hd.
  split; [exact Hseed |]. split.
  - intros Hfree.
    assert (Hmap : drop_dateUpdates task newStart newEnd !! ty
                   = Some (format_field d))
      by by rewrite drop_dateUpdates_frame.
    split; [exact Hmap |]. unfold handleEventDrop.
    apply (reconstructLine_contains _ _ ty); [exact Hmap | apply formatDate_nonempty].
  - intros Hfree.
    assert (Hmap : resize_dateUpdates task newStart newEnd !! ty
                   = Some (format_field d))
      by by rewrite resize_dateUpdates_frame.
    split; [exact Hmap |]. intros Hk. unfold handleEventResize. rewrite Hk.
    eexists. split; [reflexivity |].
    apply (reconstructLine_contains _ _ ty); [exact Hmap | apply formatDate_nonempty].
Qed.

(** ** C8: a time in a Dataview value *)

(** A field of the Dataview grammar is at midnight and has no [hasTime],
    whatever follows the date in its value. *)
Lemma dataview_date_is_midnight line d :
  d ∈ extractDataviewDates line ->
  hasTime d = None /\ hour (date d) = 0 /\ minute (date d) = 0.
Proof.
  intros H. apply extractDataviewDates_elem in H as (open & close & fmt & _ & H).
  apply dataview_loop_fields in H as (_ & _ & _ & Ht & dateMatch & _ & Hd).
  split; [exact Ht |].
  apply moment_of_iso_midnight in Hd as [days ->].
  unfold hour, minute, msPerDay, msPerHour, msPerMinute.
  Z.div_mod_to_equations. lia.
Qed.

(** C8 (the code at the failing input). From [[start:: 2025-01-15T14:30]]
    the extraction gives one [Start] field whose date is 2025-01-15 at
    00:00, without [hasTime]: the date is made of the first ten
    characters of the value, and the time 14:30 is lost. The same date
    and time in the emoji form gives 14:30 and [hasTime]. *)
Theorem dataview_time_is_dropped :
  (exists d,
     extractAllDates line_dataview_time None = [d]
     /\ type d = Start /\ format d = FmtDataviewBracket
     /\ raw d = line_dataview_time
     /\ format_date_time (date d) = str "2025-01-15 00:00"
     /\ hasTime d = None)
  /\ (exists d,
        extractAllDates (departure_symbol ++ str " 2025-01-15 14:30") None = [d]
        /\ type d = Start
        /\ format_date_time (date d) = str "2025-01-15 14:30"
        /\ hasTime d = Some true)
  /\ formatDate Start (midnight "2025-01-15" + 14 * msPerHour + 30 * msPerMinute)
       FmtDataviewBracket true
     = line_dataview_time.
Proof.
  split; [|split].
  - eexists. split; [vm_compute; reflexivity |]. by vm_compute.
  - eexists. split; [vm_compute; reflexivity |]. by vm_compute.
  - by vm_compute.
Qed.

(** ** C2: formatting and extracting again *)

(** *** Checking a property on a range of integers *)

Lemma all_below_spec n z p :
  all_below n z p = true -> forall i, z <= i < z + Z.of_nat n -> p i = true.
Proof.
  revert z. induction n as [|n IH]; intros z H i Hi; [lia |].
  cbn [all_below] in H. apply andb_true_iff in H as [Hz Hrest].
  destruct (Z.eq_dec i z) as [->|Hne]; [exact Hz |].
  apply (IH (z + 1) Hrest). lia.
Qed.

(** Every day of an era passes the check. *)
Lemma check_doe_all : all_below (Z.to_nat 146097) 0 check_doe = true.
Proof. vm_cast_no_check (eq_refl true). Qed.

(** Every number below 10000 passes the check. *)
Lemma check_fill_all : all_below (Z.to_nat 10000) 0 check_fill = true.
Proof. vm_cast_no_check (eq_refl true). Qed.

(** *** Day numbers and calendar dates *)

Lemma check_doe_at doe : 0 <= doe < 146097 -> check_doe doe = true.
Proof.
  intros H. apply (all_below_spec _ _ _ check_doe_all).
  change (Z.of_nat (Z.to_nat 146097)) with 146097. lia.
Qed.

Lemma isLeapYear_period a k : isLeapYear (a + k * 400) = isLeapYear a.
Proof.
  unfold isLeapYear.
  replace ((a + k * 400) mod 4) with (a mod 4) by (Z.div_mod_to_equations; lia).
  replace ((a + k * 400) mod 100) with (a mod 100) by (Z.div_mod_to_equations; lia).
  replace ((a + k * 400) mod 400) with (a mod 400) by (Z.div_mod_to_equations; lia).
  reflexivity.
Qed.

Lemma daysInMonth_period a k m : daysInMonth (a + k * 400) m = daysInMonth a m.
Proof. unfold daysInMonth. by rewrite isLeapYear_period. Qed.

(** The calendar date of a day number is a valid date, and it is the
    date of that day number. *)
Lemma civil_from_days_spec z :
  match civil_from_days z with
  | (y, m, d) =>
      days_from_civil y m d = z /\ 1 <= m <= 12 /\ 1 <= d <= daysInMonth y m
      /\ (-719528 <= z -> 0 <= y /\ (y <= 9999 <-> z < 2932897))
  end.
Proof.
  unfold civil_from_days.
  set (z' := z + 719468).
  assert (Hdoe : 0 <= z' mod 146097 < 146097) by (apply Z.mod_pos_bound; lia).
  pose proof (check_doe_at _ Hdoe) as Hc. unfold check_doe in Hc.
  destruct (civil_of_doe (z' mod 146097)) as [[yoe m] d].
  set (c := if m <=? 2 then 1 else 0) in *.
  repeat (apply andb_true_iff in Hc as [Hc ?]).
  repeat match goal with
         | H : (_ <=? _) = true |- _ => apply Z.leb_le in H
         | H : (_ =? _) = true |- _ => apply Z.eqb_eq in H
         end.
  assert (Hy : (if m <=? 2 then yoe + z' / 146097 * 400 + c - 1
                else yoe + z' / 146097 * 400 + c) = yoe + z' / 146097 * 400).
  { unfold c. destruct (m <=? 2); lia. }
  assert (Hcr : c = 0 \/ c = 1) by (unfold c; destruct (m <=? 2); lia).
  split; [|split; [lia | split]].
  - unfold days_from_civil. rewrite Hy.
    replace ((yoe + z' / 146097 * 400) / 400) with (z' / 146097)
      by (Z.div_mod_to_equations; lia).
    replace ((yoe + z' / 146097 * 400) mod 400) with yoe
      by (Z.div_mod_to_equations; lia).
    unfold z' in *. Z.div_mod_to_equations. lia.
  - replace (yoe + z' / 146097 * 400 + c) with (yoe + c + z' / 146097 * 400) by lia.
    rewrite daysInMonth_period. lia.
  - intros Hlo.
    match goal with H : Bool.eqb _ _ = true |- _ => apply Bool.eqb_prop in H; rename H into Hb end.
    destruct (Z.ltb_spec (z' mod 146097) 146037) as [Hlt|Hge];
      symmetry in Hb; [apply Z.leb_le in Hb | apply Z.leb_gt in Hb];
      clearbody c; unfold z' in *; Z.div_mod_to_equations; lia.
Qed.

Lemma days_from_civil_lower y m d :
  0 <= y -> 1 <= m <= 12 -> 1 <= d -> -719528 <= days_from_civil y m d.
Proof.
  intros Hy Hm Hd. unfold days_from_civil, doe_of_civil.
  destruct (Z.leb_spec m 2); destruct (Z.ltb_spec 2 m); try lia;
    Z.div_mod_to_equations; lia.
Qed.

(** *** Digits *)

Lemma check_fill_at n : 0 <= n < 10000 -> check_fill n = true.
Proof.
  intros H. apply (all_below_spec _ _ _ check_fill_all).
  change (Z.of_nat (Z.to_nat 10000)) with 10000. lia.
Qed.

Lemma zeroFill4_shape n :
  0 <= n < 10000 ->
  exists a b c d,
    zeroFill 4 n = [a; b; c; d]
    /\ is_digit a = true /\ is_digit b = true /\ is_digit c = true
    /\ is_digit d = true /\ number_of_digits [a; b; c; d] = n.
Proof.
  intros H. pose proof (check_fill_at n H) as Hc. unfold check_fill in Hc.
  apply andb_true_iff in Hc as [Hc _].
  apply andb_true_iff in Hc as [Hc Hn]. apply andb_true_iff in Hc as [Hl Hd].
  apply Z.eqb_eq in Hn. apply Nat.eqb_eq in Hl.
  destruct (zeroFill 4 n) as [|a [|b [|c [|d [|? ?]]]]]; try discriminate.
  cbn in Hd. repeat (apply andb_true_iff in Hd as [? Hd]).
  exists a, b, c, d. auto 10.
Qed.

Lemma zeroFill2_shape n :
  0 <= n < 100 ->
  exists a b,
    zeroFill 2 n = [a; b]
    /\ is_digit a = true /\ is_digit b = true /\ number_of_digits [a; b] = n.
Proof.
  intros H. assert (H' : 0 <= n < 10000) by lia.
  pose proof (check_fill_at n H') as Hc. unfold check_fill in Hc.
  apply andb_true_iff in Hc as [_ Hc].
  replace (n <? 100) with true in Hc by (symmetry; apply Z.ltb_lt; lia).
  apply andb_true_iff in Hc as [Hc Hn]. apply andb_true_iff in Hc as [Hl Hd].
  apply Z.eqb_eq in Hn. apply Nat.eqb_eq in Hl.
  destruct (zeroFill 2 n) as [|a [|b [|? ?]]]; try discriminate.
  cbn in Hd. repeat (apply andb_true_iff in Hd as [? Hd]).
  exists a, b. auto 10.
Qed.

Lemma daysInMonth_le y m : daysInMonth y m <= 31.
Proof.
  unfold daysInMonth.
  repeat match goal with |- context [if ?b then _ else _] => destruct b end; lia.
Qed.

(** A date in the years 0000 to 9999 is written as ten units of the
    shape [dddd-dd-dd] that [moment] reads back as the same day. *)
Lemma format_date_shape t :
  first_day <= day_of t -> year t <= 9999 ->
  exists a b c d e f g h,
    format_date t = [a; b; c; d; 45; e; f; 45; g; h]
    /\ Forall (fun x => is_digit x = true) [a; b; c; d; e; f; g; h]
    /\ moment_of_iso (format_date t) = Some (day_of t * msPerDay).
Proof.
  unfold first_day. intros Hlo Hhi.
  unfold format_date, year, month, day_of_month in *.
  pose proof (civil_from_days_spec (day_of t)) as Hs.
  destruct (civil_from_days (day_of t)) as [[y m] d]. cbn [fst snd] in *.
  destruct Hs as (Hdays & Hm & Hd & Hy). specialize (Hy Hlo) as [Hy0 _].
  pose proof (daysInMonth_le y m) as Hdim.
  destruct (zeroFill4_shape y) as (a & b & c & d0 & -> & Ha & Hb & Hc & Hd0 & Hny);
    [lia |].
  destruct (zeroFill2_shape m) as (e & f & -> & He & Hf & Hnm); [lia |].
  destruct (zeroFill2_shape d) as (g & h & -> & Hg & Hh & Hnd); [lia |].
  exists a, b, c, d0, e, f, g, h. cbn [app].
  split; [reflexivity |]. split; [repeat constructor; assumption |].
  unfold moment_of_iso. cbn [take drop].
  rewrite Hny, Hnm, Hnd.
  replace ((1 <=? m) && (m <=? 12) && (1 <=? d) && (d <=? daysInMonth y m))
    with true.
  - by rewrite Hdays.
  - symmetry. rewrite !andb_true_iff, !Z.leb_le. lia.
Qed.

Lemma clock_range t : 0 <= hour t < 24 /\ 0 <= minute t < 60.
Proof.
  unfold hour, minute, msPerDay, msPerHour, msPerMinute.
  Z.div_mod_to_equations. lia.
Qed.

(** A time of day is written as five units of the shape [dd:dd] that
    split into the hour and the minute. *)
Lemma format_time_shape t :
  exists p q r s,
    format_time t = [p; q; 58; r; s]
    /\ Forall (fun x => is_digit x = true) [p; q; r; s]
    /\ split_time (format_time t) = (hour t, minute t).
Proof.
  destruct (clock_range t) as [Hh Hm]. unfold format_time.
  destruct (zeroFill2_shape (hour t)) as (p & q & -> & Hp & Hq & Hnh); [lia |].
  destruct (zeroFill2_shape (minute t)) as (r & s & -> & Hr & Hs & Hnm); [lia |].
  exists p, q, r, s. cbn [app]. split; [reflexivity |].
  split; [repeat constructor; assumption |].
  assert (Hp58 : (p =? 58) = false).
  { unfold is_digit in Hp. apply andb_true_iff in Hp as [_ Hp].
    apply Z.leb_le in Hp. apply Z.eqb_neq. lia. }
  assert (Hq58 : (q =? 58) = false).
  { unfold is_digit in Hq. apply andb_true_iff in Hq as [_ Hq].
    apply Z.leb_le in Hq. apply Z.eqb_neq. lia. }
  unfold split_time. cbn [take_until drop_until].
  rewrite Hp58, Hq58. cbn [Z.eqb Pos.eqb]. by rewrite Hnh, Hnm.
Qed.

(** ** Scanning a formatted string *)

Lemma is_digit_range x : is_digit x = true -> 48 <= x <= 57.
Proof. unfold is_digit. rewrite andb_true_iff, !Z.leb_le. lia. Qed.

Lemma digit_neq x k : is_digit x = true -> is_digit k = false -> (x =? k) = false.
Proof.
  intros Hx Hk. apply Z.eqb_neq. intros ->. congruence.
Qed.

Lemma digit_not_space x : is_digit x = true -> is_space x = false.
Proof.
  intros H. apply is_digit_range in H. unfold is_space.
  repeat (apply orb_false_intro);
    first [apply Z.eqb_neq; lia
          | apply andb_false_iff; rewrite !Z.leb_gt; lia].
Qed.

Lemma digit_no_emoji x : is_digit x = true -> emoji_lead x = false.
Proof.
  intros H. apply is_digit_range in H. unfold emoji_lead.
  repeat (apply orb_false_intro); apply Z.eqb_neq; lia.
Qed.

Lemma match_symbol_lead syms c r :
  Forall (fun sym => exists x rest, sym = x :: rest /\ emoji_lead x = true) syms ->
  emoji_lead c = false -> match_symbol syms (c :: r) = None.
Proof.
  intros Hs Hc. induction Hs as [|sym more (x & rest & -> & Hx) _ IH]; [done |].
  cbn. destruct (Z.eqb_spec x c) as [->|_]; [congruence | exact IH].
Qed.

Lemma patterns_lead ty syms :
  (ty, syms) ∈ EMOJI_DATE_PATTERNS ->
  Forall (fun sym => exists x rest, sym = x :: rest /\ emoji_lead x = true) syms.
Proof.
  unfold EMOJI_DATE_PATTERNS. rewrite !elem_of_cons, elem_of_nil.
  intros [H|[H|[H|[H|[H|[H|[]]]]]]]; injection H as -> ->;
    repeat constructor; eexists _, _; split; reflexivity.
Qed.

Lemma match_emoji_lead ty syms c r :
  (ty, syms) ∈ EMOJI_DATE_PATTERNS ->
  emoji_lead c = false -> match_emoji syms (c :: r) = None.
Proof.
  intros Hin Hc. unfold match_emoji.
  by rewrite (match_symbol_lead syms c r (patterns_lead ty syms Hin) Hc).
Qed.

Lemma match_simple_lead c r : (c =? 64) = false -> match_simple (c :: r) = None.
Proof. intros H. cbn. by rewrite H. Qed.

Lemma match_kanban_date_lead c r :
  (c =? 64) = false -> match_kanban_date (c :: r) = None.
Proof. intros H. unfold match_kanban_date. destruct r; [done |]. by rewrite H. Qed.

Lemma match_kanban_time_lead c r :
  (c =? 64) = false -> match_kanban_time (c :: r) = None.
Proof.
  intros H. unfold match_kanban_time. destruct r as [|? [|? ?]]; [done | done |].
  by rewrite H.
Qed.

(** A pattern finds nothing in units at none of which it can start. *)
Lemma exec_all_quiet {M : Type} (re : list Z -> option M) (len : M -> nat)
    (lead : Z -> bool) (s : list Z) (idx skip : nat) :
  (forall c r, lead c = false -> re (c :: r) = None) ->
  Forall (fun c => lead c = false) s ->
  exec_all re len s idx skip = [].
Proof.
  intros Hre Hs. revert idx skip.
  induction Hs as [|c r Hc _ IH]; intros idx skip; cbn [exec_all]; [done |].
  destruct skip; [|apply IH]. rewrite (Hre c r Hc). apply IH.
Qed.

Lemma exec_all_skip_all {M : Type} (re : list Z -> option M) (len : M -> nat)
    (s : list Z) (idx skip : nat) :
  (length s <= skip)%nat -> exec_all re len s idx skip = [].
Proof.
  revert idx skip. induction s as [|c r IH]; intros idx skip H; cbn [exec_all];
    [done |].
  cbn in H. destruct skip; [lia |]. apply IH. lia.
Qed.

Lemma exec_first_quiet {M : Type} (re : list Z -> option M)
    (lead : Z -> bool) (s : list Z) :
  (forall c r, lead c = false -> re (c :: r) = None) ->
  Forall (fun c => lead c = false) s ->
  exec_first re s = None.
Proof.
  intros Hre Hs. induction Hs as [|c r Hc _ IH]; cbn [exec_first]; [done |].
  by rewrite (Hre c r Hc).
Qed.

Lemma index_from_quiet open s i :
  Forall (fun c => (c =? open) = false) s -> index_from [open] s i = None.
Proof.
  intros Hs. revert i. induction Hs as [|c r Hc _ IH]; intros i; [done |].
  cbn. rewrite Z.eqb_sym, Hc. cbn. apply IH.
Qed.

(** The Dataview loop finds nothing in a line without its opening
    bracket. *)
Lemma dataview_loop_quiet fuel line open close fmt :
  Forall (fun c => (c =? open) = false) line ->
  dataview_loop fuel line open close fmt 0 = [].
Proof.
  intros Hs. destruct fuel; [done |]. cbn [dataview_loop].
  destruct (negb _); [done |].
  unfold dataview_round, indexOf. rewrite drop_0.
  by rewrite (index_from_quiet open line 0 Hs).
Qed.

(** A global pattern that matches the whole line finds that one
    match. *)
Lemma exec_all_whole {M : Type} (re : list Z -> option M) (len : M -> nat)
    (s : list Z) (m : M) :
  s <> [] -> re s = Some m -> len m = length s ->
  exec_all re len s 0 0 = [(0%nat, m)].
Proof.
  intros Hs Hre Hlen. destruct s as [|c r]; [done |].
  cbn [exec_all]. rewrite Hre. f_equal.
  apply exec_all_skip_all. rewrite Hlen. cbn. lia.
Qed.

Lemma exec_all_skip {M : Type} (re : list Z -> option M) (len : M -> nat)
    (pre s : list Z) (idx : nat) :
  exec_all re len (pre ++ s) idx (length pre)
  = exec_all re len s (idx + length pre) 0.
Proof.
  revert idx. induction pre as [|c r IH]; intros idx; cbn [app length].
  - by rewrite Nat.add_0_r.
  - destruct s as [|x s'] eqn:Es.
    + rewrite app_nil_r. cbn [exec_all].
      apply exec_all_skip_all. lia.
    + rewrite <- Es in *. cbn [exec_all]. rewrite IH. f_equal. lia.
Qed.

Lemma extractEmojiDates_quiet s :
  Forall (fun c => emoji_lead c = false) s -> extractEmojiDates s = [].
Proof.
  intros Hs. unfold extractEmojiDates.
  assert (H : forall syms, (exists ty, (ty, syms) ∈ EMOJI_DATE_PATTERNS) ->
            exec_all (match_emoji syms) match_length s 0 0 = []).
  { intros syms [ty Hin]. apply (exec_all_quiet _ _ emoji_lead); [|exact Hs].
    intros c r. by apply (match_emoji_lead ty). }
  unfold EMOJI_DATE_PATTERNS in *. cbn [flat_map].
  repeat match goal with
         | |- context [exec_all (match_emoji ?syms) match_length s 0 0] =>
             rewrite (H syms)
               by (eexists; repeat first [by left | right])
         end.
  reflexivity.
Qed.

Lemma extractDataviewDates_quiet s :
  Forall (fun c => (c =? 91) = false) s ->
  Forall (fun c => (c =? 40) = false) s ->
  extractDataviewDates s = [].
Proof.
  intros H1 H2. unfold extractDataviewDates, DATAVIEW_WRAPPERS. cbn [flat_map].
  by rewrite !dataview_loop_quiet.
Qed.

Lemma extractSimpleDates_quiet s :
  Forall (fun c => (c =? 64) = false) s -> extractSimpleDates s = [].
Proof.
  intros Hs. unfold extractSimpleDates.
  rewrite (exec_all_quiet _ _ (fun c => c =? 64)); [done | | exact Hs].
  apply match_simple_lead.
Qed.

Lemma extractKanbanDates_quiet s :
  Forall (fun c => (c =? 64) = false) s -> extractKanbanDates s = [].
Proof.
  intros Hs. unfold extractKanbanDates.
  rewrite (exec_all_quiet _ _ (fun c => c =? 64)); [done | | exact Hs].
  apply match_kanban_date_lead.
Qed.

Lemma exec_all_head_none {M : Type} (re : list Z -> option M) (len : M -> nat)
    (c : Z) (r : list Z) (idx : nat) :
  re (c :: r) = None ->
  exec_all re len (c :: r) idx 0 = exec_all re len r (S idx) 0.
Proof. intros H. cbn [exec_all]. by rewrite H. Qed.

Lemma exec_first_head_none {M : Type} (re : list Z -> option M)
    (c : Z) (r : list Z) :
  re (c :: r) = None -> exec_first re (c :: r) = exec_first re r.
Proof. intros H. cbn [exec_first]. by rewrite H. Qed.

Lemma consumed_all s : consumed s [] = s.
Proof. unfold consumed. cbn [length]. rewrite Nat.sub_0_r. apply firstn_all. Qed.

Lemma patterns_are_symbols :
  EMOJI_DATE_PATTERNS
  = map (fun ty => (ty, DATE_SYMBOLS ty))
      [Due; Start; Scheduled; Created; Done; Cancelled].
Proof. reflexivity. Qed.

(** When the pattern of one type matches the whole line and no emoji
    pattern matches elsewhere, the emoji grammar gives that one match. *)
Lemma extractEmojiDates_single ty c r m :
  match_emoji (DATE_SYMBOLS ty) (c :: r) = Some m ->
  match_length m = length (c :: r) ->
  (forall ty', ty' <> ty -> match_emoji (DATE_SYMBOLS ty') (c :: r) = None) ->
  Forall (fun x => emoji_lead x = false) r ->
  extractEmojiDates (c :: r) = omap (emoji_field ty) [(0%nat, m)].
Proof.
  intros Hm Hlen Hother Hr.
  assert (Hscan : forall ty',
    exec_all (match_emoji (DATE_SYMBOLS ty')) match_length (c :: r) 0 0
    = if decide (ty' = ty) then [(0%nat, m)] else []).
  { intros ty'. case_decide as Hty.
    - subst ty'. by apply exec_all_whole.
    - rewrite exec_all_head_none by by apply Hother.
      apply (exec_all_quiet _ _ emoji_lead); [|exact Hr].
      intros x r'. apply (match_emoji_lead ty').
      rewrite patterns_are_symbols. apply list_elem_of_fmap.
      exists ty'. split; [done |]. destruct ty'; set_solver. }
  unfold extractEmojiDates. rewrite patterns_are_symbols.
  cbn [map flat_map]. rewrite !Hscan.
  destruct ty; repeat case_decide; try congruence; cbn [omap app];
    by rewrite ?app_nil_r.
Qed.

Lemma closing_loop_quiet open close pre post i :
  Forall (fun c => (c =? 92) = false /\ (c =? open) = false
                   /\ (c =? close) = false) pre ->
  (close =? 92) = false -> (close =? open) = false ->
  closing_loop open close (pre ++ close :: post) i 0 false
  = Some (i + length pre)%nat.
Proof.
  intros Hpre H92 Hopen. revert i.
  induction Hpre as [|x pre (Hx1 & Hx2 & Hx3) _ IH]; intros i; cbn [app closing_loop].
  - rewrite H92, Hopen, Z.eqb_refl. cbn. f_equal. lia.
  - rewrite Hx1, Hx2, Hx3. cbn. rewrite IH. f_equal. lia.
Qed.

Lemma exec_first_quiet_prefix {M : Type} (re : list Z -> option M)
    (lead : Z -> bool) (pre s : list Z) :
  (forall c r, lead c = false -> re (c :: r) = None) ->
  Forall (fun c => lead c = false) pre ->
  exec_first re (pre ++ s) = exec_first re s.
Proof.
  intros Hre Hpre. induction Hpre as [|c r Hc _ IH]; cbn [app exec_first]; [done |].
  by rewrite (Hre c _ Hc).
Qed.

Lemma exec_all_quiet_prefix {M : Type} (re : list Z -> option M) (len : M -> nat)
    (lead : Z -> bool) (pre s : list Z) (idx : nat) :
  (forall c r, lead c = false -> re (c :: r) = None) ->
  Forall (fun c => lead c = false) pre ->
  exec_all re len (pre ++ s) idx 0 = exec_all re len s (idx + length pre) 0.
Proof.
  intros Hre Hpre. revert idx.
  induction Hpre as [|c r Hc _ IH]; intros idx; cbn [app exec_all length].
  - by rewrite Nat.add_0_r.
  - rewrite (Hre c _ Hc), IH. f_equal. lia.
Qed.

Lemma exec_all_head_some {M : Type} (re : list Z -> option M) (len : M -> nat)
    (c : Z) (r : list Z) (idx : nat) (m : M) :
  re (c :: r) = Some m ->
  exec_all re len (c :: r) idx 0 = (idx, m) :: exec_all re len r (S idx) (len m - 1).
Proof. intros H. cbn [exec_all]. by rewrite H. Qed.

Lemma exec_first_head_some {M : Type} (re : list Z -> option M)
    (c : Z) (r : list Z) (m : M) :
  re (c :: r) = Some m -> exec_first re (c :: r) = Some m.
Proof. intros H. cbn [exec_first]. by rewrite H. Qed.

Lemma dataview_loop_at_end fuel line open close fmt :
  dataview_loop fuel line open close fmt (length line) = [].
Proof. destruct fuel; [done |]. cbn [dataview_loop]. by rewrite Nat.ltb_irrefl. Qed.

Lemma dataview_loop_one line open close fmt fld :
  dataview_round line open close fmt 0 = Some (Some fld, length line) ->
  line <> [] ->
  dataview_loop (length line) line open close fmt 0 = [fld].
Proof.
  intros Hround Hne. destruct line as [|x l]; [done |].
  change (length (x :: l)) with (S (length l)) at 1.
  cbn [dataview_loop]. change (0 <? length (x :: l))%nat with true.
  cbn [negb]. rewrite Hround. by rewrite dataview_loop_at_end.
Qed.

Lemma indexOf_head open rest : indexOf [open] (open :: rest) 0 = Some 0%nat.
Proof. unfold indexOf. cbn. by rewrite Z.eqb_refl. Qed.

Lemma separator_at ty open rest :
  findDataviewSeparator (open :: type_value ty ++ 58 :: 58 :: rest) (0 + 1)
  = Some (type_value ty, (length (type_value ty) + 3)%nat).
Proof. destruct ty; reflexivity. Qed.

Lemma key_part_clean ty open rest :
  existsb
    (fun sep =>
       includes sep
         (substring (0 + 1) (length (type_value ty) + 3 - 2)
            (open :: type_value ty ++ 58 :: 58 :: rest)))
    wrapper_chars = false.
Proof. destruct ty; reflexivity. Qed.

Lemma alias_of_type_value ty :
  alias_lookup DATAVIEW_KEY_ALIASES (type_value ty) = Some ty.
Proof. destruct ty; reflexivity. Qed.

Ltac split_digits H :=
  repeat match type of H with
         | Forall _ (_ :: _) =>
             let Hx := fresh "Hdigit" in apply Forall_cons in H as [Hx H]
         end.

Ltac digit_fact :=
  first [ reflexivity
        | assumption
        | apply digit_no_emoji; assumption
        | apply digit_not_space; assumption
        | apply digit_neq; [assumption | reflexivity] ].

Ltac quiet_units :=
  repeat first [ apply Forall_nil_2 | apply Forall_cons_2; [digit_fact |] ].

Section Reparse.
(** The digits of a date and of a time of day, and what they are read
    as. *)
Variables a b c d e f g h p q r s : Z.
Hypothesis digits :
  Forall (fun x => is_digit x = true) [a; b; c; d; e; f; g; h; p; q; r; s].

Variables t0 hh mm : Z.
Hypothesis date_read :
  moment_of_iso [a; b; c; d; 45; e; f; 45; g; h] = Some t0.
Hypothesis time_read : split_time [p; q; 58; r; s] = (hh, mm).

Lemma iso_at rest :
  match_iso_date (a :: b :: c :: d :: 45 :: e :: f :: 45 :: g :: h :: rest)
  = Some ([a; b; c; d; 45; e; f; 45; g; h], rest).
Proof using digits.
  clear date_read time_read. split_digits digits. unfold match_iso_date.
  repeat match goal with H : is_digit _ = true |- _ => rewrite H; clear H end.
  reflexivity.
Qed.

Lemma time_at rest :
  match_time (p :: q :: 58 :: r :: s :: rest) = Some ([p; q; 58; r; s], rest).
Proof using digits.
  clear date_read time_read. split_digits digits. unfold match_time, match_time2.
  repeat match goal with H : is_digit _ = true |- _ => rewrite ?H; clear H end.
  reflexivity.
Qed.

Lemma space_then_date rest :
  drop_while is_space (32 :: a :: rest) = a :: rest.
Proof using digits.
  clear date_read time_read. split_digits digits.
  cbn [drop_while]. change (is_space 32) with true. cbn iota.
  by rewrite digit_not_space.
Qed.

Lemma opt_time_at :
  match_opt_time [32; p; q; 58; r; s] = (Some [p; q; 58; r; s], []).
Proof using digits.
  pose proof (time_at []) as Ht.
  clear date_read time_read. split_digits digits.
  unfold match_opt_time. change (is_space 32) with true. cbn iota.
  cbn [drop_while]. rewrite (digit_not_space p) by assumption. by rewrite Ht.
Qed.

Lemma trim_date :
  trim [32; a; b; c; d; 45; e; f; 45; g; h] = [a; b; c; d; 45; e; f; 45; g; h]
  /\ trim [a; b; c; d; 45; e; f; 45; g; h] = [a; b; c; d; 45; e; f; 45; g; h].
Proof using digits.
  pose proof (space_then_date [b; c; d; 45; e; f; 45; g; h]) as H1.
  clear date_read time_read. split_digits digits.
  unfold trim. rewrite H1. cbn [drop_while].
  rewrite (digit_not_space a) by assumption.
  cbn [rev app drop_while]. rewrite (digit_not_space h) by assumption. done.
Qed.

(** The emoji form, without and with a time. *)
Lemma reparse_tasks ty (withTime : bool) :
  let line := hd [] (DATE_SYMBOLS ty) ++ [32]
              ++ [a; b; c; d; 45; e; f; 45; g; h]
              ++ (if withTime then [32; p; q; 58; r; s] else []) in
  extractAllDates line None
  = [mkField ty (if withTime then apply_time hh mm t0 else t0) line 0
       (length line) FmtTasks (Some withTime)].
Proof using All.
  pose proof iso_at as Hiso. pose proof opt_time_at as Hopt.
  pose proof space_then_date as Hsp.
  intros line. unfold extractAllDates, collect_dates. cbn [selected].
  split_digits digits.
  assert (Hemoji : extractEmojiDates line
    = [mkField ty (if withTime then apply_time hh mm t0 else t0) line 0
         (length line) FmtTasks (Some withTime)]).
  { destruct ty, withTime; subst line; cbn [hd DATE_SYMBOLS app];
      (match goal with
       | |- context [mkField ?ty0 _ _ _ _ FmtTasks _] =>
           erewrite (extractEmojiDates_single ty0)
       end;
       [
       | unfold match_emoji; cbn [DATE_SYMBOLS match_symbol starts_with];
         cbn [Z.eqb Pos.eqb andb length drop];
         rewrite Hsp, Hiso, ?Hopt; unfold match_opt_time; reflexivity
       | unfold match_length; cbn [m_raw]; rewrite consumed_all; reflexivity
       | intros []; intros ?; try congruence; reflexivity
       | quiet_units ]);
      cbn [omap list_omap emoji_field m_date m_time m_raw];
      rewrite ?consumed_all; unfold emoji_field; cbn [m_date m_time m_raw];
      rewrite date_read, ?time_read; reflexivity. }
  rewrite Hemoji.
  rewrite extractDataviewDates_quiet, extractSimpleDates_quiet,
    extractKanbanDates_quiet;
    [reflexivity | ..];
    destruct ty, withTime; subst line; cbn [hd DATE_SYMBOLS app]; quiet_units.
Qed.

(** The simple form. *)
Lemma reparse_simple :
  let line := [64; 32; a; b; c; d; 45; e; f; 45; g; h] in
  extractAllDates line None
  = [mkField Due t0 line 0 (length line) FmtSimple None].
Proof using digits date_read.
  pose proof iso_at as Hiso. pose proof space_then_date as Hsp.
  intros line. unfold extractAllDates, collect_dates. cbn [selected].
  clear time_read. split_digits digits.
  rewrite extractEmojiDates_quiet, extractDataviewDates_quiet by (subst line; quiet_units).
  assert (Hk : extractKanbanDates line = []).
  { unfold extractKanbanDates, line.
    rewrite exec_all_head_none by reflexivity.
    rewrite (exec_all_quiet _ _ (fun x => x =? 64)); [done | |quiet_units].
    apply match_kanban_date_lead. }
  rewrite Hk. unfold extractSimpleDates.
  rewrite (exec_all_whole _ _ line
             (mkMatch line [a; b; c; d; 45; e; f; 45; g; h] None)).
  - cbn [omap list_omap simple_field]. unfold simple_field.
    cbn [m_date m_raw]. rewrite date_read. reflexivity.
  - discriminate.
  - unfold match_simple, line. cbn [Z.eqb Pos.eqb].
    rewrite Hsp, Hiso, consumed_all. reflexivity.
  - reflexivity.
Qed.

(** The Kanban form without a time. *)
Lemma reparse_kanban :
  let line := [64; 123; a; b; c; d; 45; e; f; 45; g; h; 125] in
  extractAllDates line None
  = [mkField Due t0 line 0 (length line) FmtKanban (Some false)].
Proof using digits date_read.
  pose proof iso_at as Hiso.
  intros line. unfold extractAllDates, collect_dates. cbn [selected].
  clear time_read. split_digits digits.
  rewrite extractEmojiDates_quiet, extractDataviewDates_quiet by (subst line; quiet_units).
  assert (Hs : extractSimpleDates line = []).
  { unfold extractSimpleDates, line.
    rewrite exec_all_head_none by reflexivity.
    rewrite (exec_all_quiet _ _ (fun x => x =? 64)); [done | |quiet_units].
    apply match_simple_lead. }
  rewrite Hs. unfold extractKanbanDates.
  assert (Htime : kanban_time line = (false, 0, 0)).
  { unfold kanban_time, line.
    rewrite exec_first_head_none by reflexivity.
    rewrite (exec_first_quiet _ (fun x => x =? 64)); [done | |quiet_units].
    apply match_kanban_time_lead. }
  rewrite Htime.
  rewrite (exec_all_whole _ _ line
             (mkMatch line [a; b; c; d; 45; e; f; 45; g; h] None)).
  - cbn [omap list_omap kanban_field]. unfold kanban_field.
    cbn [m_date m_raw]. rewrite date_read. reflexivity.
  - discriminate.
  - unfold match_kanban_date, line. cbn [Z.eqb Pos.eqb andb].
    rewrite Hiso. cbn [Z.eqb Pos.eqb]. rewrite consumed_all. reflexivity.
  - reflexivity.
Qed.

(** The Kanban form with the time token after the date token. *)
Lemma reparse_kanban_time :
  let line := [64; 123; a; b; c; d; 45; e; f; 45; g; h; 125;
               32; 64; 64; 123; p; q; 58; r; s; 125] in
  extractAllDates line None
  = [mkField Due (apply_time hh mm t0)
       [64; 123; a; b; c; d; 45; e; f; 45; g; h; 125] 0 13 FmtKanban (Some true)].
Proof using All.
  pose proof iso_at as Hiso. pose proof time_at as Htm.
  intros line. unfold extractAllDates, collect_dates. cbn [selected].
  split_digits digits.
  rewrite extractEmojiDates_quiet, extractDataviewDates_quiet by (subst line; quiet_units).
  assert (Hs : extractSimpleDates line = []).
  { unfold extractSimpleDates, line.
    rewrite exec_all_head_none by reflexivity.
    change [123; a; b; c; d; 45; e; f; 45; g; h; 125; 32; 64; 64; 123; p; q; 58; r; s; 125]
      with ([123; a; b; c; d; 45; e; f; 45; g; h; 125; 32]
            ++ [64; 64; 123; p; q; 58; r; s; 125]).
    rewrite (exec_all_quiet_prefix _ _ (fun x => x =? 64));
      [|apply match_simple_lead | quiet_units].
    rewrite !exec_all_head_none by reflexivity.
    rewrite (exec_all_quiet _ _ (fun x => x =? 64)); [done | |quiet_units].
    apply match_simple_lead. }
  rewrite Hs. unfold extractKanbanDates.
  assert (Htime : kanban_time line = (true, hh, mm)).
  { unfold kanban_time, line.
    rewrite exec_first_head_none by reflexivity.
    change [123; a; b; c; d; 45; e; f; 45; g; h; 125; 32; 64; 64; 123; p; q; 58; r; s; 125]
      with ([123; a; b; c; d; 45; e; f; 45; g; h; 125; 32]
            ++ [64; 64; 123; p; q; 58; r; s; 125]).
    rewrite (exec_first_quiet_prefix _ (fun x => x =? 64));
      [|apply match_kanban_time_lead | quiet_units].
    rewrite (exec_first_head_some _ _ _ [p; q; 58; r; s]).
    - by rewrite time_read.
    - unfold match_kanban_time. cbn [Z.eqb Pos.eqb andb].
      rewrite Htm. reflexivity. }
  rewrite Htime.
  unfold line at 1.
  rewrite (exec_all_head_some _ _ _ _ _
             (mkMatch [64; 123; a; b; c; d; 45; e; f; 45; g; h; 125]
                [a; b; c; d; 45; e; f; 45; g; h] None)).
  2:{ unfold match_kanban_date. cbn [Z.eqb Pos.eqb andb].
      rewrite Hiso. reflexivity. }
  change (match_length _ - 1)%nat
    with (length [123; a; b; c; d; 45; e; f; 45; g; h; 125]).
  change [123; a; b; c; d; 45; e; f; 45; g; h; 125; 32; 64; 64; 123; p; q; 58; r; s; 125]
    with ([123; a; b; c; d; 45; e; f; 45; g; h; 125]
          ++ [32; 64; 64; 123; p; q; 58; r; s; 125]).
  rewrite (exec_all_skip _ _ [123; a; b; c; d; 45; e; f; 45; g; h; 125]).
  rewrite exec_all_head_none by reflexivity.
  rewrite exec_all_head_none by reflexivity.
  rewrite exec_all_head_none by reflexivity.
  rewrite (exec_all_quiet _ _ (fun x => x =? 64));
    [|apply match_kanban_date_lead | quiet_units].
  cbn [omap list_omap kanban_field]. unfold kanban_field.
  cbn [m_date m_raw]. rewrite date_read. reflexivity.
Qed.

Lemma closing_at open close i :
  (open, close) = (91, 93) \/ (open, close) = (40, 41) ->
  closing_loop open close [32; a; b; c; d; 45; e; f; 45; g; h; close] i 0 false
  = Some (i + 11)%nat.
Proof using digits.
  clear date_read time_read. split_digits digits.
  intros [H|H]; injection H as -> ->.
  - change (closing_loop 91 93
              ([32; a; b; c; d; 45; e; f; 45; g; h] ++ 93 :: []) i 0 false
            = Some (Nat.add i (length [32; a; b; c; d; 45; e; f; 45; g; h]))).
    apply closing_loop_quiet; [|reflexivity|reflexivity].
    repeat first [ apply Forall_nil_2
                 | apply Forall_cons_2; [repeat split; digit_fact |] ].
  - change (closing_loop 40 41
              ([32; a; b; c; d; 45; e; f; 45; g; h] ++ 41 :: []) i 0 false
            = Some (Nat.add i (length [32; a; b; c; d; 45; e; f; 45; g; h]))).
    apply closing_loop_quiet; [|reflexivity|reflexivity].
    repeat first [ apply Forall_nil_2
                 | apply Forall_cons_2; [repeat split; digit_fact |] ].
Qed.

Lemma closing_bracket_at ty open close :
  (open, close) = (91, 93) \/ (open, close) = (40, 41) ->
  findClosingBracket
    (open :: type_value ty ++ 58 :: 58
       :: [32; a; b; c; d; 45; e; f; 45; g; h; close])
    (length (type_value ty) + 3) open close
  = Some ([a; b; c; d; 45; e; f; 45; g; h],
          (length (type_value ty) + 15)%nat).
Proof using digits.
  pose proof trim_date as [Htrim _]. pose proof closing_at as Hclose.
  intros Hw. unfold findClosingBracket.
  replace (drop (length (type_value ty) + 3)
             (open :: type_value ty ++ 58 :: 58
                :: [32; a; b; c; d; 45; e; f; 45; g; h; close]))
    with [32; a; b; c; d; 45; e; f; 45; g; h; close]
    by (destruct ty; reflexivity).
  rewrite (Hclose open close _ Hw).
  replace (substring (length (type_value ty) + 3)
             (length (type_value ty) + 3 + 11)
             (open :: type_value ty ++ 58 :: 58
                :: [32; a; b; c; d; 45; e; f; 45; g; h; close]))
    with [32; a; b; c; d; 45; e; f; 45; g; h]
    by (destruct ty; reflexivity).
  rewrite Htrim. f_equal. f_equal. lia.
Qed.

(** The Dataview forms. *)
Lemma reparse_dataview ty open close fmt :
  (open, close, fmt) ∈ DATAVIEW_WRAPPERS ->
  let line := [open] ++ type_value ty ++ [58; 58; 32]
              ++ [a; b; c; d; 45; e; f; 45; g; h] ++ [close] in
  extractAllDates line None
  = [mkField ty t0 line 0 (length line) fmt None].
Proof using digits date_read.
  pose proof (iso_at []) as Hiso. pose proof trim_date as [_ Htrim].
  pose proof (closing_bracket_at ty open close) as Hclose.
  intros Hw line. unfold extractAllDates, collect_dates. cbn [selected].
  clear time_read.
  assert (Hcases : (open, close, fmt) = (91, 93, FmtDataviewBracket)
                   \/ (open, close, fmt) = (40, 41, FmtDataviewParen)).
  { unfold DATAVIEW_WRAPPERS in Hw. rewrite !elem_of_cons, elem_of_nil in Hw.
    tauto. }
  clear Hw.
  assert (Hoc : (open, close) = (91, 93) \/ (open, close) = (40, 41)).
  { destruct Hcases as [[= -> -> ->]|[= -> -> ->]]; auto. }
  specialize (Hclose Hoc).
  assert (Hround : dataview_round line open close fmt 0
                   = Some (Some (mkField ty t0 line 0 (length line) fmt None),
                           length line)).
  { unfold dataview_round.
    change line with (open :: type_value ty ++ 58 :: 58
                        :: [32; a; b; c; d; 45; e; f; 45; g; h; close]).
    rewrite indexOf_head. cbv beta iota zeta.
    rewrite separator_at. cbv beta iota zeta.
    rewrite key_part_clean. cbv beta iota zeta.
    rewrite Hclose. cbv beta iota zeta.
    rewrite alias_of_type_value, Htrim, Hiso, date_read.
    destruct ty; reflexivity. }
  rewrite extractEmojiDates_quiet, extractSimpleDates_quiet,
    extractKanbanDates_quiet.
  2-4: split_digits digits;
       destruct Hcases as [[= -> -> ->]|[= -> -> ->]]; destruct ty;
       subst line; vm_compute type_value; cbn [app]; quiet_units.
  unfold extractDataviewDates, DATAVIEW_WRAPPERS. cbn [flat_map].
  split_digits digits.
  destruct Hcases as [[= -> -> ->]|[= -> -> ->]].
  - rewrite (dataview_loop_one _ _ _ _ _ Hround) by discriminate.
    rewrite dataview_loop_quiet; [reflexivity |].
    destruct ty; subst line; vm_compute type_value; cbn [app]; quiet_units.
  - rewrite (dataview_loop_one _ _ _ _ _ Hround) by discriminate.
    rewrite dataview_loop_quiet; [reflexivity |].
    destruct ty; subst line; vm_compute type_value; cbn [app]; quiet_units.
Qed.
End Reparse.

(** ** What the grammars put into a field *)

Lemma match_iso_date_digits s D rest :
  match_iso_date s = Some (D, rest) ->
  exists a b c d e f g h,
    D = [a; b; c; d; 45; e; f; 45; g; h]
    /\ Forall (fun x => is_digit x = true) [a; b; c; d; e; f; g; h].
Proof.
  unfold match_iso_date.
  destruct s as [|a [|b [|c [|d [|x [|e [|f [|y [|g [|h r]]]]]]]]]];
    try discriminate.
  destruct (_ && _) eqn:E; [|discriminate]. intros [= <- <-].
  do 9 (apply andb_true_iff in E as [E ?]).
  repeat match goal with H : (_ =? _) = true |- _ => apply Z.eqb_eq in H; subst end.
  exists a, b, c, d, e, f, g, h. split; [reflexivity |].
  repeat constructor; assumption.
Qed.

Lemma moment_of_iso_days s D rest t :
  match_iso_date s = Some (D, rest) -> moment_of_iso D = Some t ->
  exists days, t = days * msPerDay /\ first_day <= days.
Proof.
  intros Hs Ht.
  apply match_iso_date_digits in Hs as (a & b & c & d & e & f & g & h & -> & Hd).
  split_digits Hd.
  repeat match goal with H : is_digit _ = true |- _ => apply is_digit_range in H end.
  unfold moment_of_iso in Ht. cbn [take drop number_of_digits fold_left] in Ht.
  destruct (_ && _) eqn:E; [|discriminate]. injection Ht as <-.
  repeat (apply andb_true_iff in E as [E ?]).
  repeat match goal with H : (_ <=? _) = true |- _ => apply Z.leb_le in H end.
  eexists. split; [reflexivity |].
  apply days_from_civil_lower; lia.
Qed.

Lemma match_time_inv s t rest :
  match_time s = Some (t, rest) ->
  exists hours minutes, split_time t = (hours, minutes) /\ 0 <= hours /\ 0 <= minutes.
Proof.
  unfold match_time.
  destruct (match_time2 s) as [[t2 rest2]|] eqn:E2.
  - intros [= <- <-]. unfold match_time2 in E2.
    destruct s as [|p [|q [|x [|r [|s' rest']]]]]; try discriminate.
    destruct (_ && _) eqn:E; [|discriminate]. injection E2 as <- <-.
    do 4 (apply andb_true_iff in E as [E ?]).
    repeat match goal with H : (_ =? _) = true |- _ => apply Z.eqb_eq in H; subst end.
    repeat match goal with H : is_digit _ = true |- _ => apply is_digit_range in H end.
    unfold split_time. cbn [take_until drop_until].
    replace (p =? 58) with false by (symmetry; apply Z.eqb_neq; lia).
    replace (q =? 58) with false by (symmetry; apply Z.eqb_neq; lia).
    cbn [Z.eqb Pos.eqb number_of_digits fold_left].
    eexists _, _. split; [reflexivity | lia].
  - unfold match_time1.
    destruct s as [|p [|x [|r [|s' rest']]]]; try discriminate.
    destruct (_ && _) eqn:E; [|discriminate]. intros [= <- <-].
    do 3 (apply andb_true_iff in E as [E ?]).
    repeat match goal with H : (_ =? _) = true |- _ => apply Z.eqb_eq in H; subst end.
    repeat match goal with H : is_digit _ = true |- _ => apply is_digit_range in H end.
    unfold split_time. cbn [take_until drop_until].
    replace (p =? 58) with false by (symmetry; apply Z.eqb_neq; lia).
    cbn [Z.eqb Pos.eqb number_of_digits fold_left].
    eexists _, _. split; [reflexivity | lia].
Qed.

Lemma match_opt_time_inv s t rest :
  match_opt_time s = (Some t, rest) ->
  exists hours minutes, split_time t = (hours, minutes) /\ 0 <= hours /\ 0 <= minutes.
Proof.
  unfold match_opt_time. destruct s as [|c r]; [discriminate |].
  destruct (is_space c); [|discriminate].
  destruct (match_time _) as [[t' rest']|] eqn:E; [|discriminate].
  intros [= <- <-]. eapply match_time_inv, E.
Qed.

Lemma well_formed_midnight ty days raw0 i j fmt flag :
  first_day <= days ->
  match fmt with
  | FmtTasks => True
  | FmtDataviewBracket | FmtDataviewParen => flag = None
  | FmtSimple => ty = Due /\ flag = None
  | FmtKanban => ty = Due
  end ->
  well_formed (mkField ty (days * msPerDay) raw0 i j fmt flag).
Proof.
  intros Hd Hf. split; [|exact Hf]. exists days, 0, 0. cbn. repeat split; lia.
Qed.

Lemma well_formed_timed ty days hours minutes raw0 i j fmt :
  first_day <= days -> 0 <= hours -> 0 <= minutes ->
  match fmt with
  | FmtTasks => True
  | FmtKanban => ty = Due
  | _ => False
  end ->
  well_formed (mkField ty (apply_time hours minutes (days * msPerDay))
                 raw0 i j fmt (Some true)).
Proof.
  intros Hd Hh Hm Hf. split; [|by destruct fmt].
  exists days, hours, minutes. cbn. rewrite apply_time_midnight.
  repeat split; try lia; discriminate.
Qed.

Lemma emoji_field_well_formed ty syms s i m f :
  match_emoji syms s = Some m -> emoji_field ty (i, m) = Some f -> well_formed f.
Proof.
  unfold match_emoji, emoji_field.
  destruct (match_symbol syms s) as [r0|]; [|discriminate].
  destruct (match_iso_date _) as [[D r2]|] eqn:Ed; [|discriminate].
  destruct (match_opt_time r2) as [t r3] eqn:Et. intros [= <-]. cbn [m_date m_time m_raw].
  destruct (moment_of_iso D) as [t0|] eqn:Em; [|discriminate].
  destruct (moment_of_iso_days _ _ _ _ Ed Em) as (days & -> & Hdays).
  destruct t as [timeStr|].
  - destruct (match_opt_time_inv _ _ _ Et) as (hours & minutes & -> & Hh & Hm).
    intros [= <-]. by apply well_formed_timed.
  - intros [= <-]. by apply well_formed_midnight.
Qed.

Lemma simple_field_well_formed s i m f :
  match_simple s = Some m -> simple_field (i, m) = Some f -> well_formed f.
Proof.
  unfold match_simple, simple_field.
  destruct s as [|c r]; [discriminate |]. destruct (c =? 64); [|discriminate].
  destruct (match_iso_date _) as [[D r2]|] eqn:Ed; [|discriminate].
  intros [= <-]. cbn [m_date m_raw].
  destruct (moment_of_iso D) as [t0|] eqn:Em; [|discriminate].
  destruct (moment_of_iso_days _ _ _ _ Ed Em) as (days & -> & Hdays).
  intros [= <-]. by apply well_formed_midnight.
Qed.

Lemma kanban_time_inv line flag hours minutes :
  kanban_time line = (flag, hours, minutes) -> 0 <= hours /\ 0 <= minutes.
Proof.
  unfold kanban_time.
  pose proof (exec_first_spec match_kanban_time line) as H.
  destruct (exec_first match_kanban_time line) as [timeStr|]; [|intros [= _ <- <-]; lia].
  destruct H as (k & _ & Hk & _). unfold match_kanban_time in Hk.
  destruct (drop k line) as [|c1 [|c2 [|c3 r]]]; try discriminate.
  destruct (_ && _); [|discriminate].
  destruct (match_time r) as [[t [|c4 rest]]|] eqn:Et; try discriminate.
  destruct (c4 =? 125); [|discriminate]. injection Hk as <-.
  destruct (match_time_inv _ _ _ Et) as (hh & mm & -> & Hh & Hm).
  intros [= _ <- <-]. lia.
Qed.

Lemma kanban_field_well_formed line s i m f :
  match_kanban_date s = Some m -> kanban_field (kanban_time line) (i, m) = Some f ->
  well_formed f.
Proof.
  unfold match_kanban_date, kanban_field.
  destruct s as [|c1 [|c2 r]]; try discriminate.
  destruct (_ && _); [|discriminate].
  destruct (match_iso_date r) as [[D [|c3 rest]]|] eqn:Ed; try discriminate.
  destruct (c3 =? 125); [|discriminate]. intros [= <-]. cbn [m_date m_raw].
  destruct (kanban_time line) as [[flag hours] minutes] eqn:Ek.
  apply kanban_time_inv in Ek as [Hh Hm].
  destruct (moment_of_iso D) as [t0|] eqn:Em; [|discriminate].
  destruct (moment_of_iso_days _ _ _ _ Ed Em) as (days & -> & Hdays).
  intros [= <-]. destruct flag.
  - by apply well_formed_timed.
  - by apply well_formed_midnight.
Qed.

Lemma collect_dates_well_formed line formatFilter f :
  f ∈ collect_dates line formatFilter -> well_formed f.
Proof.
  intros H. apply collect_dates_elem in H as [H|[H|[H|H]]].
  - apply extractEmojiDates_elem in H as (ty & syms & [i m] & _ & Hhit & Hf).
    apply exec_all_elem in Hhit as (k & _ & _ & Hre).
    eapply emoji_field_well_formed; eassumption.
  - apply extractDataviewDates_elem in H as (open & close & fmt & Hw & H).
    apply dataview_loop_fields in H as (_ & _ & Hfmt & Ht & D & HD & Hm).
    destruct (moment_of_iso_days _ _ _ _ HD Hm) as (days & Hdate & Hdays).
    destruct f as [ty date0 raw0 i j fmt0 flag]. cbn in *. subst.
    apply well_formed_midnight; [done |].
    unfold DATAVIEW_WRAPPERS in Hw. rewrite !elem_of_cons, elem_of_nil in Hw.
    destruct Hw as [Hw|[Hw|[]]]; injection Hw as _ _ ->; reflexivity.
  - apply list_elem_of_omap in H as ([i m] & Hhit & Hf).
    apply exec_all_elem in Hhit as (k & _ & _ & Hre).
    eapply simple_field_well_formed; eassumption.
  - apply list_elem_of_omap in H as ([i m] & Hhit & Hf).
    apply exec_all_elem in Hhit as (k & _ & _ & Hre).
    eapply kanban_field_well_formed; eassumption.
Qed.

Lemma extractAllDates_collected line formatFilter f :
  f ∈ extractAllDates line formatFilter -> f ∈ collect_dates line formatFilter.
Proof.
  intros H. rewrite <- (sort_by_start_perm (collect_dates line formatFilter)).
  eapply elem_of_sublist; [exact H | apply remove_overlaps_sublist].
Qed.

Lemma clock_recompose days hours minutes :
  0 <= hours -> 0 <= minutes ->
  let t := days * msPerDay + hours * msPerHour + minutes * msPerMinute in
  apply_time (hour t) (minute t) (day_of t * msPerDay) = t
  /\ days <= day_of t
  /\ (hour t = 0 -> minute t = 0 -> day_of t * msPerDay = t).
Proof.
  intros Hh Hm t. rewrite apply_time_midnight. subst t.
  unfold day_of, hour, minute, msPerDay, msPerHour, msPerMinute.
  Z.div_mod_to_equations. lia.
Qed.

(** C2, as stated, fails: a time of 24:00 on the last day of the year
    9999 carries the date into the year 10000, which is written with
    five digits and not read back. *)
Lemma roundtrip_fails_in_year_10000 :
  exists f,
    extractAllDates line_year_overflow None = [f]
    /\ format_field f = calendar_symbol ++ str " 10000-01-01"
    /\ extractAllDates (format_field f) None = [].
Proof.
  eexists. split; [vm_compute; reflexivity |]. split; vm_compute; reflexivity.
Qed.

(** C2 (amended). For every field of one of the six date field types
    that has the shape of an extracted field and whose date is in a year
    up to 9999: the string that [formatDate] makes of the field's type,
    date, format and [hasTime] is read back by [extractAllDates] as one
    field with the same type, the same date and the same format, which
    spans the string from its start. The shape is [well_formed]: the
    date is a day from 0000-01-01 on plus hours and minutes, which are
    zero unless the field has a time, and the format bounds the type and
    the time flag as the grammars do; the four grammars give fields of
    this shape ([collect_dates_well_formed]). This covers the six types
    in the emoji and in the two Dataview forms, and [Due] in the simple
    and Kanban forms. It says nothing of a field whose type is none of
    the six, as the look-up of the Dataview key [constructor] or
    [__proto__] in the alias table gives in the code. *)
Theorem format_then_extract_roundtrip (f : ParsedDateField) :
  well_formed f ->
  year (date f) <= 9999 ->
  exists f',
    extractAllDates (format_field f) None = [f']
    /\ type f' = type f /\ date f' = date f /\ format f' = format f
    /\ start f' = 0%nat.
Proof.
  intros Hin Hyear.
  destruct Hin as [(days & hours & minutes & Hdate & Hdays & Hh & Hm & Hflag) Hfmt].
  destruct (clock_recompose days hours minutes Hh Hm) as (Htime & Hday & Hmid).
  rewrite <- Hdate in Htime, Hday, Hmid.
  destruct (format_date_shape (date f)) as (a & b & c & d & e & f0 & g & h & HD & Hdig & Hread);
    [lia | exact Hyear |].
  destruct (format_time_shape (date f)) as (p & q & r & s & HT & Htdig & Hsplit).
  rewrite HD in Hread. rewrite HT in Hsplit.
  assert (Hdigits : Forall (fun x => is_digit x = true)
                      [a; b; c; d; e; f0; g; h; p; q; r; s]).
  { change [a; b; c; d; e; f0; g; h; p; q; r; s]
      with ([a; b; c; d; e; f0; g; h] ++ [p; q; r; s]).
    by apply Forall_app. }
  unfold format_field, formatDate. rewrite HD, HT.
  destruct f as [ty t raw0 i j fmt flag]. cbn [type date format hasTime] in *.
  set (valid := truthy flag && (negb (hour t =? 0) || negb (minute t =? 0))).
  assert (Hvalid : valid = false -> day_of t * msPerDay = t).
  { unfold valid. intros Hv. apply andb_false_iff in Hv as [Hv|Hv].
    - destruct (Hflag Hv) as [-> ->]. rewrite Hdate.
      unfold day_of, msPerDay, msPerHour, msPerMinute.
      Z.div_mod_to_equations. lia.
    - apply orb_false_iff in Hv as [H1 H2].
      apply negb_false_iff, Z.eqb_eq in H1, H2. auto. }
  destruct fmt.
  - pose proof (reparse_tasks a b c d e f0 g h p q r s Hdigits _ _ _ Hread Hsplit
                  ty valid) as Hre.
    cbv zeta in Hre. destruct valid.
    + eexists. split; [exact Hre |]. cbn. auto.
    + rewrite app_nil_r in Hre.
      eexists. split; [exact Hre |]. cbn. auto.
  - assert (Hv : valid = false) by (unfold valid; by rewrite Hfmt).
    rewrite Hv.
    pose proof (reparse_dataview a b c d e f0 g h p q r s Hdigits _ Hread
                  ty 91 93 FmtDataviewBracket ltac:(by left)) as Hre.
    cbv zeta in Hre. eexists. split; [exact Hre |]. cbn. auto.
  - assert (Hv : valid = false) by (unfold valid; by rewrite Hfmt).
    rewrite Hv.
    pose proof (reparse_dataview a b c d e f0 g h p q r s Hdigits _ Hread
                  ty 40 41 FmtDataviewParen ltac:(right; by left)) as Hre.
    cbv zeta in Hre. eexists. split; [exact Hre |]. cbn. auto.
  - destruct Hfmt as [-> ->].
    pose proof (reparse_simple a b c d e f0 g h p q r s Hdigits _ Hread) as Hre.
    cbv zeta in Hre. eexists. split; [exact Hre |]. cbn.
    rewrite Hvalid by reflexivity. auto.
  - rewrite Hfmt in *.
    destruct valid.
    + pose proof (reparse_kanban_time a b c d e f0 g h p q r s Hdigits _ _ _
                    Hread Hsplit) as Hre.
      cbv zeta in Hre. eexists. split; [exact Hre |]. cbn. auto.
    + pose proof (reparse_kanban a b c d e f0 g h p q r s Hdigits _ Hread) as Hre.
      cbv zeta in Hre. eexists. split; [exact Hre |]. cbn. auto.
Qed.

(** ** The scenarios of the specification, and the theorems at work *)

Example scenario_ship_release :
  extractAllDates line_ship None = [field_ship_due; field_ship_start]
  /\ getPrimaryDate line_ship default_priority None = Some field_ship_due
  /\ stripDates line_ship = str "Ship release".
Proof. repeat split; vm_compute; reflexivity. Qed.

Example scenario_dataview_filter :
  map (fun d => (type d, format d, format_date (date d)))
    (extractAllDates (str "Task [due:: 2025-01-15] [start:: 2025-01-10]")
       (Some DataviewFormat))
  = [(Due, FmtDataviewBracket, str "2025-01-15");
     (Start, FmtDataviewBracket, str "2025-01-10")].
Proof. vm_compute. reflexivity. Qed.

Example scenario_kanban_time :
  extractAllDates line_kanban_time None = [field_kanban_time]
  /\ format_date_time (date field_kanban_time) = str "2025-03-01 09:00"
  /\ formatDate Due (date field_kanban_time) FmtKanban true = line_kanban_time.
Proof. repeat split; vm_compute; reflexivity. Qed.

Example scenario_overlap :
  map (fun d => (format d, start d, end_ d))
    (extractAllDates (str "[due:: 2025-01-15 @ 2025-02-01]") None)
  = [(FmtDataviewBracket, 0%nat, 31%nat)].
Proof. vm_compute. reflexivity. Qed.

(** C1 at work: the two fields of the release scenario. *)
Lemma extractAllDates_sorted_disjoint_witness :
  StronglySorted start_le (extractAllDates line_ship None)
  /\ StronglySorted before (extractAllDates line_ship None)
  /\ remove_overlaps ([field_ship_due] ++ [field_ship_start])
     = remove_overlaps [field_ship_due] ++ [field_ship_start].
Proof.
  destruct (extractAllDates_sorted_disjoint line_ship None)
    as (_ & _ & Hstep & _ & Hstart & Hbefore).
  split; [exact Hstart |]. split; [exact Hbefore |].
  rewrite (Hstep [field_ship_due] field_ship_start []);
    [|vm_compute; reflexivity].
  vm_compute. reflexivity.
Defined.

(** C2 at work: the Kanban scenario. *)
Lemma format_then_extract_roundtrip_witness :
  extractAllDates line_kanban_time None = [field_kanban_time]
  /\ well_formed field_kanban_time
  /\ year (date field_kanban_time) <= 9999
  /\ exists f',
       extractAllDates (format_field field_kanban_time) None = [f']
       /\ type f' = Due /\ date f' = date field_kanban_time
       /\ format f' = FmtKanban /\ start f' = 0%nat.
Proof.
  assert (Hshape : well_formed field_kanban_time).
  { split; [|reflexivity].
    exists (day_of (date field_kanban_time)), 9, 0.
    split; [vm_compute; reflexivity |].
    split; [apply Z.leb_le; vm_compute; reflexivity |].
    split; [lia |]. split; [lia | discriminate]. }
  assert (Hyear : year (date field_kanban_time) <= 9999)
    by (apply Z.leb_le; vm_compute; reflexivity).
  split; [vm_compute; reflexivity |].
  split; [exact Hshape |]. split; [exact Hyear |].
  exact (format_then_extract_roundtrip field_kanban_time Hshape Hyear).
Defined.

(** C3 at work: from a start with a time to a due date without one. *)
Lemma event_times_cases_witness :
  exists e,
    event_times (task_of line_trip) = (str "2025-01-10 14:30", format_date_time e)
    /\ day_of e = day_of (midnight "2025-01-12")
    /\ hour e = 23 /\ minute e = 59.
Proof.
  destruct (event_times_cases (task_of line_trip)) as (_ & Hboth & _).
  assert (Hk : isKanban (task_of line_trip)
               && truthy (task_hasTime (task_of line_trip)) = false)
    by (vm_compute; reflexivity).
  assert (Hs : find_type Start (allDates (task_of line_trip))
               = Some field_trip_start) by (vm_compute; reflexivity).
  assert (Hd : find_type Due (allDates (task_of line_trip))
               = Some field_trip_due) by (vm_compute; reflexivity).
  destruct (Hboth Hk field_trip_start field_trip_due Hs Hd) as (_ & _ & Htimed).
  destruct (Htimed eq_refl eq_refl) as (e & He & Hday & Hh & Hm).
  exists e. split; [|repeat split; assumption].
  rewrite He. f_equal.
Defined.


(** C5 at work: the due date comes first in the line and last in the
    reconstructed line. *)
Lemma reconstructLine_canonical_witness :
  reconstructLine (str "- [ ] Ship  ") (preserve_dates [field_ship_due; field_ship_start])
  = str "- [ ] Ship " ++ departure_symbol ++ str " 2025-11-20 "
    ++ calendar_symbol ++ str " 2025-11-29"
  /\ reconstructLine (str "- [ ] Ship  ")
       (preserve_dates [field_ship_due; field_ship_start])
     = reconstructLine (str "- [ ] Ship  ")
         (preserve_dates [field_ship_start; field_ship_due]).
Proof.
  destruct (reconstructLine_canonical (str "- [ ] Ship  ")
              (preserve_dates [field_ship_due; field_ship_start]))
    as (Heq & _ & _ & Hperm).
  split.
  - rewrite Heq. vm_compute. reflexivity.
  - apply Hperm.
    + apply Permutation_swap.
    + apply (bool_decide_unpack _). vm_compute. exact I.
Defined.

(** C6 at work: the release scenario under the default order and under
    an order that names no type of the line. *)
Lemma getPrimaryDate_spec_witness :
  getPrimaryDate line_ship default_priority None = Some field_ship_due
  /\ getPrimaryDate line_ship [Created; Done] None = Some field_ship_due
  /\ getPrimaryDate line_ship [Start; Due] None = Some field_ship_start.
Proof.
  assert (E : extractAllDates line_ship None = [field_ship_due; field_ship_start])
    by (vm_compute; reflexivity).
  split; [|split].
  - destruct (getPrimaryDate_spec line_ship default_priority None) as (_ & Hprio & _).
    rewrite E in Hprio.
    apply (Hprio [] Due [Scheduled; Start; Created; Done; Cancelled] field_ship_due);
      [reflexivity | constructor | reflexivity].
  - destruct (getPrimaryDate_spec line_ship [Created; Done] None) as (_ & _ & Hnone & _).
    rewrite E in Hnone. apply Hnone. repeat constructor.
  - destruct (getPrimaryDate_spec line_ship [Start; Due] None) as (_ & Hprio & _).
    rewrite E in Hprio.
    apply (Hprio [] Start [Due] field_ship_start);
      [reflexivity | constructor | reflexivity].
Defined.

(** C7 at work: two dates and two time tokens on a line; both dates get
    the time of the first token. *)
Lemma kanban_time_is_line_scoped_witness :
  extractKanbanDates line_kanban_two = [field_kanban_first; field_kanban_second]
  /\ kanban_time line_kanban_two = (true, 9, 0)
  /\ Forall (fun d => type d = Due /\ hasTime d = Some true
                      /\ hour (date d) = 9 /\ minute (date d) = 0)
       (extractKanbanDates line_kanban_two).
Proof.
  assert (Hfields : extractKanbanDates line_kanban_two
                    = [field_kanban_first; field_kanban_second])
    by (vm_compute; reflexivity).
  assert (Htoken : kanban_time line_kanban_two = (true, 9, 0))
    by (vm_compute; reflexivity).
  split; [exact Hfields |]. split; [exact Htoken |].
  destruct (kanban_time_is_line_scoped line_kanban_two) as (_ & _ & Hall).
  apply Forall_forall. intros d Hd.
  destruct (Hall d Hd) as (Hty & _ & index & m & days & _ & _ & _ & _ & Htime).
  rewrite Htoken in Htime. destruct Htime as (Hflag & _ & _ & Hclock).
  destruct (Hclock ltac:(lia) ltac:(lia)) as (_ & Hh & Hm). auto.
Defined.

(** The moment that a drop computes first, for a range of 1 day 9 h
    30 min moved by ten days. *)
Lemma drop_preserves_duration_witness :
  find_type Start (allDates (task_of line_trip)) = Some field_trip_start
  /\ find_type Due (allDates (task_of line_trip)) = Some field_trip_due
  /\ drop_newEndMoment (task_of line_trip)
       (midnight "2025-01-20" + 14 * msPerHour + 30 * msPerMinute)
       (midnight "2025-01-21")
     = midnight "2025-01-22".
Proof.
  assert (Hs : find_type Start (allDates (task_of line_trip))
               = Some field_trip_start) by (vm_compute; reflexivity).
  assert (Hd : find_type Due (allDates (task_of line_trip))
               = Some field_trip_due) by (vm_compute; reflexivity).
  split; [exact Hs |]. split; [exact Hd |].
  destruct (drop_preserves_duration (task_of line_trip)
              (midnight "2025-01-20" + 14 * msPerHour + 30 * msPerMinute)
              (midnight "2025-01-21") field_trip_start field_trip_due Hs Hd)
    as (Heq & _).
  rewrite Heq. vm_compute. reflexivity.
Defined.

(** The second [Created] date of the line stays. *)
Lemma reschedule_carries_last_of_type_witness :
  is_Some (find_type Created (allDates (task_of line_two_created)))
  /\ is_infix ([32] ++ plus_symbol ++ str " 2025-01-02")
       (handleEventDrop (task_of line_two_created) line_two_created
          (midnight "2025-03-05") (midnight "2025-03-06")).
Proof.
  assert (H : is_Some (find_type Created (allDates (task_of line_two_created))))
    by (vm_compute; eexists; reflexivity).
  split; [exact H |].
  destruct (reschedule_carries_last_of_type (task_of line_two_created)
              line_two_created (midnight "2025-03-05") (midnight "2025-03-06")
              Created H)
    as (d & Hlast & _ & _ & _ & Hdrop & _).
  assert (Hd : d = field_second_created).
  { assert (E : last_of_type Created (allDates (task_of line_two_created))
                = Some field_second_created) by (vm_compute; reflexivity).
    congruence. }
  subst d.
  assert (Hfree : Created ∉ drop_rescheduled (task_of line_two_created)).
  { intros Hin. apply list_elem_of_In in Hin. vm_compute in Hin.
    destruct Hin as [Hin|[]]. discriminate Hin. }
  destruct (Hdrop Hfree) as (_ & Hinfix).
  replace (format_field field_second_created)
    with (plus_symbol ++ str " 2025-01-02") in Hinfix
    by (vm_compute; reflexivity).
  exact Hinfix.
Defined.

(** * Further properties of the code *)

(** ** Spans and raw text of the extracted fields *)

Lemma drop_while_length p s : (length (drop_while p s) <= length s)%nat.
Proof.
  induction s as [|c r IH]; cbn; [lia |]. destruct (p c); cbn; lia.
Qed.

Lemma starts_with_length pat s :
  starts_with pat s = true -> (length pat <= length s)%nat.
Proof.
  revert s. induction pat as [|p pat IH]; intros s; cbn; [lia |].
  destruct s as [|c s]; [discriminate |].
  intros H. apply andb_true_iff in H as [_ H]. apply IH in H. cbn. lia.
Qed.

Lemma match_symbol_inv syms s r :
  match_symbol syms s = Some r ->
  exists sym, sym ∈ syms /\ starts_with sym s = true /\ r = drop (length sym) s.
Proof.
  induction syms as [|sym more IH]; cbn; [discriminate |].
  destruct (starts_with sym s) eqn:E.
  - intros [= <-]. exists sym. split; [left | done].
  - intros H. destruct (IH H) as (sym' & Hin & Hs). exists sym'. split; [by right | done].
Qed.

Lemma match_iso_date_length s d rest :
  match_iso_date s = Some (d, rest) -> length s = (10 + length rest)%nat.
Proof.
  intros H. pose proof (match_iso_date_digits _ _ _ H) as (a & b & c & d0 & e & f & g & h & -> & _).
  apply match_iso_date_self in H as [-> _]. reflexivity.
Qed.

Lemma match_time_length s t rest :
  match_time s = Some (t, rest) -> (length rest <= length s)%nat.
Proof.
  unfold match_time, match_time2, match_time1.
  destruct s as [|a [|b [|c [|d [|e r]]]]]; try discriminate;
    repeat match goal with
           | |- context [if ?b then _ else _] => destruct b
           end; intros [= <- <-] || discriminate; cbn; lia.
Qed.

Lemma match_opt_time_length s t rest :
  match_opt_time s = (t, rest) -> (length rest <= length s)%nat.
Proof.
  unfold match_opt_time. destruct s as [|c r]; [intros [= <- <-]; lia |].
  destruct (is_space c); [|intros [= <- <-]; lia].
  destruct (match_time _) as [[t' rest']|] eqn:E; intros [= <- <-]; [|lia].
  apply match_time_length in E. pose proof (drop_while_length is_space r). cbn. lia.
Qed.

Lemma consumed_proper s rest :
  (length rest < length s)%nat -> proper_prefix (consumed s rest) s.
Proof.
  intros H. unfold proper_prefix, consumed.
  rewrite length_take. 
  replace (Nat.min (length s - length rest) (length s)) with (length s - length rest)%nat by lia.
  split; [reflexivity | lia].
Qed.

Lemma match_emoji_raw ty syms s m :
  (ty, syms) ∈ EMOJI_DATE_PATTERNS ->
  match_emoji syms s = Some m -> proper_prefix (m_raw m) s.
Proof.
  intros Hin. unfold match_emoji.
  destruct (match_symbol syms s) as [r0|] eqn:Es; [|discriminate].
  apply match_symbol_inv in Es as (sym & Hsym & Hstart & ->).
  assert (Hne : (0 < length sym)%nat).
  { pose proof (patterns_lead ty syms Hin) as Hl. rewrite Forall_forall in Hl.
    destruct (Hl sym Hsym) as (x & rest & -> & _). cbn. lia. }
  apply starts_with_length in Hstart.
  set (r1 := match drop (length sym) s with
             | c :: r => if c =? 65039 then r else drop (length sym) s
             | [] => drop (length sym) s
             end).
  assert (Hr1 : (length r1 <= length (drop (length sym) s))%nat).
  { unfold r1. destruct (drop (length sym) s) as [|c r]; [lia |].
    destruct (c =? 65039); cbn; lia. }
  rewrite length_drop in Hr1.
  destruct (match_iso_date (drop_while is_space r1)) as [[d r2]|] eqn:Ed; [|discriminate].
  apply match_iso_date_length in Ed.
  pose proof (drop_while_length is_space r1) as Hdw.
  destruct (match_opt_time r2) as [t r3] eqn:Et. apply match_opt_time_length in Et.
  intros [= <-]. cbn [m_raw]. apply consumed_proper. lia.
Qed.

Lemma match_simple_raw s m : match_simple s = Some m -> proper_prefix (m_raw m) s.
Proof.
  unfold match_simple. destruct s as [|c r]; [discriminate |].
  destruct (c =? 64); [|discriminate].
  destruct (match_iso_date _) as [[d rest]|] eqn:Ed; [|discriminate].
  apply match_iso_date_length in Ed.
  pose proof (drop_while_length is_space r) as Hdw.
  intros [= <-]. cbn [m_raw]. apply consumed_proper. cbn. lia.
Qed.

Lemma match_kanban_date_raw s m :
  match_kanban_date s = Some m -> proper_prefix (m_raw m) s.
Proof.
  unfold match_kanban_date. destruct s as [|c1 [|c2 r]]; try discriminate.
  destruct (_ && _); [|discriminate].
  destruct (match_iso_date r) as [[d [|c3 rest]]|] eqn:Ed; try discriminate.
  apply match_iso_date_length in Ed.
  destruct (c3 =? 125); [|discriminate].
  intros [= <-]. cbn [m_raw]. apply consumed_proper. cbn in *. lia.
Qed.

Lemma hit_spans_raw line k (raw0 : list Z) :
  (k < length line)%nat -> proper_prefix raw0 (drop k line) ->
  (k < k + length raw0)%nat /\ (k + length raw0 <= length line)%nat
  /\ raw0 = substring k (k + length raw0) line.
Proof.
  intros Hk [Hraw Hlen]. rewrite length_drop in Hlen.
  split; [lia |]. split; [lia |].
  unfold substring.
  replace (Nat.max k (k + length raw0) - Nat.min k (k + length raw0))%nat
    with (length raw0) by lia.
  replace (Nat.min k (k + length raw0)) with k by lia. exact Hraw.
Qed.

Lemma closing_loop_lt open close s i nesting escaped k :
  closing_loop open close s i nesting escaped = Some k -> (k < i + length s)%nat.
Proof.
  revert i nesting escaped.
  induction s as [|c r IH]; intros i nesting escaped; simpl; [discriminate |].
  destruct (c =? 92); [intros H; apply IH in H; lia |].
  destruct escaped; [intros H; apply IH in H; lia |].
  match goal with |- context [if ?b then Some i else _] => destruct b end.
  - intros [= <-]. lia.
  - intros H. apply IH in H. lia.
Qed.

Lemma findClosingBracket_le line from open close value endIndex :
  findClosingBracket line from open close = Some (value, endIndex) ->
  (endIndex <= length line)%nat.
Proof.
  unfold findClosingBracket.
  destruct (closing_loop _ _ _ _ _ _) as [i|] eqn:E; [|discriminate].
  intros [= _ <-].
  destruct (le_lt_dec from (length line)) as [Hle|Hgt].
  - apply closing_loop_lt in E. rewrite length_drop in E. lia.
  - rewrite drop_ge in E by lia. discriminate.
Qed.

Lemma dataview_round_raw line open close fmt searchIndex d next :
  dataview_round line open close fmt searchIndex = Some (Some d, next) ->
  spans_raw line d.
Proof.
  intros H. pose proof (dataview_round_spec _ _ _ _ _ _ _ H) as [_ Hd].
  destruct (Hd d eq_refl) as (_ & Hlt & Hend & _).
  revert H. unfold dataview_round.
  destruct (indexOf [open] line searchIndex) as [foundIndex|]; [|discriminate].
  destruct (findDataviewSeparator line (foundIndex + 1)) as [[key valueIndex]|];
    [|discriminate].
  destruct (existsb _ wrapper_chars); [discriminate |].
  destruct (findClosingBracket line valueIndex open close) as [[value endIndex]|] eqn:Ec;
    [|discriminate].
  apply findClosingBracket_le in Ec.
  destruct (alias_lookup _ key) as [dateType0|]; [|discriminate].
  destruct (match_iso_date (trim value)) as [[dateMatch rest]|]; [|discriminate].
  destruct (moment_of_iso dateMatch) as [date0|]; [|discriminate].
  intros [= <- <-]. unfold spans_raw. cbn in *. repeat split; [lia | lia].
Qed.

Lemma dataview_loop_raw fuel line open close fmt searchIndex d :
  d ∈ dataview_loop fuel line open close fmt searchIndex -> spans_raw line d.
Proof.
  revert searchIndex. induction fuel as [|fuel IH]; intros searchIndex; cbn [dataview_loop].
  - intros H. inversion H.
  - destruct (negb _); [intros H; inversion H |].
    destruct (dataview_round line open close fmt searchIndex)
      as [[[d'|] next]|] eqn:Er; [| apply IH | intros H; inversion H].
    rewrite elem_of_cons. intros [->|H]; [|eapply IH, H].
    eapply dataview_round_raw, Er.
Qed.

Lemma collect_dates_spans_raw line formatFilter f :
  f ∈ collect_dates line formatFilter -> spans_raw line f.
Proof.
  intros H. apply collect_dates_elem in H as [H|[H|[H|H]]].
  - apply extractEmojiDates_elem in H as (ty & syms & [i m] & Hin & Hhit & Hf).
    apply exec_all_elem in Hhit as (k & -> & Hk & Hre).
    apply (match_emoji_raw ty) in Hre; [|exact Hin].
    unfold emoji_field in Hf. destruct (moment_of_iso _); [|discriminate].
    destruct (m_time m) as [t|]; [destruct (split_time t) |];
      injection Hf as <-; unfold spans_raw; cbn;
      apply (hit_spans_raw line k); assumption.
  - apply extractDataviewDates_elem in H as (open & close & fmt & _ & H).
    eapply dataview_loop_raw, H.
  - apply list_elem_of_omap in H as ([i m] & Hhit & Hf).
    apply exec_all_elem in Hhit as (k & -> & Hk & Hre).
    apply match_simple_raw in Hre.
    unfold simple_field in Hf. destruct (moment_of_iso _); [|discriminate].
    injection Hf as <-; unfold spans_raw; cbn.
    apply (hit_spans_raw line k); assumption.
  - apply list_elem_of_omap in H as ([i m] & Hhit & Hf).
    apply exec_all_elem in Hhit as (k & -> & Hk & Hre).
    apply match_kanban_date_raw in Hre.
    unfold kanban_field in Hf. destruct (kanban_time line) as [[fl hh] mm].
    destruct (moment_of_iso _); [|discriminate].
    injection Hf as <-; unfold spans_raw; cbn.
    apply (hit_spans_raw line k); assumption.
Qed.

(** X1. Every field that [extractAllDates] returns has a span that is
    not empty and lies in the line, and its [raw] is the text of the line
    from [start] to [end]. *)
Theorem extracted_raw_is_slice (line : list Z)
    (formatFilter : option DateFormatType) (f : ParsedDateField) :
  f ∈ extractAllDates line formatFilter ->
  (start f < end_ f)%nat /\ (end_ f <= length line)%nat
  /\ raw f = substring (start f) (end_ f) line.
Proof.
  intros H. apply extractAllDates_collected in H.
  exact (collect_dates_spans_raw line formatFilter f H).
Qed.

(** ** What a format says about a field *)

Lemma emoji_field_format ty hit f :
  emoji_field ty hit = Some f ->
  format f = FmtTasks /\ is_Some (hasTime f) /\ type f = ty.
Proof.
  destruct hit as [i m]. unfold emoji_field.
  destruct (moment_of_iso _); [|discriminate].
  destruct (m_time m) as [t|]; [destruct (split_time t) |];
    intros [= <-]; cbn; eauto.
Qed.

Lemma simple_field_format hit f :
  simple_field hit = Some f -> format f = FmtSimple.
Proof.
  destruct hit as [i m]. unfold simple_field.
  destruct (moment_of_iso _); [|discriminate]. by intros [= <-].
Qed.

Lemma kanban_field_format tm hit f :
  kanban_field tm hit = Some f -> format f = FmtKanban /\ is_Some (hasTime f).
Proof.
  destruct hit as [i m], tm as [[fl hh] mm]. unfold kanban_field.
  destruct (moment_of_iso _); [|discriminate]. intros [= <-]; cbn; eauto.
Qed.

Lemma extractEmojiDates_format line f :
  f ∈ extractEmojiDates line -> format f = FmtTasks /\ is_Some (hasTime f).
Proof.
  intros H. apply extractEmojiDates_elem in H as (ty & syms & hit & _ & _ & H).
  apply emoji_field_format in H as (? & ? & _). auto.
Qed.

Lemma extractDataviewDates_format line f :
  f ∈ extractDataviewDates line -> format_type (format f) = DataviewFormat.
Proof.
  intros H. apply extractDataviewDates_elem in H as (open & close & fmt & Hw & H).
  apply dataview_loop_fields in H as (_ & _ & -> & _).
  unfold DATAVIEW_WRAPPERS in Hw. rewrite !elem_of_cons, elem_of_nil in Hw.
  destruct Hw as [Hw|[Hw|[]]]; injection Hw as _ _ ->; reflexivity.
Qed.

Lemma extractSimpleDates_format line f :
  f ∈ extractSimpleDates line -> format f = FmtSimple.
Proof.
  intros H. apply list_elem_of_omap in H as (hit & _ & H).
  eapply simple_field_format, H.
Qed.

Lemma extractKanbanDates_format line f :
  f ∈ extractKanbanDates line -> format f = FmtKanban /\ is_Some (hasTime f).
Proof.
  intros H. apply list_elem_of_omap in H as (hit & _ & H).
  eapply kanban_field_format, H.
Qed.

Lemma collect_dates_format line formatFilter f :
  f ∈ collect_dates line formatFilter ->
  selected formatFilter (format_type (format f)) = true.
Proof.
  unfold collect_dates. rewrite !elem_of_app.
  intros [H|[H|[H|H]]];
    match type of H with
    | _ ∈ (if ?b then _ else _) => destruct b eqn:E; [|by apply elem_of_nil in H]
    end.
  - apply extractEmojiDates_format in H as [-> _]. exact E.
  - apply extractDataviewDates_format in H as ->. exact E.
  - apply extractSimpleDates_format in H as ->. exact E.
  - apply extractKanbanDates_format in H as [-> _]. exact E.
Qed.

(** X2. The date of every extracted field is a whole number of minutes,
    not before 0000-01-01, and a midnight unless the field has a time.
    The emoji and the Kanban grammar always say whether there is a time,
    the Dataview and the simple grammar never do, and the fields of the
    simple and of the Kanban grammar are due dates. *)
Theorem extracted_field_invariants (line : list Z)
    (formatFilter : option DateFormatType) (f : ParsedDateField) :
  f ∈ extractAllDates line formatFilter ->
  first_day * msPerDay <= date f
  /\ date f mod msPerMinute = 0
  /\ (truthy (hasTime f) = false -> date f mod msPerDay = 0)
  /\ match format f with
     | FmtTasks => is_Some (hasTime f)
     | FmtDataviewBracket | FmtDataviewParen => hasTime f = None
     | FmtSimple => type f = Due /\ hasTime f = None
     | FmtKanban => type f = Due /\ is_Some (hasTime f)
     end.
Proof.
  intros H. apply extractAllDates_collected in H.
  pose proof (collect_dates_well_formed _ _ _ H)
    as [(days & hours & minutes & Hdate & Hdays & Hh & Hm & Hflag) Hfmt].
  split; [|split; [|split]].
  - rewrite Hdate. unfold msPerDay, msPerHour, msPerMinute in *. lia.
  - rewrite Hdate. unfold msPerDay, msPerHour, msPerMinute.
    Z.div_mod_to_equations. lia.
  - intros Hno. destruct (Hflag Hno) as [-> ->]. rewrite Hdate.
    unfold msPerDay, msPerHour, msPerMinute. Z.div_mod_to_equations. lia.
  - apply collect_dates_elem in H as [H|[H|[H|H]]].
    + by apply extractEmojiDates_format in H as [-> ?].
    + pose proof (extractDataviewDates_format _ _ H) as Hf.
      destruct (format f); try discriminate; exact Hfmt.
    + apply extractSimpleDates_format in H. rewrite H in *. exact Hfmt.
    + apply extractKanbanDates_format in H as [Hf ?]. rewrite Hf in *. auto.
Qed.

(** X3. Under a format filter, [extractAllDates] returns fields of that
    grammar only. *)
Theorem format_filter_selects (line : list Z) (formatFilter : DateFormatType)
    (f : ParsedDateField) :
  f ∈ extractAllDates line (Some formatFilter) ->
  format_type (format f) = formatFilter.
Proof.
  intros H. apply extractAllDates_collected, collect_dates_format in H.
  cbn in H. by apply bool_decide_eq_true in H.
Qed.

(** ** The look-up functions *)

(** [hasDate] holds of a line exactly when [getPrimaryDate] finds a
    date in it, whatever the priority order. *)
Lemma hasDate_iff_primary (line : list Z) (priorityOrder : list DateFieldType) :
  hasDate line = true <-> is_Some (getPrimaryDate line priorityOrder None).
Proof.
  unfold hasDate, getPrimaryDate.
  destruct (extractAllDates line None) as [|first rest]; cbn.
  - split; [discriminate | intros [? ?]; discriminate].
  - destruct (first_by_priority _ _); split; eauto.
Qed.

(** X4. [getDateByType] returns the first extracted field of the type,
    which is the primary date under every priority order that starts
    with the type; it returns [null] exactly when no extracted field has
    the type. *)
Theorem getDateByType_spec (line : list Z) (ty : DateFieldType) :
  match getDateByType line ty with
  | Some d =>
      (exists l1 l2, extractAllDates line None = l1 ++ d :: l2
                     /\ Forall (fun d' => type d' <> ty) l1)
      /\ type d = ty /\ hasDate line = true
      /\ forall rest, getPrimaryDate line (ty :: rest) None = Some d
  | None => forall d, d ∈ extractAllDates line None -> type d <> ty
  end.
Proof.
  unfold getDateByType, hasDate, getPrimaryDate.
  destruct (find_type ty (extractAllDates line None)) as [d|] eqn:E.
  - pose proof (find_type_first _ _ _ E) as (l1 & l2 & Hl & Hty & Hl1).
    split; [eauto |]. split; [exact Hty |].
    destruct (extractAllDates line None) as [|first more];
      [by destruct l1 |].
    split; [reflexivity |]. intros rest. cbn [first_by_priority]. by rewrite E.
  - intros d Hd Hty.
    destruct (find_type_is_Some ty _ d Hd Hty) as [d' Hd']. congruence.
Qed.

(** ** The symbol of an emoji field *)

Lemma starts_with_take pat s k :
  starts_with pat s = true -> (length pat <= k)%nat ->
  starts_with pat (take k s) = true.
Proof.
  revert s k. induction pat as [|p pat IH]; intros s k; cbn; [done |].
  destruct s as [|c s]; [discriminate |]. intros H Hk.
  destruct k as [|k]; [lia |]. cbn.
  apply andb_true_iff in H as [-> H]. cbn. apply IH; [exact H | lia].
Qed.

Lemma symbols_disjoint ty ty' sym sym' s :
  sym ∈ DATE_SYMBOLS ty -> sym' ∈ DATE_SYMBOLS ty' ->
  starts_with sym s = true -> starts_with sym' s = true -> ty = ty'.
Proof.
  intros Hs Hs' H H'.
  destruct ty; cbn in Hs; rewrite ?elem_of_cons, elem_of_nil in Hs;
    destruct ty'; cbn in Hs'; rewrite ?elem_of_cons, elem_of_nil in Hs';
    try reflexivity;
    repeat match goal with
           | H : _ \/ _ |- _ => destruct H as [H|H]
           | H : False |- _ => destruct H
           end; subst sym sym';
    destruct s as [|x [|y r]]; cbn [starts_with] in H, H'; try discriminate;
    repeat match goal with
           | H : _ && _ = true |- _ => apply andb_true_iff in H as [? ?]
           | H : (_ =? _) = true |- _ => apply Z.eqb_eq in H
           end; try discriminate; exfalso; lia.
Qed.

(** X5. The raw text of a field of the emoji grammar starts with a
    symbol of the field's type, and with a symbol of no other type. *)
Theorem emoji_symbol_determines_type (line : list Z) (f : ParsedDateField) :
  f ∈ extractEmojiDates line ->
  (exists sym, sym ∈ DATE_SYMBOLS (type f) /\ starts_with sym (raw f) = true)
  /\ forall ty sym,
       sym ∈ DATE_SYMBOLS ty -> starts_with sym (raw f) = true -> ty = type f.
Proof.
  intros H. apply extractEmojiDates_elem in H as (ty0 & syms & [i m] & Hin & Hhit & Hf).
  apply exec_all_elem in Hhit as (k & _ & _ & Hre).
  pose proof (match_emoji_raw ty0 syms _ m Hin Hre) as [Hraw Hlen].
  assert (Hsyms : syms = DATE_SYMBOLS ty0).
  { rewrite patterns_are_symbols in Hin. apply list_elem_of_fmap in Hin as (ty1 & [= -> ->] & _).
    reflexivity. }
  apply emoji_field_format in Hf as Hty. destruct Hty as (_ & _ & Hty).
  assert (Hrawf : raw f = m_raw m).
  { unfold emoji_field in Hf. destruct (moment_of_iso _); [|discriminate].
    destruct (m_time m) as [t|]; [destruct (split_time t) |]; by injection Hf as <-. }
  unfold match_emoji in Hre.
  destruct (match_symbol syms (drop k line)) as [r0|] eqn:Es; [|discriminate].
  apply match_symbol_inv in Es as (sym & Hsym & Hstart & ->).
  assert (Hsymlen : (length sym <= length (m_raw m))%nat).
  { set (s := drop k line) in *.
    set (r1 := match drop (length sym) s with
               | c :: r => if c =? 65039 then r else drop (length sym) s
               | [] => drop (length sym) s
               end) in *.
    assert (Hr1 : (length r1 <= length (drop (length sym) s))%nat).
    { unfold r1. destruct (drop (length sym) s) as [|c r]; [lia |].
      destruct (c =? 65039); cbn; lia. }
    rewrite length_drop in Hr1.
    destruct (match_iso_date (drop_while is_space r1)) as [[d r2]|] eqn:Ed; [|discriminate].
    apply match_iso_date_length in Ed.
    pose proof (drop_while_length is_space r1) as Hdw.
    destruct (match_opt_time r2) as [t r3] eqn:Et. apply match_opt_time_length in Et.
    injection Hre as <-. cbn [m_raw]. unfold consumed. rewrite length_take.
    apply starts_with_length in Hstart. lia. }
  assert (Hstart' : starts_with sym (raw f) = true).
  { rewrite Hrawf, Hraw. by apply starts_with_take. }
  subst syms. rewrite Hty in *. split; [eauto |].
  intros ty sym' Hsym' Hs'. symmetry.
  eapply symbols_disjoint; [exact Hsym | exact Hsym' | exact Hstart' | exact Hs'].
Qed.

(** ** The scan for Dataview fields *)

(** X6. Every round of the loop of [extractDataviewDates] that goes on
    goes on from a later offset, so the loop ends: from
    [length line - searchIndex] rounds on, more rounds give the same
    fields. *)
Theorem dataview_scan_terminates (line : list Z) (open close : Z)
    (fmt : FieldFormat) (searchIndex fuel : nat) :
  (length line - searchIndex <= fuel)%nat ->
  (forall r next,
     dataview_round line open close fmt searchIndex = Some (r, next) ->
     (searchIndex < next)%nat)
  /\ dataview_loop fuel line open close fmt searchIndex
     = dataview_loop (length line - searchIndex) line open close fmt searchIndex.
Proof.
  intros Hfuel. split.
  - intros r next H. by apply dataview_round_spec in H as [? _].
  - apply dataview_loop_fuel; lia.
Qed.

(** The loop of [findClosingBracket] keeps [nesting] from being
    negative, so it stops at a closing bracket. *)
Lemma closing_loop_spec open close s i nesting escaped k :
  0 <= nesting ->
  closing_loop open close s i nesting escaped = Some k ->
  (i <= k)%nat /\ s !! (k - i)%nat = Some close.
Proof.
  revert i nesting escaped.
  induction s as [|c r IH]; intros i nesting escaped Hn; cbn [closing_loop];
    [discriminate |].
  assert (Hrec : forall n e, 0 <= n ->
            closing_loop open close r (S i) n e = Some k ->
            (i <= k)%nat /\ (c :: r) !! (k - i)%nat = Some close).
  { intros n e Hn' H. apply IH in H as [Hle Hk]; [|exact Hn'].
    split; [lia |]. replace (k - i)%nat with (S (k - S i)) by lia. exact Hk. }
  destruct (c =? 92); [apply Hrec; lia |].
  destruct escaped; [apply Hrec; lia |].
  destruct (Z.eqb_spec c open) as [->|Hopen].
  - replace (nesting + 1 <? 0) with false by (symmetry; apply Z.ltb_ge; lia).
    apply Hrec. lia.
  - destruct (Z.eqb_spec c close) as [->|Hclose].
    + destruct (Z.ltb_spec (nesting - 1) 0).
      * intros [= <-]. split; [lia |]. by rewrite Nat.sub_diag.
      * apply Hrec. lia.
    + replace (nesting <? 0) with false by (symmetry; apply Z.ltb_ge; lia).
      apply Hrec. lia.
Qed.

Lemma closing_loop_none open close s i nesting escaped :
  0 <= nesting -> close ∉ s ->
  closing_loop open close s i nesting escaped = None.
Proof.
  revert i nesting escaped.
  induction s as [|c r IH]; intros i nesting escaped Hn Hc; cbn [closing_loop];
    [reflexivity |].
  apply not_elem_of_cons in Hc as [Hc Hr].
  destruct (c =? 92); [apply IH; [lia | exact Hr] |].
  destruct escaped; [apply IH; [lia | exact Hr] |].
  destruct (Z.eqb_spec c open) as [->|Hopen].
  - replace (nesting + 1 <? 0) with false by (symmetry; apply Z.ltb_ge; lia).
    apply IH; [lia | exact Hr].
  - destruct (Z.eqb_spec c close) as [->|Hclose]; [done |].
    replace (nesting <? 0) with false by (symmetry; apply Z.ltb_ge; lia).
    apply IH; [lia | exact Hr].
Qed.

(** In a text without backslashes and opening brackets the loop stops at
    the first closing bracket. *)
Lemma closing_loop_first open close s i :
  92 ∉ s -> open ∉ s -> close <> 92 ->
  closing_loop open close s i 0 false = index_from [close] s i.
Proof.
  intros H92 Hopen Hclose. revert i.
  induction s as [|c r IH]; intros i; cbn [closing_loop index_from starts_with];
    [reflexivity |].
  apply not_elem_of_cons in H92 as [Hc92 Hr92].
  apply not_elem_of_cons in Hopen as [Hco Hro].
  replace (c =? 92) with false by (symmetry; apply Z.eqb_neq; congruence).
  replace (c =? open) with false by (symmetry; apply Z.eqb_neq; congruence).
  rewrite (Z.eqb_sym close c).
  destruct (Z.eqb_spec c close) as [->|Hne]; cbn; [reflexivity |].
  by apply IH.
Qed.

(** X7. When [findClosingBracket] finds a bracket, the unit before
    [endIndex] is the closing bracket, at or after [start], and the value
    is the trimmed text from [start] to it; in a text without backslashes
    and opening brackets this is the first closing bracket from [start]
    on; and without a closing bracket from [start] on nothing is found. *)
Theorem findClosingBracket_spec (line : list Z) (start0 : nat) (open close : Z) :
  (forall value endIndex,
     findClosingBracket line start0 open close = Some (value, endIndex) ->
     (start0 < endIndex <= length line)%nat
     /\ line !! (endIndex - 1)%nat = Some close
     /\ value = trim (substring start0 (endIndex - 1) line))
  /\ (92 ∉ drop start0 line -> open ∉ drop start0 line -> close <> 92 ->
      forall value endIndex,
        findClosingBracket line start0 open close = Some (value, endIndex) ->
        indexOf [close] line start0 = Some (endIndex - 1)%nat)
  /\ (close ∉ drop start0 line ->
      findClosingBracket line start0 open close = None).
Proof.
  split; [|split].
  - intros value endIndex H.
    pose proof (findClosingBracket_ge _ _ _ _ _ _ H) as Hge.
    pose proof (findClosingBracket_le _ _ _ _ _ _ H) as Hle.
    unfold findClosingBracket in H.
    destruct (closing_loop _ _ _ _ _ _) as [k|] eqn:E; [|discriminate].
    injection H as <- <-. cbn [Nat.sub]. rewrite Nat.sub_0_r.
    apply closing_loop_spec in E as [Hk E]; [|lia].
    rewrite lookup_drop in E. replace (start0 + (k - start0))%nat with k in E by lia.
    auto.
  - intros H92 Hopen Hclose value endIndex H.
    unfold findClosingBracket in H.
    destruct (closing_loop _ _ _ _ _ _) as [k|] eqn:E; [|discriminate].
    injection H as <- <-. cbn [Nat.sub]. rewrite Nat.sub_0_r.
    rewrite closing_loop_first in E by assumption. exact E.
  - intros Hc. unfold findClosingBracket.
    by rewrite closing_loop_none.
Qed.

(** ** Times in a formatted date *)

Section ReparseTime.
Variables a b c d e f g h p q r s : Z.
Hypothesis digits :
  Forall (fun x => is_digit x = true) [a; b; c; d; e; f; g; h; p; q; r; s].

Variables t0 : Z.
Hypothesis date_read :
  moment_of_iso [a; b; c; d; 45; e; f; 45; g; h] = Some t0.

Lemma trim_date_time :
  trim [32; a; b; c; d; 45; e; f; 45; g; h; 84; p; q; 58; r; s]
  = [a; b; c; d; 45; e; f; 45; g; h; 84; p; q; 58; r; s]
  /\ trim [a; b; c; d; 45; e; f; 45; g; h; 84; p; q; 58; r; s]
     = [a; b; c; d; 45; e; f; 45; g; h; 84; p; q; 58; r; s].
Proof using digits.
  clear date_read. split_digits digits.
  unfold trim. cbn [drop_while]. change (is_space 32) with true. cbn iota.
  rewrite (digit_not_space a) by assumption.
  cbn [rev app drop_while]. rewrite (digit_not_space s) by assumption. done.
Qed.

Lemma closing_time_at open close i :
  (open, close) = (91, 93) \/ (open, close) = (40, 41) ->
  closing_loop open close
    [32; a; b; c; d; 45; e; f; 45; g; h; 84; p; q; 58; r; s; close] i 0 false
  = Some (i + 17)%nat.
Proof using digits.
  clear date_read. split_digits digits.
  intros [H|H]; injection H as -> ->.
  - change (closing_loop 91 93
              ([32; a; b; c; d; 45; e; f; 45; g; h; 84; p; q; 58; r; s] ++ 93 :: [])
              i 0 false
            = Some (Nat.add i
                      (length [32; a; b; c; d; 45; e; f; 45; g; h; 84; p; q; 58; r; s]))).
    apply closing_loop_quiet; [|reflexivity|reflexivity].
    repeat first [ apply Forall_nil_2
                 | apply Forall_cons_2; [repeat split; digit_fact |] ].
  - change (closing_loop 40 41
              ([32; a; b; c; d; 45; e; f; 45; g; h; 84; p; q; 58; r; s] ++ 41 :: [])
              i 0 false
            = Some (Nat.add i
                      (length [32; a; b; c; d; 45; e; f; 45; g; h; 84; p; q; 58; r; s]))).
    apply closing_loop_quiet; [|reflexivity|reflexivity].
    repeat first [ apply Forall_nil_2
                 | apply Forall_cons_2; [repeat split; digit_fact |] ].
Qed.

Lemma closing_bracket_time_at ty open close :
  (open, close) = (91, 93) \/ (open, close) = (40, 41) ->
  findClosingBracket
    (open :: type_value ty ++ 58 :: 58
       :: [32; a; b; c; d; 45; e; f; 45; g; h; 84; p; q; 58; r; s; close])
    (length (type_value ty) + 3) open close
  = Some ([a; b; c; d; 45; e; f; 45; g; h; 84; p; q; 58; r; s],
          (length (type_value ty) + 21)%nat).
Proof using digits.
  pose proof trim_date_time as [Htrim _]. pose proof closing_time_at as Hclose.
  intros Hw. unfold findClosingBracket.
  replace (drop (length (type_value ty) + 3)
             (open :: type_value ty ++ 58 :: 58
                :: [32; a; b; c; d; 45; e; f; 45; g; h; 84; p; q; 58; r; s; close]))
    with [32; a; b; c; d; 45; e; f; 45; g; h; 84; p; q; 58; r; s; close]
    by (destruct ty; reflexivity).
  rewrite (Hclose open close _ Hw).
  replace (substring (length (type_value ty) + 3)
             (length (type_value ty) + 3 + 17)
             (open :: type_value ty ++ 58 :: 58
                :: [32; a; b; c; d; 45; e; f; 45; g; h; 84; p; q; 58; r; s; close]))
    with [32; a; b; c; d; 45; e; f; 45; g; h; 84; p; q; 58; r; s]
    by (destruct ty; reflexivity).
  rewrite Htrim. f_equal. f_equal. lia.
Qed.

(** The Dataview forms with a time after the date. *)
Lemma reparse_dataview_time ty open close fmt :
  (open, close, fmt) ∈ DATAVIEW_WRAPPERS ->
  let line := [open] ++ type_value ty ++ [58; 58; 32]
              ++ [a; b; c; d; 45; e; f; 45; g; h] ++ [84]
              ++ [p; q; 58; r; s] ++ [close] in
  extractAllDates line None
  = [mkField ty t0 line 0 (length line) fmt None].
Proof using digits date_read.
  assert (Hd8 : Forall (fun x => is_digit x = true) [a; b; c; d; e; f; g; h; p; q; r; s])
    by exact digits.
  pose proof (iso_at a b c d e f g h p q r s Hd8 [84; p; q; 58; r; s]) as Hiso.
  pose proof trim_date_time as [_ Htrim].
  pose proof (closing_bracket_time_at ty open close) as Hclose.
  intros Hw line. unfold extractAllDates, collect_dates. cbn [selected].
  assert (Hcases : (open, close, fmt) = (91, 93, FmtDataviewBracket)
                   \/ (open, close, fmt) = (40, 41, FmtDataviewParen)).
  { unfold DATAVIEW_WRAPPERS in Hw. rewrite !elem_of_cons, elem_of_nil in Hw.
    tauto. }
  clear Hw.
  assert (Hoc : (open, close) = (91, 93) \/ (open, close) = (40, 41)).
  { destruct Hcases as [[= -> -> ->]|[= -> -> ->]]; auto. }
  specialize (Hclose Hoc).
  assert (Hround : dataview_round line open close fmt 0
                   = Some (Some (mkField ty t0 line 0 (length line) fmt None),
                           length line)).
  { unfold dataview_round.
    change line with (open :: type_value ty ++ 58 :: 58
                        :: [32; a; b; c; d; 45; e; f; 45; g; h; 84; p; q; 58; r; s; close]).
    rewrite indexOf_head. cbv beta iota zeta.
    rewrite separator_at. cbv beta iota zeta.
    rewrite key_part_clean. cbv beta iota zeta.
    rewrite Hclose. cbv beta iota zeta.
    rewrite alias_of_type_value, Htrim, Hiso, date_read.
    destruct ty; reflexivity. }
  rewrite extractEmojiDates_quiet, extractSimpleDates_quiet,
    extractKanbanDates_quiet.
  2-4: split_digits digits;
       destruct Hcases as [[= -> -> ->]|[= -> -> ->]]; destruct ty;
       subst line; vm_compute type_value; cbn [app]; quiet_units.
  unfold extractDataviewDates, DATAVIEW_WRAPPERS. cbn [flat_map].
  split_digits digits.
  destruct Hcases as [[= -> -> ->]|[= -> -> ->]].
  - rewrite (dataview_loop_one _ _ _ _ _ Hround) by discriminate.
    rewrite dataview_loop_quiet; [reflexivity |].
    destruct ty; subst line; vm_compute type_value; cbn [app]; quiet_units.
  - rewrite (dataview_loop_one _ _ _ _ _ Hround) by discriminate.
    rewrite dataview_loop_quiet; [reflexivity |].
    destruct ty; subst line; vm_compute type_value; cbn [app]; quiet_units.
Qed.
End ReparseTime.

(** X8. A date with a time of day that [formatDate] writes in a Dataview
    form, with [includeTime], is read back as one field of the same type
    at the midnight of that day, without [hasTime]: the time is not read
    back. *)
Theorem dataview_time_never_read_back (ty : DateFieldType) (t : Z)
    (open close : Z) (fmt : FieldFormat) :
  (open, close, fmt) ∈ DATAVIEW_WRAPPERS ->
  first_day <= day_of t -> year t <= 9999 ->
  hasTimeComponent t = true ->
  exists f',
    extractAllDates (formatDate ty t fmt true) None = [f']
    /\ type f' = ty /\ format f' = fmt /\ hasTime f' = None
    /\ date f' = day_of t * msPerDay /\ date f' <> t.
Proof.
  intros Hw Hlo Hhi Htime.
  destruct (format_date_shape t Hlo Hhi)
    as (a & b & c & d & e & f0 & g & h & HD & Hdig & Hread).
  destruct (format_time_shape t) as (p & q & r & s & HT & Htdig & _).
  rewrite HD in Hread.
  assert (Hdigits : Forall (fun x => is_digit x = true)
                      [a; b; c; d; e; f0; g; h; p; q; r; s]).
  { change [a; b; c; d; e; f0; g; h; p; q; r; s]
      with ([a; b; c; d; e; f0; g; h] ++ [p; q; r; s]).
    by apply Forall_app. }
  pose proof (reparse_dataview_time a b c d e f0 g h p q r s Hdigits _ Hread
                ty open close fmt Hw) as Hre.
  cbv zeta in Hre.
  assert (Hfmt : formatDate ty t fmt true
                 = [open] ++ type_value ty ++ [58; 58; 32]
                   ++ [a; b; c; d; 45; e; f0; 45; g; h] ++ [84]
                   ++ [p; q; 58; r; s] ++ [close]).
  { unfold formatDate. rewrite HD, HT.
    unfold hasTimeComponent in Htime. rewrite Htime. cbn [andb].
    unfold DATAVIEW_WRAPPERS in Hw. rewrite !elem_of_cons, elem_of_nil in Hw.
    destruct Hw as [Hw|[Hw|[]]]; injection Hw as -> -> ->; reflexivity. }
  rewrite Hfmt. eexists. split; [exact Hre |]. cbn.
  repeat split.
  unfold hasTimeComponent, hour, minute, day_of in *.
  intros Heq. apply orb_true_iff in Htime.
  rewrite !negb_true_iff, !Z.eqb_neq in Htime.
  unfold msPerDay, msPerHour, msPerMinute in *.
  Z.div_mod_to_equations. lia.
Qed.

Ltac close_flag :=
  rewrite ?bool_decide_eq_true_2 by reflexivity;
  rewrite ?bool_decide_eq_false_2 by discriminate;
  cbn [andb truthy];
  repeat split; try reflexivity; cbn; lia.

(** X9. What the round trip through [formatDate] does to the time flag
    of a field of one of the six types that has the shape of an
    extracted field ([well_formed], as the four grammars give it): the
    field read back has a time exactly when the field had one and its
    time of day is not 00:00, so a time of 00:00 is lost. The field read
    back spans the whole string, except for a Kanban date with a time,
    where it spans the date token and leaves the time token outside. *)
Theorem roundtrip_time_flag (f : ParsedDateField) :
  well_formed f ->
  year (date f) <= 9999 ->
  exists f',
    extractAllDates (format_field f) None = [f']
    /\ truthy (hasTime f') = truthy (hasTime f) && hasTimeComponent (date f)
    /\ start f' = 0%nat
    /\ (if bool_decide (format f = FmtKanban) && truthy (hasTime f')
        then end_ f' = 13%nat /\ (end_ f' < length (format_field f))%nat
        else end_ f' = length (format_field f)).
Proof.
  intros Hin Hyear.
  destruct Hin as [(days & hours & minutes & Hdate & Hdays & Hh & Hm & Hflag) Hfmt].
  destruct (clock_recompose days hours minutes Hh Hm) as (Htime & Hday & Hmid).
  rewrite <- Hdate in Htime, Hday, Hmid.
  destruct (format_date_shape (date f))
    as (a & b & c & d & e & f0 & g & h & HD & Hdig & Hread);
    [lia | exact Hyear |].
  destruct (format_time_shape (date f)) as (p & q & r & s & HT & Htdig & Hsplit).
  rewrite HD in Hread. rewrite HT in Hsplit.
  assert (Hdigits : Forall (fun x => is_digit x = true)
                      [a; b; c; d; e; f0; g; h; p; q; r; s]).
  { change [a; b; c; d; e; f0; g; h; p; q; r; s]
      with ([a; b; c; d; e; f0; g; h] ++ [p; q; r; s]).
    by apply Forall_app. }
  unfold format_field, formatDate, hasTimeComponent. rewrite HD, HT.
  destruct f as [ty t raw0 i j fmt flag]. cbn [type date format hasTime] in *.
  set (valid := truthy flag && (negb (hour t =? 0) || negb (minute t =? 0))).
  destruct fmt.
  - pose proof (reparse_tasks a b c d e f0 g h p q r s Hdigits _ _ _ Hread Hsplit
                  ty valid) as Hre.
    cbv zeta in Hre. destruct valid.
    + eexists. split; [exact Hre |]. cbn [hasTime type date format start end_ truthy]. close_flag.
    + rewrite app_nil_r in Hre.
      eexists. split; [exact Hre |]. cbn [hasTime type date format start end_ truthy]. close_flag.
  - assert (Hv : valid = false) by (unfold valid; by rewrite Hfmt).
    rewrite Hv.
    pose proof (reparse_dataview a b c d e f0 g h p q r s Hdigits _ Hread
                  ty 91 93 FmtDataviewBracket ltac:(by left)) as Hre.
    cbv zeta in Hre. eexists. split; [exact Hre |]. cbn [hasTime type date format start end_ truthy]. close_flag.
  - assert (Hv : valid = false) by (unfold valid; by rewrite Hfmt).
    rewrite Hv.
    pose proof (reparse_dataview a b c d e f0 g h p q r s Hdigits _ Hread
                  ty 40 41 FmtDataviewParen ltac:(right; by left)) as Hre.
    cbv zeta in Hre. eexists. split; [exact Hre |]. cbn [hasTime type date format start end_ truthy]. close_flag.
  - destruct Hfmt as [-> ->].
    pose proof (reparse_simple a b c d e f0 g h p q r s Hdigits _ Hread) as Hre.
    cbv zeta in Hre. eexists. split; [exact Hre |]. cbn [hasTime type date format start end_ truthy]. close_flag.
  - destruct valid.
    + pose proof (reparse_kanban_time a b c d e f0 g h p q r s Hdigits _ _ _
                    Hread Hsplit) as Hre.
      cbv zeta in Hre. eexists. split; [exact Hre |]. cbn [hasTime type date format start end_ truthy]. close_flag.
    + pose proof (reparse_kanban a b c d e f0 g h p q r s Hdigits _ Hread) as Hre.
      cbv zeta in Hre. eexists. split; [exact Hre |]. cbn [hasTime type date format start end_ truthy]. close_flag.
Qed.

(** ** Parsed tasks *)

Lemma find_type_head d rest : find_type (type d) (d :: rest) = Some d.
Proof. unfold find_type. cbn. by rewrite bool_decide_eq_true_2. Qed.

Lemma first_by_priority_find priorityOrder allDates p :
  first_by_priority priorityOrder allDates = Some p ->
  find_type (type p) allDates = Some p.
Proof.
  induction priorityOrder as [|ty rest IH]; cbn; [discriminate |].
  destruct (find_type ty allDates) as [found|] eqn:E; [|exact IH].
  intros [= <-]. apply find_type_elem in E as HE. destruct HE as [_ ->]. exact E.
Qed.

Lemma getPrimaryDate_find line priorityOrder formatFilter p :
  getPrimaryDate line priorityOrder formatFilter = Some p ->
  find_type (type p) (extractAllDates line formatFilter) = Some p.
Proof.
  unfold getPrimaryDate.
  destruct (extractAllDates line formatFilter) as [|first rest]; [discriminate |].
  destruct (first_by_priority _ _) as [found|] eqn:E.
  - intros [= <-]. by apply first_by_priority_find in E.
  - intros [= <-]. apply find_type_head.
Qed.

(** X10. A task that [parseMarkdown] makes of a line keeps the line as its
    markdown and has at least one date field; its primary date is the
    first of its fields of the primary type, from which the task takes
    its date, its time flag and its Kanban flag, so the look-up of the
    primary field by type in the drop and resize handlers finds it; and
    its title is not empty and has no white space at either end. *)
Theorem parse_task_line_invariants (line : list Z)
    (datePriority : list DateFieldType) (formatFilter : option DateFormatType)
    (task : TaskLine) :
  parse_task_line line datePriority formatFilter = Some task ->
  markdown task = line
  /\ allDates task <> []
  /\ (exists primary,
        find_type (dateType task) (allDates task) = Some primary
        /\ primary ∈ allDates task
        /\ task_date task = date primary
        /\ task_hasTime task = hasTime primary
        /\ isKanban task = bool_decide (format primary = FmtKanban))
  /\ title task <> []
  /\ (forall c r, title task = c :: r -> is_space c = false)
  /\ (forall c, last (title task) = Some c -> is_space c = false).
Proof.
  unfold parse_task_line.
  destruct (match_task_prefix line) as [[checkMark content]|]; [|discriminate].
  destruct (getPrimaryDate content datePriority formatFilter) as [p|] eqn:Ep;
    [|discriminate].
  intros [= <-]. cbn [markdown allDates dateType task_date task_hasTime isKanban title].
  apply getPrimaryDate_find in Ep as Hfind.
  split; [reflexivity |]. split.
  { intros E. rewrite E in Hfind. discriminate. }
  split.
  { exists p. apply find_type_elem in Hfind as Hp. destruct Hp as [Hp _]. auto 6. }
  destruct (trim_spec (stripDates content)) as (lead & trail & _ & _ & _ & Hfirst & Hlast).
  destruct (trim (stripDates content)) as [|c0 r0] eqn:Et.
  - split; [discriminate |]. split.
    + intros c r [= <- <-]. reflexivity.
    + intros c. vm_compute. intros [= <-]. reflexivity.
  - split; [discriminate |]. split.
    + intros c r [= <- <-]. by apply (Hfirst c0 r0).
    + intros c Hc. by apply Hlast.
Qed.

(** ** The types in the update map *)

Lemma preserve_dates_is_Some dates ty :
  is_Some (preserve_dates dates !! ty) <-> exists f, f ∈ dates /\ type f = ty.
Proof.
  rewrite preserve_dates_lookup, fmap_is_Some. split.
  - intros [d Hd]. apply last_of_type_elem in Hd. eauto.
  - intros (f & Hf & Hty). apply last_of_type_is_Some.
    eapply find_type_is_Some; eassumption.
Qed.

Lemma insert_present_is_Some (m : gmap DateFieldType (list Z)) ty ty' v :
  is_Some (m !! ty') ->
  is_Some (<[ty' := v]> m !! ty) <-> is_Some (m !! ty).
Proof.
  intros H. rewrite lookup_insert_is_Some.
  destruct (decide (ty' = ty)) as [->|Hne]; [tauto |]. tauto.
Qed.

(** X11. A drop never adds a date type to a parsed task nor removes one:
    the update map of [handleEventDrop] has an entry exactly for the
    types of the task's fields. *)
Theorem drop_keeps_types (line : list Z) (datePriority : list DateFieldType)
    (formatFilter : option DateFormatType) (task : TaskLine)
    (newStart newEnd : Z) (ty : DateFieldType) :
  parse_task_line line datePriority formatFilter = Some task ->
  is_Some (drop_dateUpdates task newStart newEnd !! ty)
  <-> exists f, f ∈ allDates task /\ type f = ty.
Proof.
  intros Hparse.
  assert (Hprim : exists primary,
            find_type (dateType task) (allDates task) = Some primary).
  { revert Hparse. unfold parse_task_line.
    destruct (match_task_prefix line) as [[checkMark content]|]; [|discriminate].
    destruct (getPrimaryDate content datePriority formatFilter) as [p|] eqn:Ep;
      [|discriminate].
    intros [= <-]. cbn. apply getPrimaryDate_find in Ep. eauto. }
  destruct Hprim as [primary Hprim].
  rewrite <- preserve_dates_is_Some. unfold drop_dateUpdates.
  destruct (find_type Start (allDates task)) as [sf|] eqn:Es;
    destruct (find_type Due (allDates task)) as [df|] eqn:Ed;
    rewrite ?Hprim.
  - rewrite !insert_present_is_Some; [done | |].
    + apply preserve_dates_is_Some. apply find_type_elem in Es as [? ?]. eauto.
    + rewrite lookup_insert_is_Some. right. split; [discriminate |].
      apply preserve_dates_is_Some. apply find_type_elem in Ed as [? ?]. eauto.
  - apply insert_present_is_Some, preserve_dates_is_Some.
    apply find_type_elem in Hprim as Hp. destruct Hp as [? ?]. eauto.
  - apply insert_present_is_Some, preserve_dates_is_Some.
    apply find_type_elem in Hprim as Hp. destruct Hp as [? ?]. eauto.
  - apply insert_present_is_Some, preserve_dates_is_Some.
    apply find_type_elem in Hprim as Hp. destruct Hp as [? ?]. eauto.
Qed.

(** X12. A resize keeps the types of the task's fields and adds [Start]
    and [Due] when it makes a range of several days or of times, and
    nothing else: the update map of [handleEventResize] has an entry
    exactly for the types of the task's fields and, when the resize
    grows the event, for [Start] and [Due]. *)
Theorem resize_types (task : TaskLine) (newStart newEnd : Z)
    (ty : DateFieldType) :
  is_Some (resize_dateUpdates task newStart newEnd !! ty)
  <-> (exists f, f ∈ allDates task /\ type f = ty)
      \/ (resize_grows task newStart newEnd = true /\ (ty = Start \/ ty = Due)).
Proof.
  rewrite <- preserve_dates_is_Some. unfold resize_dateUpdates.
  assert (Hs : forall sf, find_type Start (allDates task) = Some sf ->
                is_Some (preserve_dates (allDates task) !! Start)).
  { intros sf H. apply preserve_dates_is_Some. apply find_type_elem in H as [? ?]. eauto. }
  assert (Hd : forall df, find_type Due (allDates task) = Some df ->
                is_Some (preserve_dates (allDates task) !! Due)).
  { intros df H. apply preserve_dates_is_Some. apply find_type_elem in H as [? ?]. eauto. }
  destruct (find_type Start (allDates task)) as [sf|] eqn:Es;
    destruct (find_type Due (allDates task)) as [df|] eqn:Ed;
    destruct (resize_grows task newStart newEnd);
    repeat match goal with
           | |- context [let '(_, _) := ?p in _] => destruct p
           end;
    try (destruct (find_type (dateType task) (allDates task)) as [pf|] eqn:Ep);
    rewrite ?lookup_insert_is_Some;
    try specialize (Hs _ eq_refl); try specialize (Hd _ eq_refl);
    try (apply find_type_elem in Ep as [Hin Hty];
         assert (Hp : is_Some (preserve_dates (allDates task) !! type pf))
           by (apply preserve_dates_is_Some; eauto));
    split; intros H;
    repeat match goal with
           | H : _ \/ _ |- _ => destruct H as [H|H]
           | H : _ /\ _ |- _ => destruct H as [? H]
           end; subst; try discriminate; try congruence; auto;
    try (destruct (decide (Start = ty)) as [<-|?]; auto;
         destruct (decide (Due = ty)) as [<-|?]; auto 6; fail);
    try (destruct (decide (type pf = ty)) as [<-|?]; auto 6; fail).
Qed.

(** ** The normalised end of a drop or resize *)

(** X13. [normalizeAllDayEnd] returns the reported end itself unless the
    reported end has a default drop time (00:00 or 12:00) on a day after
    the day of the new start; then it returns a time on the day before
    the reported end, which is not before the day of the new start: the
    same time of day, or 23:59 when the task tracks a time. The result
    is never after the reported end and never more than one day before
    it; it is exactly one day before it when the end is moved and the
    task tracks no time. *)
Theorem normalizeAllDayEnd_bounds (newStart newEnd : Z) (task : TaskLine)
    (startField dueField : option ParsedDateField) :
  let r := normalizeAllDayEnd newStart newEnd task startField dueField in
  let tracksTime :=
    truthy (task_hasTime task) || field_hasTime startField
    || field_hasTime dueField in
  (isDefaultDropTime newEnd && (day_of newStart <? day_of newEnd) = false ->
   r = newEnd)
  /\ (isDefaultDropTime newEnd && (day_of newStart <? day_of newEnd) = true ->
      day_of r = day_of newEnd - 1
      /\ day_of newStart <= day_of r
      /\ (tracksTime = false -> r = newEnd - msPerDay)
      /\ (tracksTime = true -> hour r = 23 /\ minute r = 59))
  /\ newEnd - msPerDay <= r <= newEnd.
Proof.
  intros r tracksTime. subst r. unfold normalizeAllDayEnd. fold tracksTime.
  assert (Hafter : isAfter_day newEnd newStart = (day_of newStart <? day_of newEnd)).
  { unfold isAfter_day, day_of, msPerDay.
    destruct (Z.ltb_spec newStart (newEnd / 86400000 * 86400000));
      destruct (Z.ltb_spec (newStart / 86400000) (newEnd / 86400000));
      try reflexivity; Z.div_mod_to_equations; lia. }
  rewrite Hafter.
  destruct (isDefaultDropTime newEnd) eqn:Edef; cbn [andb];
    [|repeat split; try discriminate; unfold msPerDay; lia].
  destruct (Z.ltb_spec (day_of newStart) (day_of newEnd)) as [Hlt|Hge];
    [|repeat split; try discriminate; unfold msPerDay; lia].
  pose proof (end_of_day_clock (subtract_days 1 newEnd)) as (Hday & Hh & Hm).
  assert (Hsub : day_of (subtract_days 1 newEnd) = day_of newEnd - 1).
  { unfold subtract_days, day_of, msPerDay. Z.div_mod_to_equations. lia. }
  split; [discriminate |]. split.
  - intros _. destruct tracksTime.
    + repeat split; try discriminate; try lia; auto.
    + repeat split; try discriminate; try lia.
  - unfold isDefaultDropTime in Edef.
    destruct tracksTime.
    + unfold end_of_day, set_minute, set_hour, subtract_days, day_of, hour, minute,
        msPerDay, msPerHour, msPerMinute in *.
      apply orb_true_iff in Edef.
      rewrite !andb_true_iff, !Z.eqb_eq in Edef.
      Z.div_mod_to_equations. lia.
    + unfold subtract_days, msPerDay. lia.
Qed.

(** ** The colour of an event *)

Section ColorProperties.
Variable lowerCase : list Z -> list Z.
Variable now : Z.

Lemma first_rule_theme_step task filePath sections rule rest :
  first_rule_theme lowerCase now task filePath sections (rule :: rest)
  = if rule_in_force filePath rule && checkCondition lowerCase now task rule sections
    then Some (color rule)
    else first_rule_theme lowerCase now task filePath sections rest.
Proof.
  cbn [first_rule_theme]. unfold rule_in_force.
  destruct (enabled rule); cbn [negb andb]; [|reflexivity].
  destruct (applyToFiles rule) as [[|file files]|]; cbn [negb andb]; try reflexivity.
  destruct (bool_decide _); reflexivity.
Qed.

Lemma first_rule_theme_filter task filePath sections rules :
  first_rule_theme lowerCase now task filePath sections
    (List.filter (rule_in_force filePath) rules)
  = first_rule_theme lowerCase now task filePath sections rules.
Proof.
  induction rules as [|rule rest IH]; [reflexivity |].
  cbn [List.filter]. rewrite (first_rule_theme_step _ _ _ rule rest).
  destruct (rule_in_force filePath rule) eqn:E; cbn [andb]; [|exact IH].
  rewrite first_rule_theme_step, E, IH. reflexivity.
Qed.

Lemma first_rule_theme_none task filePath sections rules :
  Forall (fun rule => rule_in_force filePath rule
                      && checkCondition lowerCase now task rule sections = false)
    rules ->
  first_rule_theme lowerCase now task filePath sections rules = None.
Proof.
  induction 1 as [|rule rest Hr _ IH]; [reflexivity |].
  by rewrite first_rule_theme_step, Hr.
Qed.

Lemma first_rule_theme_app task filePath sections pre rules :
  Forall (fun rule => rule_in_force filePath rule
                      && checkCondition lowerCase now task rule sections = false)
    pre ->
  first_rule_theme lowerCase now task filePath sections (pre ++ rules)
  = first_rule_theme lowerCase now task filePath sections rules.
Proof.
  induction 1 as [|rule rest Hr _ IH]; [reflexivity |].
  cbn [app]. by rewrite first_rule_theme_step, Hr.
Qed.

(** X14. The priority of colours. The first rule that is in force
    (enabled, and not limited to other files) and whose condition holds
    gives the colour, whatever rules follow it and whatever colours the
    section, the file and the settings have; rules that are not in force
    can be removed without changing any colour. When no rule in force
    has its condition hold, the colour is that of the task's section,
    but only in the view of all sections, else that of the file, else
    the default one; this last part is stated for section ids that name
    no property that every object inherits. *)
Theorem getEventColor_priority (task : TaskColorData) (filePath : list Z)
    (sections : gmap (list Z) SectionColorData) (settings : ColorSettings)
    (isDarkMode isAllSectionsView : bool) :
  let holds rule :=
    rule_in_force filePath rule
    && checkCondition lowerCase now task rule sections in
  let colour s :=
    getEventColor lowerCase now task filePath sections s isDarkMode
      isAllSectionsView in
  let sourceConfig := calendarSources settings !! filePath in
  colour settings
  = colour (with_rules settings
              (List.filter (rule_in_force filePath) (colorRules settings)))
  /\ (forall pre rule post,
        colorRules settings = pre ++ rule :: post ->
        Forall (fun r => holds r = false) pre -> holds rule = true ->
        colour settings = resolveColor (color rule) isDarkMode)
  /\ (Forall (fun r => holds r = false) (colorRules settings) ->
      (isAllSectionsView = true ->
       color_sectionId task ∉ object_prototype_keys) ->
      colour settings
      = resolveColor
          (default
             (default (defaultEventColor settings) (source_theme sourceConfig))
             (if isAllSectionsView
              then section_theme sourceConfig (color_sectionId task)
              else None))
          isDarkMode).
Proof.
  intros holds colour sourceConfig. subst colour. unfold getEventColor.
  fold sourceConfig. split; [|split].
  - cbn [with_rules colorRules calendarSources defaultEventColor].
    by rewrite first_rule_theme_filter.
  - intros pre rule post -> Hpre Hrule.
    rewrite (first_rule_theme_app _ _ _ _ _ Hpre), first_rule_theme_step.
    fold (holds rule). by rewrite Hrule.
  - intros Hnone _. rewrite (first_rule_theme_none _ _ _ _ Hnone).
    destruct isAllSectionsView;
      [destruct (section_theme sourceConfig (color_sectionId task)) |];
      cbn [default]; try reflexivity;
      destruct (source_theme sourceConfig); reflexivity.
Qed.



(** X16. A condition value is read exactly by the condition types for
    which [conditionRequiresValue] holds: without a value (or with an
    empty one) their rules never match, and the rules of the other types
    match whatever the value is. A tag can be given with or without the
    hash sign. *)
Theorem condition_value_use (task : TaskColorData) (rule : ColorRule)
    (sections : gmap (list Z) SectionColorData) :
  (conditionRequiresValue (conditionType rule) = true ->
   given (conditionValue rule) = None ->
   checkCondition lowerCase now task rule sections = false)
  /\ (conditionRequiresValue (conditionType rule) = false ->
      forall value,
        checkCondition lowerCase now task (with_value rule value) sections
        = checkCondition lowerCase now task rule sections)
  /\ (conditionType rule = HasTag ->
      forall c value, c <> 35 ->
        checkCondition lowerCase now task
          (with_value rule (Some (c :: value))) sections
        = checkCondition lowerCase now task
            (with_value rule (Some (35 :: c :: value))) sections).
Proof.
  unfold checkCondition, with_value. cbn [conditionType conditionValue].
  split; [|split].
  - destruct (conditionType rule); try discriminate; by intros _ ->.
  - destruct (conditionType rule); try discriminate; reflexivity.
  - intros -> c value Hc. cbn [given starts_with].
    replace (35 =? c) with false by (symmetry; apply Z.eqb_neq; congruence).
    reflexivity.
Qed.

(** X17. An [IsOverdue] rule matches exactly the tasks that are not
    completed and whose date is on a day before today: a task dated
    today is not overdue. *)
Theorem overdue_is_before_today (task : TaskColorData) (rule : ColorRule)
    (sections : gmap (list Z) SectionColorData) :
  conditionType rule = IsOverdue ->
  checkCondition lowerCase now task rule sections = true
  <-> color_completed task = false
      /\ exists d, color_date task = Some d /\ day_of d < day_of now.
Proof.
  intros Hty. unfold checkCondition. rewrite Hty.
  destruct (color_completed task); [split; [discriminate | intros [? _]; discriminate] |].
  destruct (color_date task) as [d|];
    [|split; [discriminate | intros (_ & d & ? & _); discriminate]].
  unfold isBefore_day, day_of, msPerDay. rewrite Z.ltb_lt. split.
  - intros H. split; [reflexivity |]. exists d. split; [reflexivity |].
    Z.div_mod_to_equations. lia.
  - intros (_ & d' & [= <-] & H). Z.div_mod_to_equations. lia.
Qed.
End ColorProperties.

(** ** The colour of a string *)

Lemma to_int32_range z : -2147483648 <= to_int32 z < 2147483648.
Proof. unfold to_int32. Z.div_mod_to_equations. lia. Qed.

Lemma to_int32_congr x y :
  (x - y) mod 4294967296 = 0 -> to_int32 x = to_int32 y.
Proof. unfold to_int32. intros H. Z.div_mod_to_equations. lia. Qed.

Lemma hash_step_base31 acc acc' c :
  acc = to_int32 acc' -> hash_step acc c = to_int32 (31 * acc' + c).
Proof.
  intros ->. unfold hash_step. cbv zeta. rewrite Z.land_diag.
  rewrite Z.shiftl_mul_pow2 by lia. change (2 ^ 5) with 32.
  apply to_int32_congr. unfold to_int32. Z.div_mod_to_equations. lia.
Qed.

Lemma hash_fold_base31 s acc acc' :
  acc = to_int32 acc' ->
  fold_left hash_step s acc = to_int32 (fold_left (fun h c => 31 * h + c) s acc').
Proof.
  revert acc acc'. induction s as [|c r IH]; intros acc acc' H; cbn [fold_left].
  - exact H.
  - apply IH. by apply hash_step_base31.
Qed.

(** X18. The hash of [hashStringToColor] is the value of the string's
    units as digits in base 31, wrapped to a signed 32-bit integer at the
    end: the wrap-around of the single rounds does not change it. The
    hue made of it is from 0 to 359, and the same in both modes, which
    differ in saturation and lightness. *)
Theorem hashStringToColor_hue (s : list Z) :
  hash_of_string s = to_int32 (base31 s)
  /\ 0 <= hue_of_hash (hash_of_string s) <= 359
  /\ hashStringToColor s false
     = str "hsl(" ++ decimal (hue_of_hash (hash_of_string s)) ++ str ", 65%, 45%)"
  /\ hashStringToColor s true
     = str "hsl(" ++ decimal (hue_of_hash (hash_of_string s)) ++ str ", 55%, 55%)".
Proof.
  split; [|split; [|split]].
  - unfold hash_of_string, base31. apply hash_fold_base31. reflexivity.
  - unfold hue_of_hash.
    pose proof (Z.rem_bound_abs (hash_of_string s) 360 ltac:(lia)) as H.
    change (Z.abs 360) with 360 in H. lia.
  - unfold hashStringToColor. cbv zeta. do 2 f_equal.
  - unfold hashStringToColor. cbv zeta. do 2 f_equal.
Qed.

(** ** Text in front of the dates *)

Lemma exec_all_shift {M : Type} (re : list Z -> option M) (len : M -> nat)
    (s : list Z) (n idx skip : nat) :
  exec_all re len s (n + idx) skip
  = map (fun hit => (n + fst hit, snd hit))%nat (exec_all re len s idx skip).
Proof.
  revert idx skip. induction s as [|c r IH]; intros idx skip; cbn [exec_all];
    [reflexivity |].
  rewrite !plus_n_Sm.
  destruct skip as [|k]; [|apply IH].
  destruct (re (c :: r)) as [m|]; [|apply IH].
  cbn [map fst snd]. f_equal. apply IH.
Qed.

Lemma exec_all_from {M : Type} (re : list Z -> option M) (len : M -> nat)
    (s : list Z) (n : nat) :
  exec_all re len s (0 + n) 0
  = map (fun hit => (n + fst hit, snd hit))%nat (exec_all re len s 0 0).
Proof. rewrite Nat.add_0_l, <- (exec_all_shift re len s n 0 0). by rewrite Nat.add_0_r. Qed.

Lemma emoji_field_shift ty n i m :
  emoji_field ty ((n + i)%nat, m) = shift n <$> emoji_field ty (i, m).
Proof.
  unfold emoji_field. destruct (moment_of_iso _); [|reflexivity].
  destruct (m_time m) as [t|]; [destruct (split_time t) |];
    cbn; unfold shift; cbn; do 2 f_equal; lia.
Qed.

Lemma simple_field_shift n i m :
  simple_field ((n + i)%nat, m) = shift n <$> simple_field (i, m).
Proof.
  unfold simple_field. destruct (moment_of_iso _); [|reflexivity].
  cbn; unfold shift; cbn; do 2 f_equal; lia.
Qed.

Lemma kanban_field_shift tm n i m :
  kanban_field tm ((n + i)%nat, m) = shift n <$> kanban_field tm (i, m).
Proof.
  unfold kanban_field. destruct tm as [[fl hh] mm].
  destruct (moment_of_iso _); [|reflexivity].
  cbn; unfold shift; cbn; do 2 f_equal; lia.
Qed.

Lemma omap_shift {M : Type} (field : nat * M -> option ParsedDateField)
    (n : nat) (hits : list (nat * M)) :
  (forall i m, field ((n + i)%nat, m) = shift n <$> field (i, m)) ->
  omap field (map (fun hit => (n + fst hit, snd hit))%nat hits)
  = map (shift n) (omap field hits).
Proof.
  intros Hf. induction hits as [|[i m] r IH]; [reflexivity |].
  cbn [map omap list_omap fst snd]. rewrite Hf.
  destruct (field (i, m)); cbn; [f_equal |]; exact IH.
Qed.

Lemma plain_unit_inv c :
  plain_unit c = true ->
  emoji_lead c = false /\ (c =? 64) = false /\ (c =? 91) = false
  /\ (c =? 40) = false.
Proof.
  unfold plain_unit. rewrite !andb_true_iff, !negb_true_iff. tauto.
Qed.

Lemma plain_units pre :
  Forall (fun c => plain_unit c = true) pre ->
  Forall (fun c => emoji_lead c = false) pre
  /\ Forall (fun c => (c =? 64) = false) pre
  /\ Forall (fun c => (c =? 91) = false) pre
  /\ Forall (fun c => (c =? 40) = false) pre.
Proof.
  intros H. repeat split; eapply Forall_impl; try exact H;
    intros c Hc; apply plain_unit_inv in Hc; tauto.
Qed.

Lemma extractEmojiDates_prefix pre s :
  Forall (fun c => emoji_lead c = false) pre ->
  extractEmojiDates (pre ++ s) = map (shift (length pre)) (extractEmojiDates s).
Proof.
  intros Hpre. unfold extractEmojiDates.
  assert (H : forall ty syms, (ty, syms) ∈ EMOJI_DATE_PATTERNS ->
    omap (emoji_field ty) (exec_all (match_emoji syms) match_length (pre ++ s) 0 0)
    = map (shift (length pre))
        (omap (emoji_field ty) (exec_all (match_emoji syms) match_length s 0 0))).
  { intros ty syms Hin.
    rewrite (exec_all_quiet_prefix _ _ emoji_lead); [| |exact Hpre].
    2:{ intros c r. by apply (match_emoji_lead ty). }
    rewrite exec_all_from.
    apply omap_shift. intros i m. apply emoji_field_shift. }
  induction EMOJI_DATE_PATTERNS as [|[ty syms] rest IH]; [reflexivity |].
  cbn [flat_map]. rewrite map_app, H by left. f_equal.
  apply IH. intros ty' syms' Hin. apply H. by right.
Qed.

Lemma extractSimpleDates_prefix pre s :
  Forall (fun c => (c =? 64) = false) pre ->
  extractSimpleDates (pre ++ s) = map (shift (length pre)) (extractSimpleDates s).
Proof.
  intros Hpre. unfold extractSimpleDates.
  rewrite (exec_all_quiet_prefix _ _ (fun c => c =? 64));
    [|apply match_simple_lead | exact Hpre].
  rewrite exec_all_from.
  apply omap_shift. intros i m. apply simple_field_shift.
Qed.

Lemma extractKanbanDates_prefix pre s :
  Forall (fun c => (c =? 64) = false) pre ->
  extractKanbanDates (pre ++ s) = map (shift (length pre)) (extractKanbanDates s).
Proof.
  intros Hpre. unfold extractKanbanDates.
  assert (Ht : kanban_time (pre ++ s) = kanban_time s).
  { unfold kanban_time.
    rewrite (exec_first_quiet_prefix _ (fun c => c =? 64));
      [done | apply match_kanban_time_lead | exact Hpre]. }
  rewrite Ht.
  rewrite (exec_all_quiet_prefix _ _ (fun c => c =? 64));
    [|apply match_kanban_date_lead | exact Hpre].
  rewrite exec_all_from.
  apply omap_shift. intros i m. apply kanban_field_shift.
Qed.

Lemma index_from_shift pat s n i :
  index_from pat s (n + i) = Nat.add n <$> index_from pat s i.
Proof.
  revert i. induction s as [|c r IH]; intros i; cbn [index_from].
  - destruct (starts_with pat []); reflexivity.
  - destruct (starts_with pat (c :: r)); [reflexivity |].
    rewrite plus_n_Sm. apply IH.
Qed.

Lemma drop_app_shift (pre s : list Z) j :
  drop (length pre + j) (pre ++ s) = drop j s.
Proof. induction pre as [|c r IH]; [reflexivity | exact IH]. Qed.

Lemma indexOf_prefix pat pre s j :
  indexOf pat (pre ++ s) (length pre + j) = Nat.add (length pre) <$> indexOf pat s j.
Proof. unfold indexOf. rewrite drop_app_shift. apply index_from_shift. Qed.

Lemma substring_prefix pre s a b :
  substring (length pre + a) (length pre + b) (pre ++ s) = substring a b s.
Proof.
  unfold substring.
  replace (Nat.min (length pre + a) (length pre + b))
    with (length pre + Nat.min a b)%nat by lia.
  replace (Nat.max (length pre + a) (length pre + b) - (length pre + Nat.min a b))%nat
    with (Nat.max a b - Nat.min a b)%nat by lia.
  by rewrite drop_app_shift.
Qed.

Lemma closing_loop_shift open close s n i nesting escaped :
  closing_loop open close s (n + i) nesting escaped
  = Nat.add n <$> closing_loop open close s i nesting escaped.
Proof.
  revert i nesting escaped.
  induction s as [|c r IH]; intros i nesting escaped; cbn [closing_loop];
    [reflexivity |].
  rewrite !plus_n_Sm.
  destruct (c =? 92); [apply IH |].
  destruct escaped; [apply IH |].
  match goal with |- context [if ?b then Some _ else _] => destruct b end;
    [reflexivity | apply IH].
Qed.

Lemma findDataviewSeparator_prefix pre s j :
  findDataviewSeparator (pre ++ s) (length pre + j)
  = (fun kv : list Z * nat => (fst kv, (length pre + snd kv)%nat)) <$> findDataviewSeparator s j.
Proof.
  unfold findDataviewSeparator. rewrite indexOf_prefix.
  destruct (indexOf (str "::") s j) as [sep|]; [|reflexivity].
  cbn [fmap option_fmap option_map fst snd].
  rewrite substring_prefix. do 2 f_equal. lia.
Qed.

Lemma findClosingBracket_prefix pre s j open close :
  findClosingBracket (pre ++ s) (length pre + j) open close
  = (fun ve : list Z * nat => (fst ve, (length pre + snd ve)%nat))
      <$> findClosingBracket s j open close.
Proof.
  unfold findClosingBracket. rewrite drop_app_shift, closing_loop_shift.
  destruct (closing_loop open close (drop j s) j 0 false) as [i|]; [|reflexivity].
  cbn [fmap option_fmap option_map fst snd].
  rewrite substring_prefix. do 2 f_equal. lia.
Qed.

Lemma dataview_round_prefix pre s open close fmt j :
  dataview_round (pre ++ s) open close fmt (length pre + j)
  = (fun rn : option ParsedDateField * nat =>
       (shift (length pre) <$> fst rn, (length pre + snd rn)%nat))
      <$> dataview_round s open close fmt j.
Proof.
  unfold dataview_round. rewrite indexOf_prefix.
  destruct (indexOf [open] s j) as [found|]; [|reflexivity].
  cbn [fmap option_fmap option_map].
  replace (length pre + found + 1)%nat with (length pre + (found + 1))%nat by lia.
  rewrite findDataviewSeparator_prefix.
  destruct (findDataviewSeparator s (found + 1)) as [[key valueIndex]|] eqn:Es;
    [|reflexivity].
  apply findDataviewSeparator_ge in Es.
  cbn [fmap option_fmap option_map fst snd].
  replace (length pre + valueIndex - 2)%nat
    with (length pre + (valueIndex - 2))%nat by lia.
  rewrite substring_prefix.
  destruct (existsb _ wrapper_chars); [reflexivity |].
  rewrite findClosingBracket_prefix.
  destruct (findClosingBracket s valueIndex open close) as [[value endIndex]|];
    [|reflexivity].
  cbn [fmap option_fmap option_map fst snd].
  destruct (alias_lookup _ key) as [dateType0|]; [|reflexivity].
  destruct (match_iso_date (trim value)) as [[dateMatch rest]|]; [|reflexivity].
  destruct (moment_of_iso dateMatch) as [date0|]; [|reflexivity].
  cbn [fst snd fmap option_fmap option_map]. unfold shift. cbn.
  by rewrite substring_prefix.
Qed.

Lemma dataview_loop_prefix fuel pre s open close fmt j :
  dataview_loop fuel (pre ++ s) open close fmt (length pre + j)
  = map (shift (length pre)) (dataview_loop fuel s open close fmt j).
Proof.
  revert j. induction fuel as [|fuel IH]; intros j; cbn [dataview_loop];
    [reflexivity |].
  rewrite length_app.
  replace (length pre + j <? length pre + length s)%nat with (j <? length s)%nat.
  2:{ destruct (Nat.ltb_spec j (length s)); symmetry;
        [apply Nat.ltb_lt | apply Nat.ltb_ge]; lia. }
  destruct (negb _); [reflexivity |].
  rewrite dataview_round_prefix.
  destruct (dataview_round s open close fmt j) as [[[d|] next]|];
    cbn [fmap option_fmap option_map fst snd map]; rewrite ?IH; reflexivity.
Qed.

Lemma index_from_quiet_prefix open pre s i :
  Forall (fun c => (c =? open) = false) pre ->
  index_from [open] (pre ++ s) i = index_from [open] s (i + length pre).
Proof.
  intros Hpre. revert i.
  induction Hpre as [|c r Hc _ IH]; intros i; [by rewrite Nat.add_0_r |].
  cbn [app index_from starts_with length]. rewrite Z.eqb_sym, Hc. cbn [andb].
  rewrite IH. f_equal. lia.
Qed.

Lemma dataview_loop_quiet_start fuel pre s open close fmt :
  Forall (fun c => (c =? open) = false) pre ->
  dataview_loop (S fuel) (pre ++ s) open close fmt 0
  = dataview_loop (S fuel) (pre ++ s) open close fmt (length pre).
Proof.
  intros Hpre.
  assert (Hidx : indexOf [open] (pre ++ s) 0 = indexOf [open] (pre ++ s) (length pre)).
  { unfold indexOf. rewrite drop_0, drop_app_length.
    rewrite (index_from_quiet_prefix open pre s 0 Hpre). reflexivity. }
  assert (Hround : dataview_round (pre ++ s) open close fmt 0
                   = dataview_round (pre ++ s) open close fmt (length pre)).
  { unfold dataview_round. by rewrite Hidx. }
  cbn [dataview_loop]. rewrite Hround.
  destruct (Nat.ltb_spec (length pre) (length (pre ++ s))) as [Hlt|Hge].
  - replace (0 <? length (pre ++ s))%nat with true; [reflexivity |].
    symmetry. apply Nat.ltb_lt. lia.
  - cbn [negb]. destruct (negb _); [reflexivity |].
    unfold dataview_round. rewrite <- Hidx. unfold indexOf.
    rewrite length_app in Hge. assert (s = []) as -> by (destruct s; [done | cbn in Hge; lia]).
    rewrite app_nil_r, drop_0. by rewrite (index_from_quiet open pre 0 Hpre).
Qed.

Lemma extractDataviewDates_prefix pre s :
  Forall (fun c => (c =? 91) = false) pre ->
  Forall (fun c => (c =? 40) = false) pre ->
  extractDataviewDates (pre ++ s)
  = map (shift (length pre)) (extractDataviewDates s).
Proof.
  intros H91 H40.
  assert (H : forall open close fmt,
    Forall (fun c => (c =? open) = false) pre ->
    dataview_loop (length (pre ++ s)) (pre ++ s) open close fmt 0
    = map (shift (length pre)) (dataview_loop (length s) s open close fmt 0)).
  { intros open close fmt Hpre.
    destruct (pre ++ s) as [|x l] eqn:E.
    - apply app_eq_nil in E as [-> ->]. reflexivity.
    - rewrite <- E. replace (length (pre ++ s)) with (S (length l))
        by (rewrite E; reflexivity).
      rewrite dataview_loop_quiet_start by exact Hpre.
      pose proof (dataview_loop_prefix (S (length l)) pre s open close fmt 0) as Hp.
      rewrite Nat.add_0_r in Hp. rewrite Hp.
      f_equal. apply dataview_loop_fuel; [|lia].
      apply (f_equal length) in E. rewrite length_app in E. cbn in E. lia. }
  unfold extractDataviewDates, DATAVIEW_WRAPPERS. cbn [flat_map].
  rewrite !H by assumption. by rewrite !map_app.
Qed.

Lemma insert_by_start_shift n x l :
  insert_by_start (shift n x) (map (shift n) l)
  = map (shift n) (insert_by_start x l).
Proof.
  induction l as [|y r IH]; [reflexivity |]. cbn [map insert_by_start].
  replace (start (shift n x) <=? start (shift n y))%nat
    with (start x <=? start y)%nat.
  2:{ cbn. destruct (Nat.leb_spec (start x) (start y)); symmetry;
        [apply Nat.leb_le | apply Nat.leb_gt]; lia. }
  destruct (start x <=? start y)%nat; [reflexivity |].
  cbn [map]. by rewrite IH.
Qed.

Lemma sort_by_start_shift n l :
  sort_by_start (map (shift n) l) = map (shift n) (sort_by_start l).
Proof.
  induction l as [|x r IH]; [reflexivity |].
  cbn [map sort_by_start foldr]. fold (sort_by_start (map (shift n) r)).
  fold (sort_by_start r). by rewrite IH, insert_by_start_shift.
Qed.

Lemma keep_if_free_shift n acc d :
  keep_if_free (map (shift n) acc) (shift n d)
  = map (shift n) (keep_if_free acc d).
Proof.
  unfold keep_if_free.
  change (map (shift n) acc) with (shift n <$> acc) at 1. rewrite fmap_last.
  change (shift n <$> acc) with (map (shift n) acc).
  destruct (last acc) as [ld|]; cbn [fmap option_fmap option_map].
  - replace (end_ (shift n ld) <=? start (shift n d))%nat
      with (end_ ld <=? start d)%nat.
    2:{ cbn. destruct (Nat.leb_spec (end_ ld) (start d)); symmetry;
          [apply Nat.leb_le | apply Nat.leb_gt]; lia. }
    destruct (end_ ld <=? start d)%nat; [|reflexivity].
    by rewrite map_app.
  - by rewrite map_app.
Qed.

Lemma remove_overlaps_shift n l :
  remove_overlaps (map (shift n) l) = map (shift n) (remove_overlaps l).
Proof.
  induction l as [|d r IH] using rev_ind; [reflexivity |].
  rewrite map_app. cbn [map]. rewrite !remove_overlaps_snoc, IH.
  apply keep_if_free_shift.
Qed.

Lemma extractAllDates_prefix (pre s : list Z)
    (formatFilter : option DateFormatType) :
  Forall (fun c => plain_unit c = true) pre ->
  extractAllDates (pre ++ s) formatFilter
  = map (shift (length pre)) (extractAllDates s formatFilter).
Proof.
  intros Hpre. apply plain_units in Hpre as (He & H64 & H91 & H40).
  unfold extractAllDates.
  rewrite <- remove_overlaps_shift, <- sort_by_start_shift. do 2 f_equal.
  unfold collect_dates. rewrite !map_app.
  repeat match goal with |- context [if ?b then _ else _] => destruct b end;
    cbn [map];
    rewrite ?extractEmojiDates_prefix, ?extractDataviewDates_prefix,
      ?extractSimpleDates_prefix, ?extractKanbanDates_prefix by assumption;
    reflexivity.
Qed.

Lemma find_type_shift n ty l :
  find_type ty (map (shift n) l) = shift n <$> find_type ty l.
Proof.
  unfold find_type. induction l as [|d r IH]; [reflexivity |].
  cbn [map find]. change (type (shift n d)) with (type d).
  destruct (bool_decide (type d = ty)); [reflexivity | exact IH].
Qed.

Lemma first_by_priority_shift n priorityOrder l :
  first_by_priority priorityOrder (map (shift n) l)
  = shift n <$> first_by_priority priorityOrder l.
Proof.
  induction priorityOrder as [|ty rest IH]; [reflexivity |].
  cbn [first_by_priority]. rewrite find_type_shift.
  destruct (find_type ty l); [reflexivity | exact IH].
Qed.

(** X19. Text in front of the dates that holds no emoji symbol, no [@]
    and no opening bracket does not change what is read: the fields of
    the line are the fields of the rest of the line, moved to the right
    by the length of that text, and the primary date of the line is the
    primary date of the rest, moved alike. *)
Theorem plain_prefix_shifts_fields (pre s : list Z)
    (priorityOrder : list DateFieldType)
    (formatFilter : option DateFormatType) :
  Forall (fun c => plain_unit c = true) pre ->
  extractAllDates (pre ++ s) formatFilter
  = map (shift (length pre)) (extractAllDates s formatFilter)
  /\ getPrimaryDate (pre ++ s) priorityOrder formatFilter
     = shift (length pre) <$> getPrimaryDate s priorityOrder formatFilter.
Proof.
  intros Hpre.
  pose proof (extractAllDates_prefix pre s formatFilter Hpre) as Hall.
  split; [exact Hall |].
  unfold getPrimaryDate. rewrite Hall.
  destruct (extractAllDates s formatFilter) as [|first rest]; [reflexivity |].
  change (map (shift (length pre)) (first :: rest))
    with (shift (length pre) first :: map (shift (length pre)) rest) at 1.
  cbv iota. rewrite first_by_priority_shift.
  destruct (first_by_priority priorityOrder (first :: rest)); reflexivity.
Qed.

(** ** The date part of a new task *)

(** A line in which one grammar finds one field and the others find
    nothing has that field under every filter that lets the grammar
    through, and no field under the other filters. *)
Lemma one_grammar line formatFilter f :
  collect_dates line None = [f] ->
  extractAllDates line formatFilter
  = if selected formatFilter (format_type (format f)) then [f] else [].
Proof.
  intros H.
  assert (Hf : f ∈ collect_dates line None) by (rewrite H; left).
  assert (Hall : forall g, g ∈ collect_dates line None -> g = f).
  { intros g Hg. rewrite H in Hg. by apply list_elem_of_singleton in Hg. }
  unfold collect_dates in H, Hf, Hall. cbn [selected] in H, Hf, Hall.
  unfold extractAllDates, collect_dates.
  destruct formatFilter as [F|]; cbn [selected].
  2:{ by rewrite H. }
  assert (Hcases :
    (extractEmojiDates line = [f] /\ extractDataviewDates line = []
     /\ extractSimpleDates line = [] /\ extractKanbanDates line = []
     /\ format_type (format f) = TasksFormat)
    \/ (extractEmojiDates line = [] /\ extractDataviewDates line = [f]
        /\ extractSimpleDates line = [] /\ extractKanbanDates line = []
        /\ format_type (format f) = DataviewFormat)
    \/ (extractEmojiDates line = [] /\ extractDataviewDates line = []
        /\ extractSimpleDates line = [f] /\ extractKanbanDates line = []
        /\ format_type (format f) = SimpleFormat)
    \/ (extractEmojiDates line = [] /\ extractDataviewDates line = []
        /\ extractSimpleDates line = [] /\ extractKanbanDates line = [f]
        /\ format_type (format f) = KanbanFormat)).
  { clear Hf Hall.
    destruct (extractEmojiDates line) as [|e [|e' E]] eqn:EE;
      destruct (extractDataviewDates line) as [|d [|d' D]] eqn:ED;
      destruct (extractSimpleDates line) as [|s [|s' S]] eqn:ES;
      destruct (extractKanbanDates line) as [|k [|k' K]] eqn:EK;
      try discriminate; injection H as ->.
    - right. right. right. repeat split.
      assert (Hk : f ∈ extractKanbanDates line) by (rewrite EK; left).
      by apply extractKanbanDates_format in Hk as [-> _].
    - right. right. left. repeat split.
      assert (Hk : f ∈ extractSimpleDates line) by (rewrite ES; left).
      by apply extractSimpleDates_format in Hk as ->.
    - right. left. repeat split.
      assert (Hk : f ∈ extractDataviewDates line) by (rewrite ED; left).
      by apply extractDataviewDates_format in Hk.
    - left. repeat split.
      assert (Hk : f ∈ extractEmojiDates line) by (rewrite EE; left).
      by apply extractEmojiDates_format in Hk as [-> _]. }
  destruct Hcases as [(-> & -> & -> & -> & ->)|[(-> & -> & -> & -> & ->)
    |[(-> & -> & -> & -> & ->)|(-> & -> & -> & -> & ->)]]];
    destruct F; reflexivity.
Qed.

(** The strings that [formatDate] and [buildDatePart] write for one
    date, read by the four grammars. *)
Section Collected.
Variables a b c d e f g h p q r s : Z.
Hypothesis digits :
  Forall (fun x => is_digit x = true) [a; b; c; d; e; f; g; h; p; q; r; s].

Variables t0 hh mm : Z.
Hypothesis date_read :
  moment_of_iso [a; b; c; d; 45; e; f; 45; g; h] = Some t0.
Hypothesis time_read : split_time [p; q; 58; r; s] = (hh, mm).

Lemma collected_tasks ty (withTime : bool) :
  let line := hd [] (DATE_SYMBOLS ty) ++ [32]
              ++ [a; b; c; d; 45; e; f; 45; g; h]
              ++ (if withTime then [32; p; q; 58; r; s] else []) in
  collect_dates line None
  = [mkField ty (if withTime then apply_time hh mm t0 else t0) line 0
       (length line) FmtTasks (Some withTime)].
Proof using All.
  pose proof (iso_at a b c d e f g h p q r s digits) as Hiso.
  pose proof (opt_time_at a b c d e f g h p q r s digits) as Hopt.
  pose proof (space_then_date a b c d e f g h p q r s digits) as Hsp.
  intros line. unfold collect_dates. cbn [selected].
  split_digits digits.
  assert (Hemoji : extractEmojiDates line
    = [mkField ty (if withTime then apply_time hh mm t0 else t0) line 0
         (length line) FmtTasks (Some withTime)]).
  { destruct ty, withTime; subst line; cbn [hd DATE_SYMBOLS app];
      (match goal with
       | |- context [mkField ?ty0 _ _ _ _ FmtTasks _] =>
           erewrite (extractEmojiDates_single ty0)
       end;
       [
       | unfold match_emoji; cbn [DATE_SYMBOLS match_symbol starts_with];
         cbn [Z.eqb Pos.eqb andb length drop];
         rewrite Hsp, Hiso, ?Hopt; unfold match_opt_time; reflexivity
       | unfold match_length; cbn [m_raw]; rewrite consumed_all; reflexivity
       | intros []; intros ?; try congruence; reflexivity
       | quiet_units ]);
      cbn [omap list_omap emoji_field m_date m_time m_raw];
      rewrite ?consumed_all; unfold emoji_field; cbn [m_date m_time m_raw];
      rewrite date_read, ?time_read; reflexivity. }
  rewrite Hemoji.
  rewrite extractDataviewDates_quiet, extractSimpleDates_quiet,
    extractKanbanDates_quiet;
    [reflexivity | ..];
    destruct ty, withTime; subst line; cbn [hd DATE_SYMBOLS app]; quiet_units.
Qed.

Lemma collected_simple :
  let line := [64; 32; a; b; c; d; 45; e; f; 45; g; h] in
  collect_dates line None
  = [mkField Due t0 line 0 (length line) FmtSimple None].
Proof using digits date_read.
  pose proof (iso_at a b c d e f g h p q r s digits) as Hiso.
  pose proof (space_then_date a b c d e f g h p q r s digits) as Hsp.
  intros line. unfold collect_dates. cbn [selected].
  clear time_read. split_digits digits.
  rewrite extractEmojiDates_quiet, extractDataviewDates_quiet by (subst line; quiet_units).
  assert (Hk : extractKanbanDates line = []).
  { unfold extractKanbanDates, line.
    rewrite exec_all_head_none by reflexivity.
    rewrite (exec_all_quiet _ _ (fun x => x =? 64)); [done | |quiet_units].
    apply match_kanban_date_lead. }
  rewrite Hk. unfold extractSimpleDates.
  rewrite (exec_all_whole _ _ line
             (mkMatch line [a; b; c; d; 45; e; f; 45; g; h] None)).
  - cbn [omap list_omap simple_field]. unfold simple_field.
    cbn [m_date m_raw]. rewrite date_read. reflexivity.
  - discriminate.
  - unfold match_simple, line. cbn [Z.eqb Pos.eqb].
    rewrite Hsp, Hiso, consumed_all. reflexivity.
  - reflexivity.
Qed.

Lemma collected_kanban :
  let line := [64; 123; a; b; c; d; 45; e; f; 45; g; h; 125] in
  collect_dates line None
  = [mkField Due t0 line 0 (length line) FmtKanban (Some false)].
Proof using digits date_read.
  pose proof (iso_at a b c d e f g h p q r s digits) as Hiso.
  intros line. unfold collect_dates. cbn [selected].
  clear time_read. split_digits digits.
  rewrite extractEmojiDates_quiet, extractDataviewDates_quiet by (subst line; quiet_units).
  assert (Hs : extractSimpleDates line = []).
  { unfold extractSimpleDates, line.
    rewrite exec_all_head_none by reflexivity.
    rewrite (exec_all_quiet _ _ (fun x => x =? 64)); [done | |quiet_units].
    apply match_simple_lead. }
  rewrite Hs. unfold extractKanbanDates.
  assert (Htime : kanban_time line = (false, 0, 0)).
  { unfold kanban_time, line.
    rewrite exec_first_head_none by reflexivity.
    rewrite (exec_first_quiet _ (fun x => x =? 64)); [done | |quiet_units].
    apply match_kanban_time_lead. }
  rewrite Htime.
  rewrite (exec_all_whole _ _ line
             (mkMatch line [a; b; c; d; 45; e; f; 45; g; h] None)).
  - cbn [omap list_omap kanban_field]. unfold kanban_field.
    cbn [m_date m_raw]. rewrite date_read. reflexivity.
  - discriminate.
  - unfold match_kanban_date, line. cbn [Z.eqb Pos.eqb andb].
    rewrite Hiso. cbn [Z.eqb Pos.eqb]. rewrite consumed_all. reflexivity.
  - reflexivity.
Qed.

Lemma collected_kanban_time :
  let line := [64; 123; a; b; c; d; 45; e; f; 45; g; h; 125;
               32; 64; 64; 123; p; q; 58; r; s; 125] in
  collect_dates line None
  = [mkField Due (apply_time hh mm t0)
       [64; 123; a; b; c; d; 45; e; f; 45; g; h; 125] 0 13 FmtKanban (Some true)].
Proof using All.
  pose proof (iso_at a b c d e f g h p q r s digits) as Hiso.
  pose proof (time_at a b c d e f g h p q r s digits) as Htm.
  intros line. unfold collect_dates. cbn [selected].
  split_digits digits.
  rewrite extractEmojiDates_quiet, extractDataviewDates_quiet by (subst line; quiet_units).
  assert (Hs : extractSimpleDates line = []).
  { unfold extractSimpleDates, line.
    rewrite exec_all_head_none by reflexivity.
    change [123; a; b; c; d; 45; e; f; 45; g; h; 125; 32; 64; 64; 123; p; q; 58; r; s; 125]
      with ([123; a; b; c; d; 45; e; f; 45; g; h; 125; 32]
            ++ [64; 64; 123; p; q; 58; r; s; 125]).
    rewrite (exec_all_quiet_prefix _ _ (fun x => x =? 64));
      [|apply match_simple_lead | quiet_units].
    rewrite !exec_all_head_none by reflexivity.
    rewrite (exec_all_quiet _ _ (fun x => x =? 64)); [done | |quiet_units].
    apply match_simple_lead. }
  rewrite Hs. unfold extractKanbanDates.
  assert (Htime : kanban_time line = (true, hh, mm)).
  { unfold kanban_time, line.
    rewrite exec_first_head_none by reflexivity.
    change [123; a; b; c; d; 45; e; f; 45; g; h; 125; 32; 64; 64; 123; p; q; 58; r; s; 125]
      with ([123; a; b; c; d; 45; e; f; 45; g; h; 125; 32]
            ++ [64; 64; 123; p; q; 58; r; s; 125]).
    rewrite (exec_first_quiet_prefix _ (fun x => x =? 64));
      [|apply match_kanban_time_lead | quiet_units].
    rewrite (exec_first_head_some _ _ _ [p; q; 58; r; s]).
    - by rewrite time_read.
    - unfold match_kanban_time. cbn [Z.eqb Pos.eqb andb].
      rewrite Htm. reflexivity. }
  rewrite Htime.
  unfold line at 1.
  rewrite (exec_all_head_some _ _ _ _ _
             (mkMatch [64; 123; a; b; c; d; 45; e; f; 45; g; h; 125]
                [a; b; c; d; 45; e; f; 45; g; h] None)).
  2:{ unfold match_kanban_date. cbn [Z.eqb Pos.eqb andb].
      rewrite Hiso. reflexivity. }
  change (match_length _ - 1)%nat
    with (length [123; a; b; c; d; 45; e; f; 45; g; h; 125]).
  change [123; a; b; c; d; 45; e; f; 45; g; h; 125; 32; 64; 64; 123; p; q; 58; r; s; 125]
    with ([123; a; b; c; d; 45; e; f; 45; g; h; 125]
          ++ [32; 64; 64; 123; p; q; 58; r; s; 125]).
  rewrite (exec_all_skip _ _ [123; a; b; c; d; 45; e; f; 45; g; h; 125]).
  rewrite exec_all_head_none by reflexivity.
  rewrite exec_all_head_none by reflexivity.
  rewrite exec_all_head_none by reflexivity.
  rewrite (exec_all_quiet _ _ (fun x => x =? 64));
    [|apply match_kanban_date_lead | quiet_units].
  cbn [omap list_omap kanban_field]. unfold kanban_field.
  cbn [m_date m_raw]. rewrite date_read. reflexivity.
Qed.

Lemma collected_dataview ty open close fmt :
  (open, close, fmt) ∈ DATAVIEW_WRAPPERS ->
  let line := [open] ++ type_value ty ++ [58; 58; 32]
              ++ [a; b; c; d; 45; e; f; 45; g; h] ++ [close] in
  collect_dates line None
  = [mkField ty t0 line 0 (length line) fmt None].
Proof using digits date_read.
  pose proof (iso_at a b c d e f g h p q r s digits []) as Hiso.
  pose proof (trim_date a b c d e f g h p q r s digits) as [_ Htrim].
  pose proof (closing_bracket_at a b c d e f g h p q r s digits ty open close) as Hclose.
  intros Hw line. unfold collect_dates. cbn [selected].
  clear time_read.
  assert (Hcases : (open, close, fmt) = (91, 93, FmtDataviewBracket)
                   \/ (open, close, fmt) = (40, 41, FmtDataviewParen)).
  { unfold DATAVIEW_WRAPPERS in Hw. rewrite !elem_of_cons, elem_of_nil in Hw.
    tauto. }
  clear Hw.
  assert (Hoc : (open, close) = (91, 93) \/ (open, close) = (40, 41)).
  { destruct Hcases as [[= -> -> ->]|[= -> -> ->]]; auto. }
  specialize (Hclose Hoc).
  assert (Hround : dataview_round line open close fmt 0
                   = Some (Some (mkField ty t0 line 0 (length line) fmt None),
                           length line)).
  { unfold dataview_round.
    change line with (open :: type_value ty ++ 58 :: 58
                        :: [32; a; b; c; d; 45; e; f; 45; g; h; close]).
    rewrite indexOf_head. cbv beta iota zeta.
    rewrite separator_at. cbv beta iota zeta.
    rewrite key_part_clean. cbv beta iota zeta.
    rewrite Hclose. cbv beta iota zeta.
    rewrite alias_of_type_value, Htrim, Hiso, date_read.
    destruct ty; reflexivity. }
  rewrite extractEmojiDates_quiet, extractSimpleDates_quiet,
    extractKanbanDates_quiet.
  2-4: split_digits digits;
       destruct Hcases as [[= -> -> ->]|[= -> -> ->]]; destruct ty;
       subst line; vm_compute type_value; cbn [app]; quiet_units.
  unfold extractDataviewDates, DATAVIEW_WRAPPERS. cbn [flat_map].
  split_digits digits.
  destruct Hcases as [[= -> -> ->]|[= -> -> ->]].
  - rewrite (dataview_loop_one _ _ _ _ _ Hround) by discriminate.
    rewrite dataview_loop_quiet; [reflexivity |].
    destruct ty; subst line; vm_compute type_value; cbn [app]; quiet_units.
  - rewrite (dataview_loop_one _ _ _ _ _ Hround) by discriminate.
    rewrite dataview_loop_quiet; [reflexivity |].
    destruct ty; subst line; vm_compute type_value; cbn [app]; quiet_units.
Qed.

End Collected.

Lemma match_task_prefix_new c rest :
  is_space c = false ->
  match_task_prefix (str "- [ ] " ++ c :: rest) = Some (32, c :: rest).
Proof.
  intros Hc. unfold match_task_prefix.
  change (str "- [ ] " ++ c :: rest) with (45 :: 32 :: 91 :: 32 :: 93 :: 32 :: c :: rest).
  cbn [drop_while]. change (is_space 45) with false. cbn iota.
  change (45 =? 45) with true. cbn iota.
  cbn [drop_while]. change (is_space 32) with true. cbn iota.
  change (is_space 91) with false. cbn iota.
  change ((91 =? 91) && negb (is_line_terminator 32) && (93 =? 93)) with true.
  cbn iota. cbn [drop_while]. change (is_space 32) with true. cbn iota.
  by rewrite Hc.
Qed.

Lemma getPrimaryDate_single line priorityOrder formatFilter g :
  extractAllDates line formatFilter = [g] ->
  getPrimaryDate line priorityOrder formatFilter = Some g.
Proof.
  intros H. unfold getPrimaryDate. rewrite H.
  destruct (first_by_priority priorityOrder [g]) as [found|] eqn:E; [|reflexivity].
  apply first_by_priority_find, find_type_elem in E as [E _].
  by apply list_elem_of_singleton in E as ->.
Qed.

Lemma day_of_midnight t : day_of (day_of t * msPerDay) = day_of t.
Proof. unfold day_of, msPerDay. Z.div_mod_to_equations. lia. Qed.

Lemma format_date_day t1 t2 : day_of t1 = day_of t2 -> format_date t1 = format_date t2.
Proof.
  intros H. unfold format_date, year, month, day_of_month. by rewrite H.
Qed.

Lemma plain_space : plain_unit 32 = true.
Proof. reflexivity. Qed.

(** ** Completing a task and opening it again *)

Lemma consumed_app (pre rest : list Z) : consumed (pre ++ rest) rest = pre.
Proof.
  unfold consumed. rewrite length_app.
  replace (length pre + length rest - length rest)%nat with (length pre) by lia.
  by rewrite take_app_length.
Qed.

(** A task line is white space, a dash, white space and a check box; the
    check mark is what [set_check_mark] replaces. *)
Lemma task_prefix_split line mark content :
  match_task_prefix line = Some (mark, content) ->
  exists pre r2,
    line = pre ++ mark :: 93 :: r2
    /\ last pre = Some 91
    /\ forall mark1 mark2 r2',
         is_line_terminator mark1 = false ->
         set_check_mark mark2 (pre ++ mark1 :: 93 :: r2')
         = pre ++ mark2 :: 93 :: r2'.
Proof.
  unfold match_task_prefix.
  destruct (drop_while_split is_space line) as (ws1 & Hline & Hws1 & Hhd1).
  destruct (drop_while is_space line) as [|dash r1] eqn:E1; [discriminate |].
  destruct (Z.eqb_spec dash 45) as [->|]; [|discriminate].
  destruct (drop_while_split is_space r1) as (ws2 & Hr1 & Hws2 & Hhd2).
  destruct (drop_while is_space r1) as [|lb [|old [|rb r2]]] eqn:E2; try discriminate.
  destruct (Z.eqb_spec lb 91) as [->|]; cbn [andb]; [|discriminate].
  destruct (is_line_terminator old) eqn:Eold; cbn [andb negb]; [discriminate |].
  destruct (Z.eqb_spec rb 93) as [->|]; [|discriminate].
  intros [= <- <-].
  exists (ws1 ++ 45 :: ws2 ++ [91]), r2. split; [|split].
  - rewrite Hline at 1. rewrite Hr1 at 1.
    rewrite <- !app_assoc. cbn [app]. by rewrite <- !app_assoc.
  - rewrite app_comm_cons, app_assoc. apply last_snoc.
  - intros mark1 mark2 r2' Hterm. unfold set_check_mark.
    assert (Hd1 : forall tail, drop_while is_space (ws1 ++ 45 :: tail) = 45 :: tail).
    { intros tail. clear -Hws1. induction Hws1 as [|c r Hc _ IH]; [reflexivity |].
      cbn. by rewrite Hc. }
    assert (Hd2 : forall tail, drop_while is_space (ws2 ++ 91 :: tail) = 91 :: tail).
    { intros tail. clear -Hws2. induction Hws2 as [|c r Hc _ IH]; [reflexivity |].
      cbn. by rewrite Hc. }
    rewrite <- !app_assoc. cbn [app]. rewrite <- !app_assoc. cbn [app].
    rewrite Hd1. change (45 =? 45) with true. cbn iota.
    rewrite Hd2. rewrite Hterm. change (91 =? 91) with true.
    change (93 =? 93) with true. cbn [andb negb]. cbn iota.
    replace (ws1 ++ 45 :: ws2 ++ 91 :: mark1 :: 93 :: r2')
      with ((ws1 ++ 45 :: ws2 ++ [91]) ++ mark1 :: 93 :: r2')
      by (rewrite <- !app_assoc; cbn [app]; by rewrite <- !app_assoc).
    rewrite consumed_app. rewrite <- !app_assoc. cbn [app].
    by rewrite <- !app_assoc.
Qed.

Lemma trimEnd_app_nonspace u c v :
  is_space c = false -> trimEnd (u ++ c :: v) = u ++ c :: trimEnd v.
Proof.
  intros Hc. unfold trimEnd.
  rewrite rev_app_distr. cbn [rev]. rewrite <- app_assoc. cbn [app].
  destruct (drop_while_split is_space (rev v)) as (ws & Hv & Hws & Hhd).
  assert (Hd : forall tail,
            drop_while is_space (rev v ++ c :: tail)
            = drop_while is_space (rev v) ++ c :: tail).
  { intros tail. rewrite Hv at 1. rewrite <- app_assoc.
    clear Hv. induction Hws as [|x r Hx _ IH]; cbn [app drop_while].
    - destruct (drop_while is_space (rev v)) as [|y r']; cbn [app drop_while].
      + by rewrite Hc.
      + by rewrite Hhd.
    - by rewrite Hx. }
  rewrite Hd, rev_app_distr. cbn [rev]. rewrite rev_involutive.
  by rewrite <- app_assoc.
Qed.

Lemma trimEnd_check_box pre mark r2 :
  trimEnd (pre ++ mark :: 93 :: r2) = pre ++ mark :: 93 :: trimEnd r2.
Proof.
  replace (pre ++ mark :: 93 :: r2) with ((pre ++ [mark]) ++ 93 :: r2)
    by by rewrite <- app_assoc.
  rewrite trimEnd_app_nonspace by reflexivity. by rewrite <- app_assoc.
Qed.

Lemma trimEnd_spec s :
  exists trail,
    s = trimEnd s ++ trail /\ Forall (fun c => is_space c = true) trail
    /\ forall c, last (trimEnd s) = Some c -> is_space c = false.
Proof.
  unfold trimEnd.
  destruct (drop_while_split is_space (rev s)) as (ws & Hs & Hws & Hhd).
  exists (rev ws). split; [|split].
  - rewrite <- rev_app_distr, <- Hs. by rewrite rev_involutive.
  - by apply Forall_rev.
  - intros c Hc. destruct (drop_while is_space (rev s)) as [|y r]; [discriminate |].
    cbn [rev] in Hc. rewrite last_snoc in Hc. by injection Hc as <-.
Qed.

(** White space in front of a text that ends with a unit that is no
    white space leads to a unit of the text. *)
Lemma drop_while_reaches l x sfx :
  last l = Some x -> is_space x = false ->
  exists y rest, drop_while is_space (l ++ sfx) = y :: rest /\ y ∈ l.
Proof.
  induction l as [|c r IH]; [discriminate |]. intros Hlast Hx.
  cbn [app drop_while]. destruct (is_space c) eqn:Ec.
  - destruct r as [|c' r'].
    + cbn in Hlast. injection Hlast as <-. congruence.
    + destruct (IH Hlast Hx) as (y & rest & Hd & Hy).
      exists y, rest. split; [exact Hd | by right].
  - exists c, (r ++ sfx). split; [reflexivity | left].
Qed.

Lemma remove_all_skip re s skip :
  (length s <= skip)%nat -> remove_all re s skip = [].
Proof.
  revert skip. induction s as [|c r IH]; intros skip H; [reflexivity |].
  cbn in H. destruct skip; [lia |]. cbn. apply IH. lia.
Qed.

Lemma remove_all_head_some re c r rest :
  re (c :: r) = Some rest ->
  remove_all re (c :: r) 0 = remove_all re r (length r - length rest).
Proof.
  intros H.
  change (remove_all re (c :: r) 0)
    with (match re (c :: r) with
          | Some rest => remove_all re r (length r - length rest)
          | None => c :: remove_all re r 0
          end).
  by rewrite H.
Qed.

Lemma remove_all_head_none re c r :
  re (c :: r) = None -> remove_all re (c :: r) 0 = c :: remove_all re r 0.
Proof.
  intros H.
  change (remove_all re (c :: r) 0)
    with (match re (c :: r) with
          | Some rest => remove_all re r (length r - length rest)
          | None => c :: remove_all re r 0
          end).
  by rewrite H.
Qed.

(** The pattern of [toggleTaskCompletion] for the tasks format starts,
    after white space, with the unit 226: a text without that unit has
    no match, and the replacement leaves it as it is. *)
Lemma match_done_emoji_none s : 226 ∉ s -> match_done_emoji s = None.
Proof.
  intros Hno. unfold match_done_emoji.
  destruct (drop_while_split is_space s) as (ws & Hs & _ & _).
  destruct (drop_while is_space s) as [|y rest] eqn:E; [reflexivity |].
  cbn [view_check_mark_symbol starts_with].
  destruct (Z.eqb_spec 226 y) as [<-|Hy]; [|reflexivity].
  exfalso. apply Hno. rewrite Hs. apply elem_of_app. right. left.
Qed.

Lemma remove_done_nothing s :
  226 ∉ s -> remove_all match_done_emoji s 0 = s.
Proof.
  induction s as [|c r IH]; intros Hno; [reflexivity |].
  rewrite (remove_all_head_none _ _ _ (match_done_emoji_none _ Hno)).
  f_equal. apply IH. by apply not_elem_of_cons in Hno as [_ Hr].
Qed.

(** X21. Completing a task in the tasks format and opening it again:
    the first call of [toggleTaskCompletion] sets the check mark and
    appends the completion date that [formatDate] writes, the check-mark
    symbol 9989 and the day of the call. The second call puts the blank
    check mark back and removes nothing: its pattern asks for the three
    units of the literal of the view, which [formatDate] does not write,
    so that on a line without the unit 226 the completion date of the
    first call stays on the opened task, which is not the line that was
    completed. *)
Theorem complete_then_reopen (task task' : TaskLine) (line content : list Z)
    (today today' : Z) :
  match_task_prefix line = Some (32, content) ->
  completed task = false -> completed task' = true ->
  226 ∉ line ->
  first_day <= day_of today -> year today <= 9999 ->
  let completedLine := toggleTaskCompletion TasksFormat task today line in
  let reopenedLine :=
    toggleTaskCompletion TasksFormat task' today' completedLine in
  (exists pre r2,
     line = pre ++ 32 :: 93 :: r2
     /\ completedLine
        = pre ++ 120 :: 93 :: trimEnd r2 ++ [32; 9989; 32] ++ format_date today
     /\ reopenedLine
        = pre ++ 32 :: 93 :: trimEnd r2 ++ [32; 9989; 32] ++ format_date today)
  /\ reopenedLine <> line.
Proof.
  intros Hprefix Hopen Hdone Hno Hlo Hhi completedLine reopenedLine.
  assert (Hshape : exists pre r2,
     line = pre ++ 32 :: 93 :: r2
     /\ completedLine
        = pre ++ 120 :: 93 :: trimEnd r2 ++ [32; 9989; 32] ++ format_date today
     /\ reopenedLine
        = pre ++ 32 :: 93 :: trimEnd r2 ++ [32; 9989; 32] ++ format_date today);
    [|split; [exact Hshape |];
      destruct Hshape as (pre & r2 & Hline & _ & Hback);
      rewrite Hback, Hline; intros Heq;
      apply app_inv_head in Heq; injection Heq as Heq;
      destruct (trimEnd_spec r2) as (trail & Hr2 & Htrail & _);
      rewrite Hr2 in Heq at 2; apply app_inv_head in Heq;
      rewrite <- Heq in Htrail; cbn [app] in Htrail;
      apply Forall_cons in Htrail as [_ Htrail];
      apply Forall_cons in Htrail as [Hmark _]; discriminate Hmark].
  subst reopenedLine completedLine.
  destruct (task_prefix_split _ _ _ Hprefix) as (pre & r2 & -> & Hpre & Hset).
  unfold toggleTaskCompletion. rewrite Hopen, Hdone. cbn [negb].
  rewrite (Hset 32 120 r2 eq_refl), trimEnd_check_box.
  assert (Hfmt : formatDate Done today FmtTasks false = [9989; 32] ++ format_date today).
  { unfold formatDate. cbn [andb hd DATE_SYMBOLS]. reflexivity. }
  rewrite Hfmt.
  assert (Hshape : (pre ++ 120 :: 93 :: trimEnd r2) ++ [32] ++ [9989; 32] ++ format_date today
                   = pre ++ 120 :: 93 :: (trimEnd r2 ++ [32; 9989; 32] ++ format_date today)).
  { rewrite <- app_assoc. reflexivity. }
  rewrite Hshape.
  exists pre, r2. split; [reflexivity |]. split; [reflexivity |].
  rewrite (Hset 120 32 _ eq_refl).
  apply remove_done_nothing.
  destruct (trimEnd_spec r2) as (trail & Hr2 & _ & _).
  destruct (format_date_shape today Hlo Hhi)
    as (a & b & c & d & e & f0 & g & h & HD & Hdig & _).
  rewrite HD. intros Hin. apply Hno. rewrite Hr2.
  cbn [app] in Hin.
  repeat first [ rewrite elem_of_app in Hin | rewrite elem_of_cons in Hin
               | rewrite elem_of_nil in Hin ].
  rewrite ?elem_of_app, ?elem_of_cons, ?elem_of_app.
  assert (Hd : forall x, is_digit x = true -> 226 <> x).
  { intros x Hx Heq. subst x. discriminate Hx. }
  split_digits Hdig.
  repeat match goal with
         | H : is_digit ?x = true |- _ => apply Hd in H
         end.
  repeat match goal with
         | H : _ \/ _ |- _ => destruct H as [H|H]
         end;
    try tauto; try discriminate; try congruence.
Qed.

(** ** Sections and their tasks *)

Ltac close_tasks :=
  repeat split; try assumption; try lia; try congruence;
  try match goal with
      | Ht : forall e, e ∈ ?l -> _, He : _ ∈ ?l |- _ =>
          destruct (Ht _ He) as (? & ? & ? & ? & ? & ?);
          first [assumption | lia | congruence]
      end.

Section ParseInvariant.
Variable datePriority : list DateFieldType.
Variable formatFilter : option DateFormatType.
Variable lines : list (list Z).

Lemma parse_task_line_markdown line task :
  parse_task_line line datePriority formatFilter = Some task ->
  markdown task = line.
Proof.
  unfold parse_task_line.
  destruct (match_task_prefix line) as [[m content]|]; [|discriminate].
  destruct (getPrimaryDate _ _ _); [|discriminate]. by intros [= <-].
Qed.

Lemma parse_line_invariant k st line :
  lines !! k = Some line ->
  parsed_up_to lines k st ->
  parsed_up_to lines (S k)
    (parse_line datePriority formatFilter (length lines) st k line).
Proof.
  intros Hline (Hev & (cur & Hcur & Hcurend) & Hsec).
  assert (Hk : (k < length lines)%nat) by (eapply lookup_lt_Some, Hline).
  unfold parse_line.
  destruct (match_heading line) as [[headingLevel text]|].
  - rewrite Hcur.
    set (sections1 := <[currentSectionId st := set_endLine k cur]> (sections st)).
    set (uniqueId := match sections1 !! trim text with
                     | Some _ => trim text ++ [95] ++ decimal (Z.of_nat k)
                     | None => trim text
                     end).
    unfold parsed_up_to.
    cbn [sections currentEvents currentSectionId currentLevel1Id].
    assert (Hsec1 : forall id sec, sections1 !! id = Some sec ->
              sec_id sec = id
              /\ (startLine sec <= k)%nat
              /\ (startLine sec <= endLine sec <= length lines)%nat
              /\ (endLine sec <= k)%nat
              /\ StronglySorted by_line (sec_tasks sec)
              /\ forall e, e ∈ sec_tasks sec ->
                   (startLine sec <= lineIndex e)%nat /\ (lineIndex e < k)%nat
                   /\ (lineIndex e < endLine sec)%nat
                   /\ lines !! lineIndex e = Some (markdown (entry_task e))
                   /\ sectionId e = id
                   /\ currentEvents st !! lineIndex e = Some e).
    { intros id sec. unfold sections1.
      destruct (decide (currentSectionId st = id)) as [<-|Hne].
      - rewrite lookup_insert_eq. intros [= <-].
        destruct (Hsec _ _ Hcur) as (Hid & Hs & Hse & _ & Hsorted & Htasks).
        cbn [set_endLine sec_id startLine endLine sec_tasks]. close_tasks.
      - rewrite lookup_insert_ne by exact Hne. intros Hid.
        destruct (Hsec _ _ Hid) as (? & ? & ? & Hend & ? & Htasks).
        specialize (Hend ltac:(congruence)). close_tasks. }
    split; [|split].
    + intros i e Hi. destruct (Hev i e Hi) as (? & ? & ? & Hs).
      split; [lia |]. split; [assumption |]. split; [assumption |].
      rewrite lookup_insert_is_Some.
      destruct (decide (uniqueId = sectionId e)); [by left | right].
      split; [done |]. unfold sections1. rewrite lookup_insert_is_Some.
      destruct (decide (currentSectionId st = sectionId e)); [by left | by right].
    + eexists. rewrite lookup_insert_eq. split; reflexivity.
    + intros id sec.
      destruct (decide (uniqueId = id)) as [<-|Hne].
      * rewrite lookup_insert_eq. intros [= <-].
        cbn [sec_id startLine endLine sec_tasks].
        split; [reflexivity |]. split; [lia |]. split; [lia |].
        split; [congruence |]. split; [constructor |].
        intros e He. by apply elem_of_nil in He.
      * rewrite lookup_insert_ne by exact Hne. intros Hid.
        destruct (Hsec1 _ _ Hid) as (? & ? & ? & ? & ? & Htasks). close_tasks.
  - destruct (parse_task_line line datePriority formatFilter) as [task|] eqn:Et.
    + apply parse_task_line_markdown in Et as Hmd.
      rewrite Hcur. unfold parsed_up_to.
      cbn [sections currentEvents currentSectionId currentLevel1Id].
      split; [|split].
      * intros i e.
        destruct (decide (k = i)) as [<-|Hne].
        -- rewrite lookup_insert_eq. intros [= <-].
           cbn [lineIndex entry_task sectionId].
           split; [lia |]. split; [reflexivity |]. split; [by rewrite Hmd |].
           rewrite lookup_insert_eq. by eexists.
        -- rewrite lookup_insert_ne by exact Hne. intros Hi.
           destruct (Hev i e Hi) as (? & ? & ? & Hs).
           split; [lia |]. split; [assumption |]. split; [assumption |].
           rewrite lookup_insert_is_Some.
           destruct (decide (currentSectionId st = sectionId e)); [by left | by right].
      * eexists. rewrite lookup_insert_eq. split; [reflexivity | exact Hcurend].
      * intros id sec.
        destruct (decide (currentSectionId st = id)) as [<-|Hne].
        -- rewrite lookup_insert_eq. intros [= <-].
           destruct (Hsec _ _ Hcur) as (Hid & Hs & Hse & _ & Hsorted & Htasks).
           cbn [push_task sec_id startLine endLine sec_tasks].
           split; [exact Hid |]. split; [lia |]. split; [lia |].
           split; [congruence |]. split.
           ++ apply StronglySorted_app. repeat split; [|exact Hsorted | repeat constructor].
              intros a b Ha Hb. apply list_elem_of_singleton in Hb as ->.
              unfold by_line. cbn [lineIndex]. apply Htasks in Ha. lia.
           ++ intros e He. apply elem_of_app in He as [He|He].
              ** destruct (Htasks e He) as (? & ? & ? & ? & ? & ?).
                 split; [assumption |]. split; [lia |]. split; [lia |].
                 split; [assumption |]. split; [assumption |].
                 by rewrite lookup_insert_ne by lia.
              ** apply list_elem_of_singleton in He as ->.
                 cbn [lineIndex entry_task sectionId].
                 split; [lia |]. split; [lia |]. split; [lia |].
                 split; [by rewrite Hmd |]. split; [reflexivity |].
                 by rewrite lookup_insert_eq.
        -- rewrite lookup_insert_ne by exact Hne. intros Hid.
           destruct (Hsec _ _ Hid) as (? & ? & ? & Hend & ? & Htasks).
           specialize (Hend ltac:(congruence)).
           split; [assumption |]. split; [lia |]. split; [lia |].
           split; [intros _; lia |]. split; [assumption |].
           intros e He. destruct (Htasks e He) as (? & ? & ? & ? & ? & ?).
           split; [assumption |]. split; [lia |]. split; [lia |].
           split; [assumption |]. split; [assumption |].
           by rewrite lookup_insert_ne by lia.
    + split; [|split].
      * intros i e Hi. destruct (Hev i e Hi) as (? & ? & ? & ?).
        repeat split; try assumption; lia.
      * eauto.
      * intros id sec Hid.
        destruct (Hsec _ _ Hid) as (? & ? & ? & Hend & ? & Htasks).
        split; [assumption |]. split; [lia |]. split; [lia |].
        split; [intros Hne; specialize (Hend Hne); lia |].
        split; [assumption |].
        intros e He. destruct (Htasks e He) as (? & ? & ? & ? & ? & ?).
        repeat split; try assumption; lia.
Qed.

Lemma parse_from_invariant todo done st :
  lines = done ++ todo ->
  parsed_up_to lines (length done) st ->
  parsed_up_to lines (length lines)
    (parse_from datePriority formatFilter (length lines) st (length done) todo).
Proof.
  revert done st. induction todo as [|line more IH]; intros done st Hl Hst.
  - rewrite app_nil_r in Hl. rewrite <- Hl in Hst. exact Hst.
  - cbn [parse_from].
    replace (S (length done)) with (length (done ++ [line]))
      by (rewrite length_app; cbn; lia).
    apply IH; [by rewrite <- app_assoc |].
    rewrite length_app. cbn [length]. rewrite Nat.add_1_r.
    apply parse_line_invariant; [|exact Hst].
    rewrite Hl at 1. by rewrite lookup_app_r, Nat.sub_diag by lia.
Qed.

Lemma parseMarkdown_invariant :
  parsed_up_to lines (length lines) (parseMarkdown lines datePriority formatFilter).
Proof.
  unfold parseMarkdown. apply (parse_from_invariant lines []); [reflexivity |].
  unfold parsed_up_to. cbn [sections currentEvents currentSectionId length].
  split; [|split].
  - intros i e H. by rewrite lookup_empty in H.
  - eexists. rewrite lookup_singleton_eq. split; reflexivity.
  - intros id sec H. apply lookup_singleton_Some in H as [<- <-].
    cbn [sec_id startLine endLine sec_tasks].
    split; [reflexivity |]. split; [lia |]. split; [lia |].
    split; [congruence |]. split; [constructor |].
    intros e He. by apply elem_of_nil in He.
Qed.
End ParseInvariant.

(** X22. After [parseMarkdown], every task is stored under the index of
    its line, whose text is the task's markdown, and its section is in
    the map; every section of the map is stored under its id, its lines
    run from [startLine] to [endLine] within the file, and its tasks are
    stored tasks of that section, in the order of their lines, each on a
    line of the section with the task's markdown. *)
Theorem parseMarkdown_invariants (lines : list (list Z))
    (datePriority : list DateFieldType) (formatFilter : option DateFormatType) :
  let st := parseMarkdown lines datePriority formatFilter in
  (forall i e, currentEvents st !! i = Some e ->
     lineIndex e = i /\ lines !! i = Some (markdown (entry_task e))
     /\ is_Some (sections st !! sectionId e))
  /\ (forall id sec, sections st !! id = Some sec ->
        sec_id sec = id
        /\ (startLine sec <= endLine sec <= length lines)%nat
        /\ StronglySorted by_line (sec_tasks sec)
        /\ forall e, e ∈ sec_tasks sec ->
             (startLine sec <= lineIndex e < endLine sec)%nat
             /\ lines !! lineIndex e = Some (markdown (entry_task e))
             /\ sectionId e = id
             /\ currentEvents st !! lineIndex e = Some e).
Proof.
  intros st.
  destruct (parseMarkdown_invariant datePriority formatFilter lines)
    as (Hev & _ & Hsec).
  fold st in Hev, Hsec. split.
  - intros i e H. destruct (Hev i e H) as (? & ? & ? & ?). auto.
  - intros id sec H. destruct (Hsec id sec H) as (? & ? & ? & _ & ? & Htasks).
    split; [assumption |]. split; [assumption |]. split; [assumption |].
    intros e He. destruct (Htasks e He) as (? & ? & ? & ? & ? & ?).
    repeat split; try assumption; lia.
Qed.

(** X23. [createTask] inserts the new task inside the active section:
    for a section that [parseMarkdown] made of the same lines, the index
    of the new line is from the section's [startLine] to its [endLine],
    after every task of the section, and within the file, so the cap at
    the number of lines never applies; the lines before and after the
    index are kept as they are. *)
Theorem createTask_inserts_in_section (lines : list (list Z))
    (datePriority : list DateFieldType) (formatFilter : option DateFormatType)
    (id : list Z) (sec : CalendarSection) (dateFormat : DateFormatType)
    (taskName : list Z)
    (args : list Z * option (list Z) * option (list Z) * option (list Z))
    (newLines : list (list Z)) :
  sections (parseMarkdown lines datePriority formatFilter) !! id = Some sec ->
  createTask lines (Some sec) dateFormat taskName args = Some newLines ->
  let index := insertIndex (Some sec) (length lines) in
  (startLine sec <= index <= endLine sec)%nat
  /\ (index <= length lines)%nat
  /\ (forall e, e ∈ sec_tasks sec -> (lineIndex e < index)%nat)
  /\ take index newLines = take index lines
  /\ newLines !! index = newTaskLine dateFormat taskName args
  /\ drop (S index) newLines = drop index lines.
Proof.
  intros Hsec Hcreate index.
  destruct (parseMarkdown_invariant datePriority formatFilter lines)
    as (_ & _ & Hinv).
  destruct (Hinv id sec Hsec) as (Hid & _ & Hrange & _ & Hsorted & Htasks).
  assert (Hindex : (startLine sec <= index <= endLine sec)%nat
                   /\ forall e, e ∈ sec_tasks sec -> (lineIndex e < index)%nat).
  { subst index. unfold insertIndex.
    destruct (last (sec_tasks sec)) as [lastTask|] eqn:El.
    - apply last_Some in El as [pre Hpre].
      assert (Hl : lastTask ∈ sec_tasks sec)
        by (rewrite Hpre; apply elem_of_app; right; left).
      destruct (Htasks _ Hl) as (? & ? & ? & _).
      split; [lia |]. intros e He. rewrite Hpre in He, Hsorted.
      apply elem_of_app in He as [He|He].
      + apply StronglySorted_app in Hsorted as (Hab & _ & _).
        specialize (Hab e lastTask He ltac:(left)). unfold by_line in Hab. lia.
      + apply list_elem_of_singleton in He as ->. lia.
    - apply last_None in El. rewrite El.
      split; [|intros e He; by apply elem_of_nil in He].
      destruct (negb _); lia. }
  destruct Hindex as [Hin Hafter].
  split; [exact Hin |]. split; [lia |]. split; [exact Hafter |].
  unfold createTask in Hcreate.
  destruct (newTaskLine dateFormat taskName args) as [newLine|]; [|discriminate].
  injection Hcreate as <-. fold index. unfold splice_in.
  assert (Hlen : length (take index lines) = index)
    by (rewrite length_take; lia).
  split; [|split].
  - rewrite take_app_le by lia. rewrite take_take. f_equal. lia.
  - rewrite lookup_app_r by lia. by rewrite Hlen, Nat.sub_diag.
  - rewrite drop_app_ge by lia. rewrite Hlen.
    replace (S index - index)%nat with 1%nat by lia. reflexivity.
Qed.

(** ** The check box of a task line *)

Lemma dataview_wrapper_prefix pre s open close fmt :
  Forall (fun c => (c =? open) = false) pre ->
  dataview_loop (length (pre ++ s)) (pre ++ s) open close fmt 0
  = map (shift (length pre)) (dataview_loop (length s) s open close fmt 0).
Proof.
  intros Hpre.
  destruct (pre ++ s) as [|x l] eqn:E.
  - apply app_eq_nil in E as [-> ->]. reflexivity.
  - rewrite <- E. replace (length (pre ++ s)) with (S (length l))
      by (rewrite E; reflexivity).
    rewrite dataview_loop_quiet_start by exact Hpre.
    pose proof (dataview_loop_prefix (S (length l)) pre s open close fmt 0) as Hp.
    rewrite Nat.add_0_r in Hp. rewrite Hp.
    f_equal. apply dataview_loop_fuel; [|lia].
    apply (f_equal length) in E. rewrite length_app in E. cbn in E. lia.
Qed.

Lemma shift_shift n m f : shift n (shift m f) = shift (n + m) f.
Proof. unfold shift. cbn. f_equal; lia. Qed.

Lemma map_shift_shift n m l :
  map (shift n) (map (shift m) l) = map (shift (n + m)) l.
Proof.
  rewrite map_map. apply map_ext. intros f. apply shift_shift.
Qed.

(** The opening bracket of a check box starts no Dataview field: the key
    would hold the closing bracket. *)
Lemma check_box_round mark rest close fmt :
  dataview_round (91 :: mark :: 93 :: rest) 91 close fmt 0 = Some (None, 1%nat).
Proof.
  unfold dataview_round. rewrite indexOf_head. cbv beta iota zeta.
  change (0 + 1)%nat with 1%nat.
  destruct (findDataviewSeparator (91 :: mark :: 93 :: rest) 1)
    as [[key valueIndex]|] eqn:Es; [|reflexivity].
  assert (Hsep : exists sep, valueIndex = (sep + 2)%nat /\ (3 <= sep)%nat).
  { unfold findDataviewSeparator, indexOf in Es.
    change (drop 1 (91 :: mark :: 93 :: rest)) with (mark :: 93 :: rest) in Es.
    assert (H1 : starts_with (str "::") (mark :: 93 :: rest) = false).
    { cbn [str starts_with code_of_ascii]. change (_ =? 93) with false.
      by rewrite andb_false_r. }
    assert (H2 : starts_with (str "::") (93 :: rest) = false) by reflexivity.
    cbn [index_from] in Es. rewrite H1, H2 in Es.
    destruct (index_from (str "::") rest 3) as [sep|] eqn:Ei; [|discriminate].
    injection Es as _ <-. apply index_from_ge in Ei. eauto. }
  destruct Hsep as (sep & -> & Hsep).
  replace (sep + 2 - 2)%nat with sep by lia.
  assert (Hkey : existsb
                   (fun s => includes s (substring 1 sep (91 :: mark :: 93 :: rest)))
                   wrapper_chars = true).
  { apply existsb_exists. exists [93]. split; [cbn; tauto |].
    unfold substring.
    replace (Nat.max 1 sep - Nat.min 1 sep)%nat with (S (S (sep - 3))) by lia.
    replace (Nat.min 1 sep) with 1%nat by lia.
    cbn [drop take]. unfold includes, indexOf. rewrite drop_0.
    cbn [index_from starts_with].
    destruct (93 =? mark); cbn [andb]; [reflexivity |].
    change (93 =? 93) with true. reflexivity. }
  by rewrite Hkey.
Qed.

Lemma check_box_bracket_loop mark rest close fmt :
  dataview_loop (length (91 :: mark :: 93 :: rest)) (91 :: mark :: 93 :: rest)
    91 close fmt 0
  = map (shift 1)
      (dataview_loop (length (mark :: 93 :: rest)) (mark :: 93 :: rest)
         91 close fmt 0).
Proof.
  change (length (91 :: mark :: 93 :: rest))
    with (S (length (mark :: 93 :: rest))).
  set (s := mark :: 93 :: rest).
  change (dataview_loop (S (length s)) (91 :: s) 91 close fmt 0)
    with (if negb (Nat.ltb 0 (length (91 :: s))) then []
          else match dataview_round (91 :: s) 91 close fmt 0 with
               | None => []
               | Some (None, next) => dataview_loop (length s) (91 :: s) 91 close fmt next
               | Some (Some d, next) =>
                   d :: dataview_loop (length s) (91 :: s) 91 close fmt next
               end).
  change (Nat.ltb 0 (length (91 :: s))) with true. cbn [negb].
  unfold s at 1. rewrite check_box_round.
  exact (dataview_loop_prefix (length s) [91] s 91 close fmt 0).
Qed.

Lemma check_box_bracket mark rest formatFilter :
  extractAllDates (91 :: mark :: 93 :: rest) formatFilter
  = map (shift 1) (extractAllDates (mark :: 93 :: rest) formatFilter).
Proof.
  unfold extractAllDates.
  rewrite <- remove_overlaps_shift, <- sort_by_start_shift. do 2 f_equal.
  unfold collect_dates. rewrite !map_app.
  change (91 :: mark :: 93 :: rest) with ([91] ++ mark :: 93 :: rest).
  assert (Hd : extractDataviewDates ([91] ++ mark :: 93 :: rest)
               = map (shift 1) (extractDataviewDates (mark :: 93 :: rest))).
  { unfold extractDataviewDates, DATAVIEW_WRAPPERS. cbn [flat_map].
    rewrite !app_nil_r, map_app. f_equal.
    - apply check_box_bracket_loop.
    - apply (dataview_wrapper_prefix [91]). by repeat constructor. }
  repeat match goal with |- context [if ?b then _ else _] => destruct b end;
    cbn [map];
    rewrite ?Hd,
      ?(extractEmojiDates_prefix [91]), ?(extractSimpleDates_prefix [91]),
      ?(extractKanbanDates_prefix [91]) by (by repeat constructor);
    reflexivity.
Qed.

Lemma space_is_plain c : is_space c = true -> plain_unit c = true.
Proof.
  intros Hc. unfold plain_unit, emoji_lead.
  repeat match goal with
         | |- context [c =? ?k] =>
             destruct (Z.eqb_spec c k) as [->|]; [discriminate Hc |]
         end.
  reflexivity.
Qed.

Lemma spaces_plain ws :
  Forall (fun c => is_space c = true) ws -> Forall (fun c => plain_unit c = true) ws.
Proof.
  intros H. eapply Forall_impl; [exact H |]. intros c. apply space_is_plain.
Qed.

(** X24. The check box of a task line takes no part in the extraction:
    when its mark is no emoji symbol, [@] or opening bracket, then under
    every format filter, and under none, the fields of the whole line
    are the fields of the content after the check box, moved to the
    right by the length of the prefix. *)
Theorem check_box_is_no_field (line : list Z) (mark : Z) (content : list Z)
    (formatFilter : option DateFormatType) :
  match_task_prefix line = Some (mark, content) ->
  plain_unit mark = true ->
  extractAllDates line formatFilter
  = map (shift (length line - length content))
      (extractAllDates content formatFilter).
Proof.
  unfold match_task_prefix. intros Hprefix Hmark.
  destruct (drop_while_split is_space line) as (ws1 & Hline & Hws1 & _).
  destruct (drop_while is_space line) as [|dash r1] eqn:E1; [discriminate |].
  destruct (Z.eqb_spec dash 45) as [->|]; [|discriminate].
  destruct (drop_while_split is_space r1) as (ws2 & Hr1 & Hws2 & _).
  destruct (drop_while is_space r1) as [|lb [|old [|rb r2]]] eqn:E2; try discriminate.
  destruct (Z.eqb_spec lb 91) as [->|]; cbn [andb] in Hprefix; [|discriminate].
  destruct (is_line_terminator old); cbn [andb negb] in Hprefix; [discriminate |].
  destruct (Z.eqb_spec rb 93) as [->|]; [|discriminate].
  injection Hprefix as -> <-.
  destruct (drop_while_split is_space r2) as (ws3 & Hr2 & Hws3 & _).
  set (content := drop_while is_space r2) in *.
  assert (Hshape : line = (ws1 ++ 45 :: ws2) ++ 91 :: mark :: 93 :: ws3 ++ content).
  { rewrite Hline at 1. rewrite Hr1 at 1. rewrite Hr2 at 1.
    by rewrite <- app_assoc. }
  assert (Hp0 : Forall (fun c => plain_unit c = true) (ws1 ++ 45 :: ws2)).
  { apply Forall_app. split; [by apply spaces_plain |].
    constructor; [reflexivity | by apply spaces_plain]. }
  assert (Hp1 : Forall (fun c => plain_unit c = true) (mark :: 93 :: ws3)).
  { constructor; [exact Hmark |]. constructor; [reflexivity | by apply spaces_plain]. }
  rewrite Hshape at 1.
  rewrite extractAllDates_prefix by exact Hp0.
  rewrite check_box_bracket.
  change (mark :: 93 :: ws3 ++ content) with ((mark :: 93 :: ws3) ++ content).
  rewrite extractAllDates_prefix by exact Hp1.
  rewrite !map_shift_shift. f_equal. f_equal.
  rewrite Hshape, !length_app. cbn [length]. rewrite !length_app. cbn [length]. lia.
Qed.

(** ** A task with one date, created, moved and read back *)

Lemma collapse_from_app_nonspace b u c v :
  is_space c = false ->
  collapse_from b (u ++ c :: v) = collapse_from b u ++ c :: collapse_from false v.
Proof.
  intros Hc. revert b. induction u as [|x u IH]; intros b; cbn [app collapse_from].
  - by rewrite Hc.
  - destruct (is_space x); [destruct b |]; by rewrite IH.
Qed.

Lemma collapse_from_snoc_space b v x :
  is_space x = false ->
  collapse_from b ((v ++ [x]) ++ [32]) = collapse_from b (v ++ [x]) ++ [32].
Proof.
  intros Hx. rewrite <- app_assoc. cbn [app].
  rewrite !collapse_from_app_nonspace by exact Hx.
  cbn [collapse_from]. by rewrite <- app_assoc.
Qed.

Lemma collapse_from_plain b s :
  Forall (fun c => plain_unit c = true) s ->
  Forall (fun c => plain_unit c = true) (collapse_from b s).
Proof.
  intros H. revert b. induction H as [|c r Hc _ IH]; intros b; cbn [collapse_from];
    [constructor |].
  destruct (is_space c); [destruct b |]; try apply IH;
    constructor; try apply IH; [reflexivity | exact Hc].
Qed.

Lemma plain_name_split name :
  plain_name name ->
  exists c0 u x, name = c0 :: u /\ is_space c0 = false
                 /\ (exists v, name = v ++ [x]) /\ is_space x = false.
Proof.
  intros (Hne & Hfirst & Hlast & _).
  destruct name as [|c0 u]; [done |].
  destruct (last (c0 :: u)) as [x|] eqn:El; [|apply last_None in El; discriminate].
  exists c0, u, x. split; [reflexivity |]. split; [by eapply Hfirst |].
  split; [|by apply Hlast]. apply last_Some in El. exact El.
Qed.

Lemma collapse_plain_name name :
  plain_name name -> plain_name (collapse_spaces name).
Proof.
  intros Hn. pose proof Hn as (_ & _ & _ & Hplain).
  destruct (plain_name_split name Hn) as (c0 & u & x & Hname & Hc0 & [v Hv] & Hx).
  unfold collapse_spaces.
  assert (Hhead : collapse_from false name = c0 :: collapse_from false u).
  { rewrite Hname. cbn [collapse_from]. by rewrite Hc0. }
  assert (Htail : collapse_from false name = collapse_from false v ++ [x]).
  { rewrite Hv. by rewrite collapse_from_app_nonspace. }
  split; [by rewrite Hhead |]. split; [|split].
  - rewrite Hhead. by intros c r [= <- _].
  - rewrite Htail, last_snoc. by intros c [= <-].
  - by apply collapse_from_plain.
Qed.

Lemma trim_core u ws :
  (forall c r, u = c :: r -> is_space c = false) ->
  (forall x, last u = Some x -> is_space x = false) ->
  Forall (fun c => is_space c = true) ws ->
  trim (u ++ ws) = u.
Proof.
  intros Hfirst Hlast Hws. unfold trim.
  assert (Hall : forall l tail, Forall (fun c => is_space c = true) l ->
            (match tail with c :: _ => is_space c = false | [] => True end) ->
            drop_while is_space (l ++ tail) = tail).
  { intros l tail Hl Htail. induction Hl as [|c r Hc _ IH]; cbn [app drop_while].
    - destruct tail as [|c r]; [reflexivity |]. cbn. by rewrite Htail.
    - by rewrite Hc. }
  destruct u as [|c r].
  - cbn [app]. rewrite <- (app_nil_r ws), Hall by done. reflexivity.
  - cbn [app drop_while]. rewrite (Hfirst c r eq_refl).
    change (c :: r ++ ws) with ((c :: r) ++ ws). rewrite rev_app_distr.
    rewrite Hall; [apply rev_involutive | by apply Forall_rev |].
    destruct (last (c :: r)) as [x|] eqn:El; [|apply last_None in El; discriminate].
    apply last_Some in El as Hl. destruct Hl as [v Hv]. rewrite Hv.
    rewrite rev_app_distr. cbn. apply Hlast. reflexivity.
Qed.

Lemma trimEnd_fixed u :
  (forall x, last u = Some x -> is_space x = false) -> trimEnd u = u.
Proof.
  intros Hlast. unfold trimEnd.
  destruct (last u) as [x|] eqn:El.
  - apply last_Some in El as [v ->]. rewrite rev_app_distr. cbn [rev app drop_while].
    rewrite (Hlast x) by reflexivity.
    change (x :: rev v) with (rev [x] ++ rev v). rewrite <- rev_app_distr.
    apply rev_involutive.
  - apply last_None in El as ->. reflexivity.
Qed.

(** A due date without a time as [formatDate] writes it, read by the
    four grammars. *)
Lemma due_part_collected fmt t :
  first_day <= day_of t -> year t <= 9999 ->
  exists flag,
    collect_dates (formatDate Due t fmt false) None
    = [mkField Due (day_of t * msPerDay) (formatDate Due t fmt false) 0
         (length (formatDate Due t fmt false)) fmt flag]
    /\ truthy flag = false.
Proof.
  intros Hlo Hhi.
  destruct (format_date_shape t Hlo Hhi)
    as (a & b & c & d & e & f0 & g & h & HD & Hdig & Hread).
  rewrite HD in Hread. unfold formatDate. rewrite HD. cbn [andb].
  assert (Hdigits : Forall (fun x => is_digit x = true)
                      [a; b; c; d; e; f0; g; h; 48; 48; 48; 48]).
  { change [a; b; c; d; e; f0; g; h; 48; 48; 48; 48]
      with ([a; b; c; d; e; f0; g; h] ++ [48; 48; 48; 48]).
    apply Forall_app. split; [exact Hdig | by repeat constructor]. }
  destruct fmt.
  - pose proof (collected_tasks a b c d e f0 g h 48 48 48 48 Hdigits _ 0 0 Hread
                  eq_refl Due false) as H.
    cbv zeta in H. rewrite app_nil_r in H.
    exists (Some false). split; [exact H | reflexivity].
  - exists None.
    split; [exact (collected_dataview a b c d e f0 g h 48 48 48 48 Hdigits _ Hread
                     Due 91 93 FmtDataviewBracket ltac:(by left)) | reflexivity].
  - exists None.
    split; [exact (collected_dataview a b c d e f0 g h 48 48 48 48 Hdigits _ Hread
                     Due 40 41 FmtDataviewParen ltac:(right; by left))
           | reflexivity].
  - exists None.
    split; [exact (collected_simple a b c d e f0 g h 48 48 48 48 Hdigits _ Hread)
           | reflexivity].
  - exists (Some false).
    split; [exact (collected_kanban a b c d e f0 g h 48 48 48 48 Hdigits _ Hread)
           | reflexivity].
Qed.

(** In the Dataview, the simple and the Kanban format the date part of a
    new task of one day is the due date as [formatDate] writes it. *)
Lemma buildDatePart_written dateFormat t :
  dateFormat <> TasksFormat ->
  buildDatePart dateFormat (format_date t) None None None
  = formatDate Due t (written_format dateFormat) false.
Proof. by destruct dateFormat. Qed.

(** A line made of a blank check box, a plain name and a date part with
    one field is read as an open task with that field. *)
Lemma parse_named_line name part field datePriority dateFormat :
  plain_name name ->
  collect_dates part None = [field] ->
  format_type (format field) = dateFormat ->
  parse_task_line (str "- [ ] " ++ name ++ [32] ++ part) datePriority
    (Some dateFormat)
  = Some (mkTask (str "- [ ] " ++ name ++ [32] ++ part)
            (match trim (stripDates (name ++ [32] ++ part)) with
             | [] => str "Untitled Task"
             | _ :: _ => trim (stripDates (name ++ [32] ++ part))
             end)
            (date field) (type field) [shift (length name + 1) field]
            (hasTime field) (bool_decide (format field = FmtKanban)) false).
Proof.
  intros Hname Hcollect Hfmt.
  destruct (plain_name_split name Hname) as (c0 & u & x & Hn & Hc0 & _ & _).
  destruct Hname as (_ & _ & _ & Hplain).
  set (pre := name ++ [32]).
  assert (Hpre : Forall (fun x => plain_unit x = true) pre).
  { apply Forall_app. split; [exact Hplain | by repeat constructor]. }
  assert (Hfields : extractAllDates (pre ++ part) (Some dateFormat)
                    = [shift (length name + 1) field]).
  { rewrite extractAllDates_prefix by exact Hpre.
    rewrite (one_grammar part (Some dateFormat) field Hcollect), Hfmt.
    cbn [selected]. rewrite bool_decide_eq_true_2 by reflexivity.
    unfold pre. rewrite length_app. reflexivity. }
  unfold parse_task_line.
  rewrite Hn at 1. change ((c0 :: u) ++ [32] ++ part) with (c0 :: (u ++ [32] ++ part)).
  rewrite (match_task_prefix_new c0 _ Hc0).
  replace (c0 :: u ++ [32] ++ part) with (pre ++ part)
    by (unfold pre; rewrite Hn; by rewrite <- app_assoc).
  rewrite (getPrimaryDate_single _ _ _ _ Hfields), Hfields.
  replace (pre ++ part) with (name ++ [32] ++ part)
    by (unfold pre; by rewrite <- app_assoc).
  reflexivity.
Qed.

(** The event of a task with one due date without a time. *)
Lemma event_of_due_date line0 title0 field n kanban :
  type field = Due -> truthy (hasTime field) = false ->
  event_times (mkTask line0 title0 (date field) Due [shift n field]
                 (hasTime field) kanban false)
  = (format_date (date field), format_date (date field)).
Proof.
  intros Hty Htime. unfold event_times.
  cbn [isKanban task_hasTime allDates task_date].
  rewrite Htime, andb_false_r.
  unfold find_type. cbn [find type shift]. rewrite Hty.
  rewrite bool_decide_eq_false_2 by discriminate.
  rewrite bool_decide_eq_true_2 by reflexivity.
  cbn [hasTime date shift]. by rewrite Htime.
Qed.

Lemma blank_check_box_fields s formatFilter :
  extractAllDates (str "- [ ] " ++ s) formatFilter
  = map (shift 6) (extractAllDates s formatFilter).
Proof.
  change (str "- [ ] " ++ s) with ([45; 32] ++ 91 :: 32 :: 93 :: 32 :: s).
  rewrite extractAllDates_prefix by (by repeat constructor).
  rewrite check_box_bracket.
  change (32 :: 93 :: 32 :: s) with ([32; 93; 32] ++ s).
  rewrite extractAllDates_prefix by (by repeat constructor).
  by rewrite !map_shift_shift.
Qed.

Lemma named_line_fields name part field :
  plain_name name ->
  collect_dates part None = [field] ->
  extractAllDates (str "- [ ] " ++ name ++ [32] ++ part) None
  = [shift (6 + (length name + 1)) field].
Proof.
  intros (_ & _ & _ & Hplain) Hcollect.
  rewrite blank_check_box_fields, app_assoc.
  rewrite extractAllDates_prefix
    by (apply Forall_app; split; [exact Hplain | by repeat constructor]).
  rewrite (one_grammar part None field Hcollect). cbn [selected map].
  rewrite shift_shift, length_app. reflexivity.
Qed.

(** Without its date part such a line is the check box and the name,
    every run of white space of the name made one space. *)
Lemma named_line_stripped name part field :
  plain_name name ->
  collect_dates part None = [field] ->
  start field = 0%nat -> end_ field = length part ->
  stripDates (str "- [ ] " ++ name ++ [32] ++ part)
  = str "- [ ] " ++ collapse_spaces name.
Proof.
  intros Hname Hcollect Hstart Hend.
  pose proof (collapse_plain_name name Hname) as Hcn.
  destruct (plain_name_split name Hname) as (c0 & u & x & Hn & Hc0 & [v Hv] & Hx).
  unfold stripDates. rewrite (named_line_fields name part field Hname Hcollect).
  unfold cut_all. cbn [rev app fold_left]. unfold cut, slice_to, slice_from.
  cbn [start end_ shift]. rewrite Hstart, Hend.
  assert (Hcut : take (6 + (length name + 1) + 0)
                   (str "- [ ] " ++ name ++ [32] ++ part)
                 ++ drop (6 + (length name + 1) + length part)
                      (str "- [ ] " ++ name ++ [32] ++ part)
                 = str "- [ ] " ++ name ++ [32]).
  { replace (str "- [ ] " ++ name ++ [32] ++ part)
      with ((str "- [ ] " ++ name ++ [32]) ++ part)
      by (by rewrite <- !app_assoc).
    rewrite take_app_length' by (rewrite !length_app; change (length (str "- [ ] ")) with 6%nat; cbn [length]; lia).
    rewrite drop_ge by (rewrite !length_app; change (length (str "- [ ] ")) with 6%nat; cbn [length]; lia).
    by rewrite app_nil_r. }
  change (32 :: part) with ([32] ++ part). rewrite Hcut.
  assert (Hcollapse : collapse_spaces (str "- [ ] " ++ name ++ [32])
                      = (str "- [ ] " ++ collapse_spaces name) ++ [32]).
  { unfold collapse_spaces. rewrite Hn at 1.
    change (str "- [ ] " ++ (c0 :: u) ++ [32])
      with (str "- [ ] " ++ c0 :: (u ++ [32])).
    rewrite collapse_from_app_nonspace by exact Hc0.
    change (collapse_from false (str "- [ ] ")) with (str "- [ ] ").
    rewrite <- app_assoc. f_equal.
    transitivity (collapse_from false (name ++ [32])).
    - rewrite Hn. cbn [app collapse_from]. by rewrite Hc0.
    - rewrite Hv. by apply collapse_from_snoc_space. }
  rewrite Hcollapse.
  destruct Hcn as (Hne & _ & Hlast & _).
  apply trim_core; [by intros c r [= <- _] | | by repeat constructor].
  intros y Hy. apply Hlast.
  destruct (collapse_spaces name) as [|c1 r1] eqn:Ec; [done |].
  change (str "- [ ] " ++ c1 :: r1) with (str "- [ ] " ++ [c1] ++ r1) in Hy.
  rewrite app_assoc in Hy.
  destruct (last (c1 :: r1)) as [z|] eqn:El; [|apply last_None in El; discriminate].
  apply last_Some in El as [w Hw].
  change (c1 :: r1) with ([c1] ++ r1) in Hw.
  assert (Hr : (str "- [ ] " ++ [c1]) ++ r1 = (str "- [ ] " ++ w) ++ [z]).
  { rewrite <- !app_assoc. f_equal. exact Hw. }
  rewrite Hr, last_snoc in Hy. exact Hy.
Qed.

(** A drop of a task whose only date is a due date appends the new due
    date to the base line, with a time when the new start or the old
    date has one. *)
Lemma drop_single_due task f newStart newEnd base c r :
  allDates task = [f] -> dateType task = Due -> type f = Due ->
  formatDate Due newStart (format f)
    (hasTimeComponent newStart || truthy (hasTime f)) = c :: r ->
  reconstructLine base (drop_dateUpdates task newStart newEnd)
  = trimEnd base ++ 32 :: c :: r.
Proof.
  intros Hall Hty Hf Hwrite.
  assert (Hupdates : drop_dateUpdates task newStart newEnd
                     = <[Due := c :: r]> (preserve_dates [f])).
  { unfold drop_dateUpdates. rewrite Hall, Hty.
    unfold find_type. cbn [find]. rewrite Hf.
    rewrite bool_decide_eq_false_2 by discriminate.
    rewrite bool_decide_eq_true_2 by reflexivity.
    change (date_has_time newStart) with (hasTimeComponent newStart).
    by rewrite Hf, Hwrite. }
  rewrite reconstructLine_eq, Hupdates.
  unfold appended, preserve_dates. cbn [fold_left]. rewrite Hf.
  rewrite lookup_insert_eq, !lookup_insert_ne by discriminate.
  rewrite !lookup_empty. cbn [app]. by rewrite app_nil_r.
Qed.

Lemma digit_plain x : is_digit x = true -> plain_unit x = true.
Proof.
  intros Hx. unfold plain_unit.
  rewrite (digit_no_emoji x Hx).
  rewrite (digit_neq x 64), (digit_neq x 91), (digit_neq x 40);
    [reflexivity | | | | | |]; first [exact Hx | reflexivity].
Qed.

(** A line of plain units has no date, under every format filter. *)
Lemma plain_line_no_fields s formatFilter :
  Forall (fun c => plain_unit c = true) s ->
  extractAllDates s formatFilter = [].
Proof.
  intros Hs. rewrite <- (app_nil_r s).
  rewrite extractAllDates_prefix by exact Hs.
  by destruct formatFilter as [[]|].
Qed.

(** X20. A task that the view creates for a selection that starts and
    ends on one day, without a time of day, when the trimmed task name
    is not empty and holds no emoji symbol, [@] or opening bracket. In
    the Dataview, the simple and the Kanban format the new line is the
    check box, the trimmed name and the due date as [formatDate] writes
    it, and [parseMarkdown] under the same format setting reads it, for
    every priority order, as a task, not completed, whose one date field
    is a due date at the midnight of the selected day, and whose event
    starts and ends on that day. In the tasks format the date part
    starts with the four units of the symbol in the literal of the view,
    which is no symbol of the parser: the new line has no date under
    any format filter and is read as no task. *)
Theorem created_task_is_read_back (dateFormat : DateFormatType)
    (taskName : list Z) (selStart selEnd : Z)
    (datePriority : list DateFieldType) :
  trim taskName <> [] ->
  Forall (fun c => plain_unit c = true) (trim taskName) ->
  first_day <= day_of selStart -> year selStart <= 9999 ->
  day_of selEnd = day_of selStart ->
  hasTimeComponent selStart = false -> hasTimeComponent selEnd = false ->
  exists line,
    newTaskLine dateFormat taskName (handleDateSelect dateFormat selStart selEnd)
    = Some line
    /\ match dateFormat with
       | TasksFormat =>
           line = str "- [ ] " ++ trim taskName ++ [32]
                  ++ view_calendar_symbol ++ [32] ++ format_date selStart
           /\ forall formatFilter,
                extractAllDates line formatFilter = []
                /\ parse_task_line line datePriority formatFilter = None
       | _ =>
           line = day_task_line (written_format dateFormat) (trim taskName)
                    selStart
           /\ exists task field,
                parse_task_line line datePriority (Some dateFormat) = Some task
                /\ completed task = false
                /\ allDates task = [field]
                /\ type field = Due
                /\ format field = written_format dateFormat
                /\ date field = day_of selStart * msPerDay
                /\ dateType task = Due
                /\ task_date task = day_of selStart * msPerDay
                /\ event_times task
                   = (format_date selStart, format_date selStart)
       end.
Proof.
  intros Hname Hplain Hlo Hhi Hday Hst Het.
  assert (Hargs : handleDateSelect dateFormat selStart selEnd
                  = (format_date selStart, None, None, None)).
  { unfold handleDateSelect. rewrite Hst, Het.
    rewrite (format_date_day selEnd selStart Hday).
    unfold string_eqb. rewrite bool_decide_eq_true_2 by reflexivity.
    by destruct dateFormat. }
  rewrite Hargs. unfold newTaskLine.
  destruct (trim_spec taskName) as (_ & _ & _ & _ & _ & Hfirst & Hlast).
  assert (Hpn : plain_name (trim taskName)).
  { split; [exact Hname |]. split; [exact Hfirst |]. split; [|exact Hplain].
    intros c Hc. destruct (trim taskName) as [|c0 name] eqn:E; [done |].
    by eapply Hlast. }
  destruct (trim taskName) as [|c0 name] eqn:Ename; [done |].
  specialize (Hfirst c0 name eq_refl).
  eexists. split; [reflexivity |].
  assert (Hread : dateFormat <> TasksFormat ->
    str "- [ ] " ++ (c0 :: name) ++ [32]
    ++ buildDatePart dateFormat (format_date selStart) None None None
    = day_task_line (written_format dateFormat) (c0 :: name) selStart
    /\ exists task field,
         parse_task_line
           (str "- [ ] " ++ (c0 :: name) ++ [32]
            ++ buildDatePart dateFormat (format_date selStart) None None None)
           datePriority (Some dateFormat) = Some task
         /\ completed task = false
         /\ allDates task = [field]
         /\ type field = Due
         /\ format field = written_format dateFormat
         /\ date field = day_of selStart * msPerDay
         /\ dateType task = Due
         /\ task_date task = day_of selStart * msPerDay
         /\ event_times task = (format_date selStart, format_date selStart)).
  { intros Hfmt. rewrite (buildDatePart_written dateFormat selStart Hfmt).
    split; [reflexivity |].
    destruct (due_part_collected (written_format dateFormat) selStart Hlo Hhi)
      as (flag & Hcollect & Hflag).
    rewrite (parse_named_line (c0 :: name) _ _ datePriority dateFormat Hpn
               Hcollect ltac:(by destruct dateFormat)).
    eexists _, _. split; [reflexivity |].
    cbn [completed allDates dateType task_date shift type date format].
    repeat split.
    etransitivity;
      [exact (event_of_due_date _ _
                (mkField Due (day_of selStart * msPerDay)
                   (formatDate Due selStart (written_format dateFormat) false)
                   0 (length (formatDate Due selStart
                                (written_format dateFormat) false))
                   (written_format dateFormat) flag)
                _ _ eq_refl Hflag) |].
    cbn [date]. f_equal; apply format_date_day, day_of_midnight. }
  destruct dateFormat; try (apply Hread; discriminate).
  split; [reflexivity |]. intros formatFilter.
  destruct (format_date_shape selStart Hlo Hhi)
    as (a & b & c & d & e & f0 & g & h & HD & Hdig & _).
  assert (Hcontent : Forall (fun x => plain_unit x = true)
            ((c0 :: name) ++ [32]
             ++ buildDatePart TasksFormat (format_date selStart) None None None)).
  { apply Forall_app. split; [exact Hplain |].
    cbn [buildDatePart given]. rewrite HD.
    split_digits Hdig.
    repeat first [ apply Forall_nil_2
                 | apply Forall_cons_2;
                   [first [reflexivity | by apply digit_plain] |] ]. }
  assert (Hnone : extractAllDates
            (str "- [ ] " ++ (c0 :: name) ++ [32]
             ++ buildDatePart TasksFormat (format_date selStart) None None None)
            formatFilter = []).
  { rewrite blank_check_box_fields.
    by rewrite (plain_line_no_fields _ formatFilter Hcontent). }
  split; [exact Hnone |].
  unfold parse_task_line.
  change ((c0 :: name) ++ [32]
          ++ buildDatePart TasksFormat (format_date selStart) None None None)
    with (c0 :: (name ++ [32]
          ++ buildDatePart TasksFormat (format_date selStart) None None None)).
  rewrite (match_task_prefix_new c0 _ Hfirst).
  unfold getPrimaryDate.
  change (c0 :: (name ++ [32]
          ++ buildDatePart TasksFormat (format_date selStart) None None None))
    with ((c0 :: name) ++ [32]
          ++ buildDatePart TasksFormat (format_date selStart) None None None).
  by rewrite (plain_line_no_fields _ formatFilter Hcontent).
Qed.

(** X25. A task with a plain name and one due date without a time, the
    date as [formatDate] writes it in one of the five field formats
    (which is how [createTask] writes it in the Dataview, the simple and
    the Kanban format), is dropped on another day without a time: the
    line written by [handleEventDrop] is the line of the same task on
    the new day, with the runs of white space of the name made one
    space, and it is read back as a task due on the new day whose event
    is that day. *)
Theorem moved_task_is_read_back (fmt : FieldFormat) (name : list Z)
    (t newStart newEnd : Z) (datePriority : list DateFieldType)
    (task : TaskLine) :
  plain_name name ->
  first_day <= day_of t -> year t <= 9999 ->
  first_day <= day_of newStart -> year newStart <= 9999 ->
  hasTimeComponent newStart = false ->
  parse_task_line (day_task_line fmt name t) datePriority
    (Some (format_type fmt)) = Some task ->
  handleEventDrop task (day_task_line fmt name t) newStart newEnd
  = day_task_line fmt (collapse_spaces name) newStart
  /\ exists task',
       parse_task_line
         (handleEventDrop task (day_task_line fmt name t) newStart newEnd)
         datePriority (Some (format_type fmt)) = Some task'
       /\ dateType task' = Due
       /\ task_date task' = day_of newStart * msPerDay
       /\ event_times task' = (format_date newStart, format_date newStart).
Proof.
  intros Hname Hlo Hhi Hlo' Hhi' Hclock Hparse.
  destruct (due_part_collected fmt t Hlo Hhi) as (flag & Hcollect & Hflag).
  destruct (due_part_collected fmt newStart Hlo' Hhi')
    as (flag' & Hcollect' & Hflag').
  unfold day_task_line in *.
  rewrite (parse_named_line name _ _ datePriority (format_type fmt) Hname
             Hcollect eq_refl) in Hparse.
  injection Hparse as <-.
  match goal with
  | |- handleEventDrop ?tk ?ln _ _ = _ /\ _ =>
      assert (Hline : handleEventDrop tk ln newStart newEnd
              = str "- [ ] " ++ collapse_spaces name ++ [32]
                ++ formatDate Due newStart fmt false)
  end.
  { unfold handleEventDrop.
    rewrite (named_line_stripped name _ _ Hname Hcollect eq_refl eq_refl).
    destruct (formatDate Due newStart fmt false) as [|c r] eqn:Epart;
      [by apply formatDate_nonempty in Epart |].
    erewrite drop_single_due;
      [| reflexivity | reflexivity | reflexivity
       | cbn [format hasTime shift]; rewrite Hclock, Hflag; exact Epart].
    rewrite trimEnd_fixed.
    - rewrite <- app_assoc. reflexivity.
    - destruct (collapse_plain_name name Hname) as (Hne & _ & Hlast & _).
      intros y Hy. apply Hlast.
      destruct (collapse_spaces name) as [|c1 r1]; [done |].
      destruct (last (c1 :: r1)) as [z|] eqn:El;
        [|apply last_None in El; discriminate].
      apply last_Some in El as [w Hw]. rewrite Hw, app_assoc, last_snoc in Hy.
      exact Hy. }
  split; [exact Hline |].
  rewrite Hline.
  rewrite (parse_named_line (collapse_spaces name) _ _ datePriority
             (format_type fmt) (collapse_plain_name name Hname) Hcollect'
             eq_refl).
  eexists. split; [reflexivity |].
  cbn [dateType task_date date type]. split; [reflexivity |].
  split; [reflexivity |].
  etransitivity;
    [exact (event_of_due_date _ _
              (mkField Due (day_of newStart * msPerDay)
                 (formatDate Due newStart fmt false)
                 0 (length (formatDate Due newStart fmt false)) fmt flag')
              _ _ eq_refl Hflag') |].
  cbn [date]. f_equal; apply format_date_day, day_of_midnight.
Qed.

(** ** The lines of the file *)

Lemma split_lines_cons content :
  exists line more, split_lines content = line :: more.
Proof.
  induction content as [|c r (line & more & IH)]; cbn [split_lines];
    [by eexists _, _ |].
  destruct (c =? 10); [by eexists _, _ |]. rewrite IH. by eexists _, _.
Qed.

Lemma split_lines_line line more :
  10 ∉ line ->
  split_lines (line ++ 10 :: more) = line :: split_lines more.
Proof.
  induction line as [|c r IH]; intros Hfree; cbn [app split_lines].
  - reflexivity.
  - apply not_elem_of_cons in Hfree as [Hc Hr].
    destruct (Z.eqb_spec c 10) as [->|_]; [done |].
    by rewrite (IH Hr).
Qed.

Lemma split_lines_last line :
  10 ∉ line -> split_lines line = [line].
Proof.
  induction line as [|c r IH]; intros Hfree; cbn [split_lines]; [reflexivity |].
  apply not_elem_of_cons in Hfree as [Hc Hr].
  destruct (Z.eqb_spec c 10) as [->|_]; [done |].
  by rewrite (IH Hr).
Qed.

(** Joining the lines that [split("\n")] makes of a text gives the text
    back, there is always at least one line, and no line holds a line
    feed; and lines without line feeds, at least one, are read back as
    they were joined. *)
Lemma lines_round_trip :
  (forall content,
     join_lines (split_lines content) = content
     /\ split_lines content <> []
     /\ Forall (fun line => 10 ∉ line) (split_lines content))
  /\ (forall lines,
        lines <> [] -> Forall (fun line => 10 ∉ line) lines ->
        split_lines (join_lines lines) = lines).
Proof.
  split.
  - induction content as [|c r (IHjoin & IHne & IHfree)].
    + cbn. repeat split; [done |]. repeat constructor. apply not_elem_of_nil.
    + cbn [split_lines].
      destruct (split_lines_cons r) as (line & more & E). rewrite E in *.
      destruct (Z.eqb_spec c 10) as [->|Hc].
      * repeat split; [| done |].
        -- change (join_lines ([] :: line :: more))
             with (10 :: join_lines (line :: more)).
           by rewrite IHjoin.
        -- constructor; [apply not_elem_of_nil | exact IHfree].
      * apply Forall_cons in IHfree as [Hline Hmore].
        repeat split; [| done |].
        -- rewrite <- IHjoin. by destruct more.
        -- constructor; [|exact Hmore].
           apply not_elem_of_cons. by split.
  - intros lines Hne Hfree.
    induction Hfree as [|line more Hline Hmore IH]; [done |].
    destruct more as [|line' more'].
    + cbn [join_lines]. by apply split_lines_last.
    + change (join_lines (line :: line' :: more'))
        with (line ++ 10 :: join_lines (line' :: more')).
      rewrite split_lines_line by exact Hline.
      by rewrite IH.
Qed.

(** X26. The file that [createTask] writes is the file it read with one
    line more: when the new line holds no line feed, the text joined of
    the new lines, split again as [parseMarkdown] does, has the new line
    at the insertion index and the lines of the old text, unchanged,
    around it; and lines that are joined unchanged give the old text
    back. *)
Theorem created_task_in_file (content : list Z)
    (section : option CalendarSection) (dateFormat : DateFormatType)
    (taskName : list Z)
    (args : list Z * option (list Z) * option (list Z) * option (list Z))
    (newLine : list Z) :
  newTaskLine dateFormat taskName args = Some newLine ->
  10 ∉ newLine ->
  let lines := split_lines content in
  let index := insertIndex section (length lines) in
  exists newLines,
    createTask lines section dateFormat taskName args = Some newLines
    /\ split_lines (join_lines newLines)
       = take index lines ++ newLine :: drop index lines
    /\ join_lines lines = content.
Proof.
  intros Hnew Hfree lines index.
  destruct lines_round_trip as [Hsplit Hjoin].
  destruct (Hsplit content) as (Hback & Hne & Hlines).
  exists (splice_in index newLine lines). split; [|split].
  - unfold createTask. by rewrite Hnew.
  - unfold splice_in. apply Hjoin.
    + by destruct (take index lines).
    + apply Forall_app. split; [by apply Forall_take |].
      constructor; [exact Hfree | by apply Forall_drop].
  - exact Hback.
Qed.

(** ** The time token of a Kanban task that is moved *)

(** A time token is no date token, whatever its digits are. *)
Lemma kanban_date_at_time x y rest :
  match_kanban_date (64 :: 123 :: x :: y :: 58 :: rest) = None.
Proof.
  unfold match_kanban_date, match_iso_date. cbn [Z.eqb Pos.eqb andb].
  do 7 (destruct rest as [|? rest]; [reflexivity |]).
  destruct (is_digit x), (is_digit y); reflexivity.
Qed.

(** The line that a drop makes of a Kanban date with a time: the old
    time token, the new date token and, when the new start has a time,
    a second time token. *)
Section MovedKanban.
Variables a b c d e f g h p q r s : Z.
Hypothesis digits :
  Forall (fun x => is_digit x = true) [a; b; c; d; e; f; g; h; p; q; r; s].
Variables p' q' r' s' : Z.
Hypothesis digits' : Forall (fun x => is_digit x = true) [p'; q'; r'; s'].

Variables t0 hh mm : Z.
Hypothesis date_read :
  moment_of_iso [a; b; c; d; 45; e; f; 45; g; h] = Some t0.
Hypothesis time_read : split_time [p; q; 58; r; s] = (hh, mm).

Lemma collected_kanban_moved (withTime : bool) :
  let line := [64; 64; 123; p; q; 58; r; s; 125; 32;
               64; 123; a; b; c; d; 45; e; f; 45; g; h; 125]
              ++ (if withTime
                  then [32; 64; 64; 123; p'; q'; 58; r'; s'; 125] else []) in
  collect_dates line None
  = [mkField Due (apply_time hh mm t0)
       [64; 123; a; b; c; d; 45; e; f; 45; g; h; 125] 10 23 FmtKanban
       (Some true)].
Proof using All.
  pose proof (iso_at a b c d e f g h p q r s digits) as Hiso.
  pose proof (time_at a b c d e f g h p q r s digits) as Htm.
  intros line. unfold collect_dates. cbn [selected].
  split_digits digits. split_digits digits'.
  rewrite extractEmojiDates_quiet, extractDataviewDates_quiet
    by (subst line; destruct withTime; cbn [app]; quiet_units).
  assert (Hs : extractSimpleDates line = []).
  { unfold extractSimpleDates, line. destruct withTime; cbn [app];
      repeat (rewrite exec_all_head_none
                by first [reflexivity | apply match_simple_lead; digit_fact]);
      reflexivity. }
  rewrite Hs. unfold extractKanbanDates.
  assert (Htime : kanban_time line = (true, hh, mm)).
  { unfold kanban_time, line. cbn [app].
    rewrite (exec_first_head_some _ _ _ [p; q; 58; r; s]).
    - by rewrite time_read.
    - unfold match_kanban_time. cbn [Z.eqb Pos.eqb andb].
      rewrite Htm. reflexivity. }
  rewrite Htime. unfold line. cbn [app].
  rewrite exec_all_head_none by reflexivity.
  rewrite exec_all_head_none by apply kanban_date_at_time.
  do 8 (rewrite exec_all_head_none by (apply match_kanban_date_lead; digit_fact)).
  rewrite (exec_all_head_some _ _ _ _ _
             (mkMatch [64; 123; a; b; c; d; 45; e; f; 45; g; h; 125]
                [a; b; c; d; 45; e; f; 45; g; h] None)).
  2:{ unfold match_kanban_date. cbn [Z.eqb Pos.eqb andb].
      rewrite Hiso. cbn [Z.eqb Pos.eqb]. unfold consumed.
      destruct withTime; reflexivity. }
  change (match_length _ - 1)%nat
    with (length [123; a; b; c; d; 45; e; f; 45; g; h; 125]).
  change (123 :: a :: b :: c :: d :: 45 :: e :: f :: 45 :: g :: h :: 125 :: ?rest)
    with ([123; a; b; c; d; 45; e; f; 45; g; h; 125] ++ rest).
  rewrite (exec_all_skip _ _ [123; a; b; c; d; 45; e; f; 45; g; h; 125]).
  assert (Hrest : forall idx,
            exec_all match_kanban_date match_length
              (if withTime
               then [32; 64; 64; 123; p'; q'; 58; r'; s'; 125] else [])
              idx 0 = []).
  { intros idx. destruct withTime; [|reflexivity].
    rewrite exec_all_head_none by reflexivity.
    rewrite exec_all_head_none by reflexivity.
    rewrite exec_all_head_none by apply kanban_date_at_time.
    repeat (rewrite exec_all_head_none
              by (apply match_kanban_date_lead; digit_fact)).
    reflexivity. }
  rewrite Hrest. cbn [omap list_omap kanban_field]. unfold kanban_field.
  cbn [m_date m_raw app]. rewrite date_read. reflexivity.
Qed.
End MovedKanban.

Lemma collapse_from_no_space s :
  Forall (fun c => is_space c = false) s -> collapse_from false s = s.
Proof.
  induction 1 as [|c r Hc _ IH]; cbn [collapse_from]; [reflexivity |].
  by rewrite Hc, IH.
Qed.

(** The date part of a Kanban task with a time, read by the four
    grammars. *)
Lemma timed_part_collected t :
  first_day <= day_of t -> year t <= 9999 ->
  exists p q r s,
    format_time t = [p; q; 58; r; s]
    /\ Forall (fun x => is_digit x = true) [p; q; r; s]
    /\ collect_dates
         (buildDatePart KanbanFormat (format_date t) None
            (Some (format_time t)) None) None
       = [mkField Due (apply_time (hour t) (minute t) (day_of t * msPerDay))
            (str "@{" ++ format_date t ++ str "}") 0 13 FmtKanban (Some true)]
    /\ buildDatePart KanbanFormat (format_date t) None (Some (format_time t)) None
       = (str "@{" ++ format_date t ++ str "}")
         ++ [32; 64; 64; 123; p; q; 58; r; s; 125]
    /\ length (str "@{" ++ format_date t ++ str "}") = 13%nat.
Proof.
  intros Hlo Hhi.
  destruct (format_date_shape t Hlo Hhi)
    as (a & b & c & d & e & f0 & g & h & HD & Hdig & Hread).
  destruct (format_time_shape t) as (p & q & r & s & HT & Htdig & Hsplit).
  rewrite HD in Hread. rewrite HT in Hsplit. rewrite HD, HT.
  exists p, q, r, s. split; [reflexivity |]. split; [exact Htdig |].
  assert (Hdigits : Forall (fun x => is_digit x = true)
                      [a; b; c; d; e; f0; g; h; p; q; r; s]).
  { change [a; b; c; d; e; f0; g; h; p; q; r; s]
      with ([a; b; c; d; e; f0; g; h] ++ [p; q; r; s]).
    apply Forall_app. by split. }
  split; [|split; reflexivity].
  exact (collected_kanban_time a b c d e f0 g h p q r s Hdigits _ _ _ Hread Hsplit).
Qed.

(** Without its date token such a line keeps its time token. *)
Lemma timed_line_stripped name raw0 token field :
  plain_name name ->
  collect_dates (raw0 ++ 32 :: token) None = [field] ->
  start field = 0%nat -> end_ field = length raw0 ->
  Forall (fun c => is_space c = false) token -> token <> [] ->
  stripDates (str "- [ ] " ++ name ++ [32] ++ raw0 ++ 32 :: token)
  = str "- [ ] " ++ collapse_spaces name ++ [32] ++ token.
Proof.
  intros Hname Hcollect Hstart Hend Htoken Hne.
  pose proof (collapse_plain_name name Hname) as Hcn.
  destruct (plain_name_split name Hname) as (c0 & u & x & Hn & Hc0 & [v Hv] & Hx).
  unfold stripDates. rewrite (named_line_fields name _ field Hname Hcollect).
  unfold cut_all. cbn [rev app fold_left]. unfold cut, slice_to, slice_from.
  cbn [start end_ shift]. rewrite Hstart, Hend.
  change (32 :: raw0 ++ 32 :: token) with ([32] ++ raw0 ++ [32] ++ token).
  assert (Hcut : take (6 + (length name + 1) + 0)
                   (str "- [ ] " ++ name ++ [32] ++ raw0 ++ [32] ++ token)
                 ++ drop (6 + (length name + 1) + length raw0)
                      (str "- [ ] " ++ name ++ [32] ++ raw0 ++ [32] ++ token)
                 = (str "- [ ] " ++ name ++ [32; 32]) ++ token).
  { replace (str "- [ ] " ++ name ++ [32] ++ raw0 ++ [32] ++ token)
      with ((str "- [ ] " ++ name ++ [32]) ++ raw0 ++ [32] ++ token)
      by (by rewrite <- !app_assoc).
    rewrite take_app_length'
      by (rewrite !length_app; change (length (str "- [ ] ")) with 6%nat;
          cbn [length]; lia).
    rewrite drop_app_ge
      by (rewrite !length_app; change (length (str "- [ ] ")) with 6%nat;
          cbn [length]; lia).
    replace (Nat.sub (6 + (length name + 1) + length raw0)%nat
               (length (str "- [ ] " ++ name ++ [32])))
      with (length raw0)
      by (rewrite !length_app; change (length (str "- [ ] ")) with 6%nat;
          cbn [length]; lia).
    rewrite drop_app_length. by rewrite <- !app_assoc. }
  rewrite Hcut.
  destruct token as [|k0 token']; [done |].
  apply Forall_cons in Htoken as [Hk0 Htoken'].
  assert (Hcollapse : collapse_spaces ((str "- [ ] " ++ name ++ [32; 32])
                                       ++ k0 :: token')
                      = (str "- [ ] " ++ collapse_spaces name ++ [32])
                        ++ k0 :: token').
  { unfold collapse_spaces.
    rewrite collapse_from_app_nonspace by exact Hk0.
    rewrite (collapse_from_no_space token' Htoken'). f_equal.
    rewrite Hn at 1.
    change (str "- [ ] " ++ (c0 :: u) ++ [32; 32])
      with (str "- [ ] " ++ c0 :: (u ++ [32; 32])).
    rewrite collapse_from_app_nonspace by exact Hc0.
    change (collapse_from false (str "- [ ] ")) with (str "- [ ] ").
    f_equal.
    transitivity (collapse_from false (name ++ [32; 32])).
    - rewrite Hn. cbn [app collapse_from]. by rewrite Hc0.
    - rewrite Hv, <- app_assoc. cbn [app].
      rewrite !collapse_from_app_nonspace by exact Hx.
      cbn [collapse_from]. by rewrite <- app_assoc. }
  rewrite Hcollapse, <- !app_assoc.
  replace (str "- [ ] " ++ collapse_spaces name ++ [32] ++ k0 :: token')
    with ((str "- [ ] " ++ collapse_spaces name ++ [32] ++ k0 :: token') ++ [])
    by apply app_nil_r.
  apply trim_core; [by intros ? ? [= <- _] | | constructor].
  intros y Hy.
  destruct (last (k0 :: token')) as [z|] eqn:El;
    [|apply last_None in El; discriminate].
  pose proof El as Hz. apply last_Some in El as [w Hw].
  rewrite ?last_app, ?last_cons, ?last_app, ?last_cons in Hy.
  rewrite last_cons in Hz. rewrite Hz in Hy. injection Hy as <-.
  assert (Hin : z ∈ k0 :: token') by (rewrite Hw; set_solver).
  apply elem_of_cons in Hin as [->|Hin]; [exact Hk0 |].
  by eapply Forall_forall in Htoken'.
Qed.

(** X27. The time of a task in the Kanban format does not follow a
    drop. For a task with a plain name, a date and a time token, as
    [createTask] writes it, [handleEventDrop] leaves the old time token
    in the line, in front of the new date, and the line is read back as
    a task on the day of the new start at the old time of day, also
    when the new start has another time of day. *)
Theorem kanban_drop_keeps_time (name : list Z) (t newStart newEnd : Z)
    (datePriority : list DateFieldType) (task : TaskLine) :
  plain_name name ->
  first_day <= day_of t -> year t <= 9999 ->
  first_day <= day_of newStart -> year newStart <= 9999 ->
  parse_task_line (timed_kanban_line name t) datePriority (Some KanbanFormat)
  = Some task ->
  handleEventDrop task (timed_kanban_line name t) newStart newEnd
  = str "- [ ] " ++ collapse_spaces name ++ str " @@{" ++ format_time t
    ++ str "} " ++ formatDate Due newStart FmtKanban true
  /\ exists task',
       parse_task_line
         (handleEventDrop task (timed_kanban_line name t) newStart newEnd)
         datePriority (Some KanbanFormat) = Some task'
       /\ truthy (task_hasTime task') = true
       /\ task_date task'
          = day_of newStart * msPerDay + hour t * msPerHour
            + minute t * msPerMinute.
Proof.
  intros Hname Hlo Hhi Hlo' Hhi' Hparse.
  destruct (timed_part_collected t Hlo Hhi)
    as (p & q & r & s & HT & Htdig & Hcollect & Hpart & Hlen).
  destruct (format_date_shape newStart Hlo' Hhi')
    as (a & b & c & d & e & f0 & g & h & HD' & Hdig' & Hread').
  destruct (format_time_shape newStart) as (p' & q' & r' & s' & HT' & Htdig' & _).
  pose proof (format_time_shape t) as (p1 & q1 & r1 & s1 & HT1 & _ & Hsplit).
  rewrite HD' in Hread'. rewrite HT in Hsplit.
  unfold timed_kanban_line in *.
  rewrite (parse_named_line name _ _ datePriority KanbanFormat Hname Hcollect
             eq_refl) in Hparse.
  injection Hparse as <-.
  assert (Hwritten : [64; 64; 123; p; q; 58; r; s; 125] ++ [32]
                     ++ formatDate Due newStart FmtKanban true
                     = [64; 64; 123; p; q; 58; r; s; 125; 32;
                        64; 123; a; b; c; d; 45; e; f0; 45; g; h; 125]
                       ++ (if hasTimeComponent newStart
                           then [32; 64; 64; 123; p'; q'; 58; r'; s'; 125]
                           else [])).
  { unfold formatDate. rewrite HD', HT'. cbn [andb].
    fold (hasTimeComponent newStart).
    destruct (hasTimeComponent newStart); reflexivity. }
  match goal with
  | |- handleEventDrop ?tk ?ln _ _ = _ /\ _ =>
      assert (Hline : handleEventDrop tk ln newStart newEnd
              = str "- [ ] " ++ collapse_spaces name ++ [32]
                ++ [64; 64; 123; p; q; 58; r; s; 125] ++ [32]
                ++ formatDate Due newStart FmtKanban true)
  end.
  { unfold handleEventDrop. rewrite Hpart. rewrite Hpart in Hcollect.
    rewrite (timed_line_stripped name _ [64; 64; 123; p; q; 58; r; s; 125] _
               Hname Hcollect eq_refl (eq_sym Hlen));
      [| apply Forall_cons_2; [reflexivity |];
         apply Forall_cons_2; [reflexivity |];
         apply Forall_cons_2; [reflexivity |];
         split_digits Htdig; quiet_units
       | discriminate].
    destruct (formatDate Due newStart FmtKanban true) as [|k0 k] eqn:Ek;
      [by apply formatDate_nonempty in Ek |].
    erewrite drop_single_due;
      [| reflexivity | reflexivity | reflexivity
       | cbn [format hasTime shift truthy]; rewrite orb_true_r; exact Ek].
    rewrite trimEnd_fixed.
    - by rewrite <- !app_assoc.
    - intros y Hy. rewrite ?last_app, ?last_cons in Hy. cbn in Hy.
      by injection Hy as <-. }
  split.
  { rewrite Hline, HT. reflexivity. }
  rewrite Hline, Hwritten.
  assert (Hdigits : Forall (fun x => is_digit x = true)
                      [a; b; c; d; e; f0; g; h; p; q; r; s]).
  { change [a; b; c; d; e; f0; g; h; p; q; r; s]
      with ([a; b; c; d; e; f0; g; h] ++ [p; q; r; s]).
    apply Forall_app. by split. }
  pose proof (collected_kanban_moved a b c d e f0 g h p q r s Hdigits
                p' q' r' s' Htdig' _ _ _ Hread' Hsplit
                (hasTimeComponent newStart)) as Hmoved.
  cbv zeta in Hmoved.
  rewrite (parse_named_line (collapse_spaces name) _ _ datePriority KanbanFormat
             (collapse_plain_name name Hname) Hmoved eq_refl).
  eexists. split; [reflexivity |].
  cbn [task_hasTime task_date date hasTime truthy]. split; [reflexivity |].
  apply apply_time_midnight.
Qed.

(** ** The further properties at work *)

(** X1 at work: the start date of the release scenario. *)
Lemma extracted_raw_is_slice_witness :
  field_ship_start ∈ extractAllDates line_ship None
  /\ raw field_ship_start = substring 27 40 line_ship.
Proof.
  assert (Hin : field_ship_start ∈ extractAllDates line_ship None).
  { replace (extractAllDates line_ship None)
      with [field_ship_due; field_ship_start] by (vm_compute; reflexivity).
    right. left. }
  destruct (extracted_raw_is_slice line_ship None field_ship_start Hin)
    as (_ & _ & Hraw).
  split; [exact Hin | exact Hraw].
Defined.

(** X2 at work: the Kanban scenario. *)
Lemma extracted_field_invariants_witness :
  field_kanban_time ∈ extractAllDates line_kanban_time None
  /\ date field_kanban_time mod msPerMinute = 0
  /\ type field_kanban_time = Due.
Proof.
  assert (Hin : field_kanban_time ∈ extractAllDates line_kanban_time None).
  { replace (extractAllDates line_kanban_time None) with [field_kanban_time]
      by (vm_compute; reflexivity).
    left. }
  destruct (extracted_field_invariants line_kanban_time None field_kanban_time Hin)
    as (_ & Hminute & _ & Hty & _).
  split; [exact Hin |]. split; [exact Hminute | exact Hty].
Defined.

(** X3 at work: the release scenario read in the tasks format. *)
Lemma format_filter_selects_witness :
  field_ship_due ∈ extractAllDates line_ship (Some TasksFormat)
  /\ format_type (format field_ship_due) = TasksFormat.
Proof.
  assert (Hin : field_ship_due ∈ extractAllDates line_ship (Some TasksFormat)).
  { replace (extractAllDates line_ship (Some TasksFormat))
      with [field_ship_due; field_ship_start] by (vm_compute; reflexivity).
    left. }
  split; [exact Hin |].
  exact (format_filter_selects line_ship TasksFormat field_ship_due Hin).
Defined.

(** X5 at work: the calendar symbol is a symbol of due dates only. *)
Lemma emoji_symbol_determines_type_witness :
  field_ship_due ∈ extractEmojiDates line_ship
  /\ forall ty, calendar_symbol ∈ DATE_SYMBOLS ty -> ty = Due.
Proof.
  assert (Hin : field_ship_due ∈ extractEmojiDates line_ship).
  { replace (extractEmojiDates line_ship)
      with [field_ship_due; field_ship_start] by (vm_compute; reflexivity).
    left. }
  destruct (emoji_symbol_determines_type line_ship field_ship_due Hin)
    as (_ & Honly).
  split; [exact Hin |].
  intros ty Hsym. apply (Honly ty calendar_symbol Hsym). reflexivity.
Defined.

(** X6 at work: a hundred rounds on a line of 26 units. *)
Lemma dataview_scan_terminates_witness :
  (length line_dataview_time - 0 <= 100)%nat
  /\ dataview_loop 100 line_dataview_time 91 93 FmtDataviewBracket 0
     = dataview_loop (length line_dataview_time - 0) line_dataview_time 91 93
         FmtDataviewBracket 0.
Proof.
  assert (Hfuel : (length line_dataview_time - 0 <= 100)%nat)
    by (apply Nat.leb_le; vm_compute; reflexivity).
  split; [exact Hfuel |].
  exact (proj2 (dataview_scan_terminates line_dataview_time 91 93
                  FmtDataviewBracket 0 100 Hfuel)).
Defined.

(** X8 at work: a start at 14:30 written as a Dataview field. *)
Lemma dataview_time_never_read_back_witness :
  (91, 93, FmtDataviewBracket) ∈ DATAVIEW_WRAPPERS
  /\ hasTimeComponent (midnight "2025-01-15" + 14 * msPerHour + 30 * msPerMinute)
     = true
  /\ exists f',
       extractAllDates
         (formatDate Start
            (midnight "2025-01-15" + 14 * msPerHour + 30 * msPerMinute)
            FmtDataviewBracket true) None = [f']
       /\ hasTime f' = None /\ date f' = midnight "2025-01-15".
Proof.
  assert (Hw : (91, 93, FmtDataviewBracket) ∈ DATAVIEW_WRAPPERS) by left.
  assert (Hlo : first_day
                <= day_of (midnight "2025-01-15" + 14 * msPerHour + 30 * msPerMinute))
    by (apply Z.leb_le; vm_compute; reflexivity).
  assert (Hhi : year (midnight "2025-01-15" + 14 * msPerHour + 30 * msPerMinute)
                <= 9999)
    by (apply Z.leb_le; vm_compute; reflexivity).
  assert (Hclock : hasTimeComponent
                     (midnight "2025-01-15" + 14 * msPerHour + 30 * msPerMinute)
                   = true) by (vm_compute; reflexivity).
  split; [exact Hw |]. split; [exact Hclock |].
  destruct (dataview_time_never_read_back Start
              (midnight "2025-01-15" + 14 * msPerHour + 30 * msPerMinute)
              91 93 FmtDataviewBracket Hw Hlo Hhi Hclock)
    as (f' & Hread & _ & _ & Htime & Hdate & _).
  exists f'. split; [exact Hread |]. split; [exact Htime |].
  rewrite Hdate. vm_compute. reflexivity.
Defined.

(** X9 at work: the due date of the release scenario has no time. *)
Lemma roundtrip_time_flag_witness :
  extractAllDates line_ship None = [field_ship_due; field_ship_start]
  /\ well_formed field_ship_due
  /\ year (date field_ship_due) <= 9999
  /\ exists f',
       extractAllDates (format_field field_ship_due) None = [f']
       /\ truthy (hasTime f') = false
       /\ start f' = 0%nat /\ end_ f' = 13%nat.
Proof.
  assert (Hshape : well_formed field_ship_due).
  { split; [|exact I].
    exists (day_of (date field_ship_due)), 0, 0.
    split; [vm_compute; reflexivity |].
    split; [apply Z.leb_le; vm_compute; reflexivity |].
    split; [lia |]. split; [lia |]. intros _. split; reflexivity. }
  assert (Hyear : year (date field_ship_due) <= 9999)
    by (apply Z.leb_le; vm_compute; reflexivity).
  split; [vm_compute; reflexivity |].
  split; [exact Hshape |]. split; [exact Hyear |].
  destruct (roundtrip_time_flag field_ship_due Hshape Hyear)
    as (f' & Hread & Hflag & Hstart & Hend).
  exists f'. split; [exact Hread |]. split; [exact Hflag |].
  split; [exact Hstart |]. rewrite Hend. vm_compute. reflexivity.
Defined.

(** X10 at work: the trip. *)
Lemma parse_task_line_invariants_witness :
  parse_task_line line_trip default_priority None = Some (task_of line_trip)
  /\ markdown (task_of line_trip) = line_trip
  /\ title (task_of line_trip) <> [].
Proof.
  assert (Hparse : parse_task_line line_trip default_priority None
                   = Some (task_of line_trip)) by (vm_compute; reflexivity).
  destruct (parse_task_line_invariants line_trip default_priority None
              (task_of line_trip) Hparse)
    as (Hline & _ & _ & Htitle & _).
  split; [exact Hparse |]. split; [exact Hline | exact Htitle].
Defined.

(** X11 at work: the trip has no scheduled date before the drop and gets
    none by it. *)
Lemma drop_keeps_types_witness :
  parse_task_line line_trip default_priority None = Some (task_of line_trip)
  /\ drop_dateUpdates (task_of line_trip) (midnight "2025-01-20")
       (midnight "2025-01-21") !! Scheduled = None.
Proof.
  assert (Hparse : parse_task_line line_trip default_priority None
                   = Some (task_of line_trip)) by (vm_compute; reflexivity).
  split; [exact Hparse |].
  destruct (drop_dateUpdates (task_of line_trip) (midnight "2025-01-20")
              (midnight "2025-01-21") !! Scheduled) as [entry|] eqn:E;
    [|reflexivity].
  exfalso.
  destruct (proj1 (drop_keeps_types line_trip default_priority None
                     (task_of line_trip) (midnight "2025-01-20")
                     (midnight "2025-01-21") Scheduled Hparse))
    as (f & Hin & Hty).
  - rewrite E. by eexists.
  - replace (allDates (task_of line_trip))
      with [field_trip_start; field_trip_due] in Hin
      by (vm_compute; reflexivity).
    apply elem_of_cons in Hin as [->|Hin]; [discriminate Hty |].
    apply list_elem_of_singleton in Hin as ->. discriminate Hty.
Defined.

(** X17 at work: the release, due on 2025-11-29, is overdue on the
    first of December. *)
Lemma overdue_is_before_today_witness :
  conditionType rule_overdue = IsOverdue
  /\ checkCondition toLowerCase (midnight "2025-12-01") colour_data_ship
       rule_overdue ∅ = true.
Proof.
  split; [reflexivity |].
  apply (overdue_is_before_today toLowerCase (midnight "2025-12-01")
           colour_data_ship rule_overdue ∅ eq_refl).
  split; [reflexivity |].
  exists (midnight "2025-11-29"). split; [reflexivity |].
  apply Z.ltb_lt. vm_compute. reflexivity.
Defined.

(** X19 at work: the name of the release in front of its due date. *)
Lemma plain_prefix_shifts_fields_witness :
  Forall (fun c => plain_unit c = true) (str "Ship release ")
  /\ extractAllDates
       (str "Ship release " ++ calendar_symbol ++ str " 2025-11-29") None
     = map (shift 13)
         (extractAllDates (calendar_symbol ++ str " 2025-11-29") None).
Proof.
  assert (Hplain : Forall (fun c => plain_unit c = true) (str "Ship release "))
    by (by repeat constructor).
  split; [exact Hplain |].
  exact (proj1 (plain_prefix_shifts_fields (str "Ship release ")
                  (calendar_symbol ++ str " 2025-11-29") default_priority None
                  Hplain)).
Defined.

(** X20 at work: a task created in the Dataview format on 2025-03-01. *)
Lemma created_task_is_read_back_witness :
  trim (str " Ship  it ") <> []
  /\ newTaskLine DataviewFormat (str " Ship  it ")
       (handleDateSelect DataviewFormat (midnight "2025-03-01")
          (midnight "2025-03-01"))
     = Some (str "- [ ] Ship  it [due:: 2025-03-01]")
  /\ exists task,
       parse_task_line (str "- [ ] Ship  it [due:: 2025-03-01]")
         default_priority (Some DataviewFormat) = Some task
       /\ task_date task = midnight "2025-03-01".
Proof.
  assert (Htrim : trim (str " Ship  it ") = str "Ship  it")
    by (vm_compute; reflexivity).
  assert (Hname : trim (str " Ship  it ") <> []) by (by rewrite Htrim).
  assert (Hplain : Forall (fun c => plain_unit c = true) (trim (str " Ship  it ")))
    by (rewrite Htrim; by repeat constructor).
  assert (Hlo : first_day <= day_of (midnight "2025-03-01"))
    by (apply Z.leb_le; vm_compute; reflexivity).
  assert (Hhi : year (midnight "2025-03-01") <= 9999)
    by (apply Z.leb_le; vm_compute; reflexivity).
  split; [exact Hname |].
  destruct (created_task_is_read_back DataviewFormat (str " Ship  it ")
              (midnight "2025-03-01") (midnight "2025-03-01") default_priority
              Hname Hplain Hlo Hhi eq_refl eq_refl eq_refl)
    as (line & Hnew & Hline & task & field & Hparse & _ & _ & _ & _ & _ & _
        & Hdate & _).
  assert (Hwritten : line = str "- [ ] Ship  it [due:: 2025-03-01]")
    by (rewrite Hline, Htrim; vm_compute; reflexivity).
  rewrite Hwritten in Hnew, Hparse.
  split; [exact Hnew |].
  exists task. split; [exact Hparse |].
  rewrite Hdate. vm_compute. reflexivity.
Defined.

(** X21 at work: the open task, completed on 2025-03-02 and opened
    again on the next day, keeps the completion date. *)
Lemma complete_then_reopen_witness :
  match_task_prefix line_open = Some (32, drop 6 line_open)
  /\ (226 ∉ line_open)
  /\ toggleTaskCompletion TasksFormat
       (task_of (toggleTaskCompletion TasksFormat (task_of line_open)
                   (midnight "2025-03-02") line_open))
       (midnight "2025-03-03")
       (toggleTaskCompletion TasksFormat (task_of line_open)
          (midnight "2025-03-02") line_open)
     = str "- [ ] Ship " ++ calendar_symbol ++ str " 2025-03-01 "
       ++ [9989] ++ str " 2025-03-02"
  /\ toggleTaskCompletion TasksFormat
       (task_of (toggleTaskCompletion TasksFormat (task_of line_open)
                   (midnight "2025-03-02") line_open))
       (midnight "2025-03-03")
       (toggleTaskCompletion TasksFormat (task_of line_open)
          (midnight "2025-03-02") line_open)
     <> line_open.
Proof.
  assert (Hprefix : match_task_prefix line_open = Some (32, drop 6 line_open))
    by (vm_compute; reflexivity).
  assert (Hfree : 226 ∉ line_open)
    by (apply (bool_decide_unpack _); vm_compute; exact I).
  assert (Hlo : first_day <= day_of (midnight "2025-03-02"))
    by (apply Z.leb_le; vm_compute; reflexivity).
  assert (Hhi : year (midnight "2025-03-02") <= 9999)
    by (apply Z.leb_le; vm_compute; reflexivity).
  split; [exact Hprefix |]. split; [exact Hfree |].
  split; [vm_compute; reflexivity |].
  exact (proj2 (complete_then_reopen (task_of line_open)
                  (task_of (toggleTaskCompletion TasksFormat (task_of line_open)
                              (midnight "2025-03-02") line_open))
                  line_open (drop 6 line_open) (midnight "2025-03-02")
                  (midnight "2025-03-03") Hprefix eq_refl
                  ltac:(vm_compute; reflexivity) Hfree Hlo Hhi)).
Defined.

(** X23 at work: a new task in the section without a heading goes below
    the task of that section, above the first heading. *)
Lemma createTask_inserts_in_section_witness :
  sections (parseMarkdown lines_two_sections default_priority None)
    !! DEFAULT_SECTION_ID = Some section_default
  /\ createTask lines_two_sections (Some section_default) SimpleFormat
       (str "Pack") (str "2025-03-02", None, None, None)
     = Some [line_open;
             line_pack;
             str "# Later"; line_trip; str "notes"]
  /\ insertIndex (Some section_default) (length lines_two_sections) = 1%nat
  /\ forall e, e ∈ sec_tasks section_default -> (lineIndex e < 1)%nat.
Proof.
  assert (Hsec : sections (parseMarkdown lines_two_sections default_priority None)
                   !! DEFAULT_SECTION_ID = Some section_default)
    by (vm_compute; reflexivity).
  assert (Hcreate : createTask lines_two_sections (Some section_default)
                      SimpleFormat (str "Pack")
                      (str "2025-03-02", None, None, None)
                    = Some [line_open;
                            line_pack;
                            str "# Later"; line_trip; str "notes"])
    by (vm_compute; reflexivity).
  assert (Hindex : insertIndex (Some section_default) (length lines_two_sections)
                   = 1%nat) by (vm_compute; reflexivity).
  split; [exact Hsec |]. split; [exact Hcreate |]. split; [exact Hindex |].
  destruct (createTask_inserts_in_section lines_two_sections default_priority
              None DEFAULT_SECTION_ID section_default SimpleFormat (str "Pack")
              (str "2025-03-02", None, None, None) _ Hsec Hcreate)
    as (_ & _ & Hbelow & _).
  rewrite Hindex in Hbelow. exact Hbelow.
Defined.

(** X24 at work: the check box of the trip. *)
Lemma check_box_is_no_field_witness :
  match_task_prefix line_trip = Some (32, drop 6 line_trip)
  /\ extractAllDates line_trip None
     = map (shift 6) (extractAllDates (drop 6 line_trip) None).
Proof.
  assert (Hprefix : match_task_prefix line_trip = Some (32, drop 6 line_trip))
    by (vm_compute; reflexivity).
  split; [exact Hprefix |].
  exact (check_box_is_no_field line_trip 32 (drop 6 line_trip) None Hprefix
           eq_refl).
Defined.

(** X25 at work: the created task, dropped on 2025-03-05. *)
Lemma moved_task_is_read_back_witness :
  parse_task_line line_created default_priority (Some DataviewFormat)
  = Some task_created
  /\ handleEventDrop task_created line_created (midnight "2025-03-05")
       (midnight "2025-03-06")
     = str "- [ ] Ship it [due:: 2025-03-05]"
  /\ exists task',
       parse_task_line (str "- [ ] Ship it [due:: 2025-03-05]")
         default_priority (Some DataviewFormat) = Some task'
       /\ task_date task' = midnight "2025-03-05".
Proof.
  assert (Hparse : parse_task_line line_created default_priority
                     (Some DataviewFormat) = Some task_created)
    by (vm_compute; reflexivity).
  assert (Hname : plain_name (str "Ship  it")).
  { split; [discriminate |]. split; [by intros c r [= <- _] |].
    split; [by intros c [= <-] | by repeat constructor]. }
  assert (Hlo : first_day <= day_of (midnight "2025-03-01"))
    by (apply Z.leb_le; vm_compute; reflexivity).
  assert (Hhi : year (midnight "2025-03-01") <= 9999)
    by (apply Z.leb_le; vm_compute; reflexivity).
  assert (Hlo' : first_day <= day_of (midnight "2025-03-05"))
    by (apply Z.leb_le; vm_compute; reflexivity).
  assert (Hhi' : year (midnight "2025-03-05") <= 9999)
    by (apply Z.leb_le; vm_compute; reflexivity).
  split; [exact Hparse |].
  destruct (moved_task_is_read_back FmtDataviewBracket (str "Ship  it")
              (midnight "2025-03-01") (midnight "2025-03-05")
              (midnight "2025-03-06") default_priority task_created
              Hname Hlo Hhi Hlo' Hhi' ltac:(vm_compute; reflexivity) Hparse)
    as (Hline & task' & Hread & _ & Hdate & _).
  assert (Hwritten : handleEventDrop task_created line_created
                       (midnight "2025-03-05") (midnight "2025-03-06")
                     = str "- [ ] Ship it [due:: 2025-03-05]").
  { unfold line_created. rewrite Hline. vm_compute. reflexivity. }
  split; [exact Hwritten |].
  exists task'. unfold line_created in Hwritten. rewrite Hwritten in Hread.
  split; [exact Hread |].
  rewrite Hdate. vm_compute. reflexivity.
Defined.

(** X26 at work: a task added to the file of two sections. *)
Lemma created_task_in_file_witness :
  newTaskLine SimpleFormat (str "Pack") (str "2025-03-02", None, None, None)
  = Some line_pack
  /\ (10 ∉ line_pack)
  /\ exists newLines,
       createTask (split_lines (join_lines lines_two_sections))
         (Some section_default) SimpleFormat (str "Pack")
         (str "2025-03-02", None, None, None) = Some newLines
       /\ split_lines (join_lines newLines)
          = [line_open; line_pack; str "# Later"; line_trip; str "notes"].
Proof.
  assert (Hnew : newTaskLine SimpleFormat (str "Pack")
                   (str "2025-03-02", None, None, None) = Some line_pack)
    by (vm_compute; reflexivity).
  assert (Hfree : 10 ∉ line_pack)
    by (apply (bool_decide_unpack _); vm_compute; exact I).
  split; [exact Hnew |]. split; [exact Hfree |].
  destruct (created_task_in_file (join_lines lines_two_sections)
              (Some section_default) SimpleFormat (str "Pack")
              (str "2025-03-02", None, None, None) line_pack Hnew Hfree)
    as (newLines & Hcreate & Hsplit & _).
  exists newLines. split; [exact Hcreate |].
  rewrite Hsplit. vm_compute. reflexivity.
Defined.

(** X27 at work: a call at 09:00 dropped on 14:00 of the next day stays
    at 09:00. *)
Lemma kanban_drop_keeps_time_witness :
  parse_task_line line_call default_priority (Some KanbanFormat)
  = Some task_call
  /\ handleEventDrop task_call line_call
       (midnight "2025-03-02" + 14 * msPerHour)
       (midnight "2025-03-02" + 15 * msPerHour)
     = str "- [ ] Call @@{09:00} @{2025-03-02} @@{14:00}"
  /\ exists task',
       parse_task_line (str "- [ ] Call @@{09:00} @{2025-03-02} @@{14:00}")
         default_priority (Some KanbanFormat) = Some task'
       /\ task_date task' = midnight "2025-03-02" + 9 * msPerHour.
Proof.
  assert (Hparse : parse_task_line line_call default_priority
                     (Some KanbanFormat) = Some task_call)
    by (vm_compute; reflexivity).
  assert (Hname : plain_name (str "Call")).
  { split; [discriminate |]. split; [by intros c r [= <- _] |].
    split; [by intros c [= <-] | by repeat constructor]. }
  assert (Hlo : first_day <= day_of (midnight "2025-03-01" + 9 * msPerHour))
    by (apply Z.leb_le; vm_compute; reflexivity).
  assert (Hhi : year (midnight "2025-03-01" + 9 * msPerHour) <= 9999)
    by (apply Z.leb_le; vm_compute; reflexivity).
  assert (Hlo' : first_day <= day_of (midnight "2025-03-02" + 14 * msPerHour))
    by (apply Z.leb_le; vm_compute; reflexivity).
  assert (Hhi' : year (midnight "2025-03-02" + 14 * msPerHour) <= 9999)
    by (apply Z.leb_le; vm_compute; reflexivity).
  split; [exact Hparse |].
  destruct (kanban_drop_keeps_time (str "Call")
              (midnight "2025-03-01" + 9 * msPerHour)
              (midnight "2025-03-02" + 14 * msPerHour)
              (midnight "2025-03-02" + 15 * msPerHour) default_priority
              task_call Hname Hlo Hhi Hlo' Hhi' Hparse)
    as (Hline & task' & Hread & _ & Hdate).
  assert (Hwritten : handleEventDrop task_call line_call
                       (midnight "2025-03-02" + 14 * msPerHour)
                       (midnight "2025-03-02" + 15 * msPerHour)
                     = str "- [ ] Call @@{09:00} @{2025-03-02} @@{14:00}").
  { unfold line_call. rewrite Hline. vm_compute. reflexivity. }
  split; [exact Hwritten |].
  exists task'. unfold line_call in Hwritten. rewrite Hwritten in Hread.
  split; [exact Hread |].
  rewrite Hdate. vm_compute. reflexivity.
Defined.
